(** * fastlzlib: the zlib-like streaming interface to FastLZ

    A shallow embedding of [fastlzlib.c] and the properties of its block
    framing and of its streaming state machine.

    Conventions of the embedding.
    - [uInt] values are integers of [Z] in the range [0, 2^32); arithmetic that
      can leave the range is wrapped explicitly with [uInt].
    - A pointer into caller memory is the list of the bytes found from the
      pointer on; [None] is the NULL pointer.  Advancing a pointer drops a
      prefix of the list.
    - [assert] aborts the process: every function that can reach a failing
      assertion returns an [option], [None] being the abort.
    - The two block primitives of [fastlz.c] ([fastlz_compress_level] and
      [fastlz_decompress]) are parameters of the development. *)

From Stdlib Require Import String.
From Stdlib Require Import ZArith List Lia Bool.
From Stdlib Require Import Init.Byte Strings.Byte.
Import ListNotations.
Local Open Scope Z_scope.

(** ** Constants *)

Definition EXPANSION_RATIO : Z := 10.
Definition EXPANSION_SECURITY : Z := 66.
Definition HEADER_SIZE : Z := 20.
Definition MIN_BLOCK_SIZE : Z := 64.
Definition DEFAULT_BLOCK_SIZE : Z := 32768.

Definition BLOCK_TYPE_RAW : Z := 192.          (* 0xc0 *)
Definition BLOCK_TYPE_COMPRESSED : Z := 12.    (* 0x0c *)
Definition BLOCK_TYPE_BAD_MAGIC : Z := 65535.  (* 0xffff *)

Definition ZFAST_LEVEL_DECOMPRESS : Z := -2.

(** Status codes, flush modes and levels of [fastlzlib.h] (the values of zlib). *)
Definition Z_OK : Z := 0.
Definition Z_STREAM_END : Z := 1.
Definition Z_STREAM_ERROR : Z := -2.
Definition Z_DATA_ERROR : Z := -3.
Definition Z_MEM_ERROR : Z := -4.
Definition Z_BUF_ERROR : Z := -5.
Definition Z_VERSION_ERROR : Z := -6.

Definition Z_NO_FLUSH : Z := 0.
Definition Z_FINISH : Z := 4.

Definition Z_NO_COMPRESSION : Z := 0.
Definition Z_BEST_SPEED : Z := 1.
Definition Z_BEST_COMPRESSION : Z := 9.

(** ** Machine integers and memory *)

(** Conversion to [uInt] (unsigned 32-bit). *)
Definition uInt (z : Z) : Z := z mod 2 ^ 32.

(** The cast [(int) u] of a [uInt]. *)
Definition int_of_uInt (u : Z) : Z := if u <? 2 ^ 31 then u else u - 2 ^ 32.

Definition len (l : list byte) : Z := Z.of_nat (length l).
Definition take (n : Z) (l : list byte) : list byte := firstn (Z.to_nat n) l.
Definition drop (n : Z) (l : list byte) : list byte := skipn (Z.to_nat n) l.

(** [memcpy(&buf[offs], src, len src)]: the bytes of [buf] from [offs] on are
    replaced by [src]. *)
Definition memcpy_at (buf : list byte) (offs : Z) (src : list byte) : list byte :=
  take offs buf ++ src ++ drop (offs + len src) buf.

(** Memory behind a possibly NULL pointer. *)
Definition deref (p : option (list byte)) : list byte :=
  match p with Some m => m | None => [] end.

Definition is_null (p : option (list byte)) : bool :=
  match p with Some _ => false | None => true end.

Definition ptr_add (p : option (list byte)) (offs : Z) : option (list byte) :=
  option_map (drop offs) p.

(** [memcpy(p, src, len src)] through a pointer. *)
Definition ptr_write (p : option (list byte)) (src : list byte) : option (list byte) :=
  option_map (fun m => memcpy_at m 0 src) p.

Fixpoint bytes_eqb (a b : list byte) : bool :=
  match a, b with
  | [], [] => true
  | x :: a', y :: b' => Byte.eqb x y && bytes_eqb a' b'
  | _, _ => false
  end.

Definition byte_of_Z (z : Z) : byte :=
  match Byte.of_N (Z.to_N (Z.land z 255)) with
  | Some b => b
  | None => x00
  end.

(** The value of the byte at index [k] of [l]. *)
Definition byte_at (l : list byte) (k : nat) : Z := Z.of_N (Byte.to_N (nth k l x00)).

(** ** Little-endian access macros *)

Definition READ_8 (adr : list byte) : Z := Z.of_N (Byte.to_N (nth 0 adr x00)).
Definition READ_16 (adr : list byte) : Z :=
  Z.lor (READ_8 adr) (Z.shiftl (READ_8 (skipn 1 adr)) 8).
Definition READ_32 (adr : list byte) : Z :=
  Z.lor (READ_16 adr) (Z.shiftl (READ_16 (skipn 2 adr)) 16).

Definition WRITE_8 (n : Z) : list byte := [byte_of_Z (Z.land n 255)].
Definition WRITE_16 (n : Z) : list byte :=
  [byte_of_Z (Z.land n 255); byte_of_Z (Z.shiftr n 8)].
Definition WRITE_32 (n : Z) : list byte :=
  WRITE_16 (Z.land n 65535) ++ WRITE_16 (Z.shiftr n 16).

(** ** Block header codec *)

(** Magic for the stream: the 7 bytes of "FastLZ" with its terminating NUL. *)
Definition BLOCK_MAGIC : list byte := [x46; x61; x73; x74; x4c; x5a; x00].

(** The [HEADER_SIZE] bytes stored at [dest]. *)
Definition fastlz_write_header (type block_size compressed original : Z) : list byte :=
  BLOCK_MAGIC ++ WRITE_8 type ++ WRITE_32 compressed ++ WRITE_32 original
              ++ WRITE_32 block_size.

(** Result [(type, block_size, compressed, original)]. *)
Definition fastlz_read_header (source : list byte) : Z * Z * Z * Z :=
  if bytes_eqb (firstn 7 source) BLOCK_MAGIC then
    (READ_8 (skipn 7 source),
     uInt (READ_32 (skipn 12 source)),
     uInt (READ_32 (skipn 8 source)),
     uInt (READ_32 (skipn 12 source)))
  else
    (BLOCK_TYPE_BAD_MAGIC, 0, 0, 0).

Definition fastlzlibGetHeaderSize : Z := HEADER_SIZE.

Definition fastlzlibGetStreamBlockSize (input : list byte) (length : Z) : Z :=
  let block_size :=
    if HEADER_SIZE <=? length then
      let '(_, block_size, _, _) := fastlz_read_header input in block_size
    else 0 in
  int_of_uInt block_size.

Definition fastlzlibIsCompressedStream (input : list byte) (length : Z) : Z :=
  if HEADER_SIZE <=? length then
    if negb (fastlzlibGetStreamBlockSize input length =? 0) then Z_OK else Z_DATA_ERROR
  else Z_BUF_ERROR.

(** ** The block primitives of fastlz.c

    [fastlz_compress_level level input] is the byte string stored at the
    output pointer (its length is the value returned);
    [fastlz_decompress input maxout] is the byte string stored at the output
    pointer, of at most [maxout] bytes, its length being the value returned
    (0 on failure). *)
Class FastLZ := {
  fastlz_compress_level : Z -> list byte -> list byte;
  fastlz_decompress : list byte -> Z -> list byte
}.

(** ** Stream descriptor and internal state *)

Record internal_state := mkState {
  level : Z;               (* compression level, or ZFAST_LEVEL_DECOMPRESS *)
  inHdr : list byte;       (* Bytef inHdr[HEADER_SIZE] *)
  inHdrOffs : Z;
  block_size : Z;
  block_type : Z;
  str_size : Z;
  dec_size : Z;
  inBuff : list byte;
  outBuff : list byte;
  inBuffOffs : Z;
  outBuffOffs : Z
}.

(** [out_log] is the caller memory that [next_out] has been moved past, in
    order: what the caller collects.  [total_in] and [total_out] are [uLong]
    counters, kept without wrap-around. *)
Record zfast_stream := mkStream {
  next_in : option (list byte);
  avail_in : Z;
  total_in : Z;
  next_out : option (list byte);
  avail_out : Z;
  total_out : Z;
  out_log : list byte;
  msg : option string;
  state : internal_state
}.

Definition set_level (st : internal_state) (v : Z) : internal_state :=
  mkState v (inHdr st) (inHdrOffs st) (block_size st) (block_type st) (str_size st)
          (dec_size st) (inBuff st) (outBuff st) (inBuffOffs st) (outBuffOffs st).
Definition set_inHdr (st : internal_state) (v : list byte) : internal_state :=
  mkState (level st) v (inHdrOffs st) (block_size st) (block_type st) (str_size st)
          (dec_size st) (inBuff st) (outBuff st) (inBuffOffs st) (outBuffOffs st).
Definition set_inHdrOffs (st : internal_state) (v : Z) : internal_state :=
  mkState (level st) (inHdr st) v (block_size st) (block_type st) (str_size st)
          (dec_size st) (inBuff st) (outBuff st) (inBuffOffs st) (outBuffOffs st).
Definition set_block_type (st : internal_state) (v : Z) : internal_state :=
  mkState (level st) (inHdr st) (inHdrOffs st) (block_size st) v (str_size st)
          (dec_size st) (inBuff st) (outBuff st) (inBuffOffs st) (outBuffOffs st).
Definition set_str_size (st : internal_state) (v : Z) : internal_state :=
  mkState (level st) (inHdr st) (inHdrOffs st) (block_size st) (block_type st) v
          (dec_size st) (inBuff st) (outBuff st) (inBuffOffs st) (outBuffOffs st).
Definition set_dec_size (st : internal_state) (v : Z) : internal_state :=
  mkState (level st) (inHdr st) (inHdrOffs st) (block_size st) (block_type st)
          (str_size st) v (inBuff st) (outBuff st) (inBuffOffs st) (outBuffOffs st).
Definition set_inBuff (st : internal_state) (v : list byte) : internal_state :=
  mkState (level st) (inHdr st) (inHdrOffs st) (block_size st) (block_type st)
          (str_size st) (dec_size st) v (outBuff st) (inBuffOffs st) (outBuffOffs st).
Definition set_outBuff (st : internal_state) (v : list byte) : internal_state :=
  mkState (level st) (inHdr st) (inHdrOffs st) (block_size st) (block_type st)
          (str_size st) (dec_size st) (inBuff st) v (inBuffOffs st) (outBuffOffs st).
Definition set_inBuffOffs (st : internal_state) (v : Z) : internal_state :=
  mkState (level st) (inHdr st) (inHdrOffs st) (block_size st) (block_type st)
          (str_size st) (dec_size st) (inBuff st) (outBuff st) v (outBuffOffs st).
Definition set_outBuffOffs (st : internal_state) (v : Z) : internal_state :=
  mkState (level st) (inHdr st) (inHdrOffs st) (block_size st) (block_type st)
          (str_size st) (dec_size st) (inBuff st) (outBuff st) (inBuffOffs st) v.

Definition set_state (s : zfast_stream) (st : internal_state) : zfast_stream :=
  mkStream (next_in s) (avail_in s) (total_in s) (next_out s) (avail_out s)
           (total_out s) (out_log s) (msg s) st.
Definition set_msg (s : zfast_stream) (m : option string) : zfast_stream :=
  mkStream (next_in s) (avail_in s) (total_in s) (next_out s) (avail_out s)
           (total_out s) (out_log s) m (state s).
Definition set_next_out (s : zfast_stream) (p : option (list byte)) : zfast_stream :=
  mkStream (next_in s) (avail_in s) (total_in s) p (avail_out s)
           (total_out s) (out_log s) (msg s) (state s).

(** [s->state->f = v] for the setter [set_f]. *)
Definition upd {A : Type} (f : internal_state -> A -> internal_state)
           (s : zfast_stream) (v : A) : zfast_stream :=
  set_state s (f (state s) v).

Definition error (s : zfast_stream) (m : string) : zfast_stream := set_msg s (Some m).

(** ** Macros *)

Definition BLOCK_SIZE (s : zfast_stream) : Z := block_size (state s).

Definition BUFFER_BLOCK_SIZE (s : zfast_stream) : Z :=
  uInt (BLOCK_SIZE s + BLOCK_SIZE s / EXPANSION_RATIO + HEADER_SIZE * 2).

Definition ZFAST_IS_COMPRESSING (s : zfast_stream) : bool :=
  negb (level (state s) =? ZFAST_LEVEL_DECOMPRESS).
Definition ZFAST_IS_DECOMPRESSING (s : zfast_stream) : bool :=
  negb (ZFAST_IS_COMPRESSING s).
Definition ZFAST_INPUT_IS_EMPTY (s : zfast_stream) : bool := avail_in s =? 0.
Definition ZFAST_OUTPUT_IS_FULL (s : zfast_stream) : bool := avail_out s =? 0.
Definition ZFAST_HAS_BUFFERED_OUTPUT (s : zfast_stream) : bool :=
  outBuffOffs (state s) <? dec_size (state s).

(** ** Cursor moves *)

Definition inSeek (s : zfast_stream) (offs : Z) : option zfast_stream :=
  if offs <=? avail_in s then
    Some (mkStream (ptr_add (next_in s) offs) (avail_in s - offs) (total_in s + offs)
                   (next_out s) (avail_out s) (total_out s) (out_log s) (msg s)
                   (state s))
  else None.

Definition outSeek (s : zfast_stream) (offs : Z) : option zfast_stream :=
  if offs <=? avail_out s then
    Some (mkStream (next_in s) (avail_in s) (total_in s)
                   (ptr_add (next_out s) offs) (avail_out s - offs)
                   (total_out s + offs)
                   (out_log s ++ take offs (deref (next_out s))) (msg s) (state s))
  else None.

Definition zlibLevelToFastlz (level : Z) : Z :=
  if level <=? Z_BEST_SPEED then 1 else 2.

(** ** Option monad for assertion failures *)

Definition bind {A B : Type} (c : option A) (k : A -> option B) : option B :=
  match c with Some a => k a | None => None end.

Notation "x <- c ;; k" := (bind c (fun x => k))
  (at level 61, c at next level, right associativity).
Notation "' p <- c ;; k" := (bind c (fun x => let 'p := x in k))
  (at level 61, p pattern, c at next level, right associativity).

(** A stage of the processing routine either returns from the call, or goes
    on with the local pointer [in] set. *)
Inductive outcome :=
| Return (code : Z) (s : zfast_stream)
| Continue (s : zfast_stream) (in_ : option (list byte)).

Section Stream.
Context {lz : FastLZ}.

(** ** Block compressor wrapper

    The result is the byte string stored at [output]; its length is the value
    returned ([done]).  The length returned by the primitive is taken as it
    is (it fits an [int]). *)
Definition fastlz_compress_hdr (input : list byte) (length : Z) (output_length : Z)
           (block_size level flush : Z) : option (list byte) :=
  blk <- (if 0 <? length then
            if MIN_BLOCK_SIZE <? length then
              let data := fastlz_compress_level level (take length input) in
              let done := len data in
              if uInt (done + HEADER_SIZE * 2) <=? output_length then
                Some (fastlz_write_header BLOCK_TYPE_COMPRESSED block_size done length
                        ++ data)
              else None
            else
              if uInt (length + HEADER_SIZE * 2) <=? output_length then
                Some (fastlz_write_header BLOCK_TYPE_RAW block_size length length
                        ++ take length input)
              else None
          else Some []) ;;
  let out :=
    blk ++ (if flush =? Z_FINISH
            then fastlz_write_header BLOCK_TYPE_COMPRESSED block_size 0 0
            else []) in
  if len out <=? output_length then Some out else None.

(** ** The processing routine, stage by stage *)

(** Lines 408-422: output buffer data to be processed. *)
Definition drain_output (s : zfast_stream) : option (Z * zfast_stream) :=
  let size := uInt (dec_size (state s) - outBuffOffs (state s)) in
  let size := if avail_out s <? size then avail_out s else size in
  if 0 <? size then
    let s1 := set_next_out s
                (ptr_write (next_out s)
                           (take size (drop (outBuffOffs (state s)) (outBuff (state s))))) in
    let s2 := upd set_outBuffOffs s1 (uInt (outBuffOffs (state s1) + size)) in
    s3 <- outSeek s2 size ;;
    Some (Z_OK, s3)
  else Some (Z_OK, s).

(** Lines 439-442: copy up to HEADER_SIZE bytes; the loop runs at most
    HEADER_SIZE times. *)
Fixpoint copy_header (fuel : nat) (s : zfast_stream) : option zfast_stream :=
  match fuel with
  | O => Some s
  | S fuel' =>
      if (0 <? avail_in s) && (inHdrOffs (state s) <? HEADER_SIZE) then
        let s1 := upd set_inHdr s
                    (memcpy_at (inHdr (state s)) (inHdrOffs (state s))
                               [nth 0 (deref (next_in s)) x00]) in
        let s2 := upd set_inHdrOffs s1 (uInt (inHdrOffs (state s1) + 1)) in
        s3 <- inSeek s2 1 ;;
        copy_header fuel' s3
      else Some s
  end.

(** [s->state->block_type = ...; str_size = ...; dec_size = ...]. *)
Definition apply_header (s : zfast_stream) (type str dec : Z) : zfast_stream :=
  upd set_dec_size (upd set_str_size (upd set_block_type s type) str) dec.

(** Lines 430-494 (decompressing: header is present).  [inl] returns from the
    call; [inr (s, block_size)] goes on with the local [block_size]. *)
Definition decompress_header (s : zfast_stream) (may_buffer : bool)
  : option ((Z * zfast_stream) + (zfast_stream * Z)) :=
  let buffered := negb (inHdrOffs (state s) =? 0) || (avail_in s <? HEADER_SIZE) in
  if buffered && (inHdrOffs (state s) =? 0) && negb may_buffer then
    Some (inl (Z_BUF_ERROR, error s "Need more data on input"))
  else
    s <- (if buffered then copy_header (Z.to_nat HEADER_SIZE) s else Some s) ;;
    if (inHdrOffs (state s) =? 0) && (HEADER_SIZE <=? avail_in s) then
      let '(block_type, block_size, str_size, dec_size) :=
        fastlz_read_header (deref (next_in s)) in
      if negb may_buffer && (avail_in s <? str_size) then
        Some (inl (Z_BUF_ERROR, error s "Need more data on input"))
      else if negb may_buffer && (avail_out s <? dec_size) then
        Some (inl (Z_BUF_ERROR, error s "Need more room on output"))
      else
        s1 <- inSeek (apply_header s block_type str_size dec_size) HEADER_SIZE ;;
        Some (inr (s1, block_size))
    else if inHdrOffs (state s) =? HEADER_SIZE then
      if may_buffer then
        let '(block_type, block_size, str_size, dec_size) :=
          fastlz_read_header (inHdr (state s)) in
        Some (inr (upd set_inHdrOffs (apply_header s block_type str_size dec_size) 0,
                   block_size))
      else None
    else
      if may_buffer then Some (inl (Z_OK, s)) else None.

(** Lines 496-514 (compressing: fixed input size, unless flush). *)
Definition compress_header (s : zfast_stream) (flush : Z) (may_buffer : bool)
  : (Z * zfast_stream) + (zfast_stream * Z) :=
  let block_type := BLOCK_TYPE_COMPRESSED in
  let str_size := BLOCK_SIZE s in
  if (avail_in s <? str_size) && negb (Z_NO_FLUSH <? flush) && negb may_buffer then
    inl (Z_BUF_ERROR, error s "Need more data on input")
  else
    let str_size :=
      if (avail_in s <? str_size) && (Z_NO_FLUSH <? flush) then avail_in s
      else str_size in
    inr (apply_header s block_type str_size 0, 0).

(** Lines 516-555: sanity checks, EOF marker, direct or buffered payload. *)
Definition check_block (s : zfast_stream) (block_size : Z) : option outcome :=
  let s := upd set_outBuffOffs s (dec_size (state s)) in
  let st := state s in
  if block_type st =? BLOCK_TYPE_BAD_MAGIC then
    Some (Return Z_DATA_ERROR (error s "Corrupted compressed stream (bad magic)"))
  else if negb (block_type st =? BLOCK_TYPE_RAW)
          && negb (block_type st =? BLOCK_TYPE_COMPRESSED) then
    Some (Return Z_VERSION_ERROR
                 (error s "Corrupted compressed stream (illegal block type)"))
  else if BLOCK_SIZE s <? block_size then
    Some (Return Z_VERSION_ERROR (error s "Block size too large"))
  else if BUFFER_BLOCK_SIZE s <? dec_size st then
    Some (Return Z_VERSION_ERROR
                 (error s "Corrupted compressed stream (illegal decompressed size)"))
  else if BUFFER_BLOCK_SIZE s <? str_size st then
    Some (Return Z_VERSION_ERROR
                 (error s "Corrupted compressed stream (illegal stream size)"))
  else if (str_size st =? 0) && (dec_size st =? 0) then
    Some (Return Z_STREAM_END s)
  else if str_size st <=? avail_in s then
    s1 <- inSeek s (str_size st) ;;
    Some (Continue s1 (next_in s))
  else
    Some (Continue (upd set_inBuffOffs s 0) None).

(** Lines 425-556: read next block. *)
Definition next_block (s : zfast_stream) (flush : Z) (may_buffer : bool)
  : option outcome :=
  r <- (if ZFAST_IS_DECOMPRESSING s then decompress_header s may_buffer
        else Some (compress_header s flush may_buffer)) ;;
  match r with
  | inl (code, s') => Some (Return code s')
  | inr (s', block_size) => check_block s' block_size
  end.

(** Lines 564-586: buffered data, copied to [inBuff] until the block data size
    is there. *)
Definition buffer_input (s : zfast_stream) (flush : Z)
  : option (zfast_stream * option (list byte)) :=
  s1 <- (if inBuffOffs (state s) <? str_size (state s) then
           let size := uInt (str_size (state s) - inBuffOffs (state s)) in
           let size := if avail_in s <? size then avail_in s else size in
           if 0 <? size then
             let s1 := upd set_inBuff s
                         (memcpy_at (inBuff (state s)) (inBuffOffs (state s))
                                    (take size (deref (next_in s)))) in
             let s2 := upd set_inBuffOffs s1 (uInt (inBuffOffs (state s1) + size)) in
             inSeek s2 size
           else Some s
         else Some s) ;;
  if inBuffOffs (state s1) =? str_size (state s1) then
    Some (s1, Some (inBuff (state s1)))
  else if negb (flush =? Z_NO_FLUSH) then
    Some (upd set_str_size s1 (inBuffOffs (state s1)), Some (inBuff (state s1)))
  else Some (s1, None).

(** Lines 600-641: a complete block is decompressed, on client memory or in
    the output buffer.  The C code moves the output cursor before it writes
    through the saved pointer [out]; here the write comes first, which leaves
    the same memory and the same cursor. *)
Definition decompress_block (s : zfast_stream) (in_ : list byte)
  : option ((Z * zfast_stream) + zfast_stream) :=
  let in_size := str_size (state s) in
  let out_size := dec_size (state s) in
  let direct := dec_size (state s) <=? avail_out s in
  r <- (if block_type (state s) =? BLOCK_TYPE_COMPRESSED then
          let data := fastlz_decompress (take in_size in_) out_size in
          Some (len data, data)
        else if block_type (state s) =? BLOCK_TYPE_RAW then
          if in_size <=? out_size then Some (int_of_uInt in_size, take in_size in_)
          else Some (0, [])
        else None) ;;
  let '(done, data) := r in
  s1 <- (if direct then
           s1 <- outSeek (set_next_out s (ptr_write (next_out s) data))
                         (dec_size (state s)) ;;
           Some (upd set_outBuffOffs s1 (dec_size (state s1)))
         else
           Some (upd set_outBuffOffs
                     (upd set_outBuff s (memcpy_at (outBuff (state s)) 0 data)) 0)) ;;
  let s2 := upd set_str_size s1 0 in
  if negb (done =? int_of_uInt (dec_size (state s2))) then
    Some (inl (Z_STREAM_ERROR, error s2 "Unable to decompress block stream"))
  else Some (inr s2).

(** Lines 643-676: a complete block is compressed, on client memory or in the
    output buffer. *)
Definition compress_block (s : zfast_stream) (in_ : list byte) (flush_now : Z)
  : option zfast_stream :=
  let in_size := str_size (state s) in
  let estimated_dec_size :=
    uInt (in_size + in_size / EXPANSION_RATIO + EXPANSION_SECURITY) in
  s1 <- (if estimated_dec_size <=? avail_out s then
           data <- fastlz_compress_hdr in_ in_size estimated_dec_size (BLOCK_SIZE s)
                     (zlibLevelToFastlz (level (state s))) flush_now ;;
           s1 <- outSeek (set_next_out s (ptr_write (next_out s) data)) (len data) ;;
           Some (upd set_outBuffOffs s1 (dec_size (state s1)))
         else
           data <- fastlz_compress_hdr in_ in_size (BUFFER_BLOCK_SIZE s) (BLOCK_SIZE s)
                     (zlibLevelToFastlz (level (state s))) flush_now ;;
           let s1 := upd set_outBuff s (memcpy_at (outBuff (state s)) 0 data) in
           Some (upd set_outBuffOffs (upd set_dec_size s1 (uInt (len data))) 0)) ;;
  Some (upd set_str_size s1 0).

(** Lines 589-677: where to uncompress or compress the complete block. *)
Definition transform (s : zfast_stream) (in_ : list byte) (flush : Z)
  : option ((Z * zfast_stream) + zfast_stream) :=
  let flush_now :=
    if (flush =? Z_FINISH) && negb (ZFAST_INPUT_IS_EMPTY s) then Z_NO_FLUSH
    else flush in
  if ZFAST_IS_DECOMPRESSING s then decompress_block s in_
  else s1 <- compress_block s in_ flush_now ;; Some (inr s1).

(** Lines 682-690. *)
Definition finish (s : zfast_stream) (flush : Z) : Z * zfast_stream :=
  if (flush =? Z_FINISH) && ZFAST_INPUT_IS_EMPTY s
     && negb (ZFAST_HAS_BUFFERED_OUTPUT s)
  then (Z_STREAM_END, s) else (Z_OK, s).

Definition fastlzlibProcess (s : zfast_stream) (flush : Z) (may_buffer : bool)
  : option (Z * zfast_stream) :=
  if is_null (next_in s) && negb (ZFAST_INPUT_IS_EMPTY s) then
    Some (Z_STREAM_ERROR, error s "Invalid input")
  else if is_null (next_out s) && negb (ZFAST_OUTPUT_IS_FULL s) then
    Some (Z_STREAM_ERROR, error s "Invalid output")
  else if ZFAST_HAS_BUFFERED_OUTPUT s then drain_output s
  else
    r <- (if str_size (state s) =? 0 then next_block s flush may_buffer
          else Some (Continue s None)) ;;
    match r with
    | Return code s' => Some (code, s')
    | Continue s1 in1 =>
        '(s2, in2) <- (match in1 with
                       | None => buffer_input s1 flush
                       | Some _ => Some (s1, in1)
                       end) ;;
        match in2 with
        | Some in_ =>
            r3 <- transform s2 in_ flush ;;
            match r3 with
            | inl ret => Some ret
            | inr s3 => Some (finish s3 flush)
            end
        | None => Some (finish s2 flush)
        end
    end.

Definition fastlzlibDecompress2 (s : zfast_stream) (may_buffer : bool)
  : option (Z * zfast_stream) :=
  if ZFAST_IS_DECOMPRESSING s then fastlzlibProcess s Z_NO_FLUSH may_buffer
  else Some (Z_STREAM_ERROR,
             error s "Decompressing function used with a compressing stream").

Definition fastlzlibDecompress (s : zfast_stream) : option (Z * zfast_stream) :=
  fastlzlibDecompress2 s true.

Definition fastlzlibCompress2 (s : zfast_stream) (flush : Z) (may_buffer : bool)
  : option (Z * zfast_stream) :=
  if ZFAST_IS_COMPRESSING s then fastlzlibProcess s flush may_buffer
  else Some (Z_STREAM_ERROR,
             error s "Compressing function used with a decompressing stream").

Definition fastlzlibCompress (s : zfast_stream) (flush : Z) : option (Z * zfast_stream) :=
  fastlzlibCompress2 s flush true.

End Stream.

(** ** Resynchronisation *)

(** [in[i] == BLOCK_MAGIC[i]] for [i] from 0 to 6. *)
Definition magic_at (in_ : list byte) : bool :=
  Byte.eqb (nth 0 in_ x00) (nth 0 BLOCK_MAGIC x00)
  && Byte.eqb (nth 1 in_ x00) (nth 1 BLOCK_MAGIC x00)
  && Byte.eqb (nth 2 in_ x00) (nth 2 BLOCK_MAGIC x00)
  && Byte.eqb (nth 3 in_ x00) (nth 3 BLOCK_MAGIC x00)
  && Byte.eqb (nth 4 in_ x00) (nth 4 BLOCK_MAGIC x00)
  && Byte.eqb (nth 5 in_ x00) (nth 5 BLOCK_MAGIC x00)
  && Byte.eqb (nth 6 in_ x00) (nth 6 BLOCK_MAGIC x00).

(** Lines 750-769: the seek loop.  Each turn takes one byte of input, so
    [avail_in + 1] turns of fuel are never used up. *)
Fixpoint sync_seek (fuel : nat) (s : zfast_stream) : option (Z * zfast_stream) :=
  match fuel with
  | O => Some (Z_DATA_ERROR, error s "No flush point found")
  | S fuel' =>
      if HEADER_SIZE <=? avail_in s then
        let in_ := deref (next_in s) in
        if magic_at in_ && negb (fastlzlibGetStreamBlockSize in_ HEADER_SIZE =? 0) then
          Some (Z_OK, s)
        else
          s1 <- inSeek (upd set_inHdrOffs s (uInt (inHdrOffs (state s) + 1))) 1 ;;
          sync_seek fuel' s1
      else Some (Z_DATA_ERROR, error s "No flush point found")
  end.

Definition fastlzlibDecompressSync (s : zfast_stream) : option (Z * zfast_stream) :=
  if ZFAST_IS_DECOMPRESSING s then
    if ZFAST_HAS_BUFFERED_OUTPUT s then Some (Z_OK, s)
    else if avail_in s <? HEADER_SIZE then
      Some (Z_BUF_ERROR, error s "Need more data on input")
    else
      let s1 := if negb (inHdrOffs (state s) =? 0) then upd set_inHdrOffs s 0 else s in
      sync_seek (S (Z.to_nat (avail_in s1))) s1
  else Some (Z_STREAM_ERROR,
             error s "Decompressing function used with a compressing stream").

(** ** Initialisation and reset *)

Definition fastlzlibReset (s : zfast_stream) : zfast_stream :=
  let s := set_msg s None in
  let s := upd set_inHdrOffs s 0 in
  let s := upd set_block_type s 0 in
  let s := upd set_str_size s 0 in
  let s := upd set_dec_size s 0 in
  let s := upd set_inBuffOffs s 0 in
  upd set_outBuffOffs s 0.

Section Init.
(** Whether [zalloc(s, items, size)] returns a block.  The allocation of the
    state structure itself is not checked by the code and is taken to succeed.
    Fresh memory is zero-filled in the model; the code never reads it before
    writing it, and sets [level] itself right after [fastlzlibInit]. *)
Variable zalloc_ok : Z -> Z -> bool.

(** The descriptor [s] is [None] for a NULL pointer; a descriptor that comes
    back with a NULL [state] comes back as [None]. *)
Definition fastlzlibInit (s : option zfast_stream) (block_size : Z)
  : Z * option zfast_stream :=
  match s with
  | Some s =>
      let st := mkState 0 (repeat x00 (Z.to_nat HEADER_SIZE)) 0 (uInt block_size)
                        0 0 0 [] [] 0 0 in
      let s := set_state s st in
      let inBuff_ok := zalloc_ok (BUFFER_BLOCK_SIZE s) 1 in
      let outBuff_ok := zalloc_ok (BUFFER_BLOCK_SIZE s) 1 in
      if inBuff_ok && outBuff_ok then
        let s := upd set_inBuff s (repeat x00 (Z.to_nat (BUFFER_BLOCK_SIZE s))) in
        let s := upd set_outBuff s (repeat x00 (Z.to_nat (BUFFER_BLOCK_SIZE s))) in
        (Z_OK, Some (fastlzlibReset s))
      else (Z_MEM_ERROR, None)
  | None => (Z_STREAM_ERROR, None)
  end.

Definition fastlzlibCompressInit2 (s : option zfast_stream) (level block_size : Z)
  : Z * option zfast_stream :=
  let '(success, s) := fastlzlibInit s block_size in
  if success =? Z_OK then
    let level :=
      if (level <? Z_NO_COMPRESSION) || (Z_BEST_COMPRESSION <? level)
      then Z_BEST_COMPRESSION else level in
    (success, option_map (fun s => upd set_level s level) s)
  else (success, s).

Definition fastlzlibCompressInit (s : option zfast_stream) (level : Z)
  : Z * option zfast_stream :=
  fastlzlibCompressInit2 s level DEFAULT_BLOCK_SIZE.

Definition fastlzlibDecompressInit2 (s : option zfast_stream) (block_size : Z)
  : Z * option zfast_stream :=
  let '(success, s) := fastlzlibInit s block_size in
  if success =? Z_OK then
    (success, option_map (fun s => upd set_level s ZFAST_LEVEL_DECOMPRESS) s)
  else (success, s).

Definition fastlzlibDecompressInit (s : option zfast_stream)
  : Z * option zfast_stream :=
  fastlzlibDecompressInit2 s DEFAULT_BLOCK_SIZE.

End Init.

Definition fastlzlibCompressReset (s : option zfast_stream) : Z * option zfast_stream :=
  match s with
  | Some s => (Z_OK, Some (fastlzlibReset s))
  | None => (Z_STREAM_ERROR, None)
  end.

Definition fastlzlibGetBlockSize (s : option zfast_stream) : Z :=
  match s with
  | Some s => int_of_uInt (BLOCK_SIZE s)
  | None => 0
  end.

(** * Specification-level notions *)

(** ** The caller's side *)

(** The caller points the stream at [w], a window of input bytes. *)
Definition with_input (s : zfast_stream) (w : list byte) : zfast_stream :=
  mkStream (Some w) (len w) (total_in s) (next_out s) (avail_out s) (total_out s)
           (out_log s) (msg s) (state s).

(** The caller points the stream at an output region whose bytes are [m]. *)
Definition with_output (s : zfast_stream) (m : list byte) : zfast_stream :=
  mkStream (next_in s) (avail_in s) (total_in s) (Some m) (len m) (total_out s)
           (out_log s) (msg s) (state s).

(** A descriptor before initialisation: no windows, and a [state] that
    [fastlzlibInit] overwrites. *)
Definition blank_stream : zfast_stream :=
  mkStream None 0 0 None 0 0 [] None (mkState 0 [] 0 0 0 0 0 [] [] 0 0).

(** An allocator that never fails. *)
Definition zalloc_always : Z -> Z -> bool := fun _ _ => true.

(** The stream that a successful initialisation returns. *)
Definition the_stream (r : Z * option zfast_stream) : zfast_stream :=
  match snd r with Some s => s | None => blank_stream end.

Definition compress_stream (level block_size : Z) : zfast_stream :=
  the_stream (fastlzlibCompressInit2 zalloc_always (Some blank_stream) level block_size).

Definition decompress_stream (block_size : Z) : zfast_stream :=
  the_stream (fastlzlibDecompressInit2 zalloc_always (Some blank_stream) block_size).

(** The stream that a call leaves. *)
Definition after (r : option (Z * zfast_stream)) : zfast_stream :=
  match r with Some (_, s) => s | None => blank_stream end.

(** Block primitives that store a block as it is: the simplest lossless pair,
    used to run the model on concrete streams. *)
Definition stored_lz : FastLZ := {|
  fastlz_compress_level := fun _ src => src;
  fastlz_decompress := fun src maxout => if len src <=? maxout then src else []
|}.

(** Block primitives that store a block twice: a lossless pair as well, for
    which a block grows to twice its size. *)
Definition doubling_lz : FastLZ := {|
  fastlz_compress_level := fun _ src => src ++ src;
  fastlz_decompress := fun src maxout => take maxout src
|}.

(** ** Phases of a call *)

Inductive phase := PhaseD | PhaseH | PhaseP | PhaseC.

(** The phases that a call runs, read off the control flow of
    [fastlzlibProcess]: D is lines 408-422, H lines 425-545, P lines 547-586,
    C lines 589-677. *)
Definition phases {lz : FastLZ} (s : zfast_stream) (flush : Z) (may_buffer : bool)
  : list phase :=
  if is_null (next_in s) && negb (ZFAST_INPUT_IS_EMPTY s) then []
  else if is_null (next_out s) && negb (ZFAST_OUTPUT_IS_FULL s) then []
  else if ZFAST_HAS_BUFFERED_OUTPUT s then [PhaseD]
  else
    let h := if str_size (state s) =? 0 then [PhaseH] else [] in
    match (if str_size (state s) =? 0 then next_block s flush may_buffer
           else Some (Continue s None)) with
    | Some (Continue s1 in1) =>
        match (match in1 with
               | None => buffer_input s1 flush
               | Some _ => Some (s1, in1)
               end) with
        | Some (_, Some _) => h ++ [PhaseP; PhaseC]
        | _ => h ++ [PhaseP]
        end
    | _ => h
    end.

(** A stage of a call that keeps the level and the block size of the stream,
    takes at most [kin] bytes of input and delivers at most [kout] bytes of
    output; it takes nothing from an empty window and leaves a NULL [next_in]
    as it is. *)
Definition stage_within (s s' : zfast_stream) (kin kout : Z) : Prop :=
  level (state s') = level (state s)
  /\ block_size (state s') = block_size (state s)
  /\ total_in s' - total_in s <= kin
  /\ total_out s' - total_out s <= kout
  /\ (next_in s' = None -> next_in s = None)
  /\ (avail_in s = 0 -> avail_in s' = 0 /\ total_in s' = total_in s).

(** ** Synchronisation points *)

(** A position of the input where [fastlzlibDecompressSync] stops: the 7 bytes
    of the magic, and a parsed block size that is not zero. *)
Definition sync_point (w : list byte) : bool :=
  bytes_eqb (firstn 7 w) BLOCK_MAGIC
  && negb (let '(_, block_size, _, _) := fastlz_read_header w in block_size =? 0).

(** The stream after a scan that has moved over [k] bytes of input: the input
    cursor and [inHdrOffs], the counter of the scan, have advanced by [k]. *)
Definition sync_advance (s : zfast_stream) (k : Z) : zfast_stream :=
  mkStream (Some (drop k (deref (next_in s)))) (avail_in s - k) (total_in s + k)
           (next_out s) (avail_out s) (total_out s) (out_log s) (msg s)
           (set_inHdrOffs (state s) (inHdrOffs (state s) + k)).

(** ** Concrete streams *)

(** The bytes of "hello". *)
Definition hello : list byte := [x68; x65; x6c; x6c; x6f].

(** The end of stream marker written by a compressor of block size 64. *)
Definition eof_marker_64 : list byte :=
  [x46; x61; x73; x74; x4c; x5a; x00; x0c;
   x00; x00; x00; x00; x00; x00; x00; x00; x40; x00; x00; x00].

(** "hello" as one RAW block followed by the end of stream marker. *)
Definition hello_compressed : list byte :=
  [x46; x61; x73; x74; x4c; x5a; x00; xc0;
   x05; x00; x00; x00; x05; x00; x00; x00; x40; x00; x00; x00]
  ++ hello ++ eof_marker_64.

(** A RAW block header that declares 5 payload bytes for 3 original bytes. *)
Definition raw_5_for_3 : list byte :=
  [x46; x61; x73; x74; x4c; x5a; x00; xc0;
   x05; x00; x00; x00; x03; x00; x00; x00; x40; x00; x00; x00].

(** A RAW block header that declares 5 payload bytes for 0 original bytes. *)
Definition raw_5_for_0 : list byte :=
  [x46; x61; x73; x74; x4c; x5a; x00; xc0;
   x05; x00; x00; x00; x00; x00; x00; x00; x40; x00; x00; x00].

(** ** Destination of a decompressed block *)

(** The memory that the transform of a block writes to, before the call and
    after it: the caller memory from [next_out] on when it has room for
    [dec_size] bytes, the output buffer otherwise.  After the call the caller
    memory from the old cursor on is what the cursor has moved past, followed
    by the memory at the new cursor. *)
Definition destination_before (s : zfast_stream) : list byte :=
  if dec_size (state s) <=? avail_out s then deref (next_out s)
  else outBuff (state s).

Definition destination_after (s s' : zfast_stream) : list byte :=
  if dec_size (state s) <=? avail_out s
  then drop (len (out_log s)) (out_log s') ++ deref (next_out s')
  else outBuff (state s').

(** ** Wire format of a stream *)

Section Wire.
Context {lz : FastLZ}.

(** The bytes on the wire for one block [b] of input: a header, and the block
    as it is (RAW) up to [MIN_BLOCK_SIZE] bytes, its compressed form
    (COMPRESSED) beyond. *)
Definition block_kind (b : list byte) : Z :=
  if MIN_BLOCK_SIZE <? len b then BLOCK_TYPE_COMPRESSED else BLOCK_TYPE_RAW.

Definition block_payload (level : Z) (b : list byte) : list byte :=
  if MIN_BLOCK_SIZE <? len b
  then fastlz_compress_level (zlibLevelToFastlz level) b
  else b.

Definition frame (level block_size : Z) (b : list byte) : list byte :=
  fastlz_write_header (block_kind b) block_size (len (block_payload level b)) (len b)
  ++ block_payload level b.

Definition frames (level block_size : Z) (bl : list (list byte)) : list byte :=
  concat (map (frame level block_size) bl).

End Wire.

(** The end of stream marker: an empty COMPRESSED block. *)
Definition eof_marker (block_size : Z) : list byte :=
  fastlz_write_header BLOCK_TYPE_COMPRESSED block_size 0 0.

(** What the block wrapper writes for the block [b] under [flush]: nothing for
    an empty block, and the end of stream marker at the end under
    [Z_FINISH]. *)
Definition block_bytes {lz : FastLZ} (level block_size : Z) (b : list byte) (flush : Z)
  : list byte :=
  (if 0 <? len b then frame level block_size b else [])
  ++ (if flush =? Z_FINISH then eof_marker block_size else []).

(** ** Callers *)

(** One call of a caller: before the call the caller appends up to [feed]
    bytes of the source to the input window, which always holds what the
    stream has not consumed yet, and presents the output region [room];
    [last] tells a compressor that the caller asks for [Z_FINISH] as soon as
    the whole source is in the window.  Windows and regions have fewer than
    [2^32] bytes, as [avail_in] and [avail_out] are [uInt]. *)
Record call := mkCall {
  feed : Z;
  room : list byte;
  last : bool
}.

Definition is_nil (l : list byte) : bool :=
  match l with [] => true | _ => false end.

Definition window (s : zfast_stream) : list byte :=
  take (avail_in s) (deref (next_in s)).

Definition present (s : zfast_stream) (rest : list byte) (c : call)
  : zfast_stream * list byte :=
  let w := window s in
  let n := Z.min (feed c) (2 ^ 32 - 1 - len w) in
  let m := if len (room c) <? 2 ^ 32 then room c else [] in
  (with_output (with_input s (w ++ take n rest)) m, drop n rest).

(** A call can make progress when there is room for output and either input
    in the window, or buffered output, or a request to finish. *)
Definition productive (s : zfast_stream) (flush : Z) : bool :=
  (0 <? avail_out s)
  && ((0 <? avail_in s) || ZFAST_HAS_BUFFERED_OUTPUT s || (flush =? Z_FINISH)).

Section Runs.
Context {lz : FastLZ}.

(** The run of a compressor over the source [rest] under a list of calls.  It
    stops at the first call that does not return [Z_OK].  The result is the
    last code returned, the stream, the source bytes never put in the window
    and the number of calls that could make progress. *)
Fixpoint compress_run (s : zfast_stream) (rest : list byte) (finishing : bool)
         (calls : list call) : option (Z * zfast_stream * list byte * nat) :=
  match calls with
  | [] => Some (Z_OK, s, rest, O)
  | c :: calls' =>
      let '(s1, rest1) := present s rest c in
      let finishing1 := (finishing || last c) && is_nil rest1 in
      let flush := if finishing1 then Z_FINISH else Z_NO_FLUSH in
      let w := if productive s1 flush then 1%nat else 0%nat in
      '(r, s2) <- fastlzlibCompress s1 flush ;;
      if r =? Z_OK then
        '(r', s', rest', n) <- compress_run s2 rest1 finishing1 calls' ;;
        Some (r', s', rest', (w + n)%nat)
      else Some (r, s2, rest1, w)
  end.

(** The run of a decompressor over the wire bytes [rest]. *)
Fixpoint decompress_run (s : zfast_stream) (rest : list byte) (calls : list call)
  : option (Z * zfast_stream * list byte * nat) :=
  match calls with
  | [] => Some (Z_OK, s, rest, O)
  | c :: calls' =>
      let '(s1, rest1) := present s rest c in
      let w := if productive s1 Z_NO_FLUSH then 1%nat else 0%nat in
      '(r, s2) <- fastlzlibDecompress s1 ;;
      if r =? Z_OK then
        '(r', s', rest', n) <- decompress_run s2 rest1 calls' ;;
        Some (r', s', rest', (w + n)%nat)
      else Some (r, s2, rest1, w)
  end.

End Runs.

(** The level that [fastlzlibCompressInit2] stores. *)
Definition stored_level (level : Z) : Z :=
  if (level <? Z_NO_COMPRESSION) || (Z_BEST_COMPRESSION <? level)
  then Z_BEST_COMPRESSION else level.

(** Bounds on the number of calls that can make progress in a run: on the
    source [X] for a compressor, on the wire bytes [W] for a decompressor. *)
Definition buffer_size (block_size : Z) : Z :=
  block_size + block_size / EXPANSION_RATIO + HEADER_SIZE * 2.

Definition compress_calls (block_size : Z) (X : list byte) : Z :=
  (buffer_size block_size + 1) * (len X + 1).

Definition decompress_calls (block_size : Z) (W : list byte) : Z :=
  (buffer_size block_size + 1) * len W.

(** [p] is the beginning of [l]. *)
Definition is_prefix (p l : list byte) : Prop := exists q, l = p ++ q.

(** ** Invariants of the runs *)

(** Bytes of a block in progress that are in the input buffer. *)
Definition staged (s : zfast_stream) : list byte :=
  if str_size (state s) =? 0 then []
  else take (inBuffOffs (state s)) (inBuff (state s)).

(** Bytes of the output buffer that the caller has not received yet. *)
Definition pending (s : zfast_stream) : list byte :=
  if ZFAST_HAS_BUFFERED_OUTPUT s
  then take (dec_size (state s) - outBuffOffs (state s))
            (drop (outBuffOffs (state s)) (outBuff (state s)))
  else [].

Section Invariants.
Context {lz : FastLZ}.
Variables (L bs : Z) (X : list byte).

(** The compressor between two calls: [bl] are the blocks emitted, [eofd]
    tells whether the end of stream marker is emitted. *)
Record compress_inv (s : zfast_stream) (rest : list byte) (finishing : bool)
       (bl : list (list byte)) (eofd : bool) : Prop := {
  ci_level : level (state s) = L;
  ci_block_size : block_size (state s) = bs;
  ci_window : avail_in s = len (deref (next_in s));
  ci_str : str_size (state s) = 0
           \/ (str_size (state s) = bs
               /\ 0 <= inBuffOffs (state s) < bs
               /\ len (staged s) = inBuffOffs (state s)
               /\ ZFAST_HAS_BUFFERED_OUTPUT s = false);
  ci_out : 0 <= outBuffOffs (state s)
           /\ 0 <= dec_size (state s) <= buffer_size bs
           /\ len (pending s) = Z.max 0 (dec_size (state s) - outBuffOffs (state s));
  ci_log : out_log s ++ pending s
           = frames L bs bl ++ (if eofd then eof_marker bs else []);
  ci_data : concat bl ++ staged s ++ window s ++ rest = X;
  ci_blocks : Forall (fun b => 0 < len b <= bs) bl;
  ci_eof : eofd = true -> finishing = true /\ str_size (state s) = 0 /\ avail_in s = 0;
  ci_fin : finishing = true -> rest = [];
  ci_avail : avail_in s < 2 ^ 32
}.

Definition compress_potential (s : zfast_stream) (rest : list byte) (eofd : bool) : Z :=
  (buffer_size bs + 1) * (avail_in s + len rest + (if eofd then 0 else 1))
  + len (pending s).

(** Where the decompressor stands in the wire bytes [todo] that it has not
    consumed: in a header, of which [inHdrOffs] bytes are in [inHdr], or in the
    payload of the block [b], of which [inBuffOffs] bytes are in [inBuff]. *)
Inductive decoder_at (s : zfast_stream) (todo : list byte)
          (post : list (list byte)) (tail : list byte) : Prop :=
| at_header :
    str_size (state s) = 0 ->
    0 <= inHdrOffs (state s) < HEADER_SIZE ->
    take (inHdrOffs (state s)) (inHdr (state s)) ++ todo = frames L bs post ++ tail ->
    decoder_at s todo post tail
| at_payload b post' :
    post = b :: post' ->
    str_size (state s) = len (block_payload L b) ->
    inHdrOffs (state s) = 0 ->
    block_type (state s) = block_kind b ->
    dec_size (state s) = len b ->
    outBuffOffs (state s) = dec_size (state s) ->
    0 <= inBuffOffs (state s) < str_size (state s) ->
    take (inBuffOffs (state s)) (inBuff (state s))
    = take (inBuffOffs (state s)) (block_payload L b) ->
    inBuffOffs (state s) <= len (inBuff (state s)) ->
    todo = drop (inBuffOffs (state s)) (block_payload L b) ++ frames L bs post' ++ tail ->
    decoder_at s todo post tail.

(** The decompressor between two calls: [pre] are the blocks decoded, [post]
    the blocks to come, [tail] what follows the last block on the wire. *)
Record decompress_inv (s : zfast_stream) (rest : list byte)
       (pre post : list (list byte)) (tail : list byte) : Prop := {
  di_level : level (state s) = ZFAST_LEVEL_DECOMPRESS;
  di_block_size : block_size (state s) = bs;
  di_window : avail_in s = len (deref (next_in s));
  di_hdr : len (inHdr (state s)) = HEADER_SIZE;
  di_out : 0 <= outBuffOffs (state s)
           /\ 0 <= dec_size (state s) <= bs
           /\ len (pending s) = Z.max 0 (dec_size (state s) - outBuffOffs (state s));
  di_log : out_log s ++ pending s = concat pre;
  di_data : concat pre ++ concat post = X;
  di_blocks : Forall (fun b => 0 < len b <= bs) post;
  di_tail : tail = eof_marker bs \/ tail = [];
  di_at : decoder_at s (window s ++ rest) post tail;
  di_avail : avail_in s < 2 ^ 32
}.

Definition decompress_potential (s : zfast_stream) (rest : list byte) : Z :=
  (buffer_size bs + 1) * (avail_in s + len rest) + len (pending s).

End Invariants.

(** ** Well-formed streams and cursor moves *)

(** A stream whose block in progress, if there is one, has one of the two
    block types. *)
Definition block_in_progress_ok (s : zfast_stream) : Prop :=
  str_size (state s) = 0
  \/ block_type (state s) = BLOCK_TYPE_RAW
  \/ block_type (state s) = BLOCK_TYPE_COMPRESSED.

(** The cursors of [s'] are those of [s] moved forward by [kin] bytes of
    input and [kout] bytes of output, and the counters have grown by as
    much. *)
Definition cursors_moved (s s' : zfast_stream) (kin kout : Z) : Prop :=
  0 <= kin <= avail_in s
  /\ 0 <= kout <= avail_out s
  /\ next_in s' = ptr_add (next_in s) kin
  /\ avail_in s' = avail_in s - kin
  /\ total_in s' = total_in s + kin
  /\ avail_out s' = avail_out s - kout
  /\ total_out s' = total_out s + kout.

Definition moved (s s' : zfast_stream) : Prop :=
  exists kin kout, cursors_moved s s' kin kout.

(** ** Reset *)

(** [int fastlzlibDecompressReset(zfast_stream *s)]. *)
Definition fastlzlibDecompressReset (s : option zfast_stream) : Z * option zfast_stream :=
  fastlzlibCompressReset s.

(** The caller starts a new record of the bytes delivered. *)
Definition new_log (s : zfast_stream) : zfast_stream :=
  mkStream (next_in s) (avail_in s) (total_in s) (next_out s) (avail_out s)
           (total_out s) [] (msg s) (state s).

(** A stream taken up again after a reset: the caller has no input in the
    window and records the bytes delivered from there on. *)
Definition restarted (r : Z * option zfast_stream) : zfast_stream :=
  with_input (new_log (the_stream r)) [].

(** ** The blocks of a compressed stream *)

(** The source cut in blocks of [n] bytes, the last one shorter when the
    length of the source is not a multiple of [n]. *)
Fixpoint chunks (fuel : nat) (n : Z) (l : list byte) : list (list byte) :=
  match fuel with
  | O => []
  | S fuel' => if is_nil l then [] else take n l :: chunks fuel' n (drop n l)
  end.

Definition blocks_of (n : Z) (X : list byte) : list (list byte) :=
  chunks (length X) n X.

(** Blocks of [n] bytes, the last one of 1 to [n] bytes. *)
Fixpoint canonical (n : Z) (bl : list (list byte)) : Prop :=
  match bl with
  | [] => True
  | [b] => 0 < len b <= n
  | b :: bl' => len b = n /\ canonical n bl'
  end.

(** What a call adds to the blocks [bl] emitted so far: nothing, or a block
    [b], of the block size unless the end of stream marker follows. *)
Definition blocks_step (bs : Z) (bl : list (list byte)) (eofd : bool)
           (bl' : list (list byte)) (eofd' : bool) : Prop :=
  (bl' = bl /\ eofd' = eofd)
  \/ (eofd = false
      /\ exists b, bl' = (if 0 <? len b then bl ++ [b] else bl)
                   /\ len b <= bs
                   /\ (len b = bs \/ eofd' = true)).

(** The blocks emitted so far are whole blocks, except the last one once the
    end of stream marker is emitted. *)
Definition blocks_ok (bs : Z) (bl : list (list byte)) (eofd : bool) : Prop :=
  canonical bs bl /\ (eofd = false -> Forall (fun b => len b = bs) bl).

(** * Properties *)

Arguments uInt : simpl never.
Arguments int_of_uInt : simpl never.
Arguments len : simpl never.
Arguments take : simpl never.
Arguments drop : simpl never.
Arguments memcpy_at : simpl never.
Arguments fastlz_write_header : simpl never.
Arguments fastlz_read_header : simpl never.
Arguments BUFFER_BLOCK_SIZE : simpl never.

(** ** Bytes and little-endian words *)

Lemma land_255 z : Z.land z 255 = z mod 256.
Proof. apply (Z.land_ones z 8); lia. Qed.

Lemma land_65535 z : Z.land z 65535 = z mod 65536.
Proof. apply (Z.land_ones z 16); lia. Qed.

Lemma byte_of_Z_value z : Z.of_N (Byte.to_N (byte_of_Z z)) = z mod 256.
Proof.
  unfold byte_of_Z. rewrite land_255.
  pose proof (Z.mod_pos_bound z 256) as Hr.
  destruct (Byte.of_N (Z.to_N (z mod 256))) as [b|] eqn:E.
  - apply Byte.to_of_N in E. rewrite E. lia.
  - apply Byte.of_N_None_iff in E. lia.
Qed.

Lemma READ_8_range adr : 0 <= READ_8 adr < 256.
Proof.
  unfold READ_8. pose proof (Byte.to_N_bounded (nth 0 adr x00)). lia.
Qed.

Lemma land_shiftl_low a b k : 0 <= k -> 0 <= a < 2 ^ k -> Z.land a (b * 2 ^ k) = 0.
Proof.
  intros Hk Ha. apply Z.bits_inj'; intros i Hi.
  rewrite Z.land_spec, Z.bits_0. destruct (Z.ltb_spec i k).
  - rewrite Z.mul_pow2_bits_low by lia. apply andb_false_r.
  - rewrite <- (Z.mod_small a (2 ^ k)) by lia.
    rewrite Z.mod_pow2_bits_high by lia. reflexivity.
Qed.

Lemma lor_shiftl_add a b k :
  0 <= k -> 0 <= a < 2 ^ k -> Z.lor a (Z.shiftl b k) = a + b * 2 ^ k.
Proof.
  intros Hk Ha. rewrite Z.shiftl_mul_pow2 by lia.
  pose proof (land_shiftl_low a b k Hk Ha) as E.
  rewrite <- Z.lxor_lor by exact E. symmetry. apply Z.add_nocarry_lxor. exact E.
Qed.

Lemma READ_16_value adr : READ_16 adr = READ_8 adr + 256 * READ_8 (skipn 1 adr).
Proof.
  unfold READ_16. rewrite lor_shiftl_add; try lia.
  change (2 ^ 8) with 256. apply READ_8_range.
Qed.

Lemma READ_16_range adr : 0 <= READ_16 adr < 65536.
Proof.
  rewrite READ_16_value.
  pose proof (READ_8_range adr). pose proof (READ_8_range (skipn 1 adr)). lia.
Qed.

Lemma READ_32_value adr : READ_32 adr = READ_16 adr + 65536 * READ_16 (skipn 2 adr).
Proof.
  unfold READ_32. rewrite lor_shiftl_add; try lia.
  change (2 ^ 16) with 65536. apply READ_16_range.
Qed.

Lemma READ_32_range adr : 0 <= READ_32 adr < 2 ^ 32.
Proof.
  rewrite READ_32_value.
  pose proof (READ_16_range adr). pose proof (READ_16_range (skipn 2 adr)).
  change (2 ^ 32) with 4294967296. lia.
Qed.

Lemma split16 x : x mod 256 mod 256 + 256 * ((x / 256) mod 256) = x mod 65536.
Proof.
  rewrite Z.mod_mod by lia. change 65536 with (256 * 256).
  rewrite Z.rem_mul_r by lia. reflexivity.
Qed.

Lemma READ_32_WRITE_32 n rest : READ_32 (WRITE_32 n ++ rest) = uInt n.
Proof.
  rewrite READ_32_value, !READ_16_value. unfold WRITE_32, WRITE_16, READ_8, uInt.
  cbn [app skipn nth].
  rewrite !byte_of_Z_value, !land_255, !land_65535, !Z.shiftr_div_pow2 by lia.
  change (2 ^ 8) with 256. change (2 ^ 16) with 65536.
  rewrite !Z.mod_mod by lia. rewrite <- (Z.mod_mod (n mod 65536) 256) at 1 by lia.
  rewrite <- (Z.mod_mod (n / 65536) 256) at 1 by lia.
  rewrite !split16. rewrite Z.mod_mod by lia.
  change (2 ^ 32) with (65536 * 65536).
  rewrite (Z.rem_mul_r n 65536 65536) by lia. reflexivity.
Qed.

Lemma uInt_small z : 0 <= z < 2 ^ 32 -> uInt z = z.
Proof. intros H. unfold uInt. apply Z.mod_small. exact H. Qed.

Lemma uInt_range z : 0 <= uInt z < 2 ^ 32.
Proof. unfold uInt. apply Z.mod_pos_bound. reflexivity. Qed.

Lemma uInt_READ_32 adr : uInt (READ_32 adr) = READ_32 adr.
Proof. apply uInt_small, READ_32_range. Qed.

Lemma bytes_eqb_eq a b : bytes_eqb a b = true <-> a = b.
Proof.
  revert b. induction a as [|x a IH]; intros [|y b]; simpl; split; intros H;
    try reflexivity; try discriminate.
  - apply andb_true_iff in H. destruct H as [H1 H2].
    apply Byte.byte_dec_bl in H1. apply IH in H2. congruence.
  - injection H as -> ->. apply andb_true_iff. split.
    + apply Byte.byte_dec_lb. reflexivity.
    + apply IH. reflexivity.
Qed.

(** ** Header codec *)

Lemma length_write_header t bs c o :
  length (fastlz_write_header t bs c o) = 20%nat.
Proof. reflexivity. Qed.

Lemma len_write_header t bs c o : len (fastlz_write_header t bs c o) = HEADER_SIZE.
Proof. reflexivity. Qed.

Lemma read_write_header t bs c o rest :
  fastlz_read_header (fastlz_write_header t bs c o ++ rest)
  = (t mod 256, uInt o, uInt c, uInt o).
Proof.
  unfold fastlz_read_header.
  change (bytes_eqb (firstn 7 (fastlz_write_header t bs c o ++ rest)) BLOCK_MAGIC)
    with true. cbv iota.
  change (skipn 12 (fastlz_write_header t bs c o ++ rest))
    with (WRITE_32 o ++ (WRITE_32 bs ++ rest)).
  change (skipn 8 (fastlz_write_header t bs c o ++ rest))
    with (WRITE_32 c ++ (WRITE_32 o ++ WRITE_32 bs ++ rest)).
  rewrite !READ_32_WRITE_32.
  change (READ_8 (skipn 7 (fastlz_write_header t bs c o ++ rest)))
    with (Z.of_N (Byte.to_N (byte_of_Z (Z.land t 255)))).
  rewrite byte_of_Z_value, land_255, Z.mod_mod by lia.
  unfold uInt. rewrite !Z.mod_mod by (change (2 ^ 32) with 4294967296; lia).
  reflexivity.
Qed.

(** The four bytes that [WRITE_32] stores, lowest first. *)
Lemma WRITE_32_bytes n pre post k :
  (k < 4)%nat ->
  byte_at (pre ++ WRITE_32 n ++ post) (length pre + k) = n / 2 ^ (8 * Z.of_nat k) mod 256.
Proof.
  intros Hk. unfold byte_at. rewrite app_nth2_plus.
  unfold WRITE_32, WRITE_16.
  destruct k as [|[|[|[|k]]]]; [| | | |lia]; cbn [app nth Z.of_nat Pos.of_succ_nat Pos.succ Z.mul];
    rewrite byte_of_Z_value, ?land_255, ?land_65535, ?Z.shiftr_div_pow2 by lia.
  - change (2 ^ 0) with 1. Z.div_mod_to_equations. lia.
  - change (2 ^ 8) with 256. Z.div_mod_to_equations. lia.
  - change (2 ^ 16) with 65536. Z.div_mod_to_equations. lia.
  - change (2 ^ 16) with 65536. change (2 ^ 8) with 256. change (2 ^ 24) with 16777216.
    Z.div_mod_to_equations. lia.
Qed.

(** The little-endian word that [READ_32] reads. *)
Lemma READ_32_bytes l k :
  READ_32 (skipn k l)
  = byte_at l k + 2 ^ 8 * byte_at l (k + 1) + 2 ^ 16 * byte_at l (k + 2)
    + 2 ^ 24 * byte_at l (k + 3).
Proof.
  rewrite READ_32_value, !READ_16_value. unfold READ_8, byte_at.
  rewrite !skipn_skipn, !nth_skipn.
  replace (k + 0)%nat with k by lia.
  replace (1 + k + 0)%nat with (k + 1)%nat by lia.
  replace (2 + k + 0)%nat with (k + 2)%nat by lia.
  replace (1 + (2 + k) + 0)%nat with (k + 3)%nat by lia.
  change (2 ^ 8) with 256. change (2 ^ 16) with 65536. change (2 ^ 24) with 16777216.
  lia.
Qed.

(** What [fastlz_read_header] returns for a source with the magic, byte by
    byte. *)
Lemma read_header_bytes source :
  firstn 7 source = BLOCK_MAGIC ->
  fastlz_read_header source
  = (byte_at source 7,
     byte_at source 12 + 2 ^ 8 * byte_at source 13 + 2 ^ 16 * byte_at source 14
     + 2 ^ 24 * byte_at source 15,
     byte_at source 8 + 2 ^ 8 * byte_at source 9 + 2 ^ 16 * byte_at source 10
     + 2 ^ 24 * byte_at source 11,
     byte_at source 12 + 2 ^ 8 * byte_at source 13 + 2 ^ 16 * byte_at source 14
     + 2 ^ 24 * byte_at source 15).
Proof.
  intros Hmagic. unfold fastlz_read_header.
  replace (bytes_eqb _ BLOCK_MAGIC) with true
    by (symmetry; apply bytes_eqb_eq; exact Hmagic).
  rewrite !uInt_READ_32, !READ_32_bytes. unfold READ_8.
  rewrite nth_skipn. reflexivity.
Qed.

Lemma byte_at_firstn l n k : (k < n)%nat -> byte_at (firstn n l) k = byte_at l k.
Proof.
  intros H. unfold byte_at. rewrite nth_firstn.
  destruct (Nat.ltb_spec k n); [reflexivity|lia].
Qed.

(** C3.  The encoder stores the block size, lowest byte first, in the four
    bytes at offset 16 of the header, and the original length in the four
    bytes at offset 12.  The decoder takes its block size from the
    little-endian word at offset 12, the bytes of the original length: for a
    header of 20 bytes with the magic, the decoded block size is the decoded
    original length, whatever the bytes from offset 16 on are; what is decoded
    from a header that was encoded is the original length, not the block
    size. *)
Theorem header_block_size_read_at_12 (source : list byte)
        (type block_size compressed original : Z) :
  (20 <= length source)%nat ->
  firstn 7 source = BLOCK_MAGIC ->
  let dest := fastlz_write_header type block_size compressed original in
  (forall k, (k < 4)%nat ->
             byte_at dest (16 + k) = block_size / 2 ^ (8 * Z.of_nat k) mod 256
             /\ byte_at dest (12 + k) = original / 2 ^ (8 * Z.of_nat k) mod 256)
  /\ (let word k := byte_at source k + 2 ^ 8 * byte_at source (k + 1)
                    + 2 ^ 16 * byte_at source (k + 2) + 2 ^ 24 * byte_at source (k + 3) in
      fastlz_read_header source = (byte_at source 7, word 12%nat, word 8%nat, word 12%nat))
  /\ (forall source',
         firstn 16 source' = firstn 16 source ->
         fastlz_read_header source' = fastlz_read_header source)
  /\ (forall rest,
         fastlz_read_header (dest ++ rest)
         = (type mod 256, original mod 2 ^ 32, compressed mod 2 ^ 32, original mod 2 ^ 32)).
Proof.
  intros Hlen Hmagic dest. split; [|split; [|split]].
  - intros k Hk. split.
    + change dest
        with ((BLOCK_MAGIC ++ WRITE_8 type ++ WRITE_32 compressed ++ WRITE_32 original)
                ++ WRITE_32 block_size ++ []).
      apply (WRITE_32_bytes block_size
               (BLOCK_MAGIC ++ WRITE_8 type ++ WRITE_32 compressed ++ WRITE_32 original)
               [] k Hk).
    + change dest
        with ((BLOCK_MAGIC ++ WRITE_8 type ++ WRITE_32 compressed)
                ++ WRITE_32 original ++ WRITE_32 block_size).
      apply (WRITE_32_bytes original
               (BLOCK_MAGIC ++ WRITE_8 type ++ WRITE_32 compressed)
               (WRITE_32 block_size) k Hk).
  - cbv zeta. apply read_header_bytes. exact Hmagic.
  - intros source' Hsame.
    assert (Hmagic' : firstn 7 source' = BLOCK_MAGIC).
    { rewrite <- Hmagic.
      change 7%nat with (Init.Nat.min 7 16).
      rewrite <- !firstn_firstn, Hsame. reflexivity. }
    rewrite !read_header_bytes by assumption.
    assert (Hb : forall k, (k < 16)%nat -> byte_at source' k = byte_at source k).
    { intros k Hk. rewrite <- (byte_at_firstn source' 16 k Hk), Hsame.
      apply byte_at_firstn. exact Hk. }
    rewrite !Hb by lia. reflexivity.
  - intros rest. apply read_write_header.
Qed.

Lemma header_block_size_read_at_12_witness :
  byte_at (fastlz_write_header BLOCK_TYPE_COMPRESSED 64 0 0) 16 = 64
  /\ fastlz_read_header eof_marker_64 = (BLOCK_TYPE_COMPRESSED, 0, 0, 0).
Proof.
  destruct (header_block_size_read_at_12 eof_marker_64 BLOCK_TYPE_COMPRESSED 64 0 0)
    as (Hw & Hr & _).
  - cbn. lia.
  - reflexivity.
  - split.
    + exact (proj1 (Hw 0%nat (Nat.lt_0_succ 3))).
    + rewrite Hr. reflexivity.
Defined.

(** ** Stream sniffing *)

Lemma int_of_uInt_zero u : 0 <= u < 2 ^ 32 -> (int_of_uInt u =? 0) = (u =? 0).
Proof.
  intros H. unfold int_of_uInt. change (2 ^ 32) with 4294967296 in *.
  change (2 ^ 31) with 2147483648.
  destruct (Z.ltb_spec u 2147483648); [reflexivity|].
  destruct (Z.eqb_spec (u - 4294967296) 0), (Z.eqb_spec u 0); try reflexivity; lia.
Qed.

Lemma fastlzlibIsCompressedStream_short input length :
  length < HEADER_SIZE -> fastlzlibIsCompressedStream input length = Z_BUF_ERROR.
Proof.
  intros H. unfold fastlzlibIsCompressedStream.
  destruct (Z.leb_spec HEADER_SIZE length); [lia|reflexivity].
Qed.

Lemma fastlzlibIsCompressedStream_bad_magic input length :
  HEADER_SIZE <= length -> firstn 7 input <> BLOCK_MAGIC ->
  fastlzlibIsCompressedStream input length = Z_DATA_ERROR.
Proof.
  intros H Hm. unfold fastlzlibIsCompressedStream, fastlzlibGetStreamBlockSize.
  destruct (Z.leb_spec HEADER_SIZE length); [|lia].
  unfold fastlz_read_header.
  destruct (bytes_eqb (firstn 7 input) BLOCK_MAGIC) eqn:E.
  - apply bytes_eqb_eq in E. contradiction.
  - reflexivity.
Qed.

Lemma fastlzlibIsCompressedStream_magic input length :
  HEADER_SIZE <= length -> firstn 7 input = BLOCK_MAGIC ->
  fastlzlibIsCompressedStream input length
  = if READ_32 (skipn 12 input) =? 0 then Z_DATA_ERROR else Z_OK.
Proof.
  intros H Hm. unfold fastlzlibIsCompressedStream, fastlzlibGetStreamBlockSize.
  destruct (Z.leb_spec HEADER_SIZE length); [|lia].
  unfold fastlz_read_header.
  replace (bytes_eqb _ BLOCK_MAGIC) with true
    by (symmetry; apply bytes_eqb_eq; exact Hm).
  rewrite uInt_READ_32, int_of_uInt_zero by apply READ_32_range.
  destruct (READ_32 (skipn 12 input) =? 0); reflexivity.
Qed.

(** C6.  A buffer of 20 bytes that starts with the magic is reported as
    [Z_DATA_ERROR] when the word at offset 12 (the original length) is zero:
    so is the end of stream marker that the compressor itself writes, for any
    block size. *)
Theorem fastlzlibIsCompressedStream_eof_marker :
  firstn 7 eof_marker_64 = BLOCK_MAGIC /\
  fastlzlibIsCompressedStream eof_marker_64 20 = Z_DATA_ERROR /\
  forall block_size,
    fastlzlibIsCompressedStream
      (fastlz_write_header BLOCK_TYPE_COMPRESSED block_size 0 0) 20 = Z_DATA_ERROR.
Proof.
  split; [reflexivity|]. split; [reflexivity|]. intros bs.
  rewrite fastlzlibIsCompressedStream_magic by (reflexivity || (unfold HEADER_SIZE; lia)).
  change (skipn 12 (fastlz_write_header BLOCK_TYPE_COMPRESSED bs 0 0))
    with (WRITE_32 0 ++ WRITE_32 bs).
  rewrite READ_32_WRITE_32. reflexivity.
Qed.

(** ** Proof tools *)

Ltac stream_simpl :=
  unfold apply_header, error, upd, set_state, set_msg, set_next_out,
    set_level, set_inHdr, set_inHdrOffs, set_block_type, set_str_size, set_dec_size,
    set_inBuff, set_outBuff, set_inBuffOffs, set_outBuffOffs,
    BUFFER_BLOCK_SIZE, BLOCK_SIZE, ZFAST_IS_DECOMPRESSING, ZFAST_IS_COMPRESSING,
    ZFAST_INPUT_IS_EMPTY, ZFAST_OUTPUT_IS_FULL, ZFAST_HAS_BUFFERED_OUTPUT in *;
  cbn [next_in avail_in total_in next_out avail_out total_out out_log msg state
       level inHdr inHdrOffs block_size block_type str_size dec_size
       inBuff outBuff inBuffOffs outBuffOffs] in *.

Ltac destruct_stream s :=
  let st := fresh "st" in
  destruct s as [? ? ? ? ? ? ? ? st]; destruct st; stream_simpl.

Ltac constants :=
  unfold EXPANSION_RATIO, EXPANSION_SECURITY, HEADER_SIZE, MIN_BLOCK_SIZE,
    DEFAULT_BLOCK_SIZE, BLOCK_TYPE_RAW, BLOCK_TYPE_COMPRESSED, BLOCK_TYPE_BAD_MAGIC,
    ZFAST_LEVEL_DECOMPRESS, Z_OK, Z_STREAM_END, Z_STREAM_ERROR, Z_DATA_ERROR,
    Z_MEM_ERROR, Z_BUF_ERROR, Z_VERSION_ERROR, Z_NO_FLUSH, Z_FINISH,
    Z_NO_COMPRESSION, Z_BEST_SPEED, Z_BEST_COMPRESSION in *;
  change (2 ^ 32) with 4294967296 in *;
  change (2 ^ 31) with 2147483648 in *.

(** ** Return codes of the processing routine *)

Ltac break_hyp H :=
  match type of H with
  | context [if ?b then _ else _] => destruct b eqn:?
  | context [match ?x with _ => _ end] => destruct x eqn:?
  end.

Ltac inv_some H :=
  repeat (first [ discriminate H
                | progress (injection H as H)
                | break_hyp H ]);
  subst.

Section Codes.
Context {lz : FastLZ}.

Lemma drain_output_code s r s' : drain_output s = Some (r, s') -> r = Z_OK.
Proof.
  unfold drain_output, bind. intros H.
  repeat break_hyp H; try discriminate H; injection H as <- _; reflexivity.
Qed.

Lemma decompress_header_code s r s' :
  decompress_header s true = Some (inl (r, s')) -> r = Z_OK.
Proof.
  unfold decompress_header, bind. rewrite !andb_false_r. cbn [negb andb].
  intros H.
  repeat break_hyp H; try discriminate H; injection H as <- _; reflexivity.
Qed.

Lemma compress_header_code s flush r s' :
  compress_header s flush true <> inl (r, s').
Proof.
  unfold compress_header. rewrite !andb_false_r. discriminate.
Qed.

Lemma check_block_code s bs r s' :
  check_block s bs = Some (Return r s') ->
  r = Z_DATA_ERROR \/ r = Z_VERSION_ERROR \/ r = Z_STREAM_END.
Proof.
  unfold check_block, bind. intros H.
  repeat break_hyp H; try discriminate H; injection H as <- _; auto.
Qed.

Lemma next_block_code s flush r s' :
  next_block s flush true = Some (Return r s') ->
  r = Z_OK \/ r = Z_DATA_ERROR \/ r = Z_VERSION_ERROR \/ r = Z_STREAM_END.
Proof.
  unfold next_block, bind. intros H.
  destruct (ZFAST_IS_DECOMPRESSING s).
  - destruct (decompress_header s true) as [[[c t]|[t b]]|] eqn:E; try discriminate H.
    + injection H as <- _. left. eapply decompress_header_code; eauto.
    + right. eapply check_block_code; eauto.
  - destruct (compress_header s flush true) as [[c t]|[t b]] eqn:E.
    + exfalso. eapply compress_header_code; eauto.
    + right. eapply check_block_code; eauto.
Qed.

Lemma transform_code s in_ flush r s' :
  transform s in_ flush = Some (inl (r, s')) -> r = Z_STREAM_ERROR.
Proof.
  unfold transform, decompress_block, bind. intros H.
  repeat break_hyp H; try discriminate H; injection H as <- _; reflexivity.
Qed.

Lemma finish_code s flush :
  fst (finish s flush) = Z_OK \/ fst (finish s flush) = Z_STREAM_END.
Proof. unfold finish. destruct (_ && _); auto. Qed.

(** The codes that a call in buffered mode can return. *)
Lemma fastlzlibProcess_codes s flush r s' :
  fastlzlibProcess s flush true = Some (r, s') ->
  r = Z_OK \/ r = Z_STREAM_END \/ r = Z_STREAM_ERROR \/ r = Z_DATA_ERROR
  \/ r = Z_VERSION_ERROR.
Proof.
  unfold fastlzlibProcess, bind. intros H.
  destruct (is_null (next_in s) && negb (ZFAST_INPUT_IS_EMPTY s));
    [injection H as <- _; auto|].
  destruct (is_null (next_out s) && negb (ZFAST_OUTPUT_IS_FULL s));
    [injection H as <- _; auto|].
  destruct (ZFAST_HAS_BUFFERED_OUTPUT s);
    [apply drain_output_code in H; auto|].
  destruct (if str_size (state s) =? 0 then next_block s flush true
            else Some (Continue s None)) as [[c t|t i]|] eqn:E; try discriminate H.
  - injection H as <- _.
    destruct (str_size (state s) =? 0); [|discriminate E].
    apply next_block_code in E. intuition.
  - destruct (match i with None => buffer_input t flush | Some _ => Some (t, i) end)
      as [[t2 [i2|]]|]; try discriminate H.
    + destruct (transform t2 i2 flush) as [[[c u]|u]|] eqn:T; try discriminate H.
      * injection H as <- _. apply transform_code in T. auto.
      * injection H as H. pose proof (finish_code u flush) as F.
        rewrite H in F. simpl in F. intuition.
    + injection H as H. pose proof (finish_code t2 flush) as F.
      rewrite H in F. simpl in F. intuition.
Qed.

(** C7.  A call of the processing routine in buffered mode ([may_buffer]
    true) never returns [Z_BUF_ERROR]. *)
Theorem fastlzlibProcess_may_buffer_no_BUF_ERROR s flush r s' :
  fastlzlibProcess s flush true = Some (r, s') -> r <> Z_BUF_ERROR.
Proof.
  intros H. apply fastlzlibProcess_codes in H.
  unfold Z_OK, Z_STREAM_END, Z_STREAM_ERROR, Z_DATA_ERROR, Z_VERSION_ERROR,
    Z_BUF_ERROR in *. lia.
Qed.

End Codes.

Lemma fastlzlibProcess_may_buffer_no_BUF_ERROR_witness :
  let s := with_output (with_input (decompress_stream 64) hello_compressed)
                       (repeat x00 100) in
  @fastlzlibProcess stored_lz s Z_NO_FLUSH true
  = Some (Z_OK, after (@fastlzlibProcess stored_lz s Z_NO_FLUSH true))
  /\ Z_OK <> Z_BUF_ERROR.
Proof.
  intros s.
  assert (H : @fastlzlibProcess stored_lz s Z_NO_FLUSH true
              = Some (Z_OK, after (@fastlzlibProcess stored_lz s Z_NO_FLUSH true)))
    by (vm_compute; reflexivity).
  split; [exact H|].
  exact (@fastlzlibProcess_may_buffer_no_BUF_ERROR stored_lz _ _ _ _ H).
Defined.

(** ** Lists of bytes *)

Lemma len_nonneg l : 0 <= len l.
Proof. unfold len. lia. Qed.

Lemma len_nil : len [] = 0.
Proof. reflexivity. Qed.

Lemma len_zero_nil l : len l = 0 -> l = [].
Proof. destruct l; [reflexivity|]. unfold len. simpl. lia. Qed.

Lemma len_app a b : len (a ++ b) = len a + len b.
Proof. unfold len. rewrite length_app. lia. Qed.

Lemma len_take n l : 0 <= n -> len (take n l) = Z.min n (len l).
Proof. intros H. unfold len, take. rewrite length_firstn. lia. Qed.

Lemma len_drop n l : 0 <= n -> len (drop n l) = Z.max 0 (len l - n).
Proof. intros H. unfold len, drop. rewrite length_skipn. lia. Qed.

Lemma take_drop n l : take n l ++ drop n l = l.
Proof. apply firstn_skipn. Qed.

Lemma take_all n l : len l <= n -> take n l = l.
Proof. intros H. unfold len, take in *. apply firstn_all2. lia. Qed.

Lemma drop_all n l : len l <= n -> drop n l = [].
Proof. intros H. unfold len, drop in *. apply skipn_all2. lia. Qed.

Lemma take_nonpos n l : n <= 0 -> take n l = [].
Proof. intros H. unfold take. replace (Z.to_nat n) with 0%nat by lia. reflexivity. Qed.

Lemma drop_nonpos n l : n <= 0 -> drop n l = l.
Proof. intros H. unfold drop. replace (Z.to_nat n) with 0%nat by lia. reflexivity. Qed.

Lemma take_app_exact n a b : len a = n -> take n (a ++ b) = a.
Proof.
  intros H. unfold len, take in *. rewrite firstn_app.
  replace (Z.to_nat n - length a)%nat with 0%nat by lia.
  rewrite firstn_all2 by lia. simpl. apply app_nil_r.
Qed.

Lemma drop_app_exact n a b : len a = n -> drop n (a ++ b) = b.
Proof.
  intros H. unfold len, drop in *. rewrite skipn_app.
  replace (Z.to_nat n - length a)%nat with 0%nat by lia.
  rewrite skipn_all2 by lia. reflexivity.
Qed.

Lemma take_app_le n a b : 0 <= n <= len a -> take n (a ++ b) = take n a.
Proof.
  intros H. unfold len, take in *. rewrite firstn_app.
  replace (Z.to_nat n - length a)%nat with 0%nat by lia.
  simpl. apply app_nil_r.
Qed.

Lemma drop_app_le n a b : 0 <= n <= len a -> drop n (a ++ b) = drop n a ++ b.
Proof.
  intros H. unfold len, drop in *. rewrite skipn_app.
  replace (Z.to_nat n - length a)%nat with 0%nat by lia. reflexivity.
Qed.

Lemma drop_drop a b l : 0 <= a -> 0 <= b -> drop a (drop b l) = drop (b + a) l.
Proof.
  intros Ha Hb. unfold drop. rewrite skipn_skipn. f_equal. lia.
Qed.

Lemma take_add a b l :
  0 <= a -> 0 <= b -> take (a + b) l = take a l ++ take b (drop a l).
Proof.
  intros Ha Hb. unfold take, drop.
  rewrite <- (firstn_skipn (Z.to_nat a) l) at 1.
  rewrite firstn_app, length_firstn.
  destruct (Nat.le_gt_cases (Z.to_nat a) (length l)) as [Hl|Hl].
  - rewrite Nat.min_l by lia.
    replace (Z.to_nat (a + b) - Z.to_nat a)%nat with (Z.to_nat b) by lia.
    f_equal. rewrite firstn_firstn. f_equal. lia.
  - rewrite Nat.min_r by lia. rewrite (skipn_all2 l) by lia.
    rewrite !firstn_nil, !app_nil_r. rewrite firstn_firstn. f_equal. lia.
Qed.

Lemma memcpy_at_0 buf src : memcpy_at buf 0 src = src ++ drop (len src) buf.
Proof. reflexivity. Qed.

Lemma take_memcpy_at_0 buf src : take (len src) (memcpy_at buf 0 src) = src.
Proof. rewrite memcpy_at_0. apply take_app_exact. reflexivity. Qed.

Ltac zbool :=
  repeat match goal with
    | |- context [?a <? ?b] => destruct (Z.ltb_spec a b); try lia
    | |- context [?a <=? ?b] => destruct (Z.leb_spec a b); try lia
    | |- context [?a =? ?b] => destruct (Z.eqb_spec a b); try lia
    end.

(** ** The drain phase *)

Section Drain.
Context {lz : FastLZ}.

Lemma sanity_passes (p : option (list byte)) (avail : Z) :
  p <> None \/ avail = 0 -> is_null p && negb (avail =? 0) = false.
Proof.
  intros [H| ->].
  - destruct p; [reflexivity|contradiction].
  - apply andb_false_r.
Qed.

(** C10.  A call made while buffered output is pending, with pointers that
    pass the sanity check at the head of the routine, returns [Z_OK] after
    copying [min (dec_size - outBuffOffs) avail_out] bytes of the output
    buffer to [next_out], and leaves [next_in], [avail_in] and [total_in] as
    they were. *)
Theorem drain_call_frame s flush may_buffer :
  ZFAST_HAS_BUFFERED_OUTPUT s = true ->
  next_in s <> None \/ avail_in s = 0 ->
  next_out s <> None \/ avail_out s = 0 ->
  0 <= outBuffOffs (state s) ->
  dec_size (state s) < 2 ^ 32 ->
  dec_size (state s) <= len (outBuff (state s)) ->
  0 <= avail_out s ->
  let size := Z.min (dec_size (state s) - outBuffOffs (state s)) (avail_out s) in
  let copied := take size (drop (outBuffOffs (state s)) (outBuff (state s))) in
  exists s',
    fastlzlibProcess s flush may_buffer = Some (Z_OK, s')
    /\ len copied = size
    /\ out_log s' = out_log s ++ copied
    /\ outBuffOffs (state s') = outBuffOffs (state s) + size
    /\ avail_out s' = avail_out s - size
    /\ total_out s' = total_out s + size
    /\ next_in s' = next_in s
    /\ avail_in s' = avail_in s
    /\ total_in s' = total_in s.
Proof.
  intros Hbuf Hin Hout Hoffs Hdec Hcap Havail size copied.
  unfold fastlzlibProcess, ZFAST_INPUT_IS_EMPTY, ZFAST_OUTPUT_IS_FULL.
  rewrite (sanity_passes _ _ Hin), (sanity_passes _ _ Hout), Hbuf.
  unfold ZFAST_HAS_BUFFERED_OUTPUT in Hbuf. apply Z.ltb_lt in Hbuf.
  assert (Hsize : size = Z.min (dec_size (state s) - outBuffOffs (state s))
                               (avail_out s)) by reflexivity.
  assert (Hcopied : len copied = size).
  { unfold copied. rewrite len_take, len_drop by lia. lia. }
  unfold drain_output.
  rewrite uInt_small by lia.
  replace (if avail_out s <? dec_size (state s) - outBuffOffs (state s)
           then avail_out s else dec_size (state s) - outBuffOffs (state s))
    with size by (rewrite Hsize; zbool).
  fold copied. clearbody size copied.
  destruct (Z.ltb_spec 0 size) as [Hpos|Hzero].
  - unfold outSeek, bind, upd, set_next_out, set_state.
    cbn [avail_out state next_out out_log total_out next_in avail_in total_in
         outBuffOffs set_outBuffOffs].
    destruct (Z.leb_spec size (avail_out s)); [|lia].
    eexists. split; [reflexivity|].
    cbn [avail_out state next_out out_log total_out next_in avail_in total_in
         outBuffOffs set_outBuffOffs].
    rewrite uInt_small by lia.
    repeat split; try reflexivity; try assumption.
    destruct Hout as [Hout|Hout]; [|lia].
    destruct (next_out s) as [m|]; [|contradiction].
    cbn [ptr_write option_map deref].
    rewrite <- Hcopied at 1. rewrite take_memcpy_at_0. reflexivity.
  - assert (Hz : size = 0) by lia. rewrite Hz in *.
    apply len_zero_nil in Hcopied. subst copied.
    exists s. split; [reflexivity|].
    rewrite app_nil_r. repeat split; try lia; try assumption.
Qed.

End Drain.

Lemma drain_call_frame_witness :
  let s := with_output
             (after (@fastlzlibDecompress stored_lz
                       (with_output (with_input (decompress_stream 64) hello_compressed)
                                    [x00; x00])))
             [x00; x00] in
  ZFAST_HAS_BUFFERED_OUTPUT s = true
  /\ exists s',
      @fastlzlibProcess stored_lz s Z_NO_FLUSH true = Some (Z_OK, s')
      /\ out_log s' = [x68; x65]
      /\ avail_in s' = avail_in s.
Proof.
  intros s. split; [reflexivity|].
  destruct (@drain_call_frame stored_lz s Z_NO_FLUSH true) as (s' & H & _ & Hlog & _ & _ & _ & _ & Hin & _).
  - reflexivity.
  - left. discriminate.
  - left. discriminate.
  - vm_compute. discriminate.
  - vm_compute. reflexivity.
  - vm_compute. discriminate.
  - vm_compute. discriminate.
  - exists s'. split; [exact H|]. split; [exact Hlog|exact Hin].
Defined.

(** C10, as stated, fails on a call that passes a NULL [next_in] with a
    nonzero [avail_in]: the sanity check comes before the drain and the call
    returns [Z_STREAM_ERROR] while output is pending. *)
Lemma drain_call_null_input :
  let s := after (@fastlzlibDecompress stored_lz
                    (with_output (with_input (decompress_stream 64) hello_compressed)
                                 [x00; x00])) in
  let s := mkStream None 1 (total_in s) (Some [x00; x00]) 2 (total_out s)
                    (out_log s) (msg s) (state s) in
  ZFAST_HAS_BUFFERED_OUTPUT s = true
  /\ option_map fst (@fastlzlibProcess stored_lz s Z_NO_FLUSH true)
     = Some Z_STREAM_ERROR.
Proof. split; reflexivity. Qed.

(** ** Initialisation *)

Lemma fastlzlibInit_ok zalloc_ok s bs s' :
  fastlzlibInit zalloc_ok s bs = (Z_OK, Some s') -> BLOCK_SIZE s' = uInt bs.
Proof.
  unfold fastlzlibInit. intros H.
  destruct s as [s|]; [|discriminate H].
  destruct (_ && _); [|discriminate H].
  injection H as <-. reflexivity.
Qed.

Lemma fastlzlibInit_code zalloc_ok s bs r s' :
  fastlzlibInit zalloc_ok s bs = (r, Some s') -> r = Z_OK.
Proof.
  unfold fastlzlibInit. intros H.
  destruct s as [s|]; [|discriminate H].
  destruct (_ && _); [|discriminate H].
  injection H as <- _. reflexivity.
Qed.

Lemma fastlzlibCompressInit2_ok zalloc_ok s level bs s' :
  fastlzlibCompressInit2 zalloc_ok s level bs = (Z_OK, Some s') ->
  BLOCK_SIZE s' = uInt bs.
Proof.
  unfold fastlzlibCompressInit2. intros H.
  destruct (fastlzlibInit zalloc_ok s bs) as [r [t|]] eqn:E.
  - pose proof (fastlzlibInit_code _ _ _ _ _ E) as ->.
    apply fastlzlibInit_ok in E. cbn in H. injection H as <-. exact E.
  - destruct (r =? Z_OK); discriminate H.
Qed.

Lemma fastlzlibDecompressInit2_ok zalloc_ok s bs s' :
  fastlzlibDecompressInit2 zalloc_ok s bs = (Z_OK, Some s') ->
  BLOCK_SIZE s' = uInt bs.
Proof.
  unfold fastlzlibDecompressInit2. intros H.
  destruct (fastlzlibInit zalloc_ok s bs) as [r [t|]] eqn:E.
  - pose proof (fastlzlibInit_code _ _ _ _ _ E) as ->.
    apply fastlzlibInit_ok in E. cbn in H. injection H as <-. exact E.
  - destruct (r =? Z_OK); discriminate H.
Qed.

(** C8.  After a successful [fastlzlibCompressInit2] or
    [fastlzlibDecompressInit2] the stored block size is the [block_size]
    argument converted to [uInt]: no lower bound is enforced, and the stored
    value is at least [MIN_BLOCK_SIZE] exactly when that converted argument
    is.  [fastlzlibCompressInit] and [fastlzlibDecompressInit] store the
    default, 32768. *)
Theorem init_stores_block_size zalloc_ok s level block_size s' :
  fastlzlibCompressInit2 zalloc_ok s level block_size = (Z_OK, Some s')
  \/ fastlzlibDecompressInit2 zalloc_ok s block_size = (Z_OK, Some s') ->
  BLOCK_SIZE s' = uInt block_size
  /\ (MIN_BLOCK_SIZE <= BLOCK_SIZE s' <-> MIN_BLOCK_SIZE <= uInt block_size)
  /\ (forall t, fastlzlibCompressInit zalloc_ok s level = (Z_OK, Some t) ->
                BLOCK_SIZE t = 32768)
  /\ (forall t, fastlzlibDecompressInit zalloc_ok s = (Z_OK, Some t) ->
                BLOCK_SIZE t = 32768).
Proof.
  intros H.
  assert (E : BLOCK_SIZE s' = uInt block_size).
  { destruct H as [H|H].
    - eapply fastlzlibCompressInit2_ok; eauto.
    - eapply fastlzlibDecompressInit2_ok; eauto. }
  split; [exact E|]. split; [rewrite E; reflexivity|]. split; intros t Ht.
  - apply fastlzlibCompressInit2_ok in Ht. exact Ht.
  - apply fastlzlibDecompressInit2_ok in Ht. exact Ht.
Qed.

Lemma init_stores_block_size_witness :
  fastlzlibCompressInit2 zalloc_always (Some blank_stream) 9 64
  = (Z_OK, Some (compress_stream 9 64))
  /\ BLOCK_SIZE (compress_stream 9 64) = uInt 64.
Proof.
  assert (H : fastlzlibCompressInit2 zalloc_always (Some blank_stream) 9 64
              = (Z_OK, Some (compress_stream 9 64))) by reflexivity.
  split; [exact H|].
  exact (proj1 (init_stores_block_size zalloc_always (Some blank_stream) 9 64
                  (compress_stream 9 64) (or_introl H))).
Defined.

(** C8, as stated, fails: initialisation with a block size of 10 succeeds and
    stores 10, below [MIN_BLOCK_SIZE]. *)
Lemma init_block_size_below_minimum :
  fst (fastlzlibCompressInit2 zalloc_always (Some blank_stream) 9 10) = Z_OK
  /\ BLOCK_SIZE (compress_stream 9 10) = 10
  /\ fst (fastlzlibDecompressInit2 zalloc_always (Some blank_stream) 10) = Z_OK
  /\ BLOCK_SIZE (decompress_stream 10) = 10
  /\ 10 < MIN_BLOCK_SIZE.
Proof. repeat split. Qed.

(** ** Compressing the empty input *)

Section Empty.
Context {lz : FastLZ}.

Lemma BUFFER_BLOCK_SIZE_range s : 0 <= BUFFER_BLOCK_SIZE s < 2 ^ 32.
Proof. apply uInt_range. Qed.

(** An idle compressor that is asked to finish with no input returns
    [Z_STREAM_END] from the end of stream test of line 543, before anything
    is written. *)
Lemma compress_finish_idle_empty s :
  ZFAST_IS_COMPRESSING s = true ->
  ZFAST_HAS_BUFFERED_OUTPUT s = false ->
  str_size (state s) = 0 ->
  avail_in s = 0 ->
  next_out s <> None \/ avail_out s = 0 ->
  0 <= BLOCK_SIZE s ->
  fastlzlibCompress s Z_FINISH
  = Some (Z_STREAM_END,
          upd set_outBuffOffs (apply_header s BLOCK_TYPE_COMPRESSED 0 0) 0).
Proof.
  intros Hc Hb Hs Ha Hout Hbs.
  pose proof (BUFFER_BLOCK_SIZE_range s) as Hcap.
  unfold fastlzlibCompress, fastlzlibCompress2. rewrite Hc.
  unfold fastlzlibProcess, ZFAST_INPUT_IS_EMPTY, ZFAST_OUTPUT_IS_FULL.
  rewrite (sanity_passes _ _ (or_intror Ha)), (sanity_passes _ _ Hout), Hb, Hs.
  cbn [Z.eqb]. unfold next_block, ZFAST_IS_DECOMPRESSING. rewrite Hc.
  cbn [negb bind]. unfold compress_header. rewrite andb_false_r, Ha.
  replace (if (0 <? BLOCK_SIZE s) && (Z_NO_FLUSH <? Z_FINISH) then 0 else BLOCK_SIZE s)
    with 0 by (unfold Z_NO_FLUSH, Z_FINISH; cbn [Z.ltb Z.compare]; zbool;
               cbn [andb]; lia).
  unfold check_block, apply_header, upd, set_state, BUFFER_BLOCK_SIZE, BLOCK_SIZE in *.
  cbn [state dec_size str_size block_type block_size set_block_type set_str_size
       set_dec_size set_outBuffOffs avail_in].
  unfold BLOCK_TYPE_COMPRESSED, BLOCK_TYPE_BAD_MAGIC, BLOCK_TYPE_RAW.
  cbn [Z.eqb Pos.eqb negb andb].
  destruct (Z.ltb_spec (block_size (state s)) 0); [lia|].
  destruct (Z.ltb_spec (uInt (block_size (state s)
              + block_size (state s) / EXPANSION_RATIO + HEADER_SIZE * 2)) 0); [lia|].
  reflexivity.
Qed.

(** C2.  On a freshly initialised compressor, whatever the level and the
    block size, [fastlzlibCompress] with no input and [Z_FINISH] returns
    [Z_STREAM_END] and writes nothing: the 20 bytes of the end of stream marker
    are not produced. *)
Theorem compress_empty_finish_writes_nothing (level block_size : Z) (m : list byte) :
  exists s',
    fastlzlibCompress (with_output (with_input (compress_stream level block_size) []) m)
                      Z_FINISH
    = Some (Z_STREAM_END, s')
    /\ out_log s' = []
    /\ total_out s' = 0
    /\ avail_out s' = len m.
Proof.
  eexists. split.
  - apply compress_finish_idle_empty; try reflexivity.
    + unfold ZFAST_IS_COMPRESSING, compress_stream, fastlzlibCompressInit2,
        ZFAST_LEVEL_DECOMPRESS, Z_NO_COMPRESSION, Z_BEST_COMPRESSION.
      cbn. destruct ((level <? 0) || (9 <? level)) eqn:E; [reflexivity|].
      apply orb_false_iff in E. destruct E as [E1 E2].
      apply Z.ltb_ge in E1. apply negb_true_iff, Z.eqb_neq. lia.
    + left. discriminate.
    + unfold compress_stream, fastlzlibCompressInit2. cbn.
      apply uInt_range.
  - repeat split.
Qed.

End Empty.

(** The end of stream marker is what the block wrapper writes for an empty
    block under [Z_FINISH]; the processing routine reaches it when the
    compressor holds a block in progress, as after a call with no input and
    [Z_NO_FLUSH]. *)
Lemma compress_empty_after_no_flush :
  let s := with_output (with_input (compress_stream 9 64) []) (repeat x00 100) in
  let s1 := after (@fastlzlibCompress stored_lz s Z_NO_FLUSH) in
  @fastlz_compress_hdr stored_lz [] 0 66 64 2 Z_FINISH = Some eof_marker_64
  /\ option_map fst (@fastlzlibCompress stored_lz s Z_NO_FLUSH) = Some Z_OK
  /\ option_map fst (@fastlzlibCompress stored_lz s1 Z_FINISH) = Some Z_STREAM_END
  /\ out_log (after (@fastlzlibCompress stored_lz s1 Z_FINISH)) = eof_marker_64.
Proof. repeat split. Qed.

(** Decompressing the 20 bytes of an end of stream marker produces nothing and
    returns [Z_STREAM_END]. *)
Lemma decompress_eof_marker :
  let s := with_output (with_input (decompress_stream 64) eof_marker_64)
                       (repeat x00 100) in
  option_map fst (@fastlzlibDecompress stored_lz s) = Some Z_STREAM_END
  /\ out_log (after (@fastlzlibDecompress stored_lz s)) = []
  /\ avail_in (after (@fastlzlibDecompress stored_lz s)) = 0.
Proof. repeat split. Qed.

(** ** Decompressing a RAW block *)

Lemma int_of_uInt_inj a b :
  0 <= a < 2 ^ 32 -> 0 <= b < 2 ^ 32 -> int_of_uInt a = int_of_uInt b -> a = b.
Proof.
  unfold int_of_uInt. change (2 ^ 32) with 4294967296. change (2 ^ 31) with 2147483648.
  intros Ha Hb. destruct (Z.ltb_spec a 2147483648), (Z.ltb_spec b 2147483648); lia.
Qed.

Lemma int_of_uInt_0 a : 0 <= a < 2 ^ 32 -> 0 = int_of_uInt a -> a = 0.
Proof.
  unfold int_of_uInt. change (2 ^ 32) with 4294967296. change (2 ^ 31) with 2147483648.
  intros Ha. destruct (Z.ltb_spec a 2147483648); lia.
Qed.

Section Raw.
Context {lz : FastLZ}.

(** C5.  The transform of a RAW block copies the [str_size] payload bytes to
    its destination when [str_size <= dec_size], and copies nothing
    otherwise; it returns [Z_STREAM_ERROR] or goes on, and when [dec_size] is
    not zero it goes on only if [dec_size = str_size]. *)
Theorem raw_block_transform s in_ flush :
  ZFAST_IS_DECOMPRESSING s = true ->
  block_type (state s) = BLOCK_TYPE_RAW ->
  0 <= str_size (state s) < 2 ^ 32 ->
  0 <= dec_size (state s) < 2 ^ 32 ->
  next_out s <> None \/ avail_out s = 0 ->
  exists r s',
    transform s in_ flush = Some r
    /\ (r = inl (Z_STREAM_ERROR, s') \/ r = inr s')
    /\ destination_after s s'
       = (if str_size (state s) <=? dec_size (state s)
          then memcpy_at (destination_before s) 0 (take (str_size (state s)) in_)
          else destination_before s)
    /\ (dec_size (state s) <> 0 -> r = inr s' ->
        dec_size (state s) = str_size (state s))
    /\ (dec_size (state s) = str_size (state s) -> r = inr s').
Proof.
  intros Hd Ht Hs Hds Hout.
  unfold transform, decompress_block. rewrite Hd, Ht.
  change (BLOCK_TYPE_RAW =? BLOCK_TYPE_COMPRESSED) with false.
  change (BLOCK_TYPE_RAW =? BLOCK_TYPE_RAW) with true. cbv iota.
  unfold destination_after, destination_before.
  set (data := if str_size (state s) <=? dec_size (state s)
               then take (str_size (state s)) in_ else []).
  set (done := if str_size (state s) <=? dec_size (state s)
               then int_of_uInt (str_size (state s)) else 0).
  replace (if str_size (state s) <=? dec_size (state s)
           then Some (int_of_uInt (str_size (state s)), take (str_size (state s)) in_)
           else Some (0, [])) with (Some (done, data))
    by (unfold done, data; destruct (_ <=? _); reflexivity).
  cbn [bind].
  assert (Hmem : forall m, (if str_size (state s) <=? dec_size (state s)
                            then memcpy_at m 0 (take (str_size (state s)) in_) else m)
                           = memcpy_at m 0 data).
  { intros m. unfold data. destruct (_ <=? _); [reflexivity|].
    rewrite memcpy_at_0. rewrite drop_nonpos by (rewrite len_nil; lia). reflexivity. }
  rewrite Hmem.
  assert (Hdone : (done =? int_of_uInt (dec_size (state s))) = true ->
                  dec_size (state s) <> 0 -> dec_size (state s) = str_size (state s)).
  { unfold done. intros E Hnz. apply Z.eqb_eq in E.
    destruct (str_size (state s) <=? dec_size (state s)).
    - symmetry. apply int_of_uInt_inj; assumption.
    - apply int_of_uInt_0 in E; [contradiction|assumption]. }
  assert (Hdone' : dec_size (state s) = str_size (state s) ->
                   (done =? int_of_uInt (dec_size (state s))) = true).
  { unfold done. intros E. rewrite E, Z.leb_refl. apply Z.eqb_refl. }
  assert (Hlen : len data <= dec_size (state s)).
  { unfold data. destruct (Z.leb_spec (str_size (state s)) (dec_size (state s))).
    - rewrite len_take by lia. lia.
    - rewrite len_nil. lia. }
  clearbody done data. clear Hmem.
  destruct_stream s. unfold outSeek, bind. stream_simpl.
  destruct (Z.leb_spec dec_size0 avail_out0) as [Hdir|Hbuf]; stream_simpl.
  - assert (Hmem : drop (len out_log0)
                     (out_log0 ++ take dec_size0 (deref (ptr_write next_out0 data)))
                   ++ deref (ptr_add (ptr_write next_out0 data) dec_size0)
                   = memcpy_at (deref next_out0) 0 data).
    { rewrite drop_app_exact by reflexivity.
      destruct next_out0 as [m|]; cbn [ptr_write ptr_add option_map deref].
      - apply take_drop.
      - destruct Hout as [Hout|Hout]; [contradiction|].
        pose proof (len_nonneg data).
        assert (E : data = []) by (apply len_zero_nil; lia). subst data.
        rewrite take_nonpos by lia. reflexivity. }
    destruct (done =? int_of_uInt dec_size0) eqn:E; cbn [negb];
      do 2 eexists; (split; [reflexivity|]); stream_simpl.
    + split; [right; reflexivity|]. split; [exact Hmem|]. split; auto.
    + split; [left; reflexivity|]. split; [exact Hmem|].
      split; [discriminate|]. intros HH. apply Hdone' in HH. discriminate HH.
  - destruct (done =? int_of_uInt dec_size0) eqn:E; cbn [negb];
      do 2 eexists; (split; [reflexivity|]); stream_simpl.
    + split; [right; reflexivity|]. split; [reflexivity|]. split; auto.
    + split; [left; reflexivity|]. split; [reflexivity|].
      split; [discriminate|]. intros HH. apply Hdone' in HH. discriminate HH.
Qed.

End Raw.

Lemma raw_block_transform_witness :
  let s := with_output (apply_header (decompress_stream 64) BLOCK_TYPE_RAW 5 5)
                       (repeat x00 8) in
  exists r s',
    @transform stored_lz s hello Z_NO_FLUSH = Some r
    /\ r = inr s'
    /\ destination_after s s' = hello ++ [x00; x00; x00].
Proof.
  intros s.
  destruct (@raw_block_transform stored_lz s hello Z_NO_FLUSH)
    as (r & s' & Hr & _ & Hdest & _ & Hok).
  - reflexivity.
  - reflexivity.
  - vm_compute. split; [discriminate|reflexivity].
  - vm_compute. split; [discriminate|reflexivity].
  - left. discriminate.
  - exists r, s'. split; [exact Hr|]. split; [apply Hok; reflexivity|].
    rewrite Hdest. reflexivity.
Defined.

(** C5, as stated, fails on a RAW block that declares more payload bytes than
    original bytes: no payload byte is copied.  Here 5 payload bytes are
    declared for 3 original bytes; the call returns [Z_STREAM_ERROR], the
    cursor has moved over 3 bytes of the caller region and the region is as
    the caller left it. *)
Lemma raw_block_too_long_copies_nothing :
  let s := with_output (with_input (decompress_stream 64) (raw_5_for_3 ++ hello))
                       (repeat x00 100) in
  option_map fst (@fastlzlibDecompress stored_lz s) = Some Z_STREAM_ERROR
  /\ out_log (after (@fastlzlibDecompress stored_lz s)) = [x00; x00; x00]
  /\ next_out (after (@fastlzlibDecompress stored_lz s)) = Some (repeat x00 97).
Proof. repeat split. Qed.

(** A RAW block that declares 5 payload bytes for no original byte is taken
    without error: the value 0 that stands for a failed copy is also the
    declared size. *)
Lemma raw_block_for_no_byte_accepted :
  let s := with_output (with_input (decompress_stream 64) (raw_5_for_0 ++ hello))
                       (repeat x00 100) in
  option_map fst (@fastlzlibDecompress stored_lz s) = Some Z_OK
  /\ out_log (after (@fastlzlibDecompress stored_lz s)) = []
  /\ avail_in (after (@fastlzlibDecompress stored_lz s)) = 0.
Proof. repeat split. Qed.

(** ** Phases of a call *)

Section Phases.
Context {lz : FastLZ}.

Lemma stage_within_refl s : stage_within s s 0 0.
Proof. unfold stage_within. repeat split; auto; lia. Qed.

Lemma stage_within_trans s t u a b c d :
  stage_within s t a b -> stage_within t u c d -> stage_within s u (a + c) (b + d).
Proof.
  unfold stage_within.
  intros (H1 & H2 & H3 & H4 & H5 & H6) (K1 & K2 & K3 & K4 & K5 & K6).
  split; [congruence|]. split; [congruence|]. split; [lia|]. split; [lia|].
  split; [auto|]. intros Ha. destruct (H6 Ha) as [Ha' Ht].
  destruct (K6 Ha') as [Ha'' Ht']. split; [exact Ha''|congruence].
Qed.

Lemma stage_within_le s t a b a' b' :
  stage_within s t a b -> a <= a' -> b <= b' -> stage_within s t a' b'.
Proof.
  unfold stage_within. intros (H1 & H2 & H3 & H4 & H5) Ha Hb.
  split; [exact H1|]. split; [exact H2|]. split; [lia|]. split; [lia|exact H5].
Qed.

Lemma stage_within_then s t u a b :
  stage_within s t a b -> stage_within t u 0 0 -> stage_within s u a b.
Proof.
  intros H K. replace a with (a + 0) by lia. replace b with (b + 0) by lia.
  eapply stage_within_trans; eassumption.
Qed.

Lemma stage_within_after s t u a b :
  stage_within s t 0 0 -> stage_within t u a b -> stage_within s u a b.
Proof.
  intros H K. replace a with (0 + a) by lia. replace b with (0 + b) by lia.
  eapply stage_within_trans; eassumption.
Qed.

(** A stage that changes nothing but the message and fields of the state other
    than the level and the block size. *)
Lemma stage_within_state s t :
  next_in t = next_in s -> avail_in t = avail_in s -> total_in t = total_in s ->
  total_out t = total_out s ->
  level (state t) = level (state s) -> block_size (state t) = block_size (state s) ->
  stage_within s t 0 0.
Proof.
  intros H1 H2 H3 H4 H5 H6. unfold stage_within. rewrite H1, H2, H3, H4, H5, H6.
  repeat split; auto; lia.
Qed.

Lemma BUFFER_BLOCK_SIZE_same s t :
  block_size (state t) = block_size (state s) -> BUFFER_BLOCK_SIZE t = BUFFER_BLOCK_SIZE s.
Proof. unfold BUFFER_BLOCK_SIZE, BLOCK_SIZE. intros ->. reflexivity. Qed.

Lemma inSeek_stage s k t :
  inSeek s k = Some t -> 0 <= k -> 
  state t = state s /\ total_out t = total_out s /\ stage_within s t k 0.
Proof.
  unfold inSeek. destruct (Z.leb_spec k (avail_in s)) as [Hle|Hgt]; [|discriminate].
  intros H Hk. injection H as <-. split; [reflexivity|]. split; [reflexivity|].
  unfold stage_within. cbn [state total_in total_out next_in avail_in].
  repeat split; try lia.
  destruct (next_in s); [discriminate|reflexivity].
Qed.

Lemma outSeek_stage s k t :
  outSeek s k = Some t ->
  state t = state s /\ next_in t = next_in s /\ avail_in t = avail_in s
  /\ total_in t = total_in s /\ total_out t = total_out s + k.
Proof.
  unfold outSeek. destruct (k <=? avail_out s); [|discriminate].
  intros H. injection H as <-. repeat split.
Qed.

Lemma copy_header_stage fuel :
  forall s t, copy_header fuel s = Some t -> stage_within s t (Z.of_nat fuel) 0.
Proof.
  induction fuel as [|fuel IH]; intros s t H.
  - injection H as <-. apply stage_within_refl.
  - cbn [copy_header] in H.
    destruct ((0 <? avail_in s) && (inHdrOffs (state s) <? HEADER_SIZE)) eqn:C.
    + destruct (inSeek _ 1) as [s3|] eqn:E; [|discriminate H]. cbn [bind] in H.
      apply inSeek_stage in E; [|lia]. destruct E as (_ & _ & E).
      apply IH in H.
      replace (Z.of_nat (S fuel)) with (1 + Z.of_nat fuel) by lia.
      replace 0 with (0 + 0) by lia.
      eapply stage_within_trans; [|exact H].
      eapply stage_within_after; [|exact E].
      apply stage_within_state; reflexivity.
    + injection H as <-. eapply stage_within_le; [apply stage_within_refl|lia|lia].
Qed.

Lemma read_header_sizes w t b c o :
  fastlz_read_header w = (t, b, c, o) -> 0 <= c.
Proof.
  unfold fastlz_read_header. destruct (bytes_eqb _ _); intros H; injection H as <- <- <- <-.
  - apply uInt_range.
  - lia.
Qed.

Lemma copy_header_offs fuel :
  forall s t,
    copy_header fuel s = Some t -> 0 <= inHdrOffs (state s) ->
    t = s \/ 0 < inHdrOffs (state t).
Proof.
  induction fuel as [|fuel IH]; intros s t H Ho.
  - injection H as <-. left. reflexivity.
  - cbn [copy_header] in H.
    destruct ((0 <? avail_in s) && (inHdrOffs (state s) <? HEADER_SIZE)) eqn:C.
    + apply andb_true_iff in C. destruct C as [_ C]. apply Z.ltb_lt in C.
      destruct (inSeek _ 1) as [s3|] eqn:E; [|discriminate H]. cbn [bind] in H.
      apply inSeek_stage in E; [|lia]. destruct E as (Est & _).
      assert (H3 : 0 < inHdrOffs (state s3)).
      { rewrite Est. stream_simpl. unfold HEADER_SIZE in C.
        rewrite uInt_small by (change (2 ^ 32) with 4294967296; lia). lia. }
      right. destruct (IH s3 t H) as [->|Ht]; [lia|exact H3|exact Ht].
    + injection H as <-. left. reflexivity.
Qed.

(** H, decompressing: at most the [HEADER_SIZE] bytes of one header are
    taken. *)
Lemma decompress_header_stage s mb res :
  decompress_header s mb = Some res ->
  0 <= inHdrOffs (state s) ->
  match res with
  | inl (_, t) => stage_within s t HEADER_SIZE 0
  | inr (t, _) => stage_within s t HEADER_SIZE 0 /\ 0 <= str_size (state t)
  end.
Proof.
  unfold decompress_header. intros H Ho.
  assert (Hle : forall t, stage_within s t 0 0 -> stage_within s t HEADER_SIZE 0)
    by (intros t M; eapply stage_within_le; [exact M|unfold HEADER_SIZE; lia|lia]).
  destruct (_ && _ && negb mb).
  { injection H as <-. apply Hle, stage_within_state; reflexivity. }
  destruct (negb (inHdrOffs (state s) =? 0) || (avail_in s <? HEADER_SIZE)) eqn:Hb.
  - destruct (copy_header (Z.to_nat HEADER_SIZE) s) as [s1|] eqn:E; [|discriminate H].
    cbn [bind] in H.
    pose proof (copy_header_stage _ _ _ E) as M.
    change (Z.of_nat (Z.to_nat HEADER_SIZE)) with HEADER_SIZE in M.
    assert (Hc : (inHdrOffs (state s1) =? 0) && (HEADER_SIZE <=? avail_in s1) = false).
    { destruct (copy_header_offs _ _ _ E Ho) as [->|Hp].
      - apply orb_true_iff in Hb. destruct Hb as [Hb|Hb].
        + apply negb_true_iff in Hb. rewrite Hb. reflexivity.
        + apply Z.ltb_lt in Hb. apply andb_false_iff. right. apply Z.leb_gt. exact Hb.
      - apply andb_false_iff. left. apply Z.eqb_neq. lia. }
    rewrite Hc in H.
    destruct (inHdrOffs (state s1) =? HEADER_SIZE).
    + destruct mb; [|discriminate H].
      destruct (fastlz_read_header (inHdr (state s1))) as [[[t b] c] o] eqn:R.
      apply read_header_sizes in R. injection H as <-.
      split; [|stream_simpl; exact R].
      eapply stage_within_then; [exact M|]. apply stage_within_state; reflexivity.
    + destruct mb; [|discriminate H]. injection H as <-. exact M.
  - cbn [bind] in H.
    destruct ((inHdrOffs (state s) =? 0) && (HEADER_SIZE <=? avail_in s)).
    + destruct (fastlz_read_header (deref (next_in s))) as [[[t b] c] o] eqn:R.
      apply read_header_sizes in R.
      destruct (negb mb && (avail_in s <? c)).
      { injection H as <-. apply Hle, stage_within_state; reflexivity. }
      destruct (negb mb && (avail_out s <? o)).
      { injection H as <-. apply Hle, stage_within_state; reflexivity. }
      destruct (inSeek _ HEADER_SIZE) as [s2|] eqn:E2; [|discriminate H].
      cbn [bind] in H. injection H as <-.
      apply inSeek_stage in E2; [|unfold HEADER_SIZE; lia].
      destruct E2 as (Est & _ & E2). split; [|rewrite Est; stream_simpl; exact R].
      eapply stage_within_after; [|exact E2]. apply stage_within_state; reflexivity.
    + destruct (inHdrOffs (state s) =? HEADER_SIZE).
      * destruct mb; [|discriminate H].
        destruct (fastlz_read_header (inHdr (state s))) as [[[t b] c] o] eqn:R.
        apply read_header_sizes in R. injection H as <-.
        split; [|stream_simpl; exact R].
        apply Hle, stage_within_state; reflexivity.
      * destruct mb; [|discriminate H]. injection H as <-.
        apply Hle, stage_within_refl.
Qed.

(** H, compressing: no input is taken, and no original size is declared. *)
Lemma compress_header_stage s flush mb :
  0 <= avail_in s -> 0 <= block_size (state s) ->
  match compress_header s flush mb with
  | inl (_, t) => stage_within s t 0 0
  | inr (t, _) => stage_within s t 0 0 /\ 0 <= str_size (state t)
                  /\ dec_size (state t) = 0
  end.
Proof.
  intros Hi Hb. unfold compress_header.
  destruct (_ && _ && negb mb).
  - apply stage_within_state; reflexivity.
  - split; [apply stage_within_state; reflexivity|].
    stream_simpl. destruct (_ && _); split; (lia || reflexivity).
Qed.

(** The checks on the header that was read: the block fits the buffers, and
    when its payload is in the window, the payload is taken. *)
Lemma check_block_stage t b o :
  check_block t b = Some o ->
  0 <= str_size (state t) ->
  match o with
  | Return _ u => stage_within t u 0 0
  | Continue s1 in1 =>
      str_size (state s1) = str_size (state t)
      /\ dec_size (state s1) = dec_size (state t)
      /\ str_size (state t) <= BUFFER_BLOCK_SIZE t
      /\ dec_size (state t) <= BUFFER_BLOCK_SIZE t
      /\ (str_size (state t) <> 0 \/ dec_size (state t) <> 0)
      /\ (stage_within t s1 (str_size (state t)) 0
          /\ str_size (state t) <= avail_in t
          /\ in1 = next_in t
          \/ stage_within t s1 0 0
             /\ inBuffOffs (state s1) = 0
             /\ in1 = None)
  end.
Proof.
  unfold check_block. intros H Hnn.
  set (u := upd set_outBuffOffs t (dec_size (state t))) in *.
  assert (Hu : stage_within t u 0 0) by (apply stage_within_state; reflexivity).
  assert (HB : BUFFER_BLOCK_SIZE u = BUFFER_BLOCK_SIZE t) by reflexivity.
  assert (Hs : str_size (state u) = str_size (state t)) by reflexivity.
  assert (Hd : dec_size (state u) = dec_size (state t)) by reflexivity.
  assert (Ha : avail_in u = avail_in t) by reflexivity.
  assert (Hn : next_in u = next_in t) by reflexivity.
  assert (Herr : forall m, stage_within t (error u m) 0 0)
    by (intros m; exact Hu).
  destruct (block_type (state u) =? BLOCK_TYPE_BAD_MAGIC);
    [injection H as <-; apply Herr|].
  destruct (negb _ && negb _); [injection H as <-; apply Herr|].
  destruct (BLOCK_SIZE u <? b); [injection H as <-; apply Herr|].
  destruct (Z.ltb_spec (BUFFER_BLOCK_SIZE u) (dec_size (state u))) as [|Hdec];
    [injection H as <-; apply Herr|].
  destruct (Z.ltb_spec (BUFFER_BLOCK_SIZE u) (str_size (state u))) as [|Hstr];
    [injection H as <-; apply Herr|].
  destruct ((str_size (state u) =? 0) && (dec_size (state u) =? 0)) eqn:Hend;
    [injection H as <-; exact Hu|].
  assert (Hne : str_size (state t) <> 0 \/ dec_size (state t) <> 0).
  { rewrite Hs, Hd in Hend. apply andb_false_iff in Hend.
    destruct Hend as [Hend|Hend]; apply Z.eqb_neq in Hend; auto. }
  rewrite HB, Hs, Hd in *.
  destruct (Z.leb_spec (str_size (state t)) (avail_in u)) as [Hfit|Hnofit].
  - destruct (inSeek u (str_size (state t))) as [s1|] eqn:E; [|discriminate H].
    cbn [bind] in H. injection H as <-.
    apply inSeek_stage in E; [|exact Hnn]. destruct E as (Est & _ & E).
    rewrite Est. repeat (split; [assumption || reflexivity|]).
    left. split; [|split; [rewrite <- Ha; exact Hfit|exact Hn]].
    eapply stage_within_after; [exact Hu|exact E].
  - injection H as <-.
    repeat (split; [assumption || reflexivity|]).
    right. split; [apply stage_within_state; reflexivity|]. split; reflexivity.
Qed.

(** P: the payload goes to the input buffer; at most what the block lacks is
    taken. *)
Lemma buffer_input_stage s1 flush s2 in2 :
  buffer_input s1 flush = Some (s2, in2) ->
  0 <= inBuffOffs (state s1) <= str_size (state s1) ->
  stage_within s1 s2 (str_size (state s1) - inBuffOffs (state s1)) 0
  /\ 0 <= str_size (state s2) <= str_size (state s1)
  /\ dec_size (state s2) = dec_size (state s1).
Proof.
  unfold buffer_input. intros H Hibo.
  set (size0 := uInt (str_size (state s1) - inBuffOffs (state s1))) in *.
  set (size := if avail_in s1 <? size0 then avail_in s1 else size0) in *.
  assert (Hsize0 : inBuffOffs (state s1) < str_size (state s1) ->
                   size0 <= str_size (state s1) - inBuffOffs (state s1)).
  { intros Hlt. unfold size0, uInt. apply Z.mod_le; [lia|reflexivity]. }
  assert (Hsize : size <= size0 /\ size <= avail_in s1)
    by (unfold size; destruct (Z.ltb_spec (avail_in s1) size0); lia).
  match type of H with
  | bind ?c _ = _ => destruct c as [s1'|] eqn:E; [|discriminate H]
  end.
  cbn [bind] in H.
  assert (M : stage_within s1 s1' (str_size (state s1) - inBuffOffs (state s1)) 0
              /\ str_size (state s1') = str_size (state s1)
              /\ dec_size (state s1') = dec_size (state s1)
              /\ 0 <= inBuffOffs (state s1') <= str_size (state s1)).
  { destruct (Z.ltb_spec (inBuffOffs (state s1)) (str_size (state s1))) as [Hlt|Hge].
    - specialize (Hsize0 Hlt).
      destruct (Z.ltb_spec 0 size) as [Hpos|Hzero].
      + apply inSeek_stage in E; [|lia]. destruct E as (Est & _ & E).
        rewrite Est. stream_simpl.
        split; [|split; [reflexivity|split; [reflexivity|]]].
        * apply (stage_within_le s1 s1' size 0); [|lia|lia].
          eapply stage_within_after; [|exact E]. apply stage_within_state; reflexivity.
        * pose proof (uInt_range (inBuffOffs (state s1) + size)).
          assert (uInt (inBuffOffs (state s1) + size) <= inBuffOffs (state s1) + size)
            by (unfold uInt; apply Z.mod_le; [lia|reflexivity]).
          lia.
      + injection E as <-.
        split; [eapply stage_within_le; [apply stage_within_refl|lia|lia]|].
        repeat split; lia.
    - injection E as <-.
      split; [eapply stage_within_le; [apply stage_within_refl|lia|lia]|].
      repeat split; lia. }
  destruct M as (M & Hs & Hd & Ho).
  destruct (inBuffOffs (state s1') =? str_size (state s1')).
  - injection H as <- _. rewrite Hs, Hd. split; [exact M|]. split; [lia|reflexivity].
  - destruct (negb (flush =? Z_NO_FLUSH)).
    + injection H as <- _. stream_simpl. split; [|split; [lia|exact Hd]].
      eapply stage_within_then; [exact M|]. apply stage_within_state; reflexivity.
    + injection H as <- _. rewrite Hs, Hd. split; [exact M|]. split; [lia|reflexivity].
Qed.

(** P on an empty window: nothing is taken. *)
Lemma buffer_input_empty s1 flush s2 in2 :
  buffer_input s1 flush = Some (s2, in2) ->
  avail_in s1 = 0 ->
  stage_within s1 s2 0 0 /\ dec_size (state s2) = dec_size (state s1).
Proof.
  unfold buffer_input. intros H Ha.
  match type of H with
  | bind ?c _ = _ => assert (E : c = Some s1)
  end.
  { destruct (_ <? _); [|reflexivity]. rewrite Ha.
    match goal with
    | |- context [0 <? ?x] => destruct (Z.ltb_spec 0 x) as [Hpos|]; [|reflexivity]
    end.
    exfalso. revert Hpos.
    match goal with
    | |- context [0 <? ?x] => destruct (Z.ltb_spec 0 x); lia
    end. }
  rewrite E in H. cbn [bind] in H.
  destruct (_ =? _); [injection H as <- _; split; [apply stage_within_refl|reflexivity]|].
  destruct (negb _); injection H as <- _.
  - split; [apply stage_within_state; reflexivity|reflexivity].
  - split; [apply stage_within_refl|reflexivity].
Qed.

(** What the block wrapper writes fits the size it was given. *)
Lemma fastlz_compress_hdr_fits input length output_length bs lvl flush data :
  fastlz_compress_hdr input length output_length bs lvl flush = Some data ->
  len data <= output_length.
Proof.
  unfold fastlz_compress_hdr. intros H.
  match type of H with
  | bind ?c _ = _ => destruct c as [blk|]; [|discriminate H]
  end.
  cbn [bind] in H.
  match type of H with
  | (if ?a <=? ?b then _ else _) = _ => destruct (Z.leb_spec a b); [|discriminate H]
  end.
  injection H as <-. assumption.
Qed.

(** C, decompressing: at most the original bytes of the block are
    delivered. *)
Lemma decompress_block_stage s in_ res :
  decompress_block s in_ = Some res ->
  0 <= BUFFER_BLOCK_SIZE s ->
  dec_size (state s) <= BUFFER_BLOCK_SIZE s ->
  match res with
  | inl (_, t) | inr t => stage_within s t 0 (BUFFER_BLOCK_SIZE s)
  end.
Proof.
  unfold decompress_block. intros H HB Hd.
  match type of H with
  | bind ?c _ = _ => destruct c as [[done data]|]; [|discriminate H]
  end.
  cbn [bind] in H.
  match type of H with
  | bind ?c _ = _ =>
      assert (M : forall s1, c = Some s1 -> stage_within s s1 0 (BUFFER_BLOCK_SIZE s))
  end.
  { intros s1 E. destruct (_ <=? _).
    - destruct (outSeek _ _) as [s0|] eqn:E0; [|discriminate E]. cbn [bind] in E.
      injection E as <-. apply outSeek_stage in E0.
      destruct E0 as (Est & Eni & Eai & Eti & Eto).
      unfold stage_within. stream_simpl. rewrite Est, Eni, Eai, Eti, Eto.
      cbn [state next_in avail_in total_in total_out level block_size set_next_out].
      unfold set_next_out. cbn [state next_in avail_in total_in total_out].
      repeat split; auto; lia.
    - injection E as <-.
      eapply stage_within_le; [apply stage_within_state; reflexivity|lia|lia]. }
  match type of H with
  | bind ?c _ = _ => destruct c as [s1|]; [|discriminate H]
  end.
  cbn [bind] in H. pose proof (M s1 eq_refl) as E.
  assert (M2 : stage_within s (upd set_str_size s1 0) 0 (BUFFER_BLOCK_SIZE s)).
  { eapply stage_within_then; [exact E|]. apply stage_within_state; reflexivity. }
  destruct (negb _); injection H as <-; exact M2.
Qed.

(** C, compressing: at most the estimated size of the compressed block is
    delivered. *)
Lemma compress_block_stage s in_ flush_now t :
  compress_block s in_ flush_now = Some t ->
  0 <= str_size (state s) <= BUFFER_BLOCK_SIZE s ->
  stage_within s t 0 (BUFFER_BLOCK_SIZE s + BUFFER_BLOCK_SIZE s / EXPANSION_RATIO
                      + EXPANSION_SECURITY).
Proof.
  unfold compress_block. intros H Hs.
  set (est := uInt (str_size (state s) + str_size (state s) / EXPANSION_RATIO
                    + EXPANSION_SECURITY)) in *.
  set (K := BUFFER_BLOCK_SIZE s + BUFFER_BLOCK_SIZE s / EXPANSION_RATIO
            + EXPANSION_SECURITY).
  assert (Hest : 0 <= est <= K).
  { split; [apply uInt_range|].
    pose proof (Z.div_le_mono (str_size (state s)) (BUFFER_BLOCK_SIZE s) EXPANSION_RATIO
                  eq_refl (proj2 Hs)) as Hdiv.
    pose proof (Z.div_pos (str_size (state s)) EXPANSION_RATIO (proj1 Hs) eq_refl).
    unfold est, K, uInt.
    etransitivity; [apply Z.mod_le; [unfold EXPANSION_SECURITY; lia|reflexivity]|].
    lia. }
  match type of H with
  | bind ?c _ = _ => destruct c as [s1|] eqn:E; [|discriminate H]
  end.
  cbn [bind] in H. injection H as <-.
  assert (M : stage_within s s1 0 K).
  { destruct (_ <=? _).
    - destruct (fastlz_compress_hdr _ _ est _ _ _) as [data|] eqn:Ed; [|discriminate E].
      cbn [bind] in E. apply fastlz_compress_hdr_fits in Ed.
      destruct (outSeek _ _) as [s0|] eqn:E0; [|discriminate E]. cbn [bind] in E.
      injection E as <-. apply outSeek_stage in E0.
      destruct E0 as (Est & Eni & Eai & Eti & Eto).
      unfold stage_within. stream_simpl. rewrite Est, Eni, Eai, Eti, Eto.
      unfold set_next_out. cbn [state next_in avail_in total_in total_out].
      repeat split; auto; lia.
    - destruct (fastlz_compress_hdr _ _ _ _ _ _) as [data|]; [|discriminate E].
      cbn [bind] in E. injection E as <-.
      eapply stage_within_le; [apply stage_within_state; reflexivity|lia|lia]. }
  eapply stage_within_then; [exact M|]. apply stage_within_state; reflexivity.
Qed.

Lemma BUFFER_BLOCK_SIZE_nonneg s : 0 <= BUFFER_BLOCK_SIZE s.
Proof. apply BUFFER_BLOCK_SIZE_range. Qed.

(** C, in either direction. *)
Lemma transform_stage s in_ flush r3 :
  transform s in_ flush = Some r3 ->
  dec_size (state s) <= BUFFER_BLOCK_SIZE s ->
  ZFAST_IS_DECOMPRESSING s = true \/ 0 <= str_size (state s) <= BUFFER_BLOCK_SIZE s ->
  match r3 with
  | inl (_, t) | inr t =>
      stage_within s t 0 (BUFFER_BLOCK_SIZE s + BUFFER_BLOCK_SIZE s / EXPANSION_RATIO
                          + EXPANSION_SECURITY)
  end.
Proof.
  unfold transform. intros H Hd Hs.
  pose proof (BUFFER_BLOCK_SIZE_nonneg s) as HB.
  pose proof (Z.div_pos (BUFFER_BLOCK_SIZE s) EXPANSION_RATIO HB eq_refl) as Hdiv.
  destruct (ZFAST_IS_DECOMPRESSING s).
  - apply decompress_block_stage in H; [|exact HB|exact Hd].
    destruct r3 as [[c t]|t];
      (eapply stage_within_le; [exact H|lia|unfold EXPANSION_SECURITY; lia]).
  - destruct Hs as [Hs|Hs]; [discriminate Hs|].
    destruct (compress_block s in_ _) as [t|] eqn:E; [|discriminate H].
    cbn [bind] in H. injection H as <-.
    apply compress_block_stage in E; assumption.
Qed.

Lemma finish_stream t flush r s' : (r, s') = finish t flush -> s' = t.
Proof. unfold finish. destruct (_ && _ && _); intros H; injection H as _ ->; reflexivity. Qed.

(** P and C after the header: at most what the block lacks is taken, and at
    most one block is delivered. *)
Lemma payload_stage s1 in1 flush r s' kin :
  ('(s2, in2) <- (match in1 with
                  | None => buffer_input s1 flush
                  | Some _ => Some (s1, in1)
                  end) ;;
   match in2 with
   | Some in_ =>
       r3 <- transform s2 in_ flush ;;
       match r3 with
       | inl ret => Some ret
       | inr s3 => Some (finish s3 flush)
       end
   | None => Some (finish s2 flush)
   end) = Some (r, s') ->
  dec_size (state s1) <= BUFFER_BLOCK_SIZE s1 ->
  (in1 <> None /\ 0 <= str_size (state s1) <= BUFFER_BLOCK_SIZE s1 /\ kin = 0
   \/ in1 = None /\ 0 <= inBuffOffs (state s1) <= str_size (state s1)
      /\ str_size (state s1) <= BUFFER_BLOCK_SIZE s1
      /\ kin = str_size (state s1) - inBuffOffs (state s1)
   \/ in1 = None /\ avail_in s1 = 0 /\ ZFAST_IS_DECOMPRESSING s1 = true /\ kin = 0) ->
  stage_within s1 s' kin (BUFFER_BLOCK_SIZE s1 + BUFFER_BLOCK_SIZE s1 / EXPANSION_RATIO
                          + EXPANSION_SECURITY).
Proof.
  intros H Hd Hcase.
  set (K := BUFFER_BLOCK_SIZE s1 + BUFFER_BLOCK_SIZE s1 / EXPANSION_RATIO
            + EXPANSION_SECURITY).
  assert (HK : 0 <= K).
  { pose proof (BUFFER_BLOCK_SIZE_nonneg s1) as HB.
    pose proof (Z.div_pos (BUFFER_BLOCK_SIZE s1) EXPANSION_RATIO HB eq_refl).
    unfold K, EXPANSION_SECURITY. lia. }
  assert (H2 : exists s2 in2,
             (match in1 with
              | None => buffer_input s1 flush
              | Some _ => Some (s1, in1)
              end) = Some (s2, in2)
             /\ stage_within s1 s2 kin 0
             /\ dec_size (state s2) <= BUFFER_BLOCK_SIZE s2
             /\ (ZFAST_IS_DECOMPRESSING s2 = true
                 \/ 0 <= str_size (state s2) <= BUFFER_BLOCK_SIZE s2)).
  { destruct Hcase as [(Hi & Hs & ->)|[(-> & Ho & Hs & ->)|(-> & Ha & Hm & ->)]].
    - destruct in1 as [w|]; [|contradiction]. exists s1, (Some w).
      split; [reflexivity|]. split; [apply stage_within_refl|]. auto.
    - destruct (buffer_input s1 flush) as [[s2 in2]|] eqn:E; [|discriminate H].
      apply buffer_input_stage in E; [|exact Ho]. destruct E as (M & Hs2 & Hd2).
      exists s2, in2. split; [reflexivity|]. split; [exact M|].
      rewrite (BUFFER_BLOCK_SIZE_same s1 s2) by apply M.
      split; [lia|right; lia].
    - destruct (buffer_input s1 flush) as [[s2 in2]|] eqn:E; [|discriminate H].
      apply buffer_input_empty in E; [|exact Ha]. destruct E as (M & Hd2).
      exists s2, in2. split; [reflexivity|]. split; [exact M|].
      rewrite (BUFFER_BLOCK_SIZE_same s1 s2) by apply M.
      split; [lia|left].
      unfold ZFAST_IS_DECOMPRESSING, ZFAST_IS_COMPRESSING in *.
      destruct M as (-> & _). exact Hm. }
  destruct H2 as (s2 & in2 & E & M & Hd2 & Hs2). rewrite E in H. cbn [bind] in H.
  assert (HK2 : BUFFER_BLOCK_SIZE s2 = BUFFER_BLOCK_SIZE s1)
    by (apply BUFFER_BLOCK_SIZE_same, M).
  assert (Hfin : forall t, stage_within s2 t 0 K -> Some (finish t flush) = Some (r, s') ->
                           stage_within s1 s' kin K).
  { intros t Mt F. injection F as F. symmetry in F. apply finish_stream in F. subst s'.
    replace kin with (kin + 0) by lia. replace K with (0 + K) by lia.
    eapply stage_within_trans; eassumption. }
  destruct in2 as [in_|].
  - destruct (transform s2 in_ flush) as [[[c t]|t]|] eqn:T; [| |discriminate H];
      cbn [bind] in H; apply transform_stage in T; try assumption;
      rewrite HK2 in T; fold K in T.
    + injection H as _ <-.
      replace kin with (kin + 0) by lia. replace K with (0 + K) by lia.
      eapply stage_within_trans; eassumption.
    + exact (Hfin t T H).
  - apply (Hfin s2); [|exact H].
    eapply stage_within_le; [apply stage_within_refl|lia|exact HK].
Qed.

(** D: the drain takes no input and changes nothing of the state but the
    offset in the output buffer. *)
Lemma drain_output_only s r s' :
  drain_output s = Some (r, s') ->
  r = Z_OK /\ next_in s' = next_in s /\ avail_in s' = avail_in s
  /\ total_in s' = total_in s /\ msg s' = msg s
  /\ state s' = set_outBuffOffs (state s) (outBuffOffs (state s')).
Proof.
  unfold drain_output. intros H.
  destruct (0 <? _).
  - destruct (outSeek _ _) as [s3|] eqn:E; [|discriminate H]. cbn [bind] in H.
    injection H as <- <-. unfold outSeek in E.
    destruct (_ <=? _); [|discriminate E]. injection E as <-.
    destruct s as [ni ai ti no ao to ol mg st]. destruct st. repeat split.
  - injection H as <- <-.
    destruct s as [ni ai ti no ao to ol mg st]. destruct st. repeat split.
Qed.

(** C4.  A call considers the phases in the order D, H, P, C.  A call that
    finds buffered output only drains it (D): it returns [Z_OK], takes no
    input and changes nothing of the state but the offset in the output
    buffer.  A call that does not drain goes through H, P and C one after the
    other, each at most once: H runs when no block is in progress and can end
    the call; P follows on what H leaves, unless the payload is already in the
    window; C follows on what P leaves when the payload is complete.  So one
    call can parse a header, take the payload and transform the block, and it
    takes at most one header and one payload ([HEADER_SIZE] plus the buffer
    size) and delivers at most one block. *)
Theorem phases_of_a_call s flush may_buffer r s' :
  fastlzlibProcess s flush may_buffer = Some (r, s') ->
  next_in s <> None \/ avail_in s = 0 ->
  next_out s <> None \/ avail_out s = 0 ->
  0 <= avail_in s ->
  0 <= block_size (state s) ->
  0 <= inHdrOffs (state s) ->
  (str_size (state s) <> 0 ->
   0 <= inBuffOffs (state s) <= str_size (state s)
   /\ str_size (state s) <= BUFFER_BLOCK_SIZE s
   /\ dec_size (state s) <= BUFFER_BLOCK_SIZE s) ->
  (ZFAST_HAS_BUFFERED_OUTPUT s = true ->
   drain_output s = Some (r, s')
   /\ r = Z_OK /\ next_in s' = next_in s /\ avail_in s' = avail_in s
   /\ total_in s' = total_in s /\ msg s' = msg s
   /\ state s' = set_outBuffOffs (state s) (outBuffOffs (state s')))
  /\ (ZFAST_HAS_BUFFERED_OUTPUT s = false ->
      (exists o,
          (if str_size (state s) =? 0 then next_block s flush may_buffer
           else Some (Continue s None)) = Some o
          /\ match o with
             | Return c t => (r, s') = (c, t)
             | Continue s1 in1 =>
                 exists s2 in2,
                   match in1 with
                   | None => buffer_input s1 flush = Some (s2, in2)
                   | Some _ => (s2, in2) = (s1, in1)
                   end
                   /\ match in2 with
                      | None => (r, s') = finish s2 flush
                      | Some in_ =>
                          exists r3,
                            transform s2 in_ flush = Some r3
                            /\ match r3 with
                               | inl ret => (r, s') = ret
                               | inr s3 => (r, s') = finish s3 flush
                               end
                      end
             end)
      /\ stage_within s s' (HEADER_SIZE + BUFFER_BLOCK_SIZE s)
                       (BUFFER_BLOCK_SIZE s + BUFFER_BLOCK_SIZE s / EXPANSION_RATIO
                        + EXPANSION_SECURITY)).
Proof.
  intros H Hin Hout Hai Hbs Hiho Hprog.
  unfold fastlzlibProcess, ZFAST_INPUT_IS_EMPTY, ZFAST_OUTPUT_IS_FULL in H.
  rewrite (sanity_passes _ _ Hin), (sanity_passes _ _ Hout) in H.
  split; intros Hbuf; rewrite Hbuf in H.
  { split; [exact H|]. apply drain_output_only. exact H. }
  set (B := BUFFER_BLOCK_SIZE s).
  set (K := B + B / EXPANSION_RATIO + EXPANSION_SECURITY).
  pose proof (BUFFER_BLOCK_SIZE_nonneg s) as HB. fold B in HB.
  assert (HK : 0 <= K).
  { pose proof (Z.div_pos B EXPANSION_RATIO HB eq_refl).
    unfold K, EXPANSION_SECURITY. lia. }
  split.
  - (* the phases, one after the other *)
    destruct (if str_size (state s) =? 0 then next_block s flush may_buffer
              else Some (Continue s None)) as [o|]; [|discriminate H].
    cbn [bind] in H. exists o. split; [reflexivity|].
    destruct o as [c t|s1 in1]; [injection H as <- <-; reflexivity|].
    destruct in1 as [w|].
    + cbn [bind] in H. exists s1, (Some w). split; [reflexivity|].
      destruct (transform s1 w flush) as [r3|]; [|discriminate H].
      cbn [bind] in H. exists r3. split; [reflexivity|].
      destruct r3; injection H as H; symmetry; [exact H|].
      destruct (finish z flush). injection H as <- <-. reflexivity.
    + destruct (buffer_input s1 flush) as [[s2 in2]|]; [|discriminate H].
      cbn [bind] in H. exists s2, in2. split; [reflexivity|].
      destruct in2 as [in_|]; [|injection H as H; symmetry; exact H].
      destruct (transform s2 in_ flush) as [r3|]; [|discriminate H].
      cbn [bind] in H. exists r3. split; [reflexivity|].
      destruct r3; injection H as H; symmetry; [exact H|].
      destruct (finish z flush). injection H as <- <-. reflexivity.
  - (* at most one header, one payload and one block *)
    destruct (Z.eqb_spec (str_size (state s)) 0) as [Hz|Hnz].
    + unfold next_block in H.
      assert (H1 : exists res,
                 (if ZFAST_IS_DECOMPRESSING s then decompress_header s may_buffer
                  else Some (compress_header s flush may_buffer)) = Some res
                 /\ match res with
                    | inl (_, t) => stage_within s t HEADER_SIZE 0
                    | inr (t, _) =>
                        stage_within s t HEADER_SIZE 0 /\ 0 <= str_size (state t)
                        /\ (ZFAST_IS_DECOMPRESSING s = true \/ dec_size (state t) = 0)
                    end).
      { destruct (ZFAST_IS_DECOMPRESSING s).
        - destruct (decompress_header s may_buffer) as [res|] eqn:E; [|discriminate H].
          exists res. split; [reflexivity|].
          apply decompress_header_stage in E; [|exact Hiho].
          destruct res as [[c t]|[t b]]; [exact E|].
          destruct E as [E Hs]. auto.
        - eexists. split; [reflexivity|].
          pose proof (compress_header_stage s flush may_buffer Hai Hbs) as E.
          destruct (compress_header s flush may_buffer) as [[c t]|[t b]].
          + eapply stage_within_le; [exact E|unfold HEADER_SIZE; lia|lia].
          + destruct E as (E & Hs & Hd).
            split; [eapply stage_within_le; [exact E|unfold HEADER_SIZE; lia|lia]|].
            auto. }
      destruct H1 as (res & E & M). rewrite E in H. cbn [bind] in H.
      destruct res as [[c t]|[t b]].
      * cbn [bind] in H. injection H as _ <-.
        eapply stage_within_le; [exact M|lia|lia].
      * destruct M as (M & Hst & Hmode).
        assert (HBt : BUFFER_BLOCK_SIZE t = B) by (apply BUFFER_BLOCK_SIZE_same, M).
        destruct (check_block t b) as [[c u|s1 in1]|] eqn:C; [| |discriminate H];
          cbn [bind] in H; apply check_block_stage in C; try exact Hst.
        -- injection H as _ <-.
           eapply stage_within_le; [eapply stage_within_then; eassumption|lia|lia].
        -- destruct C as (Cs & Cd & Csb & Cdb & Cne & Ccase). rewrite HBt in *.
           assert (M1 : stage_within t s1 (str_size (state t)) 0).
           { destruct Ccase as [(C1 & _)|(C1 & _)]; [exact C1|].
             eapply stage_within_le; [exact C1|lia|lia]. }
           assert (HB1 : BUFFER_BLOCK_SIZE s1 = B).
           { rewrite (BUFFER_BLOCK_SIZE_same t s1) by apply M1. exact HBt. }
           assert (Hd1 : dec_size (state s1) <= BUFFER_BLOCK_SIZE s1)
             by (rewrite HB1, Cd; exact Cdb).
           destruct Ccase as [(C1 & Cfit & Cin)|(C1 & Cibo & ->)].
           ++ assert (P : stage_within s1 s' 0 K).
              { unfold K. rewrite <- HB1.
                apply (payload_stage s1 in1 flush r s' 0 H Hd1).
                destruct in1 as [w|].
                - left. split; [discriminate|]. rewrite HB1, Cs. auto.
                - right. right. split; [reflexivity|].
                  symmetry in Cin.
                  destruct M as (Ml & _ & _ & _ & Mn & Ma).
                  destruct Hin as [Hin|Hin]; [elim Hin; apply Mn; exact Cin|].
                  destruct (Ma Hin) as [Hat _].
                  destruct C1 as (C1l & _ & _ & _ & _ & C1a).
                  destruct (C1a Hat) as [Ha1 _].
                  split; [exact Ha1|]. split; [|reflexivity].
                  destruct Hmode as [Hmode|Hmode]; [|lia].
                  unfold ZFAST_IS_DECOMPRESSING, ZFAST_IS_COMPRESSING in *.
                  rewrite C1l, Ml. exact Hmode. }
              apply (stage_within_le s s' (HEADER_SIZE + str_size (state t) + 0)
                                     (0 + 0 + K)); [|lia|lia].
              eapply stage_within_trans; [|exact P].
              eapply stage_within_trans; eassumption.
           ++ assert (P : stage_within s1 s' (str_size (state s1) - 0) K).
              { unfold K. rewrite <- HB1.
                apply (payload_stage s1 None flush r s' _ H Hd1).
                right. left. split; [reflexivity|]. rewrite Cibo, HB1, Cs.
                repeat split; lia. }
              apply (stage_within_le s s' (HEADER_SIZE + 0 + (str_size (state s1) - 0))
                                     (0 + 0 + K)); [|lia|lia].
              eapply stage_within_trans; [|exact P].
              eapply stage_within_trans; eassumption.
    + cbn [bind] in H. destruct (Hprog Hnz) as (Ho & Hs & Hd).
      assert (P : stage_within s s' (str_size (state s) - inBuffOffs (state s)) K).
      { apply (payload_stage s None flush r s' _ H Hd).
        right. left. split; [reflexivity|]. repeat split; lia. }
      eapply stage_within_le; [exact P|unfold HEADER_SIZE; fold B in Hs; lia|lia].
Qed.

End Phases.

Lemma phases_of_a_call_witness :
  let s := with_output (with_input (decompress_stream 64) hello_compressed)
                       (repeat x00 100) in
  exists r s',
    @fastlzlibProcess stored_lz s Z_NO_FLUSH true = Some (r, s')
    /\ ZFAST_HAS_BUFFERED_OUTPUT s = false
    /\ stage_within s s' (HEADER_SIZE + BUFFER_BLOCK_SIZE s)
                    (BUFFER_BLOCK_SIZE s + BUFFER_BLOCK_SIZE s / EXPANSION_RATIO
                     + EXPANSION_SECURITY).
Proof.
  intros s. eexists. eexists. split; [vm_compute; reflexivity|].
  split; [reflexivity|].
  eapply (@phases_of_a_call stored_lz s Z_NO_FLUSH true).
  - vm_compute. reflexivity.
  - left. discriminate.
  - left. discriminate.
  - vm_compute. discriminate.
  - vm_compute. discriminate.
  - vm_compute. discriminate.
  - intros Hc. exfalso. apply Hc. reflexivity.
  - reflexivity.
Defined.

(** C4, as stated, fails: one call on a decompressor that is given a whole
    RAW block parses the 20 bytes of the header, takes the 5 bytes of the
    payload and writes the 5 bytes of the block. *)
Lemma one_call_parses_and_transforms :
  let s := with_output (with_input (decompress_stream 64) hello_compressed)
                       (repeat x00 100) in
  let s' := after (@fastlzlibDecompress stored_lz s) in
  @phases stored_lz s Z_NO_FLUSH true = [PhaseH; PhaseP; PhaseC]
  /\ option_map fst (@fastlzlibDecompress stored_lz s) = Some Z_OK
  /\ total_in s = 0 /\ total_in s' = 25
  /\ block_type (state s') = BLOCK_TYPE_RAW /\ dec_size (state s') = 5
  /\ out_log s = [] /\ out_log s' = hello.
Proof. repeat split. Qed.

(** ** Resynchronisation *)

Lemma magic_at_firstn w :
  (7 <= length w)%nat -> magic_at w = bytes_eqb (firstn 7 w) BLOCK_MAGIC.
Proof.
  intros H. do 7 (destruct w as [|? w]; [simpl in H; lia|]).
  unfold magic_at, BLOCK_MAGIC. cbn [nth firstn bytes_eqb].
  rewrite andb_true_r, <- !andb_assoc. reflexivity.
Qed.

Lemma read_header_block_size_range w :
  let '(_, block_size, _, _) := fastlz_read_header w in 0 <= block_size < 2 ^ 32.
Proof.
  unfold fastlz_read_header. destruct (bytes_eqb _ _).
  - apply uInt_range.
  - change (2 ^ 32) with 4294967296. lia.
Qed.

Lemma sync_test w :
  7 <= len w ->
  magic_at w && negb (fastlzlibGetStreamBlockSize w HEADER_SIZE =? 0) = sync_point w.
Proof.
  intros H. unfold sync_point, fastlzlibGetStreamBlockSize.
  rewrite magic_at_firstn by (unfold len in H; lia).
  change (HEADER_SIZE <=? HEADER_SIZE) with true. cbv iota.
  pose proof (read_header_block_size_range w) as R.
  destruct (fastlz_read_header w) as [[[t b] c] o].
  rewrite int_of_uInt_zero by exact R. reflexivity.
Qed.

Lemma sync_advance_0 s w : next_in s = Some w -> sync_advance s 0 = s.
Proof.
  intros H. destruct_stream s. unfold sync_advance. stream_simpl. subst.
  cbn [deref]. rewrite drop_nonpos by lia. f_equal; try lia. f_equal. lia.
Qed.

Lemma sync_seek_spec fuel :
  forall s w,
    next_in s = Some w ->
    0 <= avail_in s <= len w ->
    avail_in s < Z.of_nat fuel ->
    0 <= inHdrOffs (state s) ->
    inHdrOffs (state s) + avail_in s < 2 ^ 32 ->
    (forall k,
        0 <= k <= avail_in s - HEADER_SIZE ->
        sync_point (drop k w) = true ->
        (forall j, 0 <= j < k -> sync_point (drop j w) = false) ->
        sync_seek fuel s = Some (Z_OK, sync_advance s k))
    /\ ((forall j, 0 <= j <= avail_in s - HEADER_SIZE -> sync_point (drop j w) = false) ->
        sync_seek fuel s
        = Some (Z_DATA_ERROR,
                error (sync_advance s (Z.max 0 (avail_in s - (HEADER_SIZE - 1))))
                      "No flush point found")).
Proof.
  induction fuel as [|fuel IH]; intros s w Hw Ha Hf Ho Hr.
  - lia.
  - cbn [sync_seek]. rewrite Hw. cbn [deref].
    destruct (Z.leb_spec HEADER_SIZE (avail_in s)) as [H20|H20].
    + rewrite sync_test by (unfold HEADER_SIZE in *; lia).
      unfold HEADER_SIZE in *.
      set (s1 := mkStream (Some (drop 1 w)) (avail_in s - 1) (total_in s + 1)
                          (next_out s) (avail_out s) (total_out s) (out_log s) (msg s)
                          (set_inHdrOffs (state s) (inHdrOffs (state s) + 1))).
      assert (Hseek : inSeek (upd set_inHdrOffs s (uInt (inHdrOffs (state s) + 1))) 1
                      = Some s1).
      { unfold inSeek, upd, set_state. cbn [avail_in next_in total_in next_out avail_out
          total_out out_log msg state].
        destruct (Z.leb_spec 1 (avail_in s)); [|lia].
        rewrite Hw, uInt_small by lia. reflexivity. }
      assert (Hadv : forall k, 0 <= k -> sync_advance s1 k = sync_advance s (k + 1)).
      { intros k Hk. unfold sync_advance, s1.
        cbn [avail_in next_in total_in next_out avail_out total_out out_log msg state
             deref]. rewrite Hw. cbn [deref].
        rewrite drop_drop by lia.
        unfold set_inHdrOffs. cbn [level inHdr inHdrOffs block_size block_type str_size
          dec_size inBuff outBuff inBuffOffs outBuffOffs].
        f_equal; try lia; f_equal; try lia. f_equal. lia. }
      destruct (IH s1 (drop 1 w)) as [IH1 IH2].
      { reflexivity. }
      { unfold s1. cbn [avail_in]. rewrite len_drop by lia. lia. }
      { unfold s1. cbn [avail_in]. lia. }
      { unfold s1, set_inHdrOffs. cbn [state inHdrOffs]. lia. }
      { unfold s1, set_inHdrOffs. cbn [state inHdrOffs avail_in]. lia. }
      unfold s1 in IH1, IH2. cbn [avail_in] in IH1, IH2. fold s1 in IH1, IH2.
      split.
      * intros k Hk Hsync Hmin.
        destruct (Z.eq_dec k 0) as [->|Hk0].
        -- rewrite drop_nonpos in Hsync by lia. rewrite Hsync.
           rewrite (sync_advance_0 _ _ Hw). reflexivity.
        -- rewrite <- (drop_nonpos 0 w) at 1 by lia.
           rewrite (Hmin 0) by lia. cbn [bind]. rewrite Hseek. cbn [bind].
           rewrite (IH1 (k - 1)).
           ++ rewrite Hadv by lia. replace (k - 1 + 1) with k by lia. reflexivity.
           ++ lia.
           ++ rewrite drop_drop by lia. replace (1 + (k - 1)) with k by lia. exact Hsync.
           ++ intros j Hj. rewrite drop_drop by lia. apply Hmin. lia.
      * intros Hnone.
        rewrite <- (drop_nonpos 0 w) at 1 by lia.
        rewrite (Hnone 0) by lia. cbn [bind]. rewrite Hseek. cbn [bind].
        rewrite IH2.
        -- rewrite Hadv by lia.
           replace (Z.max 0 (avail_in s - 1 - (20 - 1)) + 1)
             with (Z.max 0 (avail_in s - (20 - 1))) by lia.
           reflexivity.
        -- intros j Hj. rewrite drop_drop by lia. apply Hnone. lia.
    + split.
      * intros k Hk. lia.
      * intros _. unfold HEADER_SIZE in *.
        replace (Z.max 0 (avail_in s - (20 - 1))) with 0 by lia.
        rewrite (sync_advance_0 _ _ Hw). reflexivity.
Qed.

(** C9.  [fastlzlibDecompressSync] on a decompressing stream: with undrained
    buffered output it returns [Z_OK] at once; otherwise it returns
    [Z_BUF_ERROR] when fewer than 20 bytes are available; otherwise it resets
    [inHdrOffs] and scans the input one byte at a time, returns [Z_OK] at the
    first position where the 7 bytes of the magic are found with a parsed
    block size that is not zero, [next_in] pointing at that position, and
    returns [Z_DATA_ERROR] when no position of the window is such. *)
Theorem fastlzlibDecompressSync_spec s w :
  ZFAST_IS_DECOMPRESSING s = true ->
  next_in s = Some w ->
  0 <= avail_in s <= len w ->
  avail_in s < 2 ^ 32 ->
  (ZFAST_HAS_BUFFERED_OUTPUT s = true -> fastlzlibDecompressSync s = Some (Z_OK, s))
  /\ (ZFAST_HAS_BUFFERED_OUTPUT s = false ->
      (avail_in s < HEADER_SIZE ->
       fastlzlibDecompressSync s
       = Some (Z_BUF_ERROR, error s "Need more data on input"))
      /\ (HEADER_SIZE <= avail_in s ->
          (forall k,
              0 <= k <= avail_in s - HEADER_SIZE ->
              sync_point (drop k w) = true ->
              (forall j, 0 <= j < k -> sync_point (drop j w) = false) ->
              fastlzlibDecompressSync s
              = Some (Z_OK, sync_advance (upd set_inHdrOffs s 0) k))
          /\ ((forall j, 0 <= j <= avail_in s - HEADER_SIZE ->
                         sync_point (drop j w) = false) ->
              fastlzlibDecompressSync s
              = Some (Z_DATA_ERROR,
                      error (sync_advance (upd set_inHdrOffs s 0)
                                          (avail_in s - (HEADER_SIZE - 1)))
                            "No flush point found")))).
Proof.
  intros Hd Hw Ha Hr. unfold fastlzlibDecompressSync. rewrite Hd. split.
  - intros ->. reflexivity.
  - intros ->. split.
    + intros Hshort. destruct (Z.ltb_spec (avail_in s) HEADER_SIZE); [reflexivity|lia].
    + intros H20. destruct (Z.ltb_spec (avail_in s) HEADER_SIZE); [lia|].
      assert (Hs1 : (if negb (inHdrOffs (state s) =? 0) then upd set_inHdrOffs s 0 else s)
                    = upd set_inHdrOffs s 0).
      { destruct (Z.eqb_spec (inHdrOffs (state s)) 0) as [E|E]; [|reflexivity].
        cbn [negb]. destruct_stream s. subst. reflexivity. }
      rewrite Hs1.
      destruct (sync_seek_spec (S (Z.to_nat (avail_in (upd set_inHdrOffs s 0))))
                  (upd set_inHdrOffs s 0) w) as [S1 S2].
      * exact Hw.
      * exact Ha.
      * unfold upd, set_state. cbn [avail_in]. lia.
      * unfold upd, set_state, set_inHdrOffs. cbn [state inHdrOffs]. lia.
      * unfold upd, set_state, set_inHdrOffs. cbn [state inHdrOffs avail_in]. lia.
      * split.
        -- intros k Hk Hsync Hmin. apply S1; assumption.
        -- intros Hnone. rewrite (S2 Hnone).
           unfold upd, set_state. cbn [avail_in]. unfold HEADER_SIZE in *.
           replace (Z.max 0 (avail_in s - (20 - 1))) with (avail_in s - (20 - 1)) by lia.
           reflexivity.
Qed.

Lemma fastlzlibDecompressSync_spec_witness :
  let s := with_input (decompress_stream 64) ([x00; x00; x00] ++ hello_compressed) in
  fastlzlibDecompressSync s = Some (Z_OK, sync_advance (upd set_inHdrOffs s 0) 3)
  /\ next_in (sync_advance (upd set_inHdrOffs s 0) 3) = Some hello_compressed.
Proof.
  intros s. split; [|reflexivity].
  destruct (fastlzlibDecompressSync_spec s ([x00; x00; x00] ++ hello_compressed))
    as [_ H].
  - reflexivity.
  - reflexivity.
  - vm_compute. split; discriminate.
  - reflexivity.
  - destruct (H eq_refl) as [_ H20].
    destruct H20 as [Hok _]; [vm_compute; discriminate|].
    apply Hok.
    + vm_compute. split; discriminate.
    + reflexivity.
    + intros j Hj.
      assert (E : j = 0 \/ j = 1 \/ j = 2) by lia.
      destruct E as [->|[->| ->]]; reflexivity.
Defined.

(** ** Symbolic execution of a call *)

Ltac Zify.zify_post_hook ::= Z.div_mod_to_equations.

Ltac len_facts :=
  repeat match goal with
    | |- context [len ?l] =>
        lazymatch goal with
        | H : 0 <= len l |- _ => fail
        | _ => pose proof (len_nonneg l)
        end
    | H : context [len ?l] |- _ =>
        lazymatch goal with
        | H' : 0 <= len l |- _ => fail
        | _ => pose proof (len_nonneg l)
        end
    end.

Create Rewrite HintDb lens.
#[local] Hint Rewrite len_nil len_app : lens.

Ltac arith :=
  unfold uInt, buffer_size in *; constants; autorewrite with lens in *;
  len_facts; lia.

Ltac decide_one :=
  match goal with
  | |- context [?a <? ?b] =>
      first [ replace (a <? b) with true by (symmetry; apply Z.ltb_lt; arith)
            | replace (a <? b) with false by (symmetry; apply Z.ltb_ge; arith) ]
  | |- context [?a <=? ?b] =>
      first [ replace (a <=? b) with true by (symmetry; apply Z.leb_le; arith)
            | replace (a <=? b) with false by (symmetry; apply Z.leb_gt; arith) ]
  | |- context [?a =? ?b] =>
      first [ replace (a =? b) with true by (symmetry; apply Z.eqb_eq; arith)
            | replace (a =? b) with false by (symmetry; apply Z.eqb_neq; arith) ]
  end.

Ltac unwrap_one :=
  match goal with
  | |- context [uInt ?x] => rewrite (uInt_small x) by arith
  end.

Ltac exec_step :=
  first [ progress cbn [bind andb orb negb is_null option_map deref ptr_add ptr_write
                        fst snd
                        next_in avail_in total_in next_out avail_out total_out out_log
                        msg state level inHdr inHdrOffs block_size block_type str_size
                        dec_size inBuff outBuff inBuffOffs outBuffOffs]
        | decide_one
        | unwrap_one ].

(** Runs a call up to the transform of the block. *)
Ltac exec_head :=
  unfold fastlzlibCompress, fastlzlibCompress2, fastlzlibDecompress,
    fastlzlibDecompress2, fastlzlibProcess, next_block, compress_header, check_block,
    buffer_input, drain_output, inSeek, outSeek;
  stream_simpl; repeat exec_step.

Ltac exec :=
  unfold transform, compress_block, decompress_block; exec_head.

(** Case analysis on the tests of a conditional. *)
Ltac split_conds :=
  repeat match goal with
    | |- context [if ?a <? ?b then _ else _] => destruct (Z.ltb_spec a b)
    | |- context [if ?a <=? ?b then _ else _] => destruct (Z.leb_spec a b)
    | |- context [if ?a =? ?b then _ else _] => destruct (Z.eqb_spec a b)
    end.

(** Discharges the first hypothesis of [H] with [tac]. *)
Ltac forward H tac :=
  match type of H with
  | ?P -> _ =>
      let h := fresh in
      assert (h : P); [solve [tac] | specialize (H h); clear h]
  end.

(** ** Round trip: the compressor *)

Lemma pending_split ob obo ds size :
  0 <= obo -> 0 <= size <= ds - obo ->
  take (ds - obo) (drop obo ob)
  = take size (drop obo ob)
    ++ (if obo + size <? ds then take (ds - (obo + size)) (drop (obo + size) ob)
        else []).
Proof.
  intros Ho Hs.
  replace (ds - obo) with (size + (ds - (obo + size))) at 1 by lia.
  rewrite take_add, drop_drop by lia.
  destruct (Z.ltb_spec (obo + size) ds); [reflexivity|].
  rewrite (take_nonpos (ds - (obo + size))) by lia. reflexivity.
Qed.

Lemma len_take_le n l : 0 <= n <= len l -> len (take n l) = n.
Proof. intros H. rewrite len_take by lia. lia. Qed.

Lemma take_memcpy_at_0' n buf src : len src = n -> take n (memcpy_at buf 0 src) = src.
Proof. intros <-. apply take_memcpy_at_0. Qed.

Lemma take_exact l : take (len l) l = l.
Proof. apply take_all. lia. Qed.

Lemma drop_exact l : drop (len l) l = [].
Proof. apply drop_all. lia. Qed.

Lemma take_memcpy_at buf k src :
  len (take k buf) = k ->
  take (k + len src) (memcpy_at buf k src) = take k buf ++ src.
Proof.
  intros H. unfold memcpy_at. rewrite app_assoc. apply take_app_exact.
  rewrite len_app. lia.
Qed.

Section Compressor.
Context {lz : FastLZ}.
Variables (L bs : Z).
Hypothesis L_range : 0 <= L <= 9.
Hypothesis bs_range : 64 <= bs <= 2 ^ 20.

(** The block compressor does not expand a block by more than a tenth: what
    the assertions of [fastlz_compress_hdr] ask of it for the output buffer. *)
Hypothesis compress_bound :
  forall lvl b,
    lvl = 1 \/ lvl = 2 -> MIN_BLOCK_SIZE < len b <= bs ->
    len (fastlz_compress_level lvl b) <= len b + len b / EXPANSION_RATIO.

Lemma zlibLevelToFastlz_cases lvl : zlibLevelToFastlz lvl = 1 \/ zlibLevelToFastlz lvl = 2.
Proof. unfold zlibLevelToFastlz. destruct (_ <=? _); auto. Qed.

Lemma len_block_payload b :
  len b <= bs -> len (block_payload L b) <= len b + len b / 10.
Proof.
  intros H. unfold block_payload.
  destruct (Z.ltb_spec MIN_BLOCK_SIZE (len b)).
  - apply compress_bound; [apply zlibLevelToFastlz_cases|lia].
  - arith.
Qed.

Lemma len_frame b : len (frame L bs b) = HEADER_SIZE + len (block_payload L b).
Proof. unfold frame. rewrite len_app, len_write_header. reflexivity. Qed.

Lemma len_eof_marker : len (eof_marker bs) = HEADER_SIZE.
Proof. reflexivity. Qed.

Lemma len_block_bytes b flush :
  len b <= bs -> len (block_bytes L bs b flush) <= len b + len b / 10 + 40.
Proof.
  intros H. unfold block_bytes. rewrite len_app.
  pose proof (len_block_payload b H).
  destruct (0 <? len b), (flush =? Z_FINISH);
    rewrite ?len_frame, ?len_eof_marker, ?len_nil; arith.
Qed.

Lemma fastlz_compress_hdr_spec in_ b output_length flush :
  take (len b) in_ = b ->
  len b <= bs ->
  len b + len b / 10 + 40 <= output_length ->
  fastlz_compress_hdr in_ (len b) output_length bs (zlibLevelToFastlz L) flush
  = Some (block_bytes L bs b flush).
Proof.
  intros Hb Hlen Hout.
  pose proof (len_block_bytes b flush Hlen) as Hbytes.
  pose proof (len_block_payload b Hlen) as Hpay.
  unfold fastlz_compress_hdr, block_bytes, frame, block_kind, block_payload,
    eof_marker in *.
  rewrite Hb.
  destruct (Z.ltb_spec 0 (len b)) as [Hpos|Hzero].
  - destruct (Z.ltb_spec MIN_BLOCK_SIZE (len b)) as [Hbig|Hsmall].
    + repeat exec_step. reflexivity.
    + repeat exec_step. reflexivity.
  - repeat exec_step. reflexivity.
Qed.

(** The transform of a complete block of input. *)
Lemma compress_transform s in_ b flush m :
  level (state s) = L ->
  block_size (state s) = bs ->
  str_size (state s) = len b ->
  take (len b) in_ = b ->
  len b <= bs ->
  next_out s = Some m -> avail_out s = len m -> len m < 2 ^ 32 ->
  0 <= avail_in s ->
  ZFAST_HAS_BUFFERED_OUTPUT s = false ->
  0 <= outBuffOffs (state s) ->
  0 <= dec_size (state s) ->
  let flush_now := if (flush =? Z_FINISH) && negb (avail_in s =? 0)
                   then Z_NO_FLUSH else flush in
  exists s',
    transform s in_ flush = Some (inr s')
    /\ next_in s' = next_in s /\ avail_in s' = avail_in s
    /\ level (state s') = L /\ block_size (state s') = bs
    /\ str_size (state s') = 0
    /\ 0 <= outBuffOffs (state s')
    /\ 0 <= dec_size (state s') <= Z.max (dec_size (state s)) (buffer_size bs)
    /\ len (pending s') = Z.max 0 (dec_size (state s') - outBuffOffs (state s'))
    /\ len (pending s') <= buffer_size bs
    /\ out_log s' ++ pending s' = out_log s ++ block_bytes L bs b flush_now.
Proof.
  intros HL Hbs Hstr Hb Hlen Hno Hao Hm Hai Hbuf Hoffs Hdec flush_now.
  pose proof (len_block_bytes b flush_now Hlen) as Hbytes.
  assert (Hdecomp : ZFAST_IS_DECOMPRESSING s = false).
  { unfold ZFAST_IS_DECOMPRESSING, ZFAST_IS_COMPRESSING. rewrite HL.
    destruct (Z.eqb_spec L ZFAST_LEVEL_DECOMPRESS) as [E|E]; [|reflexivity].
    unfold ZFAST_LEVEL_DECOMPRESS in E. lia. }
  unfold transform. rewrite Hdecomp.
  destruct_stream s. subst. unfold compress_block. stream_simpl.
  fold flush_now. clearbody flush_now.
  apply Z.ltb_ge in Hbuf.
  destruct (Z.leb_spec (uInt (len b + len b / EXPANSION_RATIO + EXPANSION_SECURITY))
                       (len m)) as [Hdir|Hind].
  - rewrite (fastlz_compress_hdr_spec in_ b) by (auto; arith).
    unfold outSeek. stream_simpl. repeat exec_step.
    eexists. split; [reflexivity|]. unfold pending. stream_simpl.
    repeat exec_step. rewrite !app_nil_r.
    rewrite take_memcpy_at_0.
    repeat split; try reflexivity; try arith.
  - rewrite (fastlz_compress_hdr_spec in_ b) by (auto; arith).
    stream_simpl. repeat exec_step.
    eexists. split; [reflexivity|]. unfold pending. stream_simpl.
    destruct (Z.ltb_spec 0 (len (block_bytes L bs b flush_now))) as [Hpos|Hz].
    + rewrite Z.sub_0_r, drop_nonpos by lia. rewrite take_memcpy_at_0.
      repeat split; try reflexivity; try arith.
    + assert (E : block_bytes L bs b flush_now = []) by (apply len_zero_nil; arith).
      rewrite E, app_nil_r. repeat split; try reflexivity; try arith.
Qed.


Lemma frames_app bl1 bl2 : frames L bs (bl1 ++ bl2) = frames L bs bl1 ++ frames L bs bl2.
Proof. unfold frames. rewrite map_app, concat_app. reflexivity. Qed.

Lemma frames_snoc bl b : frames L bs (bl ++ [b]) = frames L bs bl ++ frame L bs b.
Proof. rewrite frames_app. unfold frames. simpl. rewrite app_nil_r. reflexivity. Qed.

Ltac inv_simpl :=
  unfold staged, pending, window, compress_potential, productive in *; stream_simpl.

Ltac split_inv := constructor; inv_simpl.

Ltac pot_arith :=
  let C := fresh "C" in
  let HC := fresh "HC" in
  assert (HC : 0 <= buffer_size bs) by (unfold buffer_size; constants; lia);
  set (C := buffer_size bs) in *; clearbody C;
  constants; autorewrite with lens in *; len_facts; nia.

Ltac potential :=
  inv_simpl; repeat exec_step; split_conds;
  rewrite ?len_take, ?len_drop by arith;
  rewrite ?andb_false_r, ?andb_true_r, ?orb_false_r, ?orb_true_r; cbn [andb orb];
  try (match goal with |- context [if ?b then 1 else 0] => destruct b end);
  first [arith | pot_arith].

Ltac inv_auto :=
  split_inv; repeat exec_step; rewrite ?app_nil_r; cbn [app]; auto; try arith.

Ltac side :=
  unfold window; stream_simpl; cbn [deref];
  first [ assumption | reflexivity | solve [auto]
        | solve [rewrite ?len_take, ?len_drop by arith; arith] ].

Ltac exists_stream bl eofd :=
  eexists; exists bl, eofd; split; [reflexivity|].

(** From a complete block of input to the end of the call. *)
Lemma compress_block_call X s in_ b rest fin flush bl m :
  level (state s) = L ->
  block_size (state s) = bs ->
  str_size (state s) = len b ->
  take (len b) in_ = b ->
  len b <= bs ->
  next_out s = Some m -> avail_out s = len m -> len m < 2 ^ 32 ->
  avail_in s = len (deref (next_in s)) ->
  avail_in s < 2 ^ 32 ->
  ZFAST_HAS_BUFFERED_OUTPUT s = false ->
  0 <= outBuffOffs (state s) ->
  0 <= dec_size (state s) <= buffer_size bs ->
  out_log s = frames L bs bl ->
  concat bl ++ b ++ window s ++ rest = X ->
  Forall (fun b => 0 < len b <= bs) bl ->
  (fin = true -> rest = []) ->
  flush = (if fin then Z_FINISH else Z_NO_FLUSH) ->
  let bl' := if 0 <? len b then bl ++ [b] else bl in
  let eofd' := fin && (avail_in s =? 0) in
  exists r s',
    (r3 <- transform s in_ flush ;;
     match r3 with
     | inl ret => Some ret
     | inr s3 => Some (finish s3 flush)
     end) = Some (r, s')
    /\ compress_inv L bs X s' rest fin bl' eofd'
    /\ avail_in s' = avail_in s
    /\ len (pending s') <= buffer_size bs
    /\ (r = Z_OK \/ r = Z_STREAM_END /\ concat bl' = X /\ pending s' = []).
Proof.
  intros HL Hbs Hstr Hb Hlen Hno Hao Hm Hwin Havail Hbuf Hoffs Hdec Hlog Hdata Hblocks
         Hfin Hflush bl' eofd'.
  destruct (compress_transform s in_ b flush m)
    as (s' & Ht & Hni' & Hai' & HL' & Hbs' & Hstr' & Hoffs' & Hdec' & Hpend' & Hpcap & Hlog');
    auto; try arith.
  rewrite Ht. cbn [bind].
  assert (Hnow : ((if (flush =? Z_FINISH) && negb (avail_in s =? 0)
                   then Z_NO_FLUSH else flush) =? Z_FINISH) = eofd').
  { unfold eofd'. subst flush. destruct fin; cbn [andb].
    - destruct (avail_in s =? 0); reflexivity.
    - reflexivity. }
  assert (Hbytes : out_log s' ++ pending s'
                   = frames L bs bl' ++ (if eofd' then eof_marker bs else [])).
  { rewrite Hlog', Hlog. unfold block_bytes. rewrite Hnow. unfold bl'.
    destruct (0 <? len b).
    - rewrite frames_snoc, <- app_assoc. reflexivity.
    - reflexivity. }
  assert (Hbl' : concat bl' = concat bl ++ b).
  { unfold bl'. destruct (Z.ltb_spec 0 (len b)).
    - rewrite concat_app. simpl. rewrite app_nil_r. reflexivity.
    - assert (E : b = []) by (apply len_zero_nil; arith). rewrite E, app_nil_r.
      reflexivity. }
  assert (Hinv : compress_inv L bs X s' rest fin bl' eofd').
  { constructor; auto.
    - rewrite Hai', Hni'. exact Hwin.
    - arith.
    - unfold staged. rewrite Hstr'. cbn [Z.eqb app].
      unfold window. rewrite Hai', Hni'. fold (window s).
      rewrite Hbl', <- app_assoc. exact Hdata.
    - unfold bl'. destruct (Z.ltb_spec 0 (len b)); [|exact Hblocks].
      apply Forall_app. split; [exact Hblocks|]. constructor; [lia|constructor].
    - unfold eofd'. intros E. apply andb_true_iff in E. destruct E as [-> E].
      apply Z.eqb_eq in E. rewrite Hai'. auto.
    - rewrite Hai'. exact Havail. }
  unfold finish, ZFAST_INPUT_IS_EMPTY. rewrite Hai'.
  destruct ((flush =? Z_FINISH) && (avail_in s =? 0)
            && negb (ZFAST_HAS_BUFFERED_OUTPUT s')) eqn:E.
  - exists Z_STREAM_END, s'. split; [reflexivity|]. split; [exact Hinv|].
    split; [exact Hai'|]. split; [exact Hpcap|]. right. split; [reflexivity|].
    apply andb_true_iff in E. destruct E as [E E3].
    apply andb_true_iff in E. destruct E as [E1 E2].
    apply Z.eqb_eq in E2. apply negb_true_iff in E3.
    assert (fin = true) as -> by (destruct fin; [reflexivity|subst flush; discriminate E1]).
    rewrite (Hfin eq_refl) in Hdata.
    assert (Hw : window s = []).
    { apply len_zero_nil. unfold window. rewrite len_take by arith. arith. }
    rewrite Hw in Hdata. rewrite !app_nil_r in Hdata.
    split; [rewrite Hbl'; exact Hdata|].
    unfold pending. rewrite E3. reflexivity.
  - exists Z_OK, s'. split; [reflexivity|]. split; [exact Hinv|].
    split; [exact Hai'|]. split; [exact Hpcap|]. left. reflexivity.
Qed.

(** One call of the compressor keeps the invariant, does not raise the
    potential, and lowers it when it can make progress. *)
Lemma compress_call X s rest fin bl eofd flush w m :
  compress_inv L bs X s rest fin bl eofd ->
  next_in s = Some w -> avail_in s < 2 ^ 32 ->
  next_out s = Some m -> avail_out s = len m -> len m < 2 ^ 32 ->
  flush = (if fin then Z_FINISH else Z_NO_FLUSH) ->
  exists r s' bl' eofd',
    fastlzlibCompress s flush = Some (r, s')
    /\ compress_inv L bs X s' rest fin bl' eofd'
    /\ (r = Z_OK
        /\ compress_potential bs s' rest eofd' + (if productive s flush then 1 else 0)
           <= compress_potential bs s rest eofd
        \/ r = Z_STREAM_END /\ concat bl' = X /\ pending s' = []).
Proof.
  intros [HL Hbs Hwin Hstr Hout Hlog Hdata Hblocks Heof Hfin _] Hni Hai Hno Hao Hm Hflush.
  assert (Hflush' : flush = Z_FINISH \/ flush = Z_NO_FLUSH) by (destruct fin; auto).
  destruct (ZFAST_HAS_BUFFERED_OUTPUT s) eqn:Hbuf.
  - (* drain *)
    destruct Hstr as [Hstr|(_ & _ & _ & Hno_buf)]; [|congruence].
    destruct_stream s. inv_simpl. rewrite Hbuf in *.
    subst level0 block_size0 next_in0 next_out0 avail_in0 avail_out0 str_size0.
    cbn [deref] in *.
    apply Z.ltb_lt in Hbuf. destruct Hout as (Hoffs & Hdec & Hpend).
    rewrite len_take, len_drop in Hpend by arith.
    exists Z_OK.
    set (size := Z.min (dec_size0 - outBuffOffs0) (len m)).
    assert (Hsize : size = Z.min (dec_size0 - outBuffOffs0) (len m)) by reflexivity.
    clearbody size.
    exec_head.
    replace (if len m <? dec_size0 - outBuffOffs0 then len m else dec_size0 - outBuffOffs0)
      with size by (rewrite Hsize; zbool).
    assert (Hp1 : len (take size (drop outBuffOffs0 outBuff0)) = size)
      by (rewrite len_take, len_drop by arith; arith).
    destruct (Z.ltb_spec 0 size) as [Hpos|Hzero].
    + rewrite (pending_split outBuff0 outBuffOffs0 dec_size0 size) in Hlog by arith.
      repeat exec_step. exists_stream bl eofd.
      rewrite (take_memcpy_at_0' size) by exact Hp1. split.
      * split_inv; auto; try arith.
        -- destruct (Z.ltb_spec (outBuffOffs0 + size) dec_size0);
             rewrite ?len_take, ?len_drop by arith; arith.
        -- rewrite <- app_assoc. exact Hlog.
      * left. split; [reflexivity|]. potential.
    + repeat exec_step. exists_stream bl eofd. split.
      * split_inv; auto; repeat exec_step; auto; try arith.
        rewrite len_take, len_drop by arith. arith.
      * left. split; [reflexivity|]. potential.
  - (* no buffered output *)
    assert (Hpending : pending s = []) by (unfold pending; rewrite Hbuf; reflexivity).
    rewrite Hpending, app_nil_r in Hlog.
    destruct Hstr as [Hstr|(Hstr & Hk & Hstaged & _)].
    + (* no block in progress *)
      assert (Hst : staged s = []) by (unfold staged; rewrite Hstr; reflexivity).
      rewrite Hst in Hdata. cbn [app] in Hdata.
      destruct_stream s. inv_simpl.
      subst level0 block_size0 next_in0 next_out0 avail_in0 avail_out0 str_size0.
      cbn [deref] in *. apply Z.ltb_ge in Hbuf. destruct Hout as (Hoffs & Hdec & _).
      rewrite take_exact in Hdata.
      destruct (Z.le_gt_cases bs (len w)) as [Hbig|Hsmall].
      * (* a whole block in the window *)
        assert (Heofd : eofd = false).
        { destruct eofd; [|reflexivity]. destruct (Heof eq_refl) as (_ & _ & ?). arith. }
        subst eofd. rewrite app_nil_r in Hlog.
        assert (Hb : take (len (take bs w)) w = take bs w)
          by (rewrite len_take by arith; rewrite Z.min_l by arith; reflexivity).
        assert (Hd : concat bl ++ take bs w ++ take (len w - bs) (drop bs w) ++ rest = X)
          by (rewrite (take_all (len w - bs)) by (rewrite len_drop by arith; arith);
              rewrite (app_assoc (take bs w)), take_drop; exact Hdata).
        assert (Hlb : len (take bs w) = bs) by (rewrite len_take by arith; arith).
        destruct Hflush' as [Hf|Hf]; rewrite Hf; exec_head; rewrite <- Hf.
        all: match goal with
             | |- context [transform ?S ?i ?f] =>
                 pose proof (compress_block_call X S i (take bs w) rest fin f bl m)
                   as Hcb
             end.
        all: repeat (forward Hcb side); cbv zeta in Hcb; stream_simpl.
        all: destruct Hcb as (r & s' & Hcall & Hinv & Hai' & Hpcap & Hres).
        all: exists r, s'; do 2 eexists; split; [exact Hcall|]; split; [exact Hinv|].
        all: destruct Hres as [->|(-> & Hres)];
          [left|right; split; [reflexivity|exact Hres]].
        all: split; [reflexivity|]; unfold compress_potential; rewrite Hai'.
        all: cbn [avail_in]; inv_simpl; repeat exec_step.
        all: match goal with |- context [if ?b then 1 else 0] => destruct b end;
          match goal with |- context [if ?b then 0 else 1] => destruct b end; pot_arith.
      * destruct fin; subst flush.
        -- (* Z_FINISH *)
           specialize (Hfin eq_refl). subst rest.
           destruct (Z.eq_dec (len w) 0) as [Hw|Hw].
           ++ exec_head. exists Z_STREAM_END. exists_stream bl eofd.
              apply len_zero_nil in Hw. subst w.
              rewrite !app_nil_r in Hdata. split.
              ** inv_auto.
              ** right. inv_simpl. repeat exec_step. auto.
           ++ (* the last block, shorter than the block size *)
              assert (Heofd : eofd = false).
              { destruct eofd; [|reflexivity]. destruct (Heof eq_refl) as (_ & _ & ?).
                arith. }
              subst eofd. rewrite app_nil_r in Hlog.
              assert (Hb : take (len w) w = w) by apply take_exact.
              assert (Hd : concat bl ++ w ++ take (len w - len w) (drop (len w) w) ++ []
                           = X)
                by (rewrite take_nonpos by lia; exact Hdata).
              exec_head.
              match goal with
              | |- context [transform ?S ?i ?f] =>
                  pose proof (compress_block_call X S i w [] true f bl m) as Hcb
              end.
              repeat (forward Hcb side). cbv zeta in Hcb. stream_simpl.
              destruct Hcb as (r & s' & Hcall & Hinv & Hai' & Hpcap & Hres).
              exists r, s'. do 2 eexists. split; [exact Hcall|]. split; [exact Hinv|].
              destruct Hres as [->|(-> & Hres)];
                [left|right; split; [reflexivity|exact Hres]].
              split; [reflexivity|]. unfold compress_potential. rewrite Hai'.
              cbn [avail_in]. inv_simpl. repeat exec_step.
              match goal with |- context [if ?b then 1 else 0] => destruct b end;
                pot_arith.
        -- (* Z_NO_FLUSH: the input goes to the input buffer *)
           assert (Heofd : eofd = false).
           { destruct eofd; [|reflexivity]. destruct (Heof eq_refl) as (? & _).
             discriminate. }
           subst eofd. rewrite app_nil_r in Hlog.
           destruct (Z.eq_dec (len w) 0) as [Hw|Hw].
           ++ exec_head. unfold finish. stream_simpl. repeat exec_step.
              exists Z_OK. exists_stream bl false.
              apply len_zero_nil in Hw. subst w. split.
              ** inv_auto. right. repeat exec_step. rewrite take_nonpos by lia.
                 repeat split; auto; arith.
              ** left. split; [reflexivity|]. potential.
           ++ exec_head. unfold finish. stream_simpl. repeat exec_step.
              exists Z_OK. exists_stream bl false. split.
              ** inv_auto.
                 --- rewrite len_drop by arith. arith.
                 --- right. repeat exec_step. rewrite take_exact.
                     rewrite (take_memcpy_at_0' (len w)) by reflexivity.
                     repeat split; auto; arith.
                 --- rewrite take_exact, (take_memcpy_at_0' (len w)) by reflexivity.
                     rewrite drop_exact, take_nonpos by lia. exact Hdata.
              ** left. split; [reflexivity|]. potential.
    + (* a block in progress in the input buffer *)
      assert (Heofd : eofd = false).
      { destruct eofd; [|reflexivity]. destruct (Heof eq_refl) as (_ & ? & _). arith. }
      subst eofd. rewrite app_nil_r in Hlog.
      assert (Hst : staged s = take (inBuffOffs (state s)) (inBuff (state s))).
      { unfold staged. rewrite Hstr.
        replace (bs =? 0) with false by (symmetry; apply Z.eqb_neq; arith). reflexivity. }
      rewrite Hst in Hdata, Hstaged.
      destruct_stream s. inv_simpl.
      subst level0 block_size0 next_in0 next_out0 avail_in0 avail_out0 str_size0.
      cbn [deref] in *. apply Z.ltb_ge in Hbuf. destruct Hout as (Hoffs & Hdec & _).
      rewrite take_exact in Hdata.
      destruct (Z.le_gt_cases (bs - inBuffOffs0) (len w)) as [Hfull|Hpart].
      * (* the window completes the block *)
        set (b := take inBuffOffs0 inBuff0 ++ take (bs - inBuffOffs0) w).
        assert (Hlb : len b = bs).
        { unfold b. rewrite len_app, Hstaged, len_take by arith. arith. }
        assert (Hb : take (len b) (memcpy_at inBuff0 inBuffOffs0 (take (bs - inBuffOffs0) w))
                     = b).
        { rewrite Hlb.
          replace bs with (inBuffOffs0 + len (take (bs - inBuffOffs0) w)) at 1
            by (rewrite len_take by arith; arith).
          apply take_memcpy_at. exact Hstaged. }
        assert (Hd : concat bl ++ b
                     ++ take (len w - (bs - inBuffOffs0)) (drop (bs - inBuffOffs0) w)
                     ++ rest = X).
        { rewrite (take_all (len w - (bs - inBuffOffs0)))
            by (rewrite len_drop by arith; arith).
          unfold b. rewrite <- (app_assoc (take inBuffOffs0 inBuff0)).
          rewrite (app_assoc (take (bs - inBuffOffs0) w)), take_drop. exact Hdata. }
        clearbody b.
        destruct Hflush' as [Hf|Hf]; rewrite Hf; exec_head; rewrite <- Hf.
        all: match goal with
             | |- context [transform ?S ?i ?f] =>
                 pose proof (compress_block_call X S i b rest fin f bl m) as Hcb
             end.
        all: repeat (forward Hcb side); cbv zeta in Hcb; stream_simpl.
        all: destruct Hcb as (r & s' & Hcall & Hinv & Hai' & Hpcap & Hres).
        all: exists r, s'; do 2 eexists; split; [exact Hcall|]; split; [exact Hinv|].
        all: destruct Hres as [->|(-> & Hres)];
          [left|right; split; [reflexivity|exact Hres]].
        all: split; [reflexivity|]; unfold compress_potential; rewrite Hai'.
        all: cbn [avail_in]; inv_simpl; repeat exec_step.
        all: match goal with |- context [if ?b then 1 else 0] => destruct b end;
          match goal with |- context [if ?b then 0 else 1] => destruct b end; pot_arith.
      * destruct fin; subst flush.
        -- (* Z_FINISH: the block is cut short *)
           specialize (Hfin eq_refl). subst rest. rewrite app_nil_r in Hdata.
           set (b := take inBuffOffs0 inBuff0 ++ w).
           assert (Hlb : len b = inBuffOffs0 + len w).
           { unfold b. rewrite len_app, Hstaged. reflexivity. }
           assert (Hd : concat bl ++ b ++ take (len w - len w) (drop (len w) w) ++ [] = X).
           { rewrite take_nonpos by lia. unfold b. rewrite !app_nil_r. exact Hdata. }
           assert (Hd0 : len w = 0 -> concat bl ++ b ++ take (len w) w ++ [] = X).
           { intros E. rewrite take_nonpos by lia. unfold b. rewrite !app_nil_r.
             exact Hdata. }
           destruct (Z.eq_dec (len w) 0) as [Hw|Hw].
           ++ assert (Hb : take (len b) inBuff0 = b).
              { rewrite Hlb, Hw, Z.add_0_r. unfold b.
                apply len_zero_nil in Hw. rewrite Hw, app_nil_r. reflexivity. }
              specialize (Hd0 Hw). clear Hd. clearbody b.
              exec_head.
              match goal with
              | |- context [transform ?S ?i ?f] =>
                  pose proof (compress_block_call X S i b [] true f bl m) as Hcb
              end.
              repeat (forward Hcb side). cbv zeta in Hcb. stream_simpl.
              destruct Hcb as (r & s' & Hcall & Hinv & Hai' & Hpcap & Hres).
              exists r, s'. do 2 eexists. split; [exact Hcall|]. split; [exact Hinv|].
              destruct Hres as [->|(-> & Hres)];
                [left|right; split; [reflexivity|exact Hres]].
              split; [reflexivity|]. unfold compress_potential. rewrite Hai'.
              cbn [avail_in]. inv_simpl. repeat exec_step.
              match goal with |- context [if ?b then 1 else 0] => destruct b end;
                pot_arith.
           ++ assert (Hb : take (len b) (memcpy_at inBuff0 inBuffOffs0 (take (len w) w))
                           = b).
              { rewrite Hlb. rewrite take_exact. apply take_memcpy_at. exact Hstaged. }
              clear Hd0. clearbody b.
              exec_head.
              match goal with
              | |- context [transform ?S ?i ?f] =>
                  pose proof (compress_block_call X S i b [] true f bl m) as Hcb
              end.
              repeat (forward Hcb side). cbv zeta in Hcb. stream_simpl.
              destruct Hcb as (r & s' & Hcall & Hinv & Hai' & Hpcap & Hres).
              exists r, s'. do 2 eexists. split; [exact Hcall|]. split; [exact Hinv|].
              destruct Hres as [->|(-> & Hres)];
                [left|right; split; [reflexivity|exact Hres]].
              split; [reflexivity|]. unfold compress_potential. rewrite Hai'.
              cbn [avail_in]. inv_simpl. repeat exec_step.
              match goal with |- context [if ?b then 1 else 0] => destruct b end;
                pot_arith.
        -- (* Z_NO_FLUSH: more input goes to the input buffer *)
           destruct (Z.eq_dec (len w) 0) as [Hw|Hw].
           ++ exec_head. unfold finish. stream_simpl. repeat exec_step.
              exists Z_OK. exists_stream bl false. split.
              ** inv_auto. rewrite take_exact. exact Hdata.
              ** left. split; [reflexivity|]. potential.
           ++ exec_head. unfold finish. stream_simpl. repeat exec_step.
              exists Z_OK. exists_stream bl false.
              assert (Hin : take (inBuffOffs0 + len w)
                                 (memcpy_at inBuff0 inBuffOffs0 (take (len w) w))
                            = take inBuffOffs0 inBuff0 ++ w).
              { rewrite take_exact. apply take_memcpy_at. exact Hstaged. }
              split.
              ** inv_auto.
                 --- rewrite len_drop by arith. arith.
                 --- right. repeat exec_step. rewrite Hin, len_app, Hstaged.
                     repeat split; auto; arith.
                 --- rewrite Hin, drop_exact.
                     rewrite (take_nonpos (len w - len w)) by lia.
                     rewrite <- app_assoc. exact Hdata.
              ** left. split; [reflexivity|]. potential.
Qed.

End Compressor.

(** ** Round trip: the caller *)

Lemma present_spec s rest c :
  avail_in s = len (deref (next_in s)) ->
  avail_in s < 2 ^ 32 ->
  exists w m,
    fst (present s rest c)
    = mkStream (Some w) (len w) (total_in s) (Some m) (len m) (total_out s)
               (out_log s) (msg s) (state s)
    /\ len w < 2 ^ 32 /\ len m < 2 ^ 32
    /\ w ++ snd (present s rest c) = deref (next_in s) ++ rest
    /\ len w + len (snd (present s rest c)) = avail_in s + len rest
    /\ (rest = [] -> snd (present s rest c) = [] /\ w = deref (next_in s)).
Proof.
  intros Hw Ha. unfold present, window. rewrite Hw, take_exact.
  set (n := Z.min (feed c) (2 ^ 32 - 1 - len (deref (next_in s)))).
  set (m := if len (room c) <? 2 ^ 32 then room c else []).
  exists (deref (next_in s) ++ take n rest), m. cbn [fst snd].
  split; [reflexivity|].
  assert (Hn : len (take n rest) <= Z.max 0 n).
  { destruct (Z.le_gt_cases 0 n).
    - rewrite len_take by lia. lia.
    - rewrite take_nonpos by lia. rewrite len_nil. lia. }
  assert (Hd : len (take n rest) + len (drop n rest) = len rest).
  { rewrite <- len_app, take_drop. reflexivity. }
  split; [rewrite len_app; arith|].
  split.
  { unfold m. destruct (Z.ltb_spec (len (room c)) (2 ^ 32)); [assumption|].
    rewrite len_nil. reflexivity. }
  split; [rewrite <- app_assoc, take_drop; reflexivity|].
  split; [rewrite len_app; arith|].
  intros ->. unfold take, drop. rewrite firstn_nil, skipn_nil, app_nil_r. auto.
Qed.

Section CompressorRun.
Context {lz : FastLZ}.
Variables (L bs : Z).
Hypothesis L_range : 0 <= L <= 9.
Hypothesis bs_range : 64 <= bs <= 2 ^ 20.
Hypothesis compress_bound :
  forall lvl b,
    lvl = 1 \/ lvl = 2 -> MIN_BLOCK_SIZE < len b <= bs ->
    len (fastlz_compress_level lvl b) <= len b + len b / EXPANSION_RATIO.

Lemma present_compress_inv X s rest fin bl eofd c :
  compress_inv L bs X s rest fin bl eofd ->
  let s1 := fst (present s rest c) in
  let rest1 := snd (present s rest c) in
  let fin1 := (fin || last c) && is_nil rest1 in
  compress_inv L bs X s1 rest1 fin1 bl eofd
  /\ compress_potential bs s1 rest1 eofd = compress_potential bs s rest eofd
  /\ exists w m, next_in s1 = Some w /\ next_out s1 = Some m /\ avail_out s1 = len m
                 /\ len m < 2 ^ 32.
Proof.
  intros [HL Hbs Hwin Hstr Hout Hlog Hdata Hblocks Heof Hfin Havail] s1 rest1 fin1.
  destruct (present_spec s rest c Hwin Havail) as (w & m & Hs1 & Hlw & Hlm & Hcat & Hlen & Hnil).
  fold s1 in Hs1. fold rest1 in Hcat, Hlen, Hnil.
  assert (Hst : staged s1 = staged s) by (rewrite Hs1; reflexivity).
  assert (Hpe : pending s1 = pending s) by (rewrite Hs1; reflexivity).
  assert (Hwi : window s1 = w) by (rewrite Hs1; unfold window; cbn; apply take_exact).
  assert (Hwi0 : window s = deref (next_in s))
    by (unfold window; rewrite Hwin; apply take_exact).
  assert (Hstate : state s1 = state s) by (rewrite Hs1; reflexivity).
  assert (Hlog1 : out_log s1 = out_log s) by (rewrite Hs1; reflexivity).
  assert (Hai1 : avail_in s1 = len w) by (rewrite Hs1; reflexivity).
  assert (Hni1 : next_in s1 = Some w) by (rewrite Hs1; reflexivity).
  assert (Hbuf1 : ZFAST_HAS_BUFFERED_OUTPUT s1 = ZFAST_HAS_BUFFERED_OUTPUT s)
    by (rewrite Hs1; reflexivity).
  split; [|split].
  - constructor; rewrite ?Hst, ?Hpe, ?Hwi, ?Hstate, ?Hlog1, ?Hbuf1; auto.
    + rewrite Hcat, <- Hwi0. exact Hdata.
    + intros E. destruct (Heof E) as (F & Hs & Ha). subst fin.
      destruct (Hnil (Hfin eq_refl)) as [Hr1 Hw1].
      unfold fin1. rewrite Hr1. cbn [orb andb is_nil]. split; [reflexivity|]. split.
      * exact Hs.
      * rewrite Hai1, Hw1, <- Hwin. exact Ha.
    + unfold fin1. intros E. apply andb_true_iff in E. destruct E as [_ E].
      destruct rest1; [reflexivity|discriminate E].
    + rewrite Hai1. exact Hlw.
  - unfold compress_potential. rewrite Hpe, Hai1, Hlen. reflexivity.
  - exists w, m. rewrite Hs1. cbn [next_in next_out avail_out]. auto.
Qed.

Lemma compress_potential_nonneg X s rest fin bl eofd :
  compress_inv L bs X s rest fin bl eofd -> 0 <= compress_potential bs s rest eofd.
Proof.
  intros [HL Hbs Hwin Hstr Hout Hlog Hdata Hblocks Heof Hfin Havail].
  unfold compress_potential.
  assert (0 <= avail_in s) by (rewrite Hwin; apply len_nonneg).
  assert (0 <= buffer_size bs) by (unfold buffer_size; constants; lia).
  pose proof (len_nonneg rest). pose proof (len_nonneg (pending s)).
  destruct eofd; nia.
Qed.

(** A run of the compressor: it does not abort, it returns [Z_OK] or
    [Z_STREAM_END], the number of calls that could make progress is bounded
    by the potential, and at [Z_STREAM_END] the caller has received the blocks
    of the whole source. *)
Lemma compress_run_inv X calls :
  forall s rest fin bl eofd,
    compress_inv L bs X s rest fin bl eofd ->
    exists r s' rest' n fin' bl' eofd',
      compress_run s rest fin calls = Some (r, s', rest', n)
      /\ compress_inv L bs X s' rest' fin' bl' eofd'
      /\ (r = Z_OK
          /\ compress_potential bs s' rest' eofd' + Z.of_nat n
             <= compress_potential bs s rest eofd
          \/ r = Z_STREAM_END /\ concat bl' = X /\ pending s' = []).
Proof.
  induction calls as [|c calls IH]; intros s rest fin bl eofd Hinv.
  - exists Z_OK, s, rest, O, fin, bl, eofd. split; [reflexivity|]. split; [exact Hinv|].
    left. split; [reflexivity|]. lia.
  - cbn [compress_run].
    destruct (present_compress_inv X s rest fin bl eofd c Hinv)
      as (Hinv1 & Hpot1 & w & m & Hni & Hno & Hao & Hm).
    destruct (present s rest c) as [s1 rest1] eqn:Hp. cbn [fst snd] in *.
    set (fin1 := (fin || last c) && is_nil rest1) in *.
    set (flush := if fin1 then Z_FINISH else Z_NO_FLUSH).
    destruct (compress_call L bs L_range bs_range compress_bound X s1 rest1 fin1 bl eofd
                flush w m Hinv1 Hni (ci_avail _ _ _ _ _ _ _ _ Hinv1) Hno Hao Hm eq_refl)
      as (r & s2 & bl2 & eofd2 & Hcall & Hinv2 & Hres).
    rewrite Hcall. cbn [bind].
    destruct Hres as [(-> & Hpot)|(-> & Hx & Hpe)].
    + change (Z_OK =? Z_OK) with true. cbv iota.
      destruct (IH s2 rest1 fin1 bl2 eofd2 Hinv2)
        as (r' & s' & rest' & n & fin' & bl' & eofd' & Hrun & Hinv' & Hres').
      rewrite Hrun. cbn [bind].
      exists r', s', rest', ((if productive s1 flush then 1 else 0) + n)%nat,
        fin', bl', eofd'.
      split; [reflexivity|]. split; [exact Hinv'|].
      destruct Hres' as [(-> & Hpot')|Hend]; [left|right; exact Hend].
      split; [reflexivity|].
      destruct (productive s1 flush); lia.
    + change (Z_STREAM_END =? Z_OK) with false. cbv iota.
      exists Z_STREAM_END, s2, rest1, (if productive s1 flush then 1 else 0)%nat,
        fin1, bl2, eofd2.
      split; [reflexivity|]. split; [exact Hinv2|]. right. auto.
Qed.

End CompressorRun.

(** ** Round trip: the decompressor *)

Lemma len_memcpy_at buf offs src :
  0 <= offs -> offs + len src <= len buf -> len (memcpy_at buf offs src) = len buf.
Proof.
  intros Ho Hl. unfold memcpy_at.
  pose proof (len_nonneg src).
  rewrite !len_app, len_take, len_drop by lia. lia.
Qed.

Lemma drop_app_ge n a b : len a <= n -> drop n (a ++ b) = drop (n - len a) b.
Proof.
  intros H. unfold len, drop in *. rewrite skipn_app.
  rewrite skipn_all2 by lia. cbn [app]. f_equal. lia.
Qed.

Lemma memcpy_at_nil buf offs : memcpy_at buf offs [] = buf.
Proof.
  unfold memcpy_at. rewrite len_nil, Z.add_0_r. cbn [app]. apply take_drop.
Qed.

Lemma memcpy_at_cons buf offs x src :
  0 <= offs -> offs + 1 + len src <= len buf ->
  memcpy_at (memcpy_at buf offs [x]) (offs + 1) src = memcpy_at buf offs (x :: src).
Proof.
  intros Ho Hl. pose proof (len_nonneg src).
  assert (Hx : len [x] = 1) by reflexivity.
  assert (Hxs : len (x :: src) = 1 + len src)
    by (change (x :: src) with ([x] ++ src); rewrite len_app; lia).
  unfold memcpy_at. rewrite Hx, Hxs.
  assert (Ht : len (take offs buf) = offs) by (rewrite len_take by lia; lia).
  assert (Htx : len (take offs buf ++ [x]) = offs + 1) by (rewrite len_app; lia).
  rewrite (app_assoc (take offs buf) [x]).
  rewrite take_app_exact by assumption.
  rewrite drop_app_ge by lia. rewrite Htx.
  rewrite drop_drop by lia. rewrite <- !app_assoc. cbn [app].
  replace (offs + 1 + (offs + 1 + len src - (offs + 1))) with (offs + (1 + len src)) by lia.
  reflexivity.
Qed.

Lemma app_split_prefix (a r1 h r2 : list byte) :
  a ++ r1 = h ++ r2 -> len h <= len a ->
  a = h ++ drop (len h) a /\ drop (len h) a ++ r1 = r2.
Proof.
  intros E Hl.
  assert (Hh : take (len h) (a ++ r1) = h) by (rewrite E; apply take_app_exact; reflexivity).
  pose proof (len_nonneg h).
  rewrite take_app_le in Hh by lia.
  split.
  - rewrite <- Hh at 1. symmetry. apply take_drop.
  - assert (Hd : drop (len h) (a ++ r1) = r2)
      by (rewrite E; apply drop_app_exact; reflexivity).
    rewrite drop_app_le in Hd by lia. exact Hd.
Qed.

Lemma drop_cons_nth (w : list byte) :
  0 < len w -> w = nth 0 w x00 :: drop 1 w.
Proof.
  destruct w as [|x w]; [unfold len; simpl; lia|]. reflexivity.
Qed.

Lemma read_frame_header {lz : FastLZ} L bs b rest :
  0 < len b < 2 ^ 31 -> 0 <= len (block_payload L b) < 2 ^ 32 ->
  fastlz_read_header (frame L bs b ++ rest)
  = (block_kind b, len b, len (block_payload L b), len b).
Proof.
  intros Hb Hp. unfold frame. rewrite <- app_assoc, read_write_header.
  rewrite !uInt_small by (change (2 ^ 31) with 2147483648 in *;
                          change (2 ^ 32) with 4294967296 in *; lia).
  unfold block_kind. destruct (_ <? _); reflexivity.
Qed.

Lemma read_eof_marker bs rest :
  fastlz_read_header (eof_marker bs ++ rest) = (BLOCK_TYPE_COMPRESSED, 0, 0, 0).
Proof. unfold eof_marker. rewrite read_write_header. reflexivity. Qed.

(** The loop that copies header bytes, in one step. *)
Lemma copy_header_spec fuel :
  forall ni ai ti no ao to ol mg lv ih iho bs bt ss ds ib ob ibo obo,
    ai = len ni -> len ni < 2 ^ 32 ->
    0 <= iho <= HEADER_SIZE -> len ih = HEADER_SIZE ->
    HEADER_SIZE - iho <= Z.of_nat fuel ->
    let c := Z.min (len ni) (HEADER_SIZE - iho) in
    copy_header fuel
      (mkStream (Some ni) ai ti no ao to ol mg
                (mkState lv ih iho bs bt ss ds ib ob ibo obo))
    = Some (mkStream (Some (drop c ni)) (ai - c) (ti + c) no ao to ol mg
                     (mkState lv (memcpy_at ih iho (take c ni)) (iho + c) bs bt ss ds
                              ib ob ibo obo)).
Proof.
  induction fuel as [|fuel IH]; intros ni ai ti no ao to ol mg lv ih iho bs bt ss ds ib ob
                                        ibo obo Hai Hni Hiho Hih Hfuel c.
  - assert (Hc : c = 0) by (unfold c; arith).
    cbn [copy_header]. rewrite Hc. rewrite drop_nonpos, take_nonpos by lia.
    rewrite memcpy_at_nil. f_equal. f_equal; try lia. f_equal; lia.
  - cbn [copy_header]. stream_simpl.
    destruct (Z.ltb_spec 0 ai) as [Hpos|Hz].
    + destruct (Z.ltb_spec iho HEADER_SIZE) as [Hlt|Hge].
      * cbn [andb]. unfold inSeek. stream_simpl. cbn [deref].
        replace (1 <=? ai) with true by (symmetry; apply Z.leb_le; lia).
        cbn [bind ptr_add option_map].
        rewrite uInt_small by arith.
        rewrite IH; try arith.
        -- assert (Hc : c = 1 + Z.min (len (drop 1 ni)) (HEADER_SIZE - (iho + 1))).
           { unfold c. rewrite len_drop by lia. arith. }
           set (c' := Z.min (len (drop 1 ni)) (HEADER_SIZE - (iho + 1))) in *.
           assert (Hc' : 0 <= c') by (unfold c'; rewrite len_drop by lia; arith).
           rewrite Hc. rewrite drop_drop by lia.
           rewrite memcpy_at_cons.
           ++ rewrite (take_add 1 c') by lia.
              replace (take 1 ni) with [nth 0 ni x00].
              ** cbn [app]. f_equal. f_equal; try lia. f_equal; lia.
              ** rewrite (drop_cons_nth ni) at 2 by lia. reflexivity.
           ++ lia.
           ++ rewrite len_take by lia. unfold c'. arith.
        -- rewrite len_drop by lia. arith.
        -- rewrite len_drop by lia. arith.
        -- rewrite len_memcpy_at; [assumption|lia|]. change (len [nth 0 ni x00]) with 1.
           arith.
      * cbn [andb]. assert (Hc : c = 0) by (unfold c; arith). rewrite Hc.
        rewrite drop_nonpos, take_nonpos by lia.
        rewrite memcpy_at_nil. f_equal. f_equal; try lia. f_equal; lia.
    + cbn [andb]. assert (Hc : c = 0) by (unfold c; arith). rewrite Hc.
      rewrite drop_nonpos, take_nonpos by lia.
      rewrite memcpy_at_nil. f_equal. f_equal; try lia. f_equal; lia.
Qed.

Lemma len_memcpy_at_ge buf offs src :
  len (take offs buf) = offs -> offs + len src <= len (memcpy_at buf offs src).
Proof.
  intros H. unfold memcpy_at. rewrite !len_app, H. len_facts. lia.
Qed.

(** The header phase of a decompressor that has not got the whole header. *)
Lemma decompress_header_partial {lz : FastLZ}
      w ti no ao to ol mg lv ih h bs bt ss ds ib ob ibo obo :
  len w < 2 ^ 32 -> 0 <= h < HEADER_SIZE -> len ih = HEADER_SIZE ->
  h + len w < HEADER_SIZE ->
  decompress_header
    (mkStream (Some w) (len w) ti no ao to ol mg
              (mkState lv ih h bs bt ss ds ib ob ibo obo)) true
  = Some (inl (Z_OK,
               mkStream (Some []) 0 (ti + len w) no ao to ol mg
                        (mkState lv (memcpy_at ih h w) (h + len w) bs bt ss ds
                                 ib ob ibo obo))).
Proof.
  intros Hw Hh Hih Hpart. unfold decompress_header. stream_simpl.
  replace (len w <? HEADER_SIZE) with true by (symmetry; apply Z.ltb_lt; arith).
  rewrite orb_true_r. cbn [negb andb]. rewrite andb_false_r.
  rewrite copy_header_spec by first [reflexivity | arith].
  rewrite Z.min_l by arith. cbn [bind]. stream_simpl.
  rewrite take_exact, drop_exact.
  replace (HEADER_SIZE <=? len w - len w) with false
    by (symmetry; apply Z.leb_gt; arith).
  rewrite andb_false_r.
  replace (h + len w =? HEADER_SIZE) with false by (symmetry; apply Z.eqb_neq; arith).
  f_equal. f_equal. f_equal. f_equal. lia.
Qed.

(** The header phase of a decompressor that has got the whole header, from
    the window or through [inHdr]. *)
Lemma decompress_header_complete {lz : FastLZ}
      w ti no ao to ol mg lv ih h bs bt ss ds ib ob ibo obo hdr w' t bsz c o :
  len w < 2 ^ 32 -> 0 <= h < HEADER_SIZE -> len ih = HEADER_SIZE ->
  take h ih ++ w = hdr ++ w' -> len hdr = HEADER_SIZE ->
  (forall r, fastlz_read_header (hdr ++ r) = (t, bsz, c, o)) ->
  exists ih',
    len ih' = HEADER_SIZE
    /\ len w' = len w - (HEADER_SIZE - h)
    /\ decompress_header
         (mkStream (Some w) (len w) ti no ao to ol mg
                   (mkState lv ih h bs bt ss ds ib ob ibo obo)) true
       = Some (inr (mkStream (Some w') (len w') (ti + (HEADER_SIZE - h)) no ao to ol mg
                             (mkState lv ih' 0 bs t c o ib ob ibo obo), bsz)).
Proof.
  intros Hw Hh Hih Hsplit Hhdr Hread.
  assert (Hth : len (take h ih) = h) by (rewrite len_take by arith; arith).
  assert (Hlen : h + len w = HEADER_SIZE + len w').
  { rewrite <- Hth, <- len_app, Hsplit, len_app, Hhdr. reflexivity. }
  assert (Hw' : drop (HEADER_SIZE - h) w = w').
  { assert (E : drop HEADER_SIZE (take h ih ++ w) = w')
      by (rewrite Hsplit; apply drop_app_exact; exact Hhdr).
    rewrite drop_app_ge in E by arith. rewrite Hth in E. exact E. }
  unfold decompress_header. stream_simpl.
  destruct (Z.eq_dec h 0) as [Hz|Hnz].
  - subst h. rewrite take_nonpos in Hsplit by lia. cbn [app] in Hsplit.
    rewrite Z.sub_0_r in Hw'.
    assert (Hr : fastlz_read_header w = (t, bsz, c, o)) by (rewrite Hsplit; apply Hread).
    change (0 =? 0) with true. cbn [negb orb andb].
    destruct (Z.ltb_spec (len w) HEADER_SIZE) as [Hlt|Hge]; [arith|].
    cbn [bind]. stream_simpl. change (0 =? 0) with true. cbn [andb].
    replace (HEADER_SIZE <=? len w) with true by (symmetry; apply Z.leb_le; arith).
    cbn [deref]. rewrite Hr. cbn [negb andb].
    unfold inSeek. stream_simpl.
    replace (HEADER_SIZE <=? len w) with true by (symmetry; apply Z.leb_le; arith).
    cbn [bind ptr_add option_map]. rewrite Hw'.
    exists ih. split; [exact Hih|]. split; [arith|].
    f_equal. f_equal. f_equal. f_equal; arith.
  - replace (h =? 0) with false by (symmetry; apply Z.eqb_neq; arith).
    cbn [negb orb andb].
    rewrite copy_header_spec by first [reflexivity | arith].
    rewrite Z.min_r by arith. cbn [bind]. stream_simpl.
    replace (h + (HEADER_SIZE - h) =? 0) with false by (symmetry; apply Z.eqb_neq; arith).
    cbn [andb].
    replace (h + (HEADER_SIZE - h) =? HEADER_SIZE) with true
      by (symmetry; apply Z.eqb_eq; arith).
    assert (Hmem : memcpy_at ih h (take (HEADER_SIZE - h) w) = hdr).
    { assert (E : take HEADER_SIZE (take h ih ++ w) = hdr)
        by (rewrite Hsplit; apply take_app_exact; exact Hhdr).
      replace HEADER_SIZE with (h + (HEADER_SIZE - h)) in E at 1 by lia.
      rewrite take_add in E by arith.
      rewrite take_app_exact, drop_app_exact in E by exact Hth.
      unfold memcpy_at. rewrite (drop_all _ ih), app_nil_r; [exact E|].
      rewrite len_take by arith. arith. }
    rewrite Hmem.
    replace (fastlz_read_header hdr) with (fastlz_read_header (hdr ++ []))
      by (rewrite app_nil_r; reflexivity).
    rewrite Hread.
    rewrite Hw'. exists hdr. split; [exact Hhdr|]. split; [arith|].
    f_equal. f_equal. f_equal. f_equal; arith.
Qed.

Lemma int_of_uInt_small u : 0 <= u < 2 ^ 31 -> int_of_uInt u = u.
Proof.
  intros H. unfold int_of_uInt.
  replace (u <? 2 ^ 31) with true by (symmetry; apply Z.ltb_lt; lia). reflexivity.
Qed.

Lemma block_kind_cases b :
  block_kind b = BLOCK_TYPE_COMPRESSED \/ block_kind b = BLOCK_TYPE_RAW.
Proof. unfold block_kind. destruct (_ <? _); auto. Qed.

Lemma potential_step C a b p q d :
  0 <= C -> a + 1 <= b -> p <= C -> 0 <= q -> d <= 1 ->
  (C + 1) * a + p + d <= (C + 1) * b + q.
Proof. intros. nia. Qed.

Section Decompressor.
Context {lz : FastLZ}.
Variables (L bs : Z).
Hypothesis L_range : 0 <= L <= 9.
Hypothesis bs_range : 64 <= bs <= 2 ^ 20.
Hypothesis compress_bound :
  forall lvl b,
    lvl = 1 \/ lvl = 2 -> MIN_BLOCK_SIZE < len b <= bs ->
    len (fastlz_compress_level lvl b) <= len b + len b / EXPANSION_RATIO.

(** The block decompressor gives back what the block compressor was given. *)
Hypothesis lossless :
  forall lvl b,
    lvl = 1 \/ lvl = 2 -> MIN_BLOCK_SIZE < len b <= bs ->
    fastlz_decompress (fastlz_compress_level lvl b) (len b) = b.

Ltac inv_simpl :=
  unfold staged, pending, window, decompress_potential, productive in *; stream_simpl.

Ltac split_inv := constructor; inv_simpl.

Ltac pot_arith :=
  let C := fresh "C" in
  let HC := fresh "HC" in
  assert (HC : bs <= buffer_size bs) by (unfold buffer_size; constants; lia);
  set (C := buffer_size bs) in *; clearbody C;
  constants; autorewrite with lens in *; len_facts; nia.

Ltac potential :=
  inv_simpl; repeat exec_step; split_conds;
  rewrite ?len_take, ?len_drop by arith;
  repeat match goal with
    | |- context [?a <? ?b] => destruct (Z.ltb_spec a b)
    end;
  cbn [andb orb];
  first [arith | pot_arith].

Ltac inv_auto :=
  split_inv; repeat exec_step; rewrite ?app_nil_r; cbn [app]; auto; try arith.

Ltac side :=
  unfold window; stream_simpl; cbn [deref];
  first [ assumption | reflexivity | solve [auto] | solve [congruence]
        | solve [rewrite ?len_take, ?len_drop by arith; arith] ].

Lemma len_payload_bound b :
  len b <= bs -> len (block_payload L b) <= len b + len b / 10.
Proof.
  intros H. unfold block_payload.
  destruct (Z.ltb_spec MIN_BLOCK_SIZE (len b)).
  - apply compress_bound; [apply zlibLevelToFastlz_cases|lia].
  - arith.
Qed.

Lemma frames_cons b bl : frames L bs (b :: bl) = frame L bs b ++ frames L bs bl.
Proof. reflexivity. Qed.

(** From a complete block of wire bytes to the end of the call. *)
Lemma decompress_block_call X s in_ b rest pre post' tail m :
  level (state s) = ZFAST_LEVEL_DECOMPRESS ->
  block_size (state s) = bs ->
  block_type (state s) = block_kind b ->
  str_size (state s) = len (block_payload L b) ->
  dec_size (state s) = len b ->
  inHdrOffs (state s) = 0 ->
  len (inHdr (state s)) = HEADER_SIZE ->
  take (len (block_payload L b)) in_ = block_payload L b ->
  next_out s = Some m -> avail_out s = len m -> len m < 2 ^ 32 ->
  avail_in s = len (deref (next_in s)) ->
  avail_in s < 2 ^ 32 ->
  out_log s = concat pre ->
  concat pre ++ concat (b :: post') = X ->
  Forall (fun b => 0 < len b <= bs) (b :: post') ->
  tail = eof_marker bs \/ tail = [] ->
  window s ++ rest = frames L bs post' ++ tail ->
  exists s',
    (r3 <- transform s in_ Z_NO_FLUSH ;;
     match r3 with
     | inl ret => Some ret
     | inr s3 => Some (finish s3 Z_NO_FLUSH)
     end) = Some (Z_OK, s')
    /\ decompress_inv L bs X s' rest (pre ++ [b]) post' tail
    /\ avail_in s' = avail_in s
    /\ len (pending s') <= bs.
Proof.
  intros HL Hbs Hbt Hstr Hdec Hiho Hih Hin Hno Hao Hm Hwin Havail Hlog Hdata Hblocks
         Htail Htodo.
  inversion Hblocks as [|b0 post0 Hb Hpost]. subst b0 post0.
  assert (Hdata' : concat (pre ++ [b]) ++ concat post' = X).
  { rewrite concat_app. cbn [concat]. rewrite app_nil_r, <- app_assoc. exact Hdata. }
  assert (Hpre : concat (pre ++ [b]) = concat pre ++ b).
  { rewrite concat_app. cbn [concat]. rewrite app_nil_r. reflexivity. }
  assert (Hdata_out :
            (if block_type (state s) =? BLOCK_TYPE_COMPRESSED then
               Some (len (fastlz_decompress (take (str_size (state s)) in_)
                                            (dec_size (state s))),
                     fastlz_decompress (take (str_size (state s)) in_)
                                       (dec_size (state s)))
             else if block_type (state s) =? BLOCK_TYPE_RAW then
               if str_size (state s) <=? dec_size (state s)
               then Some (int_of_uInt (str_size (state s)),
                          take (str_size (state s)) in_)
               else Some (0, [])
             else None) = Some (int_of_uInt (len b), b)).
  { rewrite Hbt, Hstr, Hdec, Hin. unfold block_kind, block_payload.
    destruct (Z.ltb_spec MIN_BLOCK_SIZE (len b)) as [Hbig|Hsmall].
    - change (BLOCK_TYPE_COMPRESSED =? BLOCK_TYPE_COMPRESSED) with true. cbv iota.
      rewrite lossless by (try apply zlibLevelToFastlz_cases; lia).
      rewrite int_of_uInt_small by arith. reflexivity.
    - change (BLOCK_TYPE_RAW =? BLOCK_TYPE_COMPRESSED) with false.
      change (BLOCK_TYPE_RAW =? BLOCK_TYPE_RAW) with true. cbv iota.
      rewrite Z.leb_refl. reflexivity. }
  unfold transform.
  replace (ZFAST_IS_DECOMPRESSING s) with true
    by (unfold ZFAST_IS_DECOMPRESSING, ZFAST_IS_COMPRESSING; rewrite HL; reflexivity).
  unfold decompress_block. cbv zeta. rewrite Hdata_out. clear Hdata_out. cbn [bind].
  destruct_stream s. subst. cbn [deref] in *. unfold finish.
  destruct (Z.leb_spec (len b) (len m)) as [Hdir|Hind].
  - unfold outSeek. stream_simpl. repeat exec_step.
    rewrite ?Z.eqb_refl. cbn [negb].
    rewrite (take_memcpy_at_0' (len b)) by reflexivity.
    eexists. split; [reflexivity|]. split; [|split; [reflexivity|]].
    + split_inv; repeat exec_step; rewrite ?app_nil_r; auto; try arith.
      apply at_header; stream_simpl; [reflexivity|arith|].
      rewrite take_nonpos by lia. exact Htodo.
    + inv_simpl. repeat exec_step. arith.
  - stream_simpl. repeat exec_step. rewrite ?Z.eqb_refl. cbn [negb].
    eexists. split; [reflexivity|]. split; [|split; [reflexivity|]].
    + split_inv; repeat exec_step; rewrite ?app_nil_r; auto; try arith.
      * rewrite Z.sub_0_r, drop_nonpos by lia.
        rewrite (take_memcpy_at_0' (len b)) by reflexivity. arith.
      * rewrite Z.sub_0_r, drop_nonpos by lia.
        rewrite (take_memcpy_at_0' (len b)) by reflexivity. auto.
      * apply at_header; stream_simpl; [reflexivity|arith|].
        rewrite take_nonpos by lia. exact Htodo.
    + inv_simpl. repeat exec_step. rewrite Z.sub_0_r, drop_nonpos by lia.
      rewrite (take_memcpy_at_0' (len b)) by reflexivity. arith.
Qed.

Ltac destruct_fields s :=
  destruct s as [ni ai ti no ao to ol mg [lv ih iho bsz bt ss ds ib ob ibo obo]];
  stream_simpl.

Ltac exists_stream pre post tail :=
  eexists; exists pre, post, tail; split; [reflexivity|].

(** One call of the decompressor keeps the invariant, does not raise the
    potential, and lowers it when it can make progress. *)
Lemma decompress_call X s rest pre post tail w m :
  decompress_inv L bs X s rest pre post tail ->
  next_in s = Some w ->
  next_out s = Some m -> avail_out s = len m -> len m < 2 ^ 32 ->
  exists r s' pre' post' tail',
    fastlzlibDecompress s = Some (r, s')
    /\ decompress_inv L bs X s' rest pre' post' tail'
    /\ (r = Z_OK
        /\ decompress_potential bs s' rest + (if productive s Z_NO_FLUSH then 1 else 0)
           <= decompress_potential bs s rest
        \/ r = Z_STREAM_END /\ post' = [] /\ pending s' = []).
Proof.
  intros [HL Hbs Hwin Hhdr Hout Hlog Hdata Hblocks Htail Hat Hai] Hni Hno Hao Hm.
  destruct (ZFAST_HAS_BUFFERED_OUTPUT s) eqn:Hbuf.
  - (* drain *)
    destruct Hat as [Hstr Hiho Htodo|b post' Hpost Hstr Hiho Hbt Hdec Hoffs' Hibo Hin Hib Htodo].
    2:{ unfold ZFAST_HAS_BUFFERED_OUTPUT in Hbuf. apply Z.ltb_lt in Hbuf. lia. }
    destruct_fields s. inv_simpl. rewrite Hbuf in *.
    subst lv bsz ni no ai ao ss.
    cbn [deref] in *.
    apply Z.ltb_lt in Hbuf. destruct Hout as (Hoffs & Hdec & Hpend).
    rewrite len_take, len_drop in Hpend by arith.
    exists Z_OK.
    set (size := Z.min (ds - obo) (len m)).
    assert (Hsize : size = Z.min (ds - obo) (len m)) by reflexivity.
    clearbody size.
    exec_head.
    replace (if len m <? ds - obo then len m else ds - obo)
      with size by (rewrite Hsize; zbool).
    assert (Hp1 : len (take size (drop obo ob)) = size)
      by (rewrite len_take, len_drop by arith; arith).
    destruct (Z.ltb_spec 0 size) as [Hpos|Hzero].
    + rewrite (pending_split ob obo ds size) in Hlog by arith.
      repeat exec_step. exists_stream pre post tail.
      rewrite (take_memcpy_at_0' size) by exact Hp1. split.
      * split_inv; auto; try arith.
        -- destruct (Z.ltb_spec (obo + size) ds);
             rewrite ?len_take, ?len_drop by arith; arith.
        -- rewrite <- app_assoc. exact Hlog.
        -- apply at_header; stream_simpl; auto.
      * left. split; [reflexivity|]. potential.
    + repeat exec_step. exists_stream pre post tail. split.
      * split_inv; auto; repeat exec_step; auto; try arith.
        -- rewrite len_take, len_drop by arith. arith.
        -- apply at_header; stream_simpl; auto.
      * left. split; [reflexivity|]. potential.
  - (* no buffered output *)
    assert (Hpending : pending s = []) by (unfold pending; rewrite Hbuf; reflexivity).
    rewrite Hpending, app_nil_r in Hlog.
    destruct Hat as [Hstr Hiho Htodo|b post' Hpost Hstr Hiho Hbt Hdec Hoffs' Hibo Hin Hib Htodo].
    + (* in a header *)
      destruct_fields s. inv_simpl.
      subst lv bsz ni no ai ao ss.
      cbn [deref] in *. apply Z.ltb_ge in Hbuf. destruct Hout as (Hoffs & Hdec & _).
      rewrite take_exact in Htodo.
      assert (Hth : len (take iho ih) = iho)
        by (rewrite len_take by arith; arith).
      destruct (Z.lt_ge_cases (iho + len w) HEADER_SIZE) as [Hpart|Hfull].
      * (* the header is not complete *)
        exec_head.
        rewrite decompress_header_partial by arith. cbn [bind].
        exists Z_OK. exists_stream pre post tail.
        split.
        -- inv_auto.
           ++ rewrite len_memcpy_at by arith. assumption.
           ++ apply at_header; stream_simpl; [reflexivity|arith|].
              rewrite (take_nonpos 0) by lia. cbn [app].
              rewrite take_memcpy_at by exact Hth. rewrite <- app_assoc. exact Htodo.
        -- left. split; [reflexivity|]. potential.
      * (* the header is complete *)
        destruct post as [|b post'].
        -- (* no block is left *)
           unfold frames in Htodo. cbn [map concat app] in Htodo.
           destruct Htail as [Ht|Ht]; subst tail.
           2:{ apply (f_equal len) in Htodo. rewrite !len_app, Hth, len_nil in Htodo.
               arith. }
           (* the end of stream marker *)
           rewrite app_assoc in Htodo.
           rewrite <- (app_nil_r (eof_marker bs)) in Htodo.
           assert (Hlh : len (eof_marker bs) = HEADER_SIZE) by reflexivity.
           destruct (app_split_prefix _ _ _ _ Htodo) as [Hsplit Hrest];
             [rewrite len_app, Hth, Hlh; arith|].
           rewrite Hlh in *.
           set (w' := drop HEADER_SIZE (take iho ih ++ w)) in *.
           assert (Hw' : w' = [] /\ rest = []) by (apply app_eq_nil; exact Hrest).
           destruct Hw' as [Hw' Hr]. rewrite Hw' in *. clear w' Hw'. subst rest.
           destruct (decompress_header_complete
                       w ti (Some m) (len m) to ol mg ZFAST_LEVEL_DECOMPRESS ih iho bs bt 0
                       ds ib ob ibo obo (eof_marker bs) [] BLOCK_TYPE_COMPRESSED 0 0 0
                       Hai Hiho Hhdr Hsplit Hlh (read_eof_marker bs))
             as (ih' & Hih' & Hlw' & Hhd).
           exec_head. rewrite Hhd. cbn [bind]. clear Hhd. stream_simpl.
           repeat exec_step.
           exists Z_STREAM_END. exists_stream pre (@nil (list byte)) (@nil byte).
           cbn [concat] in Hdata. rewrite app_nil_r in Hdata.
           split.
           ++ inv_auto. apply at_header; stream_simpl; [reflexivity|arith|].
              reflexivity.
           ++ right. inv_simpl. auto.
        -- (* the header of the block [b] *)
           inversion Hblocks as [|b0 p0 Hb Hpost]. subst b0 p0.
           pose proof (len_payload_bound b (proj2 Hb)) as Hpl.
           rewrite frames_cons in Htodo. unfold frame in Htodo.
           set (pl := block_payload L b) in *.
           set (hdr := fastlz_write_header (block_kind b) bs (len pl) (len b)) in *.
           assert (Hlh : len hdr = HEADER_SIZE) by apply len_write_header.
           rewrite <- !app_assoc in Htodo. rewrite (app_assoc (take iho ih)) in Htodo.
           destruct (app_split_prefix _ _ _ _ Htodo) as [Hsplit Hrest];
             [rewrite len_app, Hth, Hlh; arith|].
           rewrite Hlh in *.
           set (w' := drop HEADER_SIZE (take iho ih ++ w)) in *.
           assert (Hread : forall r, fastlz_read_header (hdr ++ r)
                                     = (block_kind b, len b, len pl, len b)).
           { intros r. unfold hdr. rewrite read_write_header.
             rewrite !uInt_small by arith.
             destruct (block_kind_cases b) as [E|E]; rewrite E; reflexivity. }
           destruct (decompress_header_complete
                       w ti (Some m) (len m) to ol mg ZFAST_LEVEL_DECOMPRESS ih iho bs bt 0
                       ds ib ob ibo obo hdr w' (block_kind b) (len b) (len pl) (len b)
                       Hai Hiho Hhdr Hsplit Hlh Hread)
             as (ih' & Hih' & Hlw' & Hhd).
           clearbody w' hdr.
           exec_head. rewrite Hhd. cbn [bind]. clear Hhd. stream_simpl.
           destruct (Z.le_gt_cases (len pl) (len w')) as [Hdirect|Hbuffer].
           ++ (* the payload is in the window *)
              destruct (app_split_prefix w' rest pl _ Hrest Hdirect) as [Hw's Hrest'].
              assert (Hin' : take (len pl) w' = pl)
                by (rewrite Hw's; apply take_app_exact; reflexivity).
              assert (Hd : take (len w' - len pl) (drop (len pl) w') ++ rest
                           = frames L bs post' ++ tail)
                by (rewrite take_all by (rewrite len_drop by arith; arith); exact Hrest').
              destruct (block_kind_cases b) as [Hk|Hk]; rewrite Hk.
              all: repeat first [exec_step | rewrite andb_false_r].
              all: match goal with
                   | |- context [transform ?S ?i _] =>
                       pose proof (decompress_block_call X S i b rest pre post' tail m)
                         as Hcb
                   end.
              all: repeat (forward Hcb side).
              all: destruct Hcb as (s' & Hcall & Hinv & Hai' & Hpcap).
              all: exists Z_OK, s', (pre ++ [b]), post', tail.
              all: split; [exact Hcall|]; split; [exact Hinv|].
              all: left; split; [reflexivity|].
              all: unfold decompress_potential; rewrite Hai'; cbn [avail_in].
              all: apply potential_step;
                [arith|arith|arith|apply len_nonneg
                |match goal with |- context [if ?c then _ else _] => destruct c end; lia].
           ++ (* the payload goes to the input buffer *)
              destruct (app_split_prefix pl _ w' rest (eq_sym Hrest)) as [Hpls Hrest'];
                [arith|].
              assert (Hin' : take (len w') pl = w')
                by (rewrite Hpls at 1; apply take_app_exact; reflexivity).
              destruct (block_kind_cases b) as [Hk|Hk]; rewrite Hk.
              all: destruct (Z.eq_dec (len w') 0) as [Hz|Hnz].
              all: repeat first [exec_step | rewrite andb_false_r].
              all: unfold finish; stream_simpl; repeat exec_step.
              all: exists Z_OK; exists_stream pre (b :: post') tail.
              all: (split; [|left; split; [reflexivity|]; potential]).
              all: inv_auto.
              all: try (rewrite len_drop by arith; arith).
              all: eapply at_payload;
                [reflexivity|reflexivity|reflexivity|stream_simpl; congruence
                |reflexivity|reflexivity|stream_simpl; arith|stream_simpl|stream_simpl
                |inv_simpl].
              all: rewrite ?take_exact, ?drop_exact.
              all: rewrite ?(take_nonpos 0), ?(take_nonpos (len w' - len w')) by lia.
              all: rewrite ?(take_memcpy_at_0' (len w')) by reflexivity.
              all: cbn [app]; auto.
              all: try (symmetry; exact Hin').
              all: try arith.
              all: try (pose proof (len_memcpy_at_ge ib 0 w'
                                      (f_equal len (take_nonpos 0 ib (Z.le_refl 0))));
                        arith).
              all: try (rewrite Hz; rewrite drop_nonpos by lia; rewrite Hz in Hrest';
                        rewrite drop_nonpos in Hrest' by lia; symmetry; exact Hrest').
    + (* in the payload of the block [b] *)
      subst post.
      inversion Hblocks as [|b0 p0 Hb Hpost]. subst b0 p0.
      pose proof (len_payload_bound b (proj2 Hb)) as Hpl.
      destruct_fields s. inv_simpl.
      subst lv bsz ni no ai ao ss iho bt ds.
      set (pl := block_payload L b) in *.
      cbn [deref] in *. apply Z.ltb_ge in Hbuf. destruct Hout as (Hoffs & Hdec & _).
      rewrite take_exact in Htodo.
      assert (Hti : len (take ibo ib) = ibo) by (rewrite len_take by arith; arith).
      assert (Hld : len (drop ibo pl) = len pl - ibo) by (rewrite len_drop by arith; arith).
      destruct (Z.le_gt_cases (len pl - ibo) (len w)) as [Hfull|Hpart].
      * (* the window completes the payload *)
        destruct (app_split_prefix w rest (drop ibo pl) _ Htodo) as [Hws Hrest'];
          [arith|].
        rewrite Hld in *.
        assert (Hsrc : take (len pl - ibo) w = drop ibo pl)
          by (rewrite Hws at 1; apply take_app_exact; exact Hld).
        assert (Hin' : take (len pl) (memcpy_at ib ibo (take (len pl - ibo) w)) = pl).
        { replace (len pl) with (ibo + len (take (len pl - ibo) w)) at 1
            by (rewrite Hsrc, Hld; lia).
          rewrite take_memcpy_at by exact Hti.
          rewrite Hin, Hsrc. apply take_drop. }
        assert (Hd : take (len w - (len pl - ibo)) (drop (len pl - ibo) w) ++ rest
                     = frames L bs post' ++ tail)
          by (rewrite take_all by (rewrite len_drop by arith; arith); exact Hrest').
        exec_head.
        match goal with
        | |- context [transform ?S ?i _] =>
            pose proof (decompress_block_call X S i b rest pre post' tail m) as Hcb
        end.
        repeat (forward Hcb side).
        destruct Hcb as (s' & Hcall & Hinv & Hai' & Hpcap).
        exists Z_OK, s', (pre ++ [b]), post', tail.
        split; [exact Hcall|]. split; [exact Hinv|].
        left. split; [reflexivity|].
        unfold decompress_potential. rewrite Hai'. cbn [avail_in].
        apply potential_step;
          [arith|arith|arith|apply len_nonneg
          |match goal with |- context [if ?c then _ else _] => destruct c end; lia].
      * (* the payload is not complete *)
        destruct (app_split_prefix (drop ibo pl) _ w rest (eq_sym Htodo)) as [Hpls Hrest'];
          [arith|].
        assert (Hsrc : take (len w) (drop ibo pl) = w)
          by (rewrite Hpls at 1; apply take_app_exact; reflexivity).
        assert (Hin' : take (ibo + len w) (memcpy_at ib ibo w) = take (ibo + len w) pl).
        { rewrite take_memcpy_at by exact Hti.
          rewrite take_add by arith. rewrite Hin, Hsrc. reflexivity. }
        rewrite drop_drop in Hrest' by arith.
        destruct (Z.eq_dec (len w) 0) as [Hz|Hnz].
        -- exec_head. unfold finish. stream_simpl. repeat exec_step.
           exists Z_OK. exists_stream pre (b :: post') tail.
           split; [|left; split; [reflexivity|]; potential].
           inv_auto.
           eapply at_payload; try reflexivity; stream_simpl; auto; try arith.
           inv_simpl. rewrite take_exact. exact Htodo.
        -- exec_head. unfold finish. stream_simpl. repeat exec_step.
           exists Z_OK. exists_stream pre (b :: post') tail.
           split; [|left; split; [reflexivity|]; potential].
           inv_auto.
           ++ rewrite len_drop by arith. arith.
           ++ eapply at_payload; try reflexivity; stream_simpl; auto; try arith.
              ** rewrite take_exact. exact Hin'.
              ** rewrite take_exact.
                 pose proof (len_memcpy_at_ge ib ibo w Hti). arith.
              ** inv_simpl. rewrite drop_exact, (take_nonpos (len w - len w)) by lia.
                 cbn [app]. symmetry. exact Hrest'.
Qed.

Lemma decoder_at_state s s1 todo post tail :
  state s1 = state s ->
  decoder_at L bs s todo post tail -> decoder_at L bs s1 todo post tail.
Proof.
  intros E [Hstr Hiho Htodo|b post' Hpost Hstr Hiho Hbt Hdec Hoffs Hibo Hin Hib Htodo].
  - apply at_header; rewrite E; assumption.
  - eapply at_payload; rewrite ?E; eassumption.
Qed.

Lemma present_decompress_inv X s rest pre post tail c :
  decompress_inv L bs X s rest pre post tail ->
  let s1 := fst (present s rest c) in
  let rest1 := snd (present s rest c) in
  decompress_inv L bs X s1 rest1 pre post tail
  /\ decompress_potential bs s1 rest1 = decompress_potential bs s rest
  /\ exists w m, next_in s1 = Some w /\ next_out s1 = Some m /\ avail_out s1 = len m
                 /\ len m < 2 ^ 32.
Proof.
  intros [HL Hbs Hwin Hhdr Hout Hlog Hdata Hblocks Htail Hat Havail] s1 rest1.
  destruct (present_spec s rest c Hwin Havail)
    as (w & m & Hs1 & Hlw & Hlm & Hcat & Hlen & Hnil).
  fold s1 in Hs1. fold rest1 in Hcat, Hlen, Hnil.
  assert (Hpe : pending s1 = pending s) by (rewrite Hs1; reflexivity).
  assert (Hwi : window s1 = w)
    by (rewrite Hs1; unfold window; cbn [avail_in next_in deref]; apply take_exact).
  assert (Hwi0 : window s = deref (next_in s))
    by (unfold window; rewrite Hwin; apply take_exact).
  assert (Hstate : state s1 = state s) by (rewrite Hs1; reflexivity).
  assert (Hlog1 : out_log s1 = out_log s) by (rewrite Hs1; reflexivity).
  assert (Hai1 : avail_in s1 = len w) by (rewrite Hs1; reflexivity).
  split; [|split].
  - constructor.
    + rewrite Hstate. exact HL.
    + rewrite Hstate. exact Hbs.
    + rewrite Hs1. reflexivity.
    + rewrite Hstate. exact Hhdr.
    + rewrite Hpe, Hstate. exact Hout.
    + rewrite Hpe, Hlog1. exact Hlog.
    + exact Hdata.
    + exact Hblocks.
    + exact Htail.
    + apply (decoder_at_state s); [exact Hstate|].
      rewrite Hwi, Hcat, <- Hwi0. exact Hat.
    + rewrite Hai1. exact Hlw.
  - unfold decompress_potential. rewrite Hpe, Hai1, Hlen. reflexivity.
  - exists w, m. rewrite Hs1. cbn [next_in next_out avail_out]. auto.
Qed.

Lemma decompress_potential_nonneg X s rest pre post tail :
  decompress_inv L bs X s rest pre post tail -> 0 <= decompress_potential bs s rest.
Proof.
  intros [HL Hbs Hwin Hhdr Hout Hlog Hdata Hblocks Htail Hat Havail].
  unfold decompress_potential.
  assert (0 <= avail_in s) by (rewrite Hwin; apply len_nonneg).
  assert (0 <= buffer_size bs) by (unfold buffer_size; constants; lia).
  pose proof (len_nonneg rest). pose proof (len_nonneg (pending s)). nia.
Qed.

(** A decompressor that has consumed the whole wire has decoded every
    block. *)
Lemma decompress_all_consumed X s pre post tail :
  decompress_inv L bs X s [] pre post tail -> avail_in s = 0 -> post = [].
Proof.
  intros [HL Hbs Hwin Hhdr Hout Hlog Hdata Hblocks Htail Hat Havail] Hz.
  assert (Hw : window s = [])
    by (unfold window; rewrite Hz; apply take_nonpos; lia).
  rewrite Hw in Hat. cbn [app] in Hat.
  destruct Hat as [Hstr Hiho Htodo|b post' Hpost Hstr Hiho Hbt Hdec Hoffs Hibo Hin Hib Htodo].
  - destruct post as [|b post']; [reflexivity|exfalso].
    apply (f_equal len) in Htodo. rewrite frames_cons in Htodo. unfold frame in Htodo.
    rewrite app_nil_r, !len_app, len_write_header in Htodo.
    rewrite len_take in Htodo by arith. arith.
  - exfalso. apply (f_equal len) in Htodo.
    rewrite !len_app, len_drop, len_nil in Htodo by arith. arith.
Qed.

(** A run of the decompressor: it does not abort, it returns [Z_OK] or
    [Z_STREAM_END], the number of calls that could make progress is bounded
    by the potential, and at [Z_STREAM_END] every block is decoded and the
    caller has received it. *)
Lemma decompress_run_inv X calls :
  forall s rest pre post tail,
    decompress_inv L bs X s rest pre post tail ->
    exists r s' rest' n pre' post' tail',
      decompress_run s rest calls = Some (r, s', rest', n)
      /\ decompress_inv L bs X s' rest' pre' post' tail'
      /\ (r = Z_OK
          /\ decompress_potential bs s' rest' + Z.of_nat n
             <= decompress_potential bs s rest
          \/ r = Z_STREAM_END /\ post' = [] /\ pending s' = []).
Proof.
  induction calls as [|c calls IH]; intros s rest pre post tail Hinv.
  - exists Z_OK, s, rest, O, pre, post, tail. split; [reflexivity|].
    split; [exact Hinv|]. left. split; [reflexivity|]. lia.
  - cbn [decompress_run].
    destruct (present_decompress_inv X s rest pre post tail c Hinv)
      as (Hinv1 & Hpot1 & w & m & Hni & Hno & Hao & Hm).
    destruct (present s rest c) as [s1 rest1] eqn:Hp. cbn [fst snd] in *.
    destruct (decompress_call X s1 rest1 pre post tail w m Hinv1 Hni Hno Hao Hm)
      as (r & s2 & pre2 & post2 & tail2 & Hcall & Hinv2 & Hres).
    rewrite Hcall. cbn [bind].
    destruct Hres as [(-> & Hpot)|(-> & Hx & Hpe)].
    + change (Z_OK =? Z_OK) with true. cbv iota.
      destruct (IH s2 rest1 pre2 post2 tail2 Hinv2)
        as (r' & s' & rest' & n & pre' & post' & tail' & Hrun & Hinv' & Hres').
      rewrite Hrun. cbn [bind].
      exists r', s', rest', ((if productive s1 Z_NO_FLUSH then 1 else 0) + n)%nat,
        pre', post', tail'.
      split; [reflexivity|]. split; [exact Hinv'|].
      destruct Hres' as [(-> & Hpot')|Hend]; [left|right; exact Hend].
      split; [reflexivity|].
      destruct (productive s1 Z_NO_FLUSH); lia.
    + change (Z_STREAM_END =? Z_OK) with false. cbv iota.
      exists Z_STREAM_END, s2, rest1, (if productive s1 Z_NO_FLUSH then 1 else 0)%nat,
        pre2, post2, tail2.
      split; [reflexivity|]. split; [exact Hinv2|]. right. auto.
Qed.

End Decompressor.

(** ** Round trip: from initialisation to the end of both runs *)

Lemma stored_level_id level : 0 <= level <= 9 -> stored_level level = level.
Proof.
  intros H. unfold stored_level.
  replace (level <? Z_NO_COMPRESSION) with false by (symmetry; apply Z.ltb_ge; arith).
  replace (Z_BEST_COMPRESSION <? level) with false by (symmetry; apply Z.ltb_ge; arith).
  reflexivity.
Qed.

Lemma compress_stream_fields level bs :
  exists ib ob,
    compress_stream level bs
    = mkStream None 0 0 None 0 0 [] None
               (mkState (stored_level level) (repeat x00 (Z.to_nat HEADER_SIZE)) 0
                        (uInt bs) 0 0 0 ib ob 0 0).
Proof. do 2 eexists. reflexivity. Qed.

Lemma decompress_stream_fields bs :
  exists ib ob,
    decompress_stream bs
    = mkStream None 0 0 None 0 0 [] None
               (mkState ZFAST_LEVEL_DECOMPRESS (repeat x00 (Z.to_nat HEADER_SIZE)) 0
                        (uInt bs) 0 0 0 ib ob 0 0).
Proof. do 2 eexists. reflexivity. Qed.

Lemma compress_inv_init {lz : FastLZ} level bs X :
  0 <= level <= 9 -> 64 <= bs <= 2 ^ 20 ->
  compress_inv level bs X (compress_stream level bs) X false [] false
  /\ compress_potential bs (compress_stream level bs) X false = compress_calls bs X.
Proof.
  intros HL Hbs. destruct (compress_stream_fields level bs) as (ib & ob & ->).
  rewrite stored_level_id by exact HL. rewrite uInt_small by arith.
  split.
  - constructor; unfold staged, pending, window; stream_simpl; cbn [deref app concat];
      rewrite ?take_nonpos by lia; auto; try arith; try discriminate.
    repeat split; try reflexivity; arith.
  - unfold compress_potential, compress_calls, pending. stream_simpl.
    change (0 <? 0) with false. cbv iota. rewrite len_nil. lia.
Qed.

Lemma decompress_inv_init {lz : FastLZ} L bs X bl tail :
  64 <= bs <= 2 ^ 20 ->
  concat bl = X ->
  Forall (fun b => 0 < len b <= bs) bl ->
  tail = eof_marker bs \/ tail = [] ->
  decompress_inv L bs X (decompress_stream bs) (frames L bs bl ++ tail) [] bl tail
  /\ decompress_potential bs (decompress_stream bs) (frames L bs bl ++ tail)
     = decompress_calls bs (frames L bs bl ++ tail).
Proof.
  intros Hbs Hx Hblocks Htail. destruct (decompress_stream_fields bs) as (ib & ob & ->).
  rewrite uInt_small by arith.
  split.
  - constructor; unfold pending, window; stream_simpl; cbn [deref app concat];
      rewrite ?take_nonpos by lia; auto; try arith.
    + repeat split; try reflexivity; arith.
    + apply at_header; stream_simpl; [reflexivity|arith|].
      rewrite !take_nonpos by lia. reflexivity.
  - unfold decompress_potential, decompress_calls, pending. stream_simpl.
    change (0 <? 0) with false. cbv iota. rewrite len_nil. lia.
Qed.

(** C1. Round trip.  For every source [X], every level in [0,9] and every
    block size in [64, 2^20], with block primitives that are lossless and
    never make a block longer by more than a tenth: under every list of calls
    the compressor runs without abort and returns [Z_OK] or [Z_STREAM_END],
    and as long as it returns [Z_OK] the number of its calls that could make
    progress is at most [compress_calls]; once it has returned
    [Z_STREAM_END], under every list of calls over the bytes that it has
    produced the decompressor runs without abort and returns [Z_OK] or
    [Z_STREAM_END], the number of its calls that could make progress is
    bounded as well, what it has delivered is a beginning of [X], and it is
    exactly [X] when it has returned [Z_STREAM_END] or has taken all the
    produced bytes and holds no buffered output. *)
Theorem fastlzlib_round_trip {lz : FastLZ} level bs X ccalls :
  0 <= level <= 9 ->
  64 <= bs <= 2 ^ 20 ->
  (forall lvl b,
      lvl = 1 \/ lvl = 2 -> MIN_BLOCK_SIZE < len b <= bs ->
      len (fastlz_compress_level lvl b) <= len b + len b / EXPANSION_RATIO) ->
  (forall lvl b,
      lvl = 1 \/ lvl = 2 -> MIN_BLOCK_SIZE < len b <= bs ->
      fastlz_decompress (fastlz_compress_level lvl b) (len b) = b) ->
  exists r sc rc n,
    compress_run (compress_stream level bs) X false ccalls = Some (r, sc, rc, n)
    /\ (r = Z_OK /\ Z.of_nat n <= compress_calls bs X \/ r = Z_STREAM_END)
    /\ (r = Z_STREAM_END ->
        forall dcalls,
        exists r' sd rd n',
          decompress_run (decompress_stream bs) (out_log sc) dcalls
          = Some (r', sd, rd, n')
          /\ (r' = Z_OK /\ Z.of_nat n' <= decompress_calls bs (out_log sc)
              \/ r' = Z_STREAM_END)
          /\ is_prefix (out_log sd) X
          /\ (r' = Z_STREAM_END
              \/ rd = [] /\ avail_in sd = 0 /\ ZFAST_HAS_BUFFERED_OUTPUT sd = false ->
              out_log sd = X)).
Proof.
  intros HL Hbs Hbound Hloss.
  destruct (compress_inv_init level bs X HL Hbs) as [Hinit Hpot0].
  destruct (compress_run_inv level bs HL Hbs Hbound X ccalls _ _ _ _ _ Hinit)
    as (r & sc & rc & n & fin' & bl & eofd & Hrun & Hinv & Hres).
  exists r, sc, rc, n. split; [exact Hrun|]. split.
  - destruct Hres as [(-> & Hpot)|(-> & _)]; [left|right; reflexivity].
    split; [reflexivity|].
    pose proof (compress_potential_nonneg level bs Hbs X _ _ _ _ _ Hinv). lia.
  - intros -> dcalls.
    destruct Hres as [(E & _)|(_ & Hx & Hpe)]; [discriminate E|].
    pose proof (ci_log _ _ _ _ _ _ _ _ Hinv) as Hlog.
    rewrite Hpe, app_nil_r in Hlog.
    assert (Htail : (if eofd then eof_marker bs else []) = eof_marker bs
                    \/ (if eofd then eof_marker bs else []) = [])
      by (destruct eofd; auto).
    destruct (decompress_inv_init level bs X bl _ Hbs Hx
                (ci_blocks _ _ _ _ _ _ _ _ Hinv) Htail) as [Hdinit Hdpot0].
    rewrite <- Hlog in Hdinit, Hdpot0.
    destruct (decompress_run_inv level bs Hbs Hbound Hloss X dcalls _ _ _ _ _ Hdinit)
      as (r' & sd & rd & n' & pre' & post' & tail' & Hdrun & Hdinv & Hdres).
    exists r', sd, rd, n'. split; [exact Hdrun|].
    pose proof (di_log _ _ _ _ _ _ _ _ Hdinv) as Hdlog.
    pose proof (di_data _ _ _ _ _ _ _ _ Hdinv) as Hddata.
    split; [|split].
    + destruct Hdres as [(-> & Hpot)|(-> & _)]; [left|right; reflexivity].
      split; [reflexivity|].
      pose proof (decompress_potential_nonneg level bs Hbs X _ _ _ _ _ Hdinv). lia.
    + exists (pending sd ++ concat post'). rewrite app_assoc, Hdlog. symmetry.
      exact Hddata.
    + assert (Hdone : post' = [] -> pending sd = [] -> out_log sd = X).
      { intros Hp Hq. rewrite Hp in Hddata. rewrite Hq in Hdlog.
        cbn [concat] in Hddata. rewrite app_nil_r in Hddata, Hdlog. congruence. }
      intros [->|(-> & Hz & Hnb)].
      * destruct Hdres as [(E & _)|(_ & Hp & Hq)]; [discriminate E|]. auto.
      * apply Hdone.
        -- exact (decompress_all_consumed level bs X sd pre' post' tail' Hdinv Hz).
        -- unfold pending. rewrite Hnb. reflexivity.
Qed.

Lemma fastlzlib_round_trip_witness :
  exists r sc rc n,
    @compress_run stored_lz (compress_stream 1 64) hello false
                  [mkCall 5 (repeat x00 64) true]
    = Some (r, sc, rc, n)
    /\ (r = Z_OK /\ Z.of_nat n <= compress_calls 64 hello \/ r = Z_STREAM_END)
    /\ (r = Z_STREAM_END ->
        forall dcalls,
        exists r' sd rd n',
          @decompress_run stored_lz (decompress_stream 64) (out_log sc) dcalls
          = Some (r', sd, rd, n')
          /\ (r' = Z_OK /\ Z.of_nat n' <= decompress_calls 64 (out_log sc)
              \/ r' = Z_STREAM_END)
          /\ is_prefix (out_log sd) hello
          /\ (r' = Z_STREAM_END
              \/ rd = [] /\ avail_in sd = 0 /\ ZFAST_HAS_BUFFERED_OUTPUT sd = false ->
              out_log sd = hello)).
Proof.
  apply (@fastlzlib_round_trip stored_lz 1 64 hello [mkCall 5 (repeat x00 64) true]).
  - lia.
  - change (2 ^ 20) with 1048576. lia.
  - intros lvl b _ _. cbn [fastlz_compress_level stored_lz].
    pose proof (Z.div_pos (len b) EXPANSION_RATIO (len_nonneg b) eq_refl). lia.
  - intros lvl b _ _. cbn [fastlz_compress_level fastlz_decompress stored_lz].
    rewrite Z.leb_refl. reflexivity.
Defined.

(** C1, as stated, fails: losslessness alone is not enough.  With a lossless
    pair that stores a block twice, the compressed form of a block of 128
    bytes has 256 bytes, more than the 180 bytes that the assertions of
    [fastlz_compress_hdr] allow, and the compressor stops at the assertion;
    a decompressor of the same block size that is given the frame of that
    block refuses its stream size. *)
Lemma expanding_codec_stops_compressor :
  (forall lvl b,
      @fastlz_decompress doubling_lz (@fastlz_compress_level doubling_lz lvl b) (len b) = b)
  /\ @compress_run doubling_lz (compress_stream 1 128) (repeat x00 128) false
                   [mkCall 128 (repeat x00 300) true]
     = None
  /\ option_map fst
       (@fastlzlibDecompress doubling_lz
          (with_output
             (with_input (decompress_stream 128)
                         (@frame doubling_lz 1 128 (repeat x00 128) ++ eof_marker 128))
             (repeat x00 300)))
     = Some Z_VERSION_ERROR.
Proof.
  split; [|split].
  - intros lvl b. cbn [fastlz_compress_level fastlz_decompress doubling_lz].
    apply take_app_exact. reflexivity.
  - vm_compute. reflexivity.
  - vm_compute. reflexivity.
Qed.

(** A concrete run: "hello" goes through the input buffer and the output
    buffer of a compressor, and its compressed form, fed one byte at a time,
    comes back as "hello". *)
Lemma hello_there_and_back :
  option_map (fun '(r, s, rest, _) => (r, out_log s, rest))
             (@compress_run stored_lz (compress_stream 1 64) hello false
                [mkCall 3 [] false; mkCall 2 (repeat x00 7) true;
                 mkCall 0 (repeat x00 30) true; mkCall 0 (repeat x00 30) true;
                 mkCall 0 (repeat x00 30) true])
  = Some (Z_STREAM_END, hello_compressed, [])
  /\ option_map (fun '(r, s, rest, _) => (r, out_log s, rest))
                (@decompress_run stored_lz (decompress_stream 64) hello_compressed
                   (repeat (mkCall 1 (repeat x00 2) false) 50))
     = Some (Z_STREAM_END, hello, []).
Proof. split; vm_compute; reflexivity. Qed.

(** * Further properties of the code *)

(** ** The header codec *)

Lemma header_fields type block_size compressed original rest :
  0 <= type < 256 ->
  0 <= compressed < 2 ^ 32 ->
  0 <= original < 2 ^ 32 ->
  fastlz_read_header (fastlz_write_header type block_size compressed original ++ rest)
  = (type, original, compressed, original).
Proof.
  intros Ht Hc Ho. rewrite read_write_header.
  rewrite Z.mod_small by lia. rewrite !uInt_small by assumption. reflexivity.
Qed.

(** The decoder reads back the type, the compressed length and the original
    length that the encoder has written, whatever the block size given to
    the encoder and whatever follows the header; the block size it reports is
    the original length. *)
Theorem header_round_trip type block_size compressed original rest :
  0 <= type < 256 ->
  0 <= compressed < 2 ^ 32 ->
  0 <= original < 2 ^ 32 ->
  fastlz_read_header (fastlz_write_header type block_size compressed original ++ rest)
  = (type, original, compressed, original).
Proof.
  intros Ht Hc Ho. apply header_fields; assumption.
Qed.

Lemma header_round_trip_witness :
  fastlz_read_header (fastlz_write_header BLOCK_TYPE_RAW 32768 5 5 ++ hello)
  = (BLOCK_TYPE_RAW, 5, 5, 5).
Proof.
  apply (header_round_trip BLOCK_TYPE_RAW 32768 5 5 hello).
  - unfold BLOCK_TYPE_RAW. lia.
  - change (2 ^ 32) with 4294967296. lia.
  - change (2 ^ 32) with 4294967296. lia.
Defined.

(** ** Sniffing the output of a compressor *)

(** On a stream that starts with the frame of a block [b], as the compressor
    writes it, [fastlzlibGetStreamBlockSize] returns the length of [b], not
    the block size of the compressor, and [fastlzlibIsCompressedStream]
    returns [Z_OK]. *)
Theorem sniff_first_frame {lz : FastLZ} level block_size b rest length :
  0 < len b < 2 ^ 31 ->
  len (block_payload level b) < 2 ^ 32 ->
  HEADER_SIZE <= length ->
  fastlzlibGetStreamBlockSize (frame level block_size b ++ rest) length = len b
  /\ fastlzlibIsCompressedStream (frame level block_size b ++ rest) length = Z_OK.
Proof.
  intros Hb Hp Hl.
  assert (Hsize : fastlzlibGetStreamBlockSize (frame level block_size b ++ rest) length
                  = len b).
  { unfold fastlzlibGetStreamBlockSize.
    replace (HEADER_SIZE <=? length) with true by (symmetry; apply Z.leb_le; exact Hl).
    rewrite read_frame_header by (len_facts; lia).
    apply int_of_uInt_small. lia. }
  split; [exact Hsize|].
  unfold fastlzlibIsCompressedStream.
  replace (HEADER_SIZE <=? length) with true by (symmetry; apply Z.leb_le; exact Hl).
  rewrite Hsize.
  replace (len b =? 0) with false by (symmetry; apply Z.eqb_neq; lia). reflexivity.
Qed.

Lemma sniff_first_frame_witness :
  fastlzlibGetStreamBlockSize (@frame stored_lz 1 64 hello ++ eof_marker 64) 45 = 5
  /\ fastlzlibIsCompressedStream (@frame stored_lz 1 64 hello ++ eof_marker 64) 45 = Z_OK.
Proof.
  apply (@sniff_first_frame stored_lz 1 64 hello (eof_marker 64) 45).
  - vm_compute. split; reflexivity.
  - vm_compute. reflexivity.
  - vm_compute. discriminate.
Defined.

(** ** Headers that the decompressor refuses *)

Ltac fields_of s :=
  destruct s as [ni ai ti no ao to ol mg [lv ih iho bsz bt ss ds ib ob ibo obo]];
  stream_simpl.

Lemma read_header_bad_magic w :
  firstn 7 w <> BLOCK_MAGIC -> fastlz_read_header w = (BLOCK_TYPE_BAD_MAGIC, 0, 0, 0).
Proof.
  intros H. unfold fastlz_read_header.
  destruct (bytes_eqb (firstn 7 w) BLOCK_MAGIC) eqn:E; [|reflexivity].
  apply bytes_eqb_eq in E. contradiction.
Qed.

Section Rejections.
Context {lz : FastLZ}.

(** The first phase of a call of an idle decompressor that finds the whole
    header in its window: the header is parsed and its 20 bytes are taken
    before any check of its fields. *)
Lemma idle_decompressor_call s w t b c o :
  ZFAST_IS_DECOMPRESSING s = true ->
  ZFAST_HAS_BUFFERED_OUTPUT s = false ->
  str_size (state s) = 0 ->
  inHdrOffs (state s) = 0 ->
  next_in s = Some w ->
  HEADER_SIZE <= avail_in s ->
  next_out s <> None \/ avail_out s = 0 ->
  fastlz_read_header w = (t, b, c, o) ->
  let s1 := mkStream (Some (drop HEADER_SIZE w)) (avail_in s - HEADER_SIZE)
                     (total_in s + HEADER_SIZE) (next_out s) (avail_out s)
                     (total_out s) (out_log s) (msg s)
                     (set_dec_size (set_str_size (set_block_type (state s) t) c) o) in
  fastlzlibDecompress s
  = (r <- check_block s1 b ;;
     match r with
     | Return code s' => Some (code, s')
     | Continue s1 in1 =>
         '(s2, in2) <- (match in1 with
                        | None => buffer_input s1 Z_NO_FLUSH
                        | Some _ => Some (s1, in1)
                        end) ;;
         match in2 with
         | Some in_ =>
             r3 <- transform s2 in_ Z_NO_FLUSH ;;
             match r3 with
             | inl ret => Some ret
             | inr s3 => Some (finish s3 Z_NO_FLUSH)
             end
         | None => Some (finish s2 Z_NO_FLUSH)
         end
     end).
Proof.
  intros Hd Hbuf Hstr Hiho Hni H20 Hno Hread s1.
  unfold fastlzlibDecompress, fastlzlibDecompress2. rewrite Hd.
  unfold fastlzlibProcess, ZFAST_INPUT_IS_EMPTY, ZFAST_OUTPUT_IS_FULL.
  rewrite Hni. cbn [is_null andb].
  rewrite (sanity_passes _ _ Hno), Hbuf, Hstr. change (0 =? 0) with true. cbv iota.
  unfold next_block. rewrite Hd.
  unfold decompress_header. rewrite Hiho. change (0 =? 0) with true.
  replace (avail_in s <? HEADER_SIZE) with false by (symmetry; apply Z.ltb_ge; lia).
  cbn [negb orb andb bind]. rewrite Hiho, Hni. change (0 =? 0) with true.
  replace (HEADER_SIZE <=? avail_in s) with true by (symmetry; apply Z.leb_le; lia).
  cbn [andb deref]. rewrite Hread. cbn [negb andb].
  unfold inSeek. stream_simpl.
  replace (HEADER_SIZE <=? avail_in s) with true by (symmetry; apply Z.leb_le; lia).
  rewrite Hni. cbn [bind ptr_add option_map]. reflexivity.
Qed.

Lemma check_block_bad_magic s b :
  block_type (state s) = BLOCK_TYPE_BAD_MAGIC ->
  check_block s b
  = Some (Return Z_DATA_ERROR
                 (error (upd set_outBuffOffs s (dec_size (state s)))
                        "Corrupted compressed stream (bad magic)")).
Proof.
  intros H. unfold check_block, upd, set_state.
  cbn [state set_outBuffOffs block_type]. rewrite H. reflexivity.
Qed.

(** An idle decompressor that finds 20 bytes in its window that do not start
    with the magic returns [Z_DATA_ERROR]; the 20 bytes are consumed all the
    same, and nothing is written. *)
Theorem decompress_bad_magic s w :
  ZFAST_IS_DECOMPRESSING s = true ->
  ZFAST_HAS_BUFFERED_OUTPUT s = false ->
  str_size (state s) = 0 ->
  inHdrOffs (state s) = 0 ->
  next_in s = Some w ->
  HEADER_SIZE <= avail_in s ->
  next_out s <> None \/ avail_out s = 0 ->
  firstn 7 w <> BLOCK_MAGIC ->
  exists s',
    fastlzlibDecompress s = Some (Z_DATA_ERROR, s')
    /\ msg s' = Some "Corrupted compressed stream (bad magic)"%string
    /\ next_in s' = Some (drop HEADER_SIZE w)
    /\ avail_in s' = avail_in s - HEADER_SIZE
    /\ total_in s' = total_in s + HEADER_SIZE
    /\ avail_out s' = avail_out s
    /\ total_out s' = total_out s
    /\ out_log s' = out_log s.
Proof.
  intros Hd Hbuf Hstr Hiho Hni H20 Hno Hmagic.
  rewrite (idle_decompressor_call s w _ _ _ _ Hd Hbuf Hstr Hiho Hni H20 Hno
             (read_header_bad_magic w Hmagic)).
  rewrite check_block_bad_magic by reflexivity.
  cbn [bind]. eexists. split; [reflexivity|].
  repeat split; reflexivity.
Qed.

Lemma check_block_version_error s b :
  block_type (state s) <> BLOCK_TYPE_BAD_MAGIC ->
  (block_type (state s) <> BLOCK_TYPE_RAW
   /\ block_type (state s) <> BLOCK_TYPE_COMPRESSED)
  \/ BLOCK_SIZE s < b
  \/ BUFFER_BLOCK_SIZE s < dec_size (state s)
  \/ BUFFER_BLOCK_SIZE s < str_size (state s) ->
  exists m,
    check_block s b
    = Some (Return Z_VERSION_ERROR
                   (error (upd set_outBuffOffs s (dec_size (state s))) m)).
Proof.
  intros Hm H. unfold check_block.
  set (s1 := upd set_outBuffOffs s (dec_size (state s))).
  assert (E1 : block_type (state s1) = block_type (state s)) by reflexivity.
  assert (E2 : BLOCK_SIZE s1 = BLOCK_SIZE s) by reflexivity.
  assert (E3 : BUFFER_BLOCK_SIZE s1 = BUFFER_BLOCK_SIZE s) by reflexivity.
  assert (E4 : dec_size (state s1) = dec_size (state s)) by reflexivity.
  assert (E5 : str_size (state s1) = str_size (state s)) by reflexivity.
  clearbody s1. rewrite E1, E2, E3, E4, E5.
  destruct (Z.eqb_spec (block_type (state s)) BLOCK_TYPE_BAD_MAGIC); [contradiction|].
  destruct (Z.eqb_spec (block_type (state s)) BLOCK_TYPE_RAW) as [Hr|Hr];
    destruct (Z.eqb_spec (block_type (state s)) BLOCK_TYPE_COMPRESSED) as [Hc|Hc];
    cbn [negb andb]; try (eexists; reflexivity).
  all: destruct (Z.ltb_spec (BLOCK_SIZE s) b); [eexists; reflexivity|].
  all: destruct (Z.ltb_spec (BUFFER_BLOCK_SIZE s) (dec_size (state s)));
    [eexists; reflexivity|].
  all: destruct (Z.ltb_spec (BUFFER_BLOCK_SIZE s) (str_size (state s)));
    [eexists; reflexivity|].
  all: exfalso; destruct H as [[Ha Hb]|[Ha|[Ha|Ha]]]; try contradiction; lia.
Qed.

(** An idle decompressor that finds in its window a header with the magic
    returns [Z_VERSION_ERROR] when the type is neither RAW nor COMPRESSED,
    when the original length is larger than the block size of the
    decompressor, or when the compressed length is larger than its buffers;
    the 20 bytes of the header are consumed and nothing is written. *)
Theorem decompress_foreign_block s type block_size compressed original rest :
  ZFAST_IS_DECOMPRESSING s = true ->
  ZFAST_HAS_BUFFERED_OUTPUT s = false ->
  str_size (state s) = 0 ->
  inHdrOffs (state s) = 0 ->
  next_in s = Some (fastlz_write_header type block_size compressed original ++ rest) ->
  HEADER_SIZE <= avail_in s ->
  next_out s <> None \/ avail_out s = 0 ->
  0 <= type < 256 ->
  0 <= compressed < 2 ^ 32 ->
  0 <= original < 2 ^ 32 ->
  (type <> BLOCK_TYPE_RAW /\ type <> BLOCK_TYPE_COMPRESSED)
  \/ BLOCK_SIZE s < original
  \/ BUFFER_BLOCK_SIZE s < compressed ->
  exists s',
    fastlzlibDecompress s = Some (Z_VERSION_ERROR, s')
    /\ next_in s' = Some rest
    /\ avail_in s' = avail_in s - HEADER_SIZE
    /\ total_in s' = total_in s + HEADER_SIZE
    /\ avail_out s' = avail_out s
    /\ total_out s' = total_out s
    /\ out_log s' = out_log s.
Proof.
  intros Hd Hbuf Hstr Hiho Hni H20 Hno Ht Hc Ho Hbad.
  rewrite (idle_decompressor_call s _ _ _ _ _ Hd Hbuf Hstr Hiho Hni H20 Hno
             (header_fields type block_size compressed original rest Ht Hc Ho)).
  match goal with
  | |- context [check_block ?s1 ?b] =>
      destruct (check_block_version_error s1 b) as [m Hm]
  end.
  - cbn [state block_type set_block_type set_str_size set_dec_size].
    unfold BLOCK_TYPE_BAD_MAGIC. lia.
  - cbn [state block_type str_size dec_size set_block_type set_str_size set_dec_size].
    destruct Hbad as [H|[H|H]]; [left; exact H|right; left; exact H|].
    right. right. right. exact H.
  - rewrite Hm. cbn [bind]. eexists. split; [reflexivity|].
    assert (Hdrop : drop HEADER_SIZE
                      (fastlz_write_header type block_size compressed original ++ rest)
                    = rest) by (apply drop_app_exact; reflexivity).
    unfold error, set_msg, upd, set_state.
    cbn [next_in avail_in total_in avail_out total_out out_log].
    rewrite Hdrop. repeat split; reflexivity.
Qed.

End Rejections.

Lemma decompress_bad_magic_witness :
  exists s',
    @fastlzlibDecompress stored_lz
      (with_output (with_input (decompress_stream 64) (x47 :: tl hello_compressed))
                   (repeat x00 8))
    = Some (Z_DATA_ERROR, s')
    /\ avail_in s' = 25.
Proof.
  destruct (@decompress_bad_magic stored_lz
              (with_output (with_input (decompress_stream 64)
                                       (x47 :: tl hello_compressed))
                           (repeat x00 8))
              (x47 :: tl hello_compressed))
    as (s' & H & _ & _ & Ha & _).
  - vm_compute. reflexivity.
  - vm_compute. reflexivity.
  - vm_compute. reflexivity.
  - vm_compute. reflexivity.
  - reflexivity.
  - vm_compute. discriminate.
  - left. discriminate.
  - discriminate.
  - exists s'. split; [exact H|]. rewrite Ha. vm_compute. reflexivity.
Defined.

Lemma decompress_foreign_block_witness :
  exists s',
    @fastlzlibDecompress stored_lz
      (with_output
         (with_input (decompress_stream 64)
                     (fastlz_write_header BLOCK_TYPE_RAW 128 100 100 ++ repeat x01 100))
         (repeat x00 200))
    = Some (Z_VERSION_ERROR, s')
    /\ next_in s' = Some (repeat x01 100).
Proof.
  destruct (@decompress_foreign_block stored_lz
              (with_output
                 (with_input (decompress_stream 64)
                             (fastlz_write_header BLOCK_TYPE_RAW 128 100 100
                              ++ repeat x01 100))
                 (repeat x00 200))
              BLOCK_TYPE_RAW 128 100 100 (repeat x01 100))
    as (s' & H & Hn & _).
  - vm_compute. reflexivity.
  - vm_compute. reflexivity.
  - vm_compute. reflexivity.
  - vm_compute. reflexivity.
  - reflexivity.
  - vm_compute. discriminate.
  - left. discriminate.
  - vm_compute. split; [discriminate|reflexivity].
  - vm_compute. split; [discriminate|reflexivity].
  - vm_compute. split; [discriminate|reflexivity].
  - right. left. vm_compute. reflexivity.
  - exists s'. split; [exact H|exact Hn].
Defined.

(** ** A header read in progress *)

Section HeaderInProgress.
Context {lz : FastLZ}.

Lemma copy_header_done fuel s :
  HEADER_SIZE <= inHdrOffs (state s) -> copy_header fuel s = Some s.
Proof.
  intros H. destruct fuel as [|fuel]; [reflexivity|]. cbn [copy_header].
  replace (inHdrOffs (state s) <? HEADER_SIZE) with false
    by (symmetry; apply Z.ltb_ge; exact H).
  rewrite andb_false_r. reflexivity.
Qed.

Lemma copy_header_offs_pos fuel :
  forall s, 0 < inHdrOffs (state s) ->
            exists s', copy_header fuel s = Some s' /\ 0 < inHdrOffs (state s').
Proof.
  induction fuel as [|fuel IH]; intros s Hpos.
  - exists s. split; [reflexivity|exact Hpos].
  - cbn [copy_header].
    destruct (Z.ltb_spec 0 (avail_in s)) as [Ha|Ha];
      [|exists s; split; [reflexivity|exact Hpos]].
    destruct (Z.ltb_spec (inHdrOffs (state s)) HEADER_SIZE) as [Hh|Hh];
      [|exists s; split; [reflexivity|exact Hpos]].
    cbn [andb]. unfold inSeek, upd, set_state.
    cbn [avail_in state inHdrOffs set_inHdr set_inHdrOffs].
    replace (1 <=? avail_in s) with true by (symmetry; apply Z.leb_le; lia).
    cbn [bind]. apply IH. unfold set_inHdrOffs, set_inHdr. cbn [state inHdrOffs].
    rewrite uInt_small by (unfold HEADER_SIZE in Hh; change (2 ^ 32) with 4294967296; lia).
    lia.
Qed.

(** A decompressor whose header offset is beyond the size of a header, as
    [fastlzlibDecompressSync] leaves it after a scan over more than 20 bytes,
    does nothing: every call returns [Z_OK] and leaves the stream as it
    is, whatever the input. *)
Theorem decompress_stuck_past_header s :
  ZFAST_IS_DECOMPRESSING s = true ->
  ZFAST_HAS_BUFFERED_OUTPUT s = false ->
  str_size (state s) = 0 ->
  HEADER_SIZE < inHdrOffs (state s) ->
  next_in s <> None \/ avail_in s = 0 ->
  next_out s <> None \/ avail_out s = 0 ->
  fastlzlibDecompress s = Some (Z_OK, s).
Proof.
  intros Hd Hbuf Hstr Hiho Hni Hno.
  unfold fastlzlibDecompress, fastlzlibDecompress2. rewrite Hd.
  unfold fastlzlibProcess, ZFAST_INPUT_IS_EMPTY, ZFAST_OUTPUT_IS_FULL.
  rewrite (sanity_passes _ _ Hni), (sanity_passes _ _ Hno), Hbuf, Hstr.
  change (0 =? 0) with true. cbv iota.
  unfold next_block. rewrite Hd. unfold decompress_header.
  replace (inHdrOffs (state s) =? 0) with false
    by (symmetry; apply Z.eqb_neq; unfold HEADER_SIZE in Hiho; lia).
  cbn [negb orb andb]. rewrite copy_header_done by lia. cbn [bind].
  replace (inHdrOffs (state s) =? 0) with false
    by (symmetry; apply Z.eqb_neq; unfold HEADER_SIZE in Hiho; lia).
  replace (inHdrOffs (state s) =? HEADER_SIZE) with false
    by (symmetry; apply Z.eqb_neq; lia).
  reflexivity.
Qed.

(** A decompressor that a scan of [fastlzlibDecompressSync] over 1 to 20
    bytes has left with a header offset that is not zero takes the missing
    bytes of a header from the input, joins them to the old first bytes of
    [inHdr], and returns [Z_DATA_ERROR] when these do not start with the
    first byte of the magic: the header at [next_in] is not read as one. *)
Theorem decompress_misreads_header s w :
  ZFAST_IS_DECOMPRESSING s = true ->
  ZFAST_HAS_BUFFERED_OUTPUT s = false ->
  str_size (state s) = 0 ->
  0 < inHdrOffs (state s) <= HEADER_SIZE ->
  len (inHdr (state s)) = HEADER_SIZE ->
  nth 0 (inHdr (state s)) x00 <> x46 ->
  next_in s = Some w ->
  avail_in s = len w ->
  len w < 2 ^ 32 ->
  HEADER_SIZE - inHdrOffs (state s) <= len w ->
  next_out s <> None \/ avail_out s = 0 ->
  exists s',
    fastlzlibDecompress s = Some (Z_DATA_ERROR, s')
    /\ avail_in s' = avail_in s - (HEADER_SIZE - inHdrOffs (state s))
    /\ out_log s' = out_log s.
Proof.
  intros Hd Hbuf Hstr Hiho Hih Hfirst Hni Hai Hw Hlen Hno.
  unfold fastlzlibDecompress, fastlzlibDecompress2. rewrite Hd.
  unfold fastlzlibProcess, ZFAST_INPUT_IS_EMPTY, ZFAST_OUTPUT_IS_FULL.
  rewrite Hni. cbn [is_null andb].
  rewrite (sanity_passes _ _ Hno), Hbuf, Hstr.
  change (0 =? 0) with true. cbv iota.
  unfold next_block. rewrite Hd. unfold decompress_header.
  replace (inHdrOffs (state s) =? 0) with false by (symmetry; apply Z.eqb_neq; lia).
  cbn [negb orb andb].
  fields_of s. cbn [deref] in *. subst ni ai ss.
  rewrite copy_header_spec by first [reflexivity | arith].
  rewrite Z.min_r by arith. cbn [bind]. stream_simpl.
  replace (iho + (HEADER_SIZE - iho) =? 0) with false by (symmetry; apply Z.eqb_neq; arith).
  replace (iho + (HEADER_SIZE - iho) =? HEADER_SIZE) with true
    by (symmetry; apply Z.eqb_eq; arith).
  cbn [andb].
  rewrite read_header_bad_magic.
  - stream_simpl. cbn [bind]. rewrite check_block_bad_magic by reflexivity. cbn [bind].
    eexists. split; [reflexivity|].
    unfold error, set_msg, upd, set_state. cbn [avail_in out_log].
    split; reflexivity.
  - intros E. apply Hfirst.
    assert (Hn : nth 0 (firstn 7 (memcpy_at ih iho (take (HEADER_SIZE - iho) w))) x00
                 = x46) by (rewrite E; reflexivity).
    unfold memcpy_at in Hn.
    destruct ih as [|x ih]; [discriminate Hih|].
    unfold take in Hn.
    destruct (Z.to_nat iho) as [|k] eqn:Ek; [lia|].
    cbn [firstn app nth] in Hn. exact Hn.
Qed.

(** A call in non-buffered mode on a decompressor that is in the middle of
    a header fails the assertion [assert(may_buffer)]. *)
Theorem non_buffered_call_in_header_aborts s :
  ZFAST_IS_DECOMPRESSING s = true ->
  ZFAST_HAS_BUFFERED_OUTPUT s = false ->
  str_size (state s) = 0 ->
  0 < inHdrOffs (state s) ->
  next_in s <> None \/ avail_in s = 0 ->
  next_out s <> None \/ avail_out s = 0 ->
  fastlzlibDecompress2 s false = None.
Proof.
  intros Hd Hbuf Hstr Hiho Hni Hno.
  unfold fastlzlibDecompress2. rewrite Hd.
  unfold fastlzlibProcess, ZFAST_INPUT_IS_EMPTY, ZFAST_OUTPUT_IS_FULL.
  rewrite (sanity_passes _ _ Hni), (sanity_passes _ _ Hno), Hbuf, Hstr.
  change (0 =? 0) with true. cbv iota.
  unfold next_block. rewrite Hd. unfold decompress_header.
  replace (inHdrOffs (state s) =? 0) with false by (symmetry; apply Z.eqb_neq; lia).
  cbn [negb orb andb].
  destruct (copy_header_offs_pos (Z.to_nat HEADER_SIZE) s Hiho) as (s1 & -> & Hpos).
  cbn [bind].
  replace (inHdrOffs (state s1) =? 0) with false by (symmetry; apply Z.eqb_neq; lia).
  cbn [andb]. destruct (inHdrOffs (state s1) =? HEADER_SIZE); reflexivity.
Qed.

End HeaderInProgress.

Lemma decompress_stuck_past_header_witness :
  let s0 := with_input (decompress_stream 64) (repeat x00 21 ++ hello_compressed) in
  let s := with_output (after (fastlzlibDecompressSync s0)) (repeat x00 64) in
  option_map fst (fastlzlibDecompressSync s0) = Some Z_OK
  /\ next_in s = Some hello_compressed
  /\ @fastlzlibDecompress stored_lz s = Some (Z_OK, s).
Proof.
  intros s0 s. split; [vm_compute; reflexivity|]. split; [vm_compute; reflexivity|].
  apply (@decompress_stuck_past_header stored_lz s).
  - vm_compute. reflexivity.
  - vm_compute. reflexivity.
  - vm_compute. reflexivity.
  - vm_compute. reflexivity.
  - left. vm_compute. discriminate.
  - left. vm_compute. discriminate.
Defined.

Lemma decompress_misreads_header_witness :
  let s0 := with_input (decompress_stream 64) ([x00; x00; x00] ++ hello_compressed) in
  let s := with_output (after (fastlzlibDecompressSync s0)) (repeat x00 64) in
  option_map fst (fastlzlibDecompressSync s0) = Some Z_OK
  /\ next_in s = Some hello_compressed
  /\ exists s', @fastlzlibDecompress stored_lz s = Some (Z_DATA_ERROR, s').
Proof.
  intros s0 s. split; [vm_compute; reflexivity|]. split; [vm_compute; reflexivity|].
  destruct (@decompress_misreads_header stored_lz s hello_compressed) as (s' & H & _).
  - vm_compute. reflexivity.
  - vm_compute. reflexivity.
  - vm_compute. reflexivity.
  - vm_compute. split; [reflexivity|discriminate].
  - vm_compute. reflexivity.
  - vm_compute. discriminate.
  - vm_compute. reflexivity.
  - vm_compute. reflexivity.
  - vm_compute. reflexivity.
  - vm_compute. discriminate.
  - left. vm_compute. discriminate.
  - exists s'. exact H.
Defined.

Lemma non_buffered_call_in_header_aborts_witness :
  let s1 := after (@fastlzlibDecompress stored_lz
                     (with_output (with_input (decompress_stream 64)
                                              (firstn 3 hello_compressed))
                                  (repeat x00 64))) in
  let s := with_input s1 (skipn 3 hello_compressed) in
  inHdrOffs (state s) = 3
  /\ @fastlzlibDecompress2 stored_lz s false = None.
Proof.
  intros s1 s. split; [vm_compute; reflexivity|].
  apply (@non_buffered_call_in_header_aborts stored_lz s).
  - vm_compute. reflexivity.
  - vm_compute. reflexivity.
  - vm_compute. reflexivity.
  - vm_compute. reflexivity.
  - left. vm_compute. discriminate.
  - left. vm_compute. discriminate.
Defined.

(** ** Non-buffered mode *)

Section NonBuffered.
Context {lz : FastLZ}.

Lemma decompress_header_BUF_ERROR s r s' :
  0 <= inHdrOffs (state s) ->
  decompress_header s false = Some (inl (r, s')) ->
  r = Z_BUF_ERROR /\ exists m, s' = error s m.
Proof.
  intros Hiho. unfold decompress_header.
  destruct (Z.eqb_spec (inHdrOffs (state s)) 0) as [Hz|Hnz].
  - cbn [negb orb andb]. rewrite andb_true_r.
    destruct (Z.ltb_spec (avail_in s) HEADER_SIZE) as [Hlt|Hge].
    + intros H. injection H as <- <-. split; [reflexivity|eexists; reflexivity].
    + cbn [bind]. rewrite Hz. change (0 =? 0) with true.
      replace (HEADER_SIZE <=? avail_in s) with true by (symmetry; apply Z.leb_le; lia).
      cbn [andb negb]. destruct (fastlz_read_header (deref (next_in s))) as [[[t b] c] o].
      destruct (avail_in s <? c);
        [intros H; injection H as <- <-; split; [reflexivity|eexists; reflexivity]|].
      destruct (avail_out s <? o);
        [intros H; injection H as <- <-; split; [reflexivity|eexists; reflexivity]|].
      destruct (inSeek _ _); cbn [bind]; discriminate.
  - cbn [negb orb andb].
    destruct (copy_header_offs_pos (Z.to_nat HEADER_SIZE) s) as (s1 & -> & Hpos); [lia|].
    cbn [bind].
    replace (inHdrOffs (state s1) =? 0) with false by (symmetry; apply Z.eqb_neq; lia).
    cbn [andb]. destruct (inHdrOffs (state s1) =? HEADER_SIZE); discriminate.
Qed.

Lemma compress_header_BUF_ERROR s flush r s' :
  compress_header s flush false = inl (r, s') ->
  r = Z_BUF_ERROR /\ exists m, s' = error s m.
Proof.
  unfold compress_header. destruct (_ && _ && _); [|discriminate].
  intros H. injection H as <- <-. split; [reflexivity|eexists; reflexivity].
Qed.

(** The codes of a call once the header phase is over. *)
Lemma block_phases_code u i flush r s' :
  ('(s2, in2) <- (match i with
                  | None => buffer_input u flush
                  | Some _ => Some (u, i)
                  end) ;;
   match in2 with
   | Some in_ =>
       r3 <- transform s2 in_ flush ;;
       match r3 with
       | inl ret => Some ret
       | inr s3 => Some (finish s3 flush)
       end
   | None => Some (finish s2 flush)
   end) = Some (r, s') ->
  r = Z_OK \/ r = Z_STREAM_END \/ r = Z_STREAM_ERROR.
Proof.
  destruct (match i with None => buffer_input u flush | Some _ => Some (u, i) end)
    as [[t2 [i2|]]|]; cbn [bind]; try discriminate.
  - destruct (transform t2 i2 flush) as [[[c2 u2]|u2]|] eqn:T; cbn [bind];
      try discriminate.
    + intros H. injection H as -> ->. apply transform_code in T. auto.
    + intros H. injection H as H. pose proof (finish_code u2 flush) as F.
      rewrite H in F. cbn [fst] in F. destruct F; auto.
  - intros H. injection H as H. pose proof (finish_code t2 flush) as F.
    rewrite H in F. cbn [fst] in F. destruct F; auto.
Qed.

(** A call in non-buffered mode that returns [Z_BUF_ERROR] has changed
    nothing but the message: cursors, counters, buffers and state are as
    before the call. *)
Theorem non_buffered_BUF_ERROR_frame s flush s' :
  0 <= inHdrOffs (state s) ->
  fastlzlibProcess s flush false = Some (Z_BUF_ERROR, s') ->
  exists m, s' = error s m.
Proof.
  intros Hiho. unfold fastlzlibProcess.
  destruct (is_null (next_in s) && negb (ZFAST_INPUT_IS_EMPTY s));
    [intros H; discriminate H|].
  destruct (is_null (next_out s) && negb (ZFAST_OUTPUT_IS_FULL s));
    [intros H; discriminate H|].
  destruct (ZFAST_HAS_BUFFERED_OUTPUT s);
    [intros H; apply drain_output_code in H; discriminate H|].
  assert (Hblock : forall t b,
             (r <- check_block t b ;;
              match r with
              | Return code s' => Some (code, s')
              | Continue s1 in1 =>
                  '(s2, in2) <- (match in1 with
                                 | None => buffer_input s1 flush
                                 | Some _ => Some (s1, in1)
                                 end) ;;
                  match in2 with
                  | Some in_ =>
                      r3 <- transform s2 in_ flush ;;
                      match r3 with
                      | inl ret => Some ret
                      | inr s3 => Some (finish s3 flush)
                      end
                  | None => Some (finish s2 flush)
                  end
              end) = Some (Z_BUF_ERROR, s') -> False).
  { intros t b. destruct (check_block t b) as [[c u|u i]|] eqn:C; cbn [bind];
      [| |discriminate].
    - intros H. injection H as -> ->. apply check_block_code in C.
      destruct C as [C|[C|C]]; discriminate C.
    - intros H. apply block_phases_code in H. destruct H as [H|[H|H]]; discriminate H. }
  destruct (str_size (state s) =? 0).
  - unfold next_block.
    destruct (ZFAST_IS_DECOMPRESSING s).
    + destruct (decompress_header s false) as [[[c t]|[t b]]|] eqn:E;
        cbn [bind]; [| |discriminate].
      * intros H. injection H as -> ->.
        apply (decompress_header_BUF_ERROR _ _ _ Hiho E).
      * intros H. destruct (Hblock t b H).
    + cbn [bind].
      destruct (compress_header s flush false) as [[c t]|[t b]] eqn:E.
      * intros H. injection H as -> ->. apply (compress_header_BUF_ERROR _ _ _ _ E).
      * intros H. destruct (Hblock t b H).
  - cbn [bind]. intros H. apply (block_phases_code s None) in H.
    destruct H as [H|[H|H]]; discriminate H.
Qed.

End NonBuffered.

Lemma non_buffered_BUF_ERROR_frame_witness :
  let s := with_output (with_input (decompress_stream 64) (firstn 5 hello_compressed))
                       (repeat x00 64) in
  @fastlzlibProcess stored_lz s Z_NO_FLUSH false
  = Some (Z_BUF_ERROR, error s "Need more data on input")
  /\ exists m, error s "Need more data on input" = error s m.
Proof.
  intros s.
  assert (H : @fastlzlibProcess stored_lz s Z_NO_FLUSH false
              = Some (Z_BUF_ERROR, error s "Need more data on input"))
    by (vm_compute; reflexivity).
  split; [exact H|].
  apply (@non_buffered_BUF_ERROR_frame stored_lz s Z_NO_FLUSH _); [|exact H].
  vm_compute. discriminate.
Defined.

(** ** No assertion fails in a decompressor in buffered mode *)

Section NoAbort.
Context {lz : FastLZ}.

Lemma drain_output_returns s :
  exists s', drain_output s = Some (Z_OK, s')
             /\ level (state s') = level (state s)
             /\ str_size (state s') = str_size (state s)
             /\ block_type (state s') = block_type (state s).
Proof.
  unfold drain_output.
  set (size0 := uInt (dec_size (state s) - outBuffOffs (state s))).
  set (size := if avail_out s <? size0 then avail_out s else size0).
  assert (Hs : size <= avail_out s)
    by (unfold size; destruct (Z.ltb_spec (avail_out s) size0); lia).
  destruct (0 <? size); [|exists s; auto].
  unfold outSeek, upd, set_state, set_next_out. cbn [avail_out state].
  replace (size <=? avail_out s) with true by (symmetry; apply Z.leb_le; exact Hs).
  cbn [bind]. eexists. split; [reflexivity|]. cbn. auto.
Qed.

Lemma copy_header_returns fuel :
  forall s, exists s', copy_header fuel s = Some s'
                       /\ level (state s') = level (state s)
                       /\ str_size (state s') = str_size (state s)
                       /\ block_type (state s') = block_type (state s).
Proof.
  induction fuel as [|fuel IH]; intros s; [exists s; auto|].
  cbn [copy_header].
  destruct (Z.ltb_spec 0 (avail_in s)) as [Ha|Ha]; [|exists s; auto].
  destruct (inHdrOffs (state s) <? HEADER_SIZE); [|exists s; auto].
  cbn [andb]. unfold inSeek, upd, set_state. cbn [avail_in state].
  replace (1 <=? avail_in s) with true by (symmetry; apply Z.leb_le; lia).
  cbn [bind].
  match goal with |- context [copy_header fuel ?t] => destruct (IH t) as (s' & E & H) end.
  exists s'. split; [exact E|exact H].
Qed.

Lemma decompress_header_returns s :
  exists res,
    decompress_header s true = Some res
    /\ match res with
       | inl (r, s') => r = Z_OK
                        /\ level (state s') = level (state s)
                        /\ str_size (state s') = str_size (state s)
       | inr (s', _) => level (state s') = level (state s)
       end.
Proof.
  unfold decompress_header. cbn [negb]. rewrite !andb_false_r.
  set (buffered := negb (inHdrOffs (state s) =? 0) || (avail_in s <? HEADER_SIZE)).
  assert (H1 : exists s1, (if buffered then copy_header (Z.to_nat HEADER_SIZE) s
                           else Some s) = Some s1
                          /\ level (state s1) = level (state s)
                          /\ str_size (state s1) = str_size (state s)).
  { destruct buffered.
    - destruct (copy_header_returns (Z.to_nat HEADER_SIZE) s) as (s1 & E & HL & HS & _).
      exists s1. auto.
    - exists s. auto. }
  destruct H1 as (s1 & -> & HL & HS). cbn [bind].
  destruct ((inHdrOffs (state s1) =? 0) && (HEADER_SIZE <=? avail_in s1)) eqn:E.
  - apply andb_true_iff in E. destruct E as [_ E].
    destruct (fastlz_read_header (deref (next_in s1))) as [[[t b] c] o].
    unfold inSeek, apply_header, upd, set_state. cbn [avail_in].
    rewrite E. cbn [bind]. eexists. split; [reflexivity|]. cbn. exact HL.
  - destruct (inHdrOffs (state s1) =? HEADER_SIZE).
    + destruct (fastlz_read_header (inHdr (state s1))) as [[[t b] c] o].
      eexists. split; [reflexivity|]. cbn. exact HL.
    + eexists. split; [reflexivity|]. cbn. auto.
Qed.

Lemma check_block_returns s b :
  exists o,
    check_block s b = Some o
    /\ match o with
       | Return r s' => r <> Z_OK /\ level (state s') = level (state s)
       | Continue s1 _ =>
           level (state s1) = level (state s)
           /\ (block_type (state s1) = BLOCK_TYPE_RAW
               \/ block_type (state s1) = BLOCK_TYPE_COMPRESSED)
       end.
Proof.
  unfold check_block.
  set (s1 := upd set_outBuffOffs s (dec_size (state s))).
  assert (HL : level (state s1) = level (state s)) by reflexivity.
  clearbody s1.
  destruct (block_type (state s1) =? BLOCK_TYPE_BAD_MAGIC);
    [eexists; split; [reflexivity|]; cbn; split; [discriminate|exact HL]|].
  destruct (Z.eqb_spec (block_type (state s1)) BLOCK_TYPE_RAW) as [Hr|Hr];
    destruct (Z.eqb_spec (block_type (state s1)) BLOCK_TYPE_COMPRESSED) as [Hc|Hc];
    cbn [negb andb];
    try (eexists; split; [reflexivity|]; cbn; split; [discriminate|exact HL]).
  all: destruct (BLOCK_SIZE s1 <? b);
    [eexists; split; [reflexivity|]; cbn; split; [discriminate|exact HL]|].
  all: destruct (BUFFER_BLOCK_SIZE s1 <? dec_size (state s1));
    [eexists; split; [reflexivity|]; cbn; split; [discriminate|exact HL]|].
  all: destruct (BUFFER_BLOCK_SIZE s1 <? str_size (state s1));
    [eexists; split; [reflexivity|]; cbn; split; [discriminate|exact HL]|].
  all: destruct ((str_size (state s1) =? 0) && (dec_size (state s1) =? 0));
    [eexists; split; [reflexivity|]; cbn; split; [discriminate|exact HL]|].
  all: destruct (Z.leb_spec (str_size (state s1)) (avail_in s1)) as [Hd|Hd].
  all: unfold inSeek; rewrite ?(proj2 (Z.leb_le _ _) Hd); cbn [bind].
  all: eexists; split; [reflexivity|]; cbn; auto.
Qed.

Lemma buffer_input_returns s flush :
  exists s1 i,
    buffer_input s flush = Some (s1, i)
    /\ level (state s1) = level (state s)
    /\ block_type (state s1) = block_type (state s).
Proof.
  unfold buffer_input.
  match goal with
  | |- context [bind ?c _] =>
      assert (H1 : exists s1, c = Some s1
                              /\ level (state s1) = level (state s)
                              /\ block_type (state s1) = block_type (state s))
  end.
  { destruct (inBuffOffs (state s) <? str_size (state s)); [|exists s; auto].
    cbv zeta.
    set (size0 := uInt (str_size (state s) - inBuffOffs (state s))).
    set (size := if avail_in s <? size0 then avail_in s else size0).
    assert (Hs : size <= avail_in s)
      by (unfold size; destruct (Z.ltb_spec (avail_in s) size0); lia).
    destruct (0 <? size); [|exists s; auto].
    unfold inSeek, upd, set_state. cbn [avail_in].
    replace (size <=? avail_in s) with true by (symmetry; apply Z.leb_le; exact Hs).
    eexists. split; [reflexivity|]. cbn. auto. }
  destruct H1 as (s1 & -> & HL & HB). cbn [bind].
  destruct (inBuffOffs (state s1) =? str_size (state s1));
    [do 2 eexists; split; [reflexivity|auto]|].
  destruct (negb (flush =? Z_NO_FLUSH)); do 2 eexists; (split; [reflexivity|]); cbn; auto.
Qed.

Lemma decompress_block_returns s in_ :
  block_type (state s) = BLOCK_TYPE_RAW \/ block_type (state s) = BLOCK_TYPE_COMPRESSED ->
  exists r3,
    decompress_block s in_ = Some r3
    /\ match r3 with
       | inl (r, s') => r <> Z_OK /\ level (state s') = level (state s)
       | inr s' => level (state s') = level (state s) /\ str_size (state s') = 0
       end.
Proof.
  intros Hbt. unfold decompress_block. cbv zeta.
  assert (H1 : exists done data,
             (if block_type (state s) =? BLOCK_TYPE_COMPRESSED then
                Some (len (fastlz_decompress (take (str_size (state s)) in_)
                                             (dec_size (state s))),
                      fastlz_decompress (take (str_size (state s)) in_)
                                        (dec_size (state s)))
              else if block_type (state s) =? BLOCK_TYPE_RAW then
                if str_size (state s) <=? dec_size (state s)
                then Some (int_of_uInt (str_size (state s)),
                           take (str_size (state s)) in_)
                else Some (0, [])
              else None) = Some (done, data)).
  { destruct Hbt as [-> | ->].
    - change (BLOCK_TYPE_RAW =? BLOCK_TYPE_COMPRESSED) with false.
      change (BLOCK_TYPE_RAW =? BLOCK_TYPE_RAW) with true. cbv iota.
      destruct (_ <=? _); do 2 eexists; reflexivity.
    - change (BLOCK_TYPE_COMPRESSED =? BLOCK_TYPE_COMPRESSED) with true. cbv iota.
      do 2 eexists; reflexivity. }
  destruct H1 as (done & data & ->). cbn [bind].
  destruct (Z.leb_spec (dec_size (state s)) (avail_out s)) as [Hd|Hd].
  - unfold outSeek, set_next_out. cbn [avail_out state].
    replace (dec_size (state s) <=? avail_out s) with true
      by (symmetry; apply Z.leb_le; exact Hd).
    cbn [bind]. destruct (negb _); eexists; (split; [reflexivity|]); cbn; auto.
    split; [discriminate|reflexivity].
  - cbn [bind]. destruct (negb _); eexists; (split; [reflexivity|]); cbn; auto.
    split; [discriminate|reflexivity].
Qed.

(** A call of a decompressor in buffered mode returns: no assertion fails,
    whatever the input bytes and whatever the block primitives do.  A call
    that returns [Z_OK] leaves a stream on which the next call returns as
    well. *)
Lemma decompress_call_returns s :
  ZFAST_IS_DECOMPRESSING s = true ->
  block_in_progress_ok s ->
  exists r s',
    fastlzlibDecompress s = Some (r, s')
    /\ ZFAST_IS_DECOMPRESSING s' = true
    /\ (r = Z_OK -> block_in_progress_ok s').
Proof.
  intros Hd Hok.
  assert (Hlevel : forall s', level (state s') = level (state s) ->
                              ZFAST_IS_DECOMPRESSING s' = true).
  { intros s' E. unfold ZFAST_IS_DECOMPRESSING, ZFAST_IS_COMPRESSING in *.
    rewrite E. exact Hd. }
  assert (Htail : forall u i,
             level (state u) = level (state s) ->
             block_type (state u) = BLOCK_TYPE_RAW
             \/ block_type (state u) = BLOCK_TYPE_COMPRESSED ->
             exists r s',
               ('(s2, in2) <- (match i with
                               | None => buffer_input u Z_NO_FLUSH
                               | Some _ => Some (u, i)
                               end) ;;
                match in2 with
                | Some in_ =>
                    r3 <- transform s2 in_ Z_NO_FLUSH ;;
                    match r3 with
                    | inl ret => Some ret
                    | inr s3 => Some (finish s3 Z_NO_FLUSH)
                    end
                | None => Some (finish s2 Z_NO_FLUSH)
                end) = Some (r, s')
               /\ ZFAST_IS_DECOMPRESSING s' = true
               /\ (r = Z_OK -> block_in_progress_ok s')).
  { intros u i HLu Hbt.
    assert (H2 : exists s2 in2,
               (match i with
                | None => buffer_input u Z_NO_FLUSH
                | Some _ => Some (u, i)
                end) = Some (s2, in2)
               /\ level (state s2) = level (state s)
               /\ (block_type (state s2) = BLOCK_TYPE_RAW
                   \/ block_type (state s2) = BLOCK_TYPE_COMPRESSED)).
    { destruct i as [w|].
      - exists u, (Some w). auto.
      - destruct (buffer_input_returns u Z_NO_FLUSH) as (s2 & in2 & E & HL2 & HB2).
        exists s2, in2. split; [exact E|]. split; [congruence|]. rewrite HB2. exact Hbt. }
    destruct H2 as (s2 & in2 & -> & HL2 & HB2). cbn [bind].
    destruct in2 as [in_|].
    - unfold transform. rewrite (Hlevel s2 HL2).
      destruct (decompress_block_returns s2 in_ HB2) as ([[r s']|s'] & -> & H3);
        cbn [bind].
      + destruct H3 as [Hr HL3]. exists r, s'. split; [reflexivity|].
        split; [apply Hlevel; congruence|]. intros E. contradiction.
      + destruct H3 as [HL3 Hs3]. unfold finish. change (Z_NO_FLUSH =? Z_FINISH) with false.
        cbn [andb]. exists Z_OK, s'. split; [reflexivity|].
        split; [apply Hlevel; congruence|]. intros _. left. exact Hs3.
    - unfold finish. change (Z_NO_FLUSH =? Z_FINISH) with false. cbn [andb].
      exists Z_OK, s2. split; [reflexivity|]. split; [apply Hlevel; exact HL2|].
      intros _. right. exact HB2. }
  unfold fastlzlibDecompress, fastlzlibDecompress2. rewrite Hd. unfold fastlzlibProcess.
  destruct (is_null (next_in s) && negb (ZFAST_INPUT_IS_EMPTY s)).
  { do 2 eexists. split; [reflexivity|]. split; [apply Hlevel; reflexivity|discriminate]. }
  destruct (is_null (next_out s) && negb (ZFAST_OUTPUT_IS_FULL s)).
  { do 2 eexists. split; [reflexivity|]. split; [apply Hlevel; reflexivity|discriminate]. }
  destruct (ZFAST_HAS_BUFFERED_OUTPUT s).
  { destruct (drain_output_returns s) as (s' & -> & HL & HS & HB).
    exists Z_OK, s'. split; [reflexivity|]. split; [apply Hlevel; exact HL|].
    intros _. unfold block_in_progress_ok in *. rewrite HS, HB. exact Hok. }
  destruct (Z.eqb_spec (str_size (state s)) 0) as [Hz|Hnz].
  - unfold next_block. rewrite Hd.
    destruct (decompress_header_returns s) as ([[r s']|[s1 b]] & -> & H1); cbn [bind].
    + destruct H1 as (-> & HL & HS). exists Z_OK, s'. split; [reflexivity|].
      split; [apply Hlevel; exact HL|]. intros _. left. congruence.
    + destruct (check_block_returns s1 b) as ([r s'|u i] & -> & H2); cbn [bind].
      * destruct H2 as [Hr HL2]. exists r, s'. split; [reflexivity|].
        split; [apply Hlevel; congruence|]. intros E. contradiction.
      * destruct H2 as [HL2 HB2]. apply Htail; [congruence|exact HB2].
  - cbn [bind]. apply (Htail s None); [reflexivity|].
    destruct Hok as [Hok|Hok]; [contradiction|exact Hok].
Qed.

Lemma decompress_run_returns_from calls :
  forall s rest,
    ZFAST_IS_DECOMPRESSING s = true ->
    block_in_progress_ok s ->
    exists r s' rest' n,
      decompress_run s rest calls = Some (r, s', rest', n)
      /\ (r = Z_OK \/ r = Z_STREAM_END \/ r = Z_STREAM_ERROR \/ r = Z_DATA_ERROR
          \/ r = Z_VERSION_ERROR).
Proof.
  induction calls as [|c calls IH]; intros s rest Hd Hok.
  - exists Z_OK, s, rest, O. split; [reflexivity|auto].
  - cbn [decompress_run].
    destruct (present s rest c) as [s1 rest1] eqn:Hp.
    assert (Hst : state s1 = state s)
      by (apply (f_equal fst) in Hp; cbn [fst] in Hp; rewrite <- Hp; reflexivity).
    assert (Hd1 : ZFAST_IS_DECOMPRESSING s1 = true)
      by (unfold ZFAST_IS_DECOMPRESSING, ZFAST_IS_COMPRESSING in *; rewrite Hst; exact Hd).
    assert (Hok1 : block_in_progress_ok s1)
      by (unfold block_in_progress_ok in *; rewrite Hst; exact Hok).
    destruct (decompress_call_returns s1 Hd1 Hok1) as (r & s2 & Hcall & Hd2 & Hok2).
    rewrite Hcall. cbn [bind].
    destruct (Z.eqb_spec r Z_OK) as [Hr|Hr].
    + destruct (IH s2 rest1 Hd2 (Hok2 Hr)) as (r' & s' & rest' & n & Hrun & Hcode).
      rewrite Hrun. cbn [bind]. do 4 eexists. split; [reflexivity|exact Hcode].
    + do 4 eexists. split; [reflexivity|].
      unfold fastlzlibDecompress, fastlzlibDecompress2 in Hcall. rewrite Hd1 in Hcall.
      apply fastlzlibProcess_codes in Hcall. exact Hcall.
Qed.

(** The run of a fresh decompressor in buffered mode over any bytes, valid
    or not, under any list of calls, comes to an end without a failed
    assertion, whatever the block primitives do; it ends with [Z_OK],
    [Z_STREAM_END], [Z_STREAM_ERROR], [Z_DATA_ERROR] or [Z_VERSION_ERROR]. *)
Theorem decompress_run_returns block_size W calls :
  exists r s rest n,
    decompress_run (decompress_stream block_size) W calls = Some (r, s, rest, n)
    /\ (r = Z_OK \/ r = Z_STREAM_END \/ r = Z_STREAM_ERROR \/ r = Z_DATA_ERROR
        \/ r = Z_VERSION_ERROR).
Proof.
  destruct (decompress_stream_fields block_size) as (ib & ob & ->).
  apply decompress_run_returns_from.
  - reflexivity.
  - left. reflexivity.
Qed.

End NoAbort.

(** ** Cursors and counters *)

Lemma ptr_add_0 p : ptr_add p 0 = p.
Proof. destruct p; reflexivity. Qed.

Lemma ptr_add_add p a b : 0 <= a -> 0 <= b -> ptr_add (ptr_add p a) b = ptr_add p (a + b).
Proof.
  intros Ha Hb. destruct p as [m|]; [|reflexivity].
  unfold ptr_add. cbn [option_map]. f_equal. apply drop_drop; assumption.
Qed.

Lemma read_header_nonneg w t b c o :
  fastlz_read_header w = (t, b, c, o) -> 0 <= b /\ 0 <= c /\ 0 <= o.
Proof.
  unfold fastlz_read_header. destruct (bytes_eqb _ _); intros H; injection H as <- <- <- <-.
  - repeat split; apply uInt_range.
  - lia.
Qed.

Section Cursors.
Context {lz : FastLZ}.

Lemma moved_same s s' :
  0 <= avail_in s -> 0 <= avail_out s ->
  next_in s' = next_in s -> avail_in s' = avail_in s -> total_in s' = total_in s ->
  avail_out s' = avail_out s -> total_out s' = total_out s ->
  moved s s'.
Proof.
  intros. exists 0, 0. unfold cursors_moved. rewrite ptr_add_0.
  repeat split; try assumption; lia.
Qed.

Lemma moved_trans s s1 s2 : moved s s1 -> moved s1 s2 -> moved s s2.
Proof.
  intros (a & b & H1) (c & d & H2). exists (a + c), (b + d).
  unfold cursors_moved in *.
  destruct H1 as (? & ? & Hn1 & ? & ? & ? & ?), H2 as (? & ? & Hn2 & ? & ? & ? & ?).
  rewrite Hn2, Hn1, ptr_add_add by lia. repeat split; lia.
Qed.

Lemma moved_avail s s' : moved s s' -> 0 <= avail_in s' /\ 0 <= avail_out s'.
Proof. intros (a & b & H). unfold cursors_moved in H. lia. Qed.

Lemma inSeek_moved s k s' :
  inSeek s k = Some s' -> 0 <= k -> 0 <= avail_out s ->
  moved s s' /\ state s' = state s.
Proof.
  unfold inSeek. destruct (Z.leb_spec k (avail_in s)) as [Hle|Hle]; [|discriminate].
  intros H Hk Ho. injection H as <-. split; [|reflexivity].
  exists k, 0. unfold cursors_moved. cbn. repeat split; lia.
Qed.

Lemma outSeek_moved s k s' :
  outSeek s k = Some s' -> 0 <= k -> 0 <= avail_in s ->
  moved s s' /\ state s' = state s.
Proof.
  unfold outSeek. destruct (Z.leb_spec k (avail_out s)) as [Hle|Hle]; [|discriminate].
  intros H Hk Ho. injection H as <-. split; [|reflexivity].
  exists 0, k. unfold cursors_moved. cbn. rewrite ptr_add_0. repeat split; lia.
Qed.

Lemma drain_output_moved s r s' :
  drain_output s = Some (r, s') -> 0 <= avail_in s -> 0 <= avail_out s -> moved s s'.
Proof.
  unfold drain_output. intros H Hi Ho.
  set (size0 := uInt (dec_size (state s) - outBuffOffs (state s))) in *.
  set (size := if avail_out s <? size0 then avail_out s else size0) in *.
  destruct (Z.ltb_spec 0 size) as [Hs|Hs].
  - destruct (outSeek _ size) as [s3|] eqn:E; [|discriminate H].
    cbn [bind] in H. injection H as _ <-.
    apply outSeek_moved in E; [|lia|exact Hi]. destruct E as [E _].
    eapply moved_trans; [|exact E]. apply moved_same; auto.
  - injection H as _ <-. apply moved_same; auto.
Qed.

Lemma copy_header_moved fuel :
  forall s s', copy_header fuel s = Some s' -> 0 <= avail_in s -> 0 <= avail_out s ->
               moved s s'.
Proof.
  induction fuel as [|fuel IH]; intros s s' H Hi Ho.
  - injection H as <-. apply moved_same; auto.
  - cbn [copy_header] in H.
    destruct ((0 <? avail_in s) && (inHdrOffs (state s) <? HEADER_SIZE));
      [|injection H as <-; apply moved_same; auto].
    destruct (inSeek _ 1) as [s3|] eqn:E; [|discriminate H]. cbn [bind] in H.
    apply inSeek_moved in E; [|lia|exact Ho]. destruct E as [E _].
    assert (M : moved s s3) by (eapply moved_trans; [|exact E]; apply moved_same; auto).
    eapply moved_trans; [exact M|].
    destruct (moved_avail _ _ M). apply IH; assumption.
Qed.

Lemma decompress_header_moved s mb res :
  decompress_header s mb = Some res -> 0 <= avail_in s -> 0 <= avail_out s ->
  match res with
  | inl (_, s') => moved s s'
  | inr (s', _) => moved s s' /\ 0 <= str_size (state s') /\ 0 <= dec_size (state s')
  end.
Proof.
  unfold decompress_header. intros H Hi Ho.
  destruct (_ && _ && negb mb);
    [injection H as <-; apply moved_same; auto|].
  match type of H with
  | bind ?c _ = _ => destruct c as [s1|] eqn:E; [|discriminate H]
  end.
  cbn [bind] in H.
  assert (M : moved s s1).
  { destruct (_ || _); [eapply copy_header_moved; eauto|].
    injection E as <-. apply moved_same; auto. }
  destruct (moved_avail _ _ M) as [Hi1 Ho1].
  destruct ((inHdrOffs (state s1) =? 0) && (HEADER_SIZE <=? avail_in s1)).
  - destruct (fastlz_read_header (deref (next_in s1))) as [[[t b] c] o] eqn:R.
    apply read_header_nonneg in R.
    destruct (negb mb && (avail_in s1 <? c));
      [injection H as <-; eapply moved_trans; [exact M|]; apply moved_same; auto|].
    destruct (negb mb && (avail_out s1 <? o));
      [injection H as <-; eapply moved_trans; [exact M|]; apply moved_same; auto|].
    destruct (inSeek _ HEADER_SIZE) as [s2|] eqn:E2; [|discriminate H].
    cbn [bind] in H. injection H as <-.
    apply inSeek_moved in E2; [|unfold HEADER_SIZE; lia|exact Ho1].
    destruct E2 as [E2 St]. split; [|rewrite St; cbn; lia].
    eapply moved_trans; [exact M|]. eapply moved_trans; [|exact E2].
    apply moved_same; auto.
  - destruct (inHdrOffs (state s1) =? HEADER_SIZE).
    + destruct mb; [|discriminate H].
      destruct (fastlz_read_header (inHdr (state s1))) as [[[t b] c] o] eqn:R.
      apply read_header_nonneg in R. injection H as <-.
      split; [|cbn; lia]. eapply moved_trans; [exact M|]. apply moved_same; auto.
    + destruct mb; [|discriminate H]. injection H as <-. exact M.
Qed.

Lemma compress_header_moved s flush mb :
  0 <= avail_in s -> 0 <= avail_out s -> 0 <= block_size (state s) ->
  match compress_header s flush mb with
  | inl (_, s') => moved s s'
  | inr (s', _) => moved s s' /\ 0 <= str_size (state s') /\ 0 <= dec_size (state s')
  end.
Proof.
  intros Hi Ho Hb. unfold compress_header.
  destruct (_ && _ && negb mb); [apply moved_same; auto|].
  split; [apply moved_same; auto|]. cbn. unfold BLOCK_SIZE.
  destruct (_ && _); lia.
Qed.

Lemma check_block_moved s b o :
  check_block s b = Some o -> 0 <= avail_in s -> 0 <= avail_out s ->
  0 <= str_size (state s) ->
  match o with
  | Return _ s' => moved s s'
  | Continue s' _ => moved s s' /\ dec_size (state s') = dec_size (state s)
  end.
Proof.
  unfold check_block. intros H Hi Ho Hs.
  set (s1 := upd set_outBuffOffs s (dec_size (state s))) in *.
  assert (M : moved s s1) by (apply moved_same; auto).
  assert (Hs1 : str_size (state s1) = str_size (state s)) by reflexivity.
  assert (Hd1 : dec_size (state s1) = dec_size (state s)) by reflexivity.
  assert (Ho1 : avail_out s1 = avail_out s) by reflexivity.
  clearbody s1.
  repeat match type of H with
         | (if ?c then Some (Return _ _) else _) = _ =>
             destruct c;
             [injection H as <-; eapply moved_trans; [exact M|]; apply moved_same;
              destruct (moved_avail _ _ M); auto|]
         end.
  destruct (str_size (state s1) <=? avail_in s1).
  - destruct (inSeek s1 _) as [s2|] eqn:E; [|discriminate H].
    cbn [bind] in H. injection H as <-.
    apply inSeek_moved in E; [|lia|lia]. destruct E as [E St].
    split; [eapply moved_trans; eauto|]. rewrite St. exact Hd1.
  - injection H as <-. split; [|exact Hd1].
    eapply moved_trans; [exact M|]. apply moved_same; destruct (moved_avail _ _ M); auto.
Qed.

Lemma buffer_input_moved s flush s' i :
  buffer_input s flush = Some (s', i) -> 0 <= avail_in s -> 0 <= avail_out s ->
  moved s s' /\ dec_size (state s') = dec_size (state s).
Proof.
  unfold buffer_input. intros H Hi Ho.
  match type of H with
  | bind ?c _ = _ => destruct c as [s1|] eqn:E; [|discriminate H]
  end.
  cbn [bind] in H.
  assert (M : moved s s1 /\ dec_size (state s1) = dec_size (state s)).
  { destruct (inBuffOffs (state s) <? str_size (state s));
      [|injection E as <-; split; [apply moved_same; auto|reflexivity]].
    cbv zeta in E.
    set (size0 := uInt (str_size (state s) - inBuffOffs (state s))) in *.
    set (size := if avail_in s <? size0 then avail_in s else size0) in *.
    destruct (Z.ltb_spec 0 size);
      [|injection E as <-; split; [apply moved_same; auto|reflexivity]].
    apply inSeek_moved in E; [|lia|exact Ho]. destruct E as [E St].
    split; [|rewrite St; reflexivity].
    eapply moved_trans; [|exact E]. apply moved_same; auto. }
  destruct M as [M Hd]. destruct (moved_avail _ _ M).
  destruct (inBuffOffs (state s1) =? str_size (state s1));
    [injection H as <- _; auto|].
  destruct (negb (flush =? Z_NO_FLUSH)); injection H as <- _; [|auto].
  split; [|exact Hd]. eapply moved_trans; [exact M|]. apply moved_same; auto.
Qed.

Lemma transform_moved s in_ flush r3 :
  transform s in_ flush = Some r3 -> 0 <= avail_in s -> 0 <= avail_out s ->
  0 <= dec_size (state s) ->
  match r3 with
  | inl (_, s') => moved s s'
  | inr s' => moved s s'
  end.
Proof.
  unfold transform. intros H Hi Ho Hd.
  assert (Hsame : forall t u, moved s t ->
                              next_in u = next_in t -> avail_in u = avail_in t ->
                              total_in u = total_in t -> avail_out u = avail_out t ->
                              total_out u = total_out t -> moved s u).
  { intros t u M ? ? ? ? ?. eapply moved_trans; [exact M|].
    destruct (moved_avail _ _ M). apply moved_same; auto. }
  destruct (ZFAST_IS_DECOMPRESSING s).
  - unfold decompress_block in H. cbv zeta in H.
    match type of H with
    | bind ?c _ = _ => destruct c as [[done data]|]; [|discriminate H]
    end.
    cbn [bind] in H.
    match type of H with
    | bind ?c _ = _ => destruct c as [s1|] eqn:E; [|discriminate H]
    end.
    cbn [bind] in H.
    assert (M : moved s s1).
    { destruct (dec_size (state s) <=? avail_out s).
      - destruct (outSeek _ _) as [s2|] eqn:E2; [|discriminate E].
        cbn [bind] in E. injection E as <-.
        apply outSeek_moved in E2; [|exact Hd|exact Hi]. destruct E2 as [E2 _].
        apply (Hsame s2); try reflexivity.
        eapply moved_trans; [|exact E2]. apply moved_same; auto.
      - injection E as <-. apply moved_same; auto. }
    destruct (negb _); injection H as <-; apply (Hsame s1); auto.
  - destruct (compress_block s in_ _) as [s1|] eqn:E; [|discriminate H].
    cbn [bind] in H. injection H as <-.
    unfold compress_block in E. cbv zeta in E.
    match type of E with
    | bind ?c _ = _ => destruct c as [s2|] eqn:E2; [|discriminate E]
    end.
    cbn [bind] in E. injection E as <-.
    assert (M : moved s s2).
    { destruct (_ <=? avail_out s).
      - destruct (fastlz_compress_hdr _ _ _ _ _ _) as [data|]; [|discriminate E2].
        cbn [bind] in E2.
        destruct (outSeek _ _) as [s3|] eqn:E3; [|discriminate E2].
        cbn [bind] in E2. injection E2 as <-.
        apply outSeek_moved in E3; [|apply len_nonneg|exact Hi]. destruct E3 as [E3 _].
        apply (Hsame s3); try reflexivity.
        eapply moved_trans; [|exact E3]. apply moved_same; auto.
      - destruct (fastlz_compress_hdr _ _ _ _ _ _) as [data|]; [|discriminate E2].
        cbn [bind] in E2. injection E2 as <-. apply moved_same; auto. }
    apply (Hsame s2); auto.
Qed.

(** Across any call of the processing routine that returns, with any code,
    the input cursor has moved forward by the number of bytes by which
    [avail_in] has gone down and [total_in] up, and [avail_out] has gone
    down by as much as [total_out] has gone up. *)
Theorem process_moves_cursors s flush may_buffer r s' :
  fastlzlibProcess s flush may_buffer = Some (r, s') ->
  0 <= avail_in s ->
  0 <= avail_out s ->
  0 <= block_size (state s) ->
  0 <= dec_size (state s) ->
  exists kin kout, cursors_moved s s' kin kout.
Proof.
  intros H Hi Ho Hb Hd. change (moved s s'). unfold fastlzlibProcess in H.
  destruct (is_null (next_in s) && negb (ZFAST_INPUT_IS_EMPTY s));
    [injection H as _ <-; apply moved_same; auto|].
  destruct (is_null (next_out s) && negb (ZFAST_OUTPUT_IS_FULL s));
    [injection H as _ <-; apply moved_same; auto|].
  destruct (ZFAST_HAS_BUFFERED_OUTPUT s); [eapply drain_output_moved; eauto|].
  assert (Htail : forall u i,
             moved s u -> 0 <= dec_size (state u) ->
             ('(s2, in2) <- (match i with
                             | None => buffer_input u flush
                             | Some _ => Some (u, i)
                             end) ;;
              match in2 with
              | Some in_ =>
                  r3 <- transform s2 in_ flush ;;
                  match r3 with
                  | inl ret => Some ret
                  | inr s3 => Some (finish s3 flush)
                  end
              | None => Some (finish s2 flush)
              end) = Some (r, s') -> moved s s').
  { intros u i M Hdu Ht. destruct (moved_avail _ _ M) as [Hiu Hou].
    assert (H2 : exists s2 in2,
               (match i with
                | None => buffer_input u flush
                | Some _ => Some (u, i)
                end) = Some (s2, in2)
               /\ moved s s2 /\ 0 <= dec_size (state s2)).
    { destruct i as [w|].
      - exists u, (Some w). auto.
      - destruct (buffer_input u flush) as [[s2 in2]|] eqn:E; [|discriminate Ht].
        apply buffer_input_moved in E; [|assumption|assumption].
        destruct E as [E Hd2]. exists s2, in2. split; [reflexivity|].
        split; [eapply moved_trans; eauto|lia]. }
    destruct H2 as (s2 & in2 & E & M2 & Hd2). rewrite E in Ht. cbn [bind] in Ht.
    destruct (moved_avail _ _ M2) as [Hi2 Ho2].
    assert (Hfin : forall t, Some (finish t flush) = Some (r, s') -> t = s').
    { intros t F. unfold finish in F. destruct (_ && _ && _); injection F as _ <-;
        reflexivity. }
    destruct in2 as [in_|].
    - destruct (transform s2 in_ flush) as [[[c t]|t]|] eqn:T; [| |discriminate Ht];
        cbn [bind] in Ht; apply transform_moved in T; try assumption.
      + injection Ht as _ <-. eapply moved_trans; eauto.
      + apply Hfin in Ht. subst t. eapply moved_trans; eauto.
    - apply Hfin in Ht. subst s2. exact M2. }
  destruct (Z.eqb_spec (str_size (state s)) 0) as [Hz|Hnz].
  - unfold next_block in H.
    assert (H1 : exists res,
               (if ZFAST_IS_DECOMPRESSING s then decompress_header s may_buffer
                else Some (compress_header s flush may_buffer)) = Some res
               /\ match res with
                  | inl (_, t) => moved s t
                  | inr (t, _) => moved s t /\ 0 <= str_size (state t)
                                  /\ 0 <= dec_size (state t)
                  end).
    { destruct (ZFAST_IS_DECOMPRESSING s).
      - destruct (decompress_header s may_buffer) as [res|] eqn:E; [|discriminate H].
        exists res. split; [reflexivity|]. eapply decompress_header_moved; eauto.
      - eexists. split; [reflexivity|]. apply compress_header_moved; assumption. }
    destruct H1 as (res & E & M). rewrite E in H. cbn [bind] in H.
    destruct res as [[c t]|[t b]].
    + cbn [bind] in H. injection H as _ <-. exact M.
    + destruct M as (M & Hst & Hdt). destruct (moved_avail _ _ M) as [Hit Hot].
      destruct (check_block t b) as [[c u|u i]|] eqn:C; [| |discriminate H];
        cbn [bind] in H; apply check_block_moved in C; try assumption.
      * injection H as _ <-. eapply moved_trans; eauto.
      * destruct C as [C Hdu]. apply (Htail u i); [eapply moved_trans; eauto|lia|exact H].
  - cbn [bind] in H. apply (Htail s None); [apply moved_same; auto|exact Hd|exact H].
Qed.

End Cursors.

Lemma process_moves_cursors_witness :
  let s := with_output (with_input (decompress_stream 64) hello_compressed)
                       (repeat x00 64) in
  exists s',
    @fastlzlibProcess stored_lz s Z_NO_FLUSH true = Some (Z_OK, s')
    /\ exists kin kout, cursors_moved s s' kin kout.
Proof.
  intros s. exists (after (@fastlzlibProcess stored_lz s Z_NO_FLUSH true)).
  assert (H : @fastlzlibProcess stored_lz s Z_NO_FLUSH true
              = Some (Z_OK, after (@fastlzlibProcess stored_lz s Z_NO_FLUSH true)))
    by (vm_compute; reflexivity).
  split; [exact H|].
  apply (@process_moves_cursors stored_lz s Z_NO_FLUSH true Z_OK _ H).
  - vm_compute. discriminate.
  - vm_compute. discriminate.
  - vm_compute. discriminate.
  - vm_compute. discriminate.
Defined.

(** ** The end of a compressed stream *)

Section StreamEnd.
Context {lz : FastLZ}.

Lemma compress_block_returns_inr s in_ flush r3 :
  ZFAST_IS_DECOMPRESSING s = false ->
  transform s in_ flush = Some r3 -> exists s', r3 = inr s'.
Proof.
  intros Hd. unfold transform. rewrite Hd.
  destruct (compress_block _ _ _) as [s1|]; [|discriminate].
  cbn [bind]. intros H. injection H as <-. eexists. reflexivity.
Qed.

Lemma finish_stream_end s flush s' :
  finish s flush = (Z_STREAM_END, s') ->
  s' = s /\ flush = Z_FINISH /\ avail_in s = 0 /\ ZFAST_HAS_BUFFERED_OUTPUT s = false.
Proof.
  unfold finish, ZFAST_INPUT_IS_EMPTY.
  destruct (Z.eqb_spec flush Z_FINISH) as [Hf|Hf]; [|discriminate].
  destruct (Z.eqb_spec (avail_in s) 0) as [Ha|Ha]; [|discriminate].
  destruct (ZFAST_HAS_BUFFERED_OUTPUT s); [discriminate|].
  intros H. injection H as <-. auto.
Qed.

(** When a compressor of a block size that is not zero returns
    [Z_STREAM_END], the call was made with a flush mode above [Z_NO_FLUSH],
    the input window is consumed to its last byte and no output is pending
    in the output buffer. *)
Theorem compress_stream_end s flush s' :
  block_size (state s) <> 0 ->
  fastlzlibCompress s flush = Some (Z_STREAM_END, s') ->
  Z_NO_FLUSH < flush
  /\ avail_in s' = 0
  /\ ZFAST_HAS_BUFFERED_OUTPUT s' = false.
Proof.
  intros Hbs. unfold fastlzlibCompress, fastlzlibCompress2.
  destruct (ZFAST_IS_COMPRESSING s) eqn:Hc; [|discriminate].
  assert (Hd : ZFAST_IS_DECOMPRESSING s = false)
    by (unfold ZFAST_IS_DECOMPRESSING; rewrite Hc; reflexivity).
  unfold fastlzlibProcess.
  destruct (is_null (next_in s) && negb (ZFAST_INPUT_IS_EMPTY s)); [discriminate|].
  destruct (is_null (next_out s) && negb (ZFAST_OUTPUT_IS_FULL s)); [discriminate|].
  destruct (ZFAST_HAS_BUFFERED_OUTPUT s);
    [intros H; apply drain_output_code in H; discriminate H|].
  assert (Htail : forall u i,
             level (state u) = level (state s) ->
             ('(s2, in2) <- (match i with
                             | None => buffer_input u flush
                             | Some _ => Some (u, i)
                             end) ;;
              match in2 with
              | Some in_ =>
                  r3 <- transform s2 in_ flush ;;
                  match r3 with
                  | inl ret => Some ret
                  | inr s3 => Some (finish s3 flush)
                  end
              | None => Some (finish s2 flush)
              end) = Some (Z_STREAM_END, s') ->
             Z_NO_FLUSH < flush /\ avail_in s' = 0
             /\ ZFAST_HAS_BUFFERED_OUTPUT s' = false).
  { intros u i HLu Ht.
    assert (Hfin : forall t, Some (finish t flush) = Some (Z_STREAM_END, s') ->
                             Z_NO_FLUSH < flush /\ avail_in s' = 0
                             /\ ZFAST_HAS_BUFFERED_OUTPUT s' = false).
    { intros t F. injection F as F. apply finish_stream_end in F.
      destruct F as (-> & -> & Ha & Hb). unfold Z_NO_FLUSH, Z_FINISH. auto with zarith. }
    assert (H2 : exists s2 in2,
               (match i with
                | None => buffer_input u flush
                | Some _ => Some (u, i)
                end) = Some (s2, in2)
               /\ level (state s2) = level (state s)).
    { destruct i as [w|].
      - exists u, (Some w). auto.
      - destruct (buffer_input_returns u flush) as (s2 & in2 & E & HL2 & _).
        exists s2, in2. split; [exact E|congruence]. }
    destruct H2 as (s2 & in2 & E & HL2). rewrite E in Ht. cbn [bind] in Ht.
    destruct in2 as [in_|]; [|apply (Hfin s2); exact Ht].
    destruct (transform s2 in_ flush) as [r3|] eqn:T; [|discriminate Ht].
    cbn [bind] in Ht.
    apply compress_block_returns_inr in T.
    - destruct T as [s3 ->]. apply (Hfin s3). exact Ht.
    - unfold ZFAST_IS_DECOMPRESSING, ZFAST_IS_COMPRESSING in *. rewrite HL2. exact Hd. }
  destruct (Z.eqb_spec (str_size (state s)) 0) as [Hz|Hnz].
  - unfold next_block. rewrite Hd. cbn [bind]. unfold compress_header.
    rewrite andb_false_r.
    set (str := if (avail_in s <? BLOCK_SIZE s) && (Z_NO_FLUSH <? flush)
                then avail_in s else BLOCK_SIZE s).
    assert (Hstr : str = 0 -> Z_NO_FLUSH < flush /\ avail_in s = 0).
    { unfold str, BLOCK_SIZE.
      destruct (Z.ltb_spec (avail_in s) (block_size (state s)));
        destruct (Z.ltb_spec Z_NO_FLUSH flush); cbn [andb]; intros E;
        try contradiction; auto. }
    clearbody str.
    destruct (check_block _ 0) as [[c u|u i]|] eqn:C; cbn [bind]; [| |discriminate].
    + intros H. injection H as -> ->. revert C. unfold check_block.
      set (s1 := upd set_outBuffOffs _ _).
      destruct (block_type (state s1) =? BLOCK_TYPE_BAD_MAGIC); [discriminate|].
      destruct (negb _ && negb _); [discriminate|].
      destruct (BLOCK_SIZE s1 <? 0); [discriminate|].
      destruct (BUFFER_BLOCK_SIZE s1 <? dec_size (state s1)); [discriminate|].
      destruct (BUFFER_BLOCK_SIZE s1 <? str_size (state s1)); [discriminate|].
      destruct (Z.eqb_spec (str_size (state s1)) 0) as [E0|E0]; cbn [andb].
      * destruct (dec_size (state s1) =? 0).
        -- intros H. injection H as <-. destruct (Hstr E0) as [Hf Ha].
           split; [exact Hf|]. split; [exact Ha|]. reflexivity.
        -- destruct (str_size (state s1) <=? avail_in s1);
             [destruct (inSeek s1 _); cbn [bind]; discriminate|discriminate].
      * destruct (str_size (state s1) <=? avail_in s1);
          [destruct (inSeek s1 _); cbn [bind]; discriminate|discriminate].
    + apply Htail. destruct (check_block_returns (apply_header s BLOCK_TYPE_COMPRESSED str 0) 0)
        as (o & Ho & Hres).
      rewrite C in Ho. injection Ho as <-. destruct Hres as [HL _]. exact HL.
  - cbn [bind]. apply (Htail s None). reflexivity.
Qed.

Lemma check_block_empty s b :
  block_type (state s) = BLOCK_TYPE_COMPRESSED ->
  str_size (state s) = 0 ->
  dec_size (state s) = 0 ->
  b <= block_size (state s) ->
  0 <= block_size (state s) < 2 ^ 31 ->
  check_block s b = Some (Return Z_STREAM_END (upd set_outBuffOffs s (dec_size (state s)))).
Proof.
  intros Ht Hs Hd Hb Hbs. unfold check_block.
  set (s1 := upd set_outBuffOffs s (dec_size (state s))).
  assert (E1 : block_type (state s1) = BLOCK_TYPE_COMPRESSED) by exact Ht.
  assert (E2 : BLOCK_SIZE s1 = block_size (state s)) by reflexivity.
  assert (E3 : BUFFER_BLOCK_SIZE s1
               = uInt (block_size (state s) + block_size (state s) / EXPANSION_RATIO
                       + HEADER_SIZE * 2)) by reflexivity.
  assert (E4 : dec_size (state s1) = 0) by exact Hd.
  assert (E5 : str_size (state s1) = 0) by exact Hs.
  clearbody s1. rewrite E1, E2, E3, E4, E5.
  change (BLOCK_TYPE_COMPRESSED =? BLOCK_TYPE_BAD_MAGIC) with false.
  change (BLOCK_TYPE_COMPRESSED =? BLOCK_TYPE_RAW) with false.
  change (BLOCK_TYPE_COMPRESSED =? BLOCK_TYPE_COMPRESSED) with true.
  cbn [negb andb].
  replace (block_size (state s) <? b) with false by (symmetry; apply Z.ltb_ge; lia).
  pose proof (uInt_range (block_size (state s) + block_size (state s) / EXPANSION_RATIO
                          + HEADER_SIZE * 2)) as Hr.
  replace (_ <? 0) with false by (symmetry; apply Z.ltb_ge; lia).
  reflexivity.
Qed.

(** A compressor of block size zero, which the initialisation accepts, takes
    no input: a call on an idle stream returns [Z_STREAM_END] at once,
    whatever the flush mode and the input, and moves no cursor. *)
Theorem compress_zero_block_size s flush :
  ZFAST_IS_COMPRESSING s = true ->
  block_size (state s) = 0 ->
  ZFAST_HAS_BUFFERED_OUTPUT s = false ->
  str_size (state s) = 0 ->
  0 <= avail_in s ->
  next_in s <> None \/ avail_in s = 0 ->
  next_out s <> None \/ avail_out s = 0 ->
  exists s',
    fastlzlibCompress s flush = Some (Z_STREAM_END, s')
    /\ next_in s' = next_in s /\ avail_in s' = avail_in s
    /\ total_in s' = total_in s
    /\ avail_out s' = avail_out s /\ total_out s' = total_out s
    /\ out_log s' = out_log s.
Proof.
  intros Hc Hbs Hbuf Hstr Hai Hni Hno.
  assert (Hd : ZFAST_IS_DECOMPRESSING s = false)
    by (unfold ZFAST_IS_DECOMPRESSING; rewrite Hc; reflexivity).
  unfold fastlzlibCompress, fastlzlibCompress2. rewrite Hc.
  unfold fastlzlibProcess, ZFAST_INPUT_IS_EMPTY, ZFAST_OUTPUT_IS_FULL.
  rewrite (sanity_passes _ _ Hni), (sanity_passes _ _ Hno), Hbuf, Hstr.
  change (0 =? 0) with true. cbv iota.
  unfold next_block. rewrite Hd. cbn [bind]. unfold compress_header, BLOCK_SIZE.
  rewrite Hbs.
  replace (avail_in s <? 0) with false by (symmetry; apply Z.ltb_ge; exact Hai).
  cbn [andb]. rewrite check_block_empty by (try reflexivity; cbn; lia).
  cbn [bind]. eexists. split; [reflexivity|]. repeat split; reflexivity.
Qed.

End StreamEnd.

Lemma compress_stream_end_witness :
  let s := with_output (with_input (compress_stream 1 64) hello) (repeat x00 100) in
  exists s',
    @fastlzlibCompress stored_lz s Z_FINISH = Some (Z_STREAM_END, s')
    /\ avail_in s' = 0
    /\ ZFAST_HAS_BUFFERED_OUTPUT s' = false.
Proof.
  intros s. exists (after (@fastlzlibCompress stored_lz s Z_FINISH)).
  assert (H : @fastlzlibCompress stored_lz s Z_FINISH
              = Some (Z_STREAM_END, after (@fastlzlibCompress stored_lz s Z_FINISH)))
    by (vm_compute; reflexivity).
  split; [exact H|].
  refine (proj2 (@compress_stream_end stored_lz s Z_FINISH _ _ H)).
  vm_compute. discriminate.
Defined.

Lemma compress_zero_block_size_witness :
  let s := with_output (with_input (compress_stream 1 0) hello) (repeat x00 100) in
  fst (fastlzlibCompressInit2 zalloc_always (Some blank_stream) 1 0) = Z_OK
  /\ exists s',
      @fastlzlibCompress stored_lz s Z_FINISH = Some (Z_STREAM_END, s')
      /\ avail_in s' = 5
      /\ out_log s' = [].
Proof.
  intros s. split; [reflexivity|].
  destruct (@compress_zero_block_size stored_lz s Z_FINISH)
    as (s' & H & _ & Ha & _ & _ & _ & Hl).
  - vm_compute. reflexivity.
  - vm_compute. reflexivity.
  - vm_compute. reflexivity.
  - vm_compute. reflexivity.
  - vm_compute. discriminate.
  - left. discriminate.
  - left. discriminate.
  - exists s'. split; [exact H|]. rewrite Ha, Hl. split; reflexivity.
Defined.

(** ** A stream taken up again after a reset *)

Lemma restarted_reset s :
  restarted (fastlzlibCompressReset (Some s))
  = mkStream (Some []) 0 (total_in s) (next_out s) (avail_out s) (total_out s) [] None
             (mkState (level (state s)) (inHdr (state s)) 0 (block_size (state s)) 0 0 0
                      (inBuff (state s)) (outBuff (state s)) 0 0).
Proof. reflexivity. Qed.

Lemma compress_inv_reset {lz : FastLZ} s L bs X :
  level (state s) = L -> block_size (state s) = bs ->
  64 <= bs <= 2 ^ 20 ->
  compress_inv L bs X (restarted (fastlzlibCompressReset (Some s))) X false [] false
  /\ compress_potential bs (restarted (fastlzlibCompressReset (Some s))) X false
     = compress_calls bs X.
Proof.
  intros HL Hbs Hr. rewrite restarted_reset, HL, Hbs.
  split.
  - constructor; unfold staged, pending, window; stream_simpl; cbn [deref app concat];
      rewrite ?take_nonpos by lia; auto; try arith; try discriminate.
    repeat split; try reflexivity; arith.
  - unfold compress_potential, compress_calls, pending. stream_simpl.
    change (0 <? 0) with false. cbv iota. rewrite !len_nil. lia.
Qed.

Lemma decompress_inv_reset {lz : FastLZ} s L bs X bl tail :
  level (state s) = ZFAST_LEVEL_DECOMPRESS -> block_size (state s) = bs ->
  len (inHdr (state s)) = HEADER_SIZE ->
  64 <= bs <= 2 ^ 20 ->
  concat bl = X ->
  Forall (fun b => 0 < len b <= bs) bl ->
  tail = eof_marker bs \/ tail = [] ->
  decompress_inv L bs X (restarted (fastlzlibDecompressReset (Some s)))
                 (frames L bs bl ++ tail) [] bl tail
  /\ decompress_potential bs (restarted (fastlzlibDecompressReset (Some s)))
                          (frames L bs bl ++ tail)
     = decompress_calls bs (frames L bs bl ++ tail).
Proof.
  intros HL Hbs Hih Hr Hx Hblocks Htail. unfold fastlzlibDecompressReset.
  rewrite restarted_reset, HL, Hbs.
  split.
  - constructor; unfold pending, window; stream_simpl; cbn [deref app concat];
      rewrite ?take_nonpos by lia; auto; try arith.
    + repeat split; try reflexivity; arith.
    + apply at_header; stream_simpl; [reflexivity|arith|].
      rewrite !take_nonpos by lia. reflexivity.
  - unfold decompress_potential, decompress_calls, pending. stream_simpl.
    change (0 <? 0) with false. cbv iota. rewrite !len_nil. lia.
Qed.

(** A compressor and a decompressor of the same block size that are reset,
    whatever they were doing (a block half read, output pending, a header
    half read), work as new ones: with block primitives that are lossless
    and never make a block longer by more than a tenth, the compressor run
    over a source [X] and the decompressor run over the bytes produced since
    the reset return [Z_OK] or [Z_STREAM_END] without abort, and what the
    decompressor delivers since the reset is a beginning of [X], and is [X]
    when it returns [Z_STREAM_END] or has taken all the bytes produced and
    holds no buffered output. *)
Theorem reset_round_trip {lz : FastLZ} sc0 sd0 bs X ccalls :
  0 <= level (state sc0) <= 9 ->
  block_size (state sc0) = bs ->
  level (state sd0) = ZFAST_LEVEL_DECOMPRESS ->
  block_size (state sd0) = bs ->
  len (inHdr (state sd0)) = HEADER_SIZE ->
  64 <= bs <= 2 ^ 20 ->
  (forall lvl b,
      lvl = 1 \/ lvl = 2 -> MIN_BLOCK_SIZE < len b <= bs ->
      len (fastlz_compress_level lvl b) <= len b + len b / EXPANSION_RATIO) ->
  (forall lvl b,
      lvl = 1 \/ lvl = 2 -> MIN_BLOCK_SIZE < len b <= bs ->
      fastlz_decompress (fastlz_compress_level lvl b) (len b) = b) ->
  exists r sc rc n,
    compress_run (restarted (fastlzlibCompressReset (Some sc0))) X false ccalls
    = Some (r, sc, rc, n)
    /\ (r = Z_OK \/ r = Z_STREAM_END)
    /\ (r = Z_STREAM_END ->
        forall dcalls,
        exists r' sd rd n',
          decompress_run (restarted (fastlzlibDecompressReset (Some sd0))) (out_log sc)
                         dcalls
          = Some (r', sd, rd, n')
          /\ (r' = Z_OK \/ r' = Z_STREAM_END)
          /\ is_prefix (out_log sd) X
          /\ (r' = Z_STREAM_END
              \/ rd = [] /\ avail_in sd = 0 /\ ZFAST_HAS_BUFFERED_OUTPUT sd = false ->
              out_log sd = X)).
Proof.
  intros HL Hbsc Hld Hbsd Hih Hbs Hbound Hloss.
  destruct (compress_inv_reset sc0 _ bs X eq_refl Hbsc Hbs) as [Hinit _].
  destruct (compress_run_inv _ bs HL Hbs Hbound X ccalls _ _ _ _ _ Hinit)
    as (r & sc & rc & n & fin' & bl & eofd & Hrun & Hinv & Hres).
  exists r, sc, rc, n. split; [exact Hrun|]. split.
  - destruct Hres as [(-> & _)|(-> & _)]; auto.
  - intros -> dcalls.
    destruct Hres as [(E & _)|(_ & Hx & Hpe)]; [discriminate E|].
    pose proof (ci_log _ _ _ _ _ _ _ _ Hinv) as Hlog.
    rewrite Hpe, app_nil_r in Hlog.
    assert (Htail : (if eofd then eof_marker bs else []) = eof_marker bs
                    \/ (if eofd then eof_marker bs else []) = [])
      by (destruct eofd; auto).
    destruct (decompress_inv_reset sd0 (level (state sc0)) bs X bl _ Hld Hbsd Hih Hbs Hx
                (ci_blocks _ _ _ _ _ _ _ _ Hinv) Htail) as [Hdinit _].
    rewrite <- Hlog in Hdinit.
    destruct (decompress_run_inv _ bs Hbs Hbound Hloss X dcalls _ _ _ _ _ Hdinit)
      as (r' & sd & rd & n' & pre' & post' & tail' & Hdrun & Hdinv & Hdres).
    exists r', sd, rd, n'. split; [exact Hdrun|].
    pose proof (di_log _ _ _ _ _ _ _ _ Hdinv) as Hdlog.
    pose proof (di_data _ _ _ _ _ _ _ _ Hdinv) as Hddata.
    split; [|split].
    + destruct Hdres as [(-> & _)|(-> & _)]; auto.
    + exists (pending sd ++ concat post'). rewrite app_assoc, Hdlog. symmetry.
      exact Hddata.
    + assert (Hdone : post' = [] -> pending sd = [] -> out_log sd = X).
      { intros Hp Hq. rewrite Hp in Hddata. rewrite Hq in Hdlog.
        cbn [concat] in Hddata. rewrite app_nil_r in Hddata, Hdlog. congruence. }
      intros [->|(-> & Hz & Hnb)].
      * destruct Hdres as [(E & _)|(_ & Hp & Hq)]; [discriminate E|]. auto.
      * apply Hdone.
        -- exact (decompress_all_consumed _ bs X sd pre' post' tail' Hdinv Hz).
        -- unfold pending. rewrite Hnb. reflexivity.
Qed.

Lemma reset_round_trip_witness :
  let sc0 := after (@fastlzlibCompress stored_lz
                      (with_output (with_input (compress_stream 1 64) hello)
                                   (repeat x00 64)) Z_NO_FLUSH) in
  let sd0 := after (@fastlzlibDecompress stored_lz
                      (with_output (with_input (decompress_stream 64)
                                               (firstn 3 hello_compressed))
                                   (repeat x00 64))) in
  inBuffOffs (state sc0) = 5
  /\ inHdrOffs (state sd0) = 3
  /\ exists r sc rc n,
      @compress_run stored_lz (restarted (fastlzlibCompressReset (Some sc0))) hello false
                    [mkCall 5 (repeat x00 64) true]
      = Some (r, sc, rc, n)
      /\ (r = Z_OK \/ r = Z_STREAM_END)
      /\ (r = Z_STREAM_END ->
          forall dcalls,
          exists r' sd rd n',
            @decompress_run stored_lz (restarted (fastlzlibDecompressReset (Some sd0)))
                            (out_log sc) dcalls
            = Some (r', sd, rd, n')
            /\ (r' = Z_OK \/ r' = Z_STREAM_END)
            /\ is_prefix (out_log sd) hello
            /\ (r' = Z_STREAM_END
                \/ rd = [] /\ avail_in sd = 0 /\ ZFAST_HAS_BUFFERED_OUTPUT sd = false ->
                out_log sd = hello)).
Proof.
  intros sc0 sd0. split; [vm_compute; reflexivity|]. split; [vm_compute; reflexivity|].
  apply (@reset_round_trip stored_lz sc0 sd0 64 hello [mkCall 5 (repeat x00 64) true]).
  - vm_compute. split; discriminate.
  - vm_compute. reflexivity.
  - vm_compute. reflexivity.
  - vm_compute. reflexivity.
  - vm_compute. reflexivity.
  - change (2 ^ 20) with 1048576. lia.
  - intros lvl b _ _. cbn [fastlz_compress_level stored_lz].
    pose proof (Z.div_pos (len b) EXPANSION_RATIO (len_nonneg b) eq_refl). lia.
  - intros lvl b _ _. cbn [fastlz_compress_level fastlz_decompress stored_lz].
    rewrite Z.leb_refl. reflexivity.
Defined.

(** ** The blocks of a compressed stream *)

Lemma canonical_full n bl :
  0 < n -> Forall (fun b => len b = n) bl -> canonical n bl.
Proof.
  intros Hn H. induction H as [|b bl Hb H IH]; [exact I|].
  cbn [canonical]. destruct bl; [lia|]. split; assumption.
Qed.

Lemma canonical_snoc n bl b :
  Forall (fun b => len b = n) bl -> 0 < len b <= n -> canonical n (bl ++ [b]).
Proof.
  intros H Hb. induction H as [|a bl Ha H IH]; [exact Hb|].
  cbn [app canonical].
  destruct (bl ++ [b]) eqn:E; [destruct bl; discriminate E|].
  split; assumption.
Qed.

Lemma blocks_step_ok n bl eofd bl' eofd' :
  0 < n -> blocks_ok n bl eofd -> blocks_step n bl eofd bl' eofd' ->
  blocks_ok n bl' eofd'.
Proof.
  intros Hn [Hc Hf] [(-> & ->)|(-> & b & -> & Hle & Hb)]; [split; assumption|].
  specialize (Hf eq_refl).
  destruct (0 <? len b) eqn:E; zbool.
  - split.
    + apply canonical_snoc; [exact Hf|lia].
    + intros ->. destruct Hb as [Hb|Hb]; [|discriminate Hb].
      apply Forall_app. split; [exact Hf|]. constructor; [exact Hb|constructor].
  - split; [exact Hc|]. intros _. exact Hf.
Qed.

(** Blocks in canonical form are the blocks of their concatenation. *)
Lemma chunks_concat n bl :
  0 < n -> canonical n bl ->
  forall fuel, (length (concat bl) <= fuel)%nat -> chunks fuel n (concat bl) = bl.
Proof.
  intros Hn. induction bl as [|b bl IH]; intros Hc fuel Hfuel.
  - destruct fuel; reflexivity.
  - assert (Hb : 0 < len b <= n /\ canonical n bl
                 /\ take n (concat (b :: bl)) = b /\ drop n (concat (b :: bl)) = concat bl).
    { cbn [concat]. cbn [canonical] in Hc. destruct bl as [|b' bl].
      - cbn [concat]. rewrite app_nil_r.
        split; [exact Hc|]. split; [exact I|].
        split; [apply take_all|apply drop_all]; lia.
      - destruct Hc as [Hb Hc]. split; [lia|]. split; [exact Hc|].
        split; [apply take_app_exact|apply drop_app_exact]; exact Hb. }
    destruct Hb as (Hb & Hc' & Ht & Hd).
    cbn [concat] in Hfuel. rewrite length_app in Hfuel.
    assert (0 < length b)%nat by (unfold len in Hb; lia).
    destruct fuel as [|fuel]; [lia|].
    cbn [chunks]. rewrite Ht, Hd.
    replace (is_nil (concat (b :: bl))) with false
      by (cbn [concat]; destruct b; [cbn in H; lia|reflexivity]).
    rewrite IH by (assumption || lia). reflexivity.
Qed.

Lemma blocks_of_concat n bl : 0 < n -> canonical n bl -> blocks_of n (concat bl) = bl.
Proof.
  intros Hn Hc. unfold blocks_of. apply chunks_concat; [exact Hn|exact Hc|lia].
Qed.

Section Blocks.
Context {lz : FastLZ}.
Variables (L bs : Z).
Hypothesis L_range : 0 <= L <= 9.
Hypothesis bs_range : 64 <= bs <= 2 ^ 20.
Hypothesis compress_bound :
  forall lvl b,
    lvl = 1 \/ lvl = 2 -> MIN_BLOCK_SIZE < len b <= bs ->
    len (fastlz_compress_level lvl b) <= len b + len b / EXPANSION_RATIO.

Ltac inv_simpl :=
  unfold staged, pending, window, compress_potential, productive in *; stream_simpl.

Ltac split_inv := constructor; inv_simpl.

Ltac inv_auto :=
  split_inv; repeat exec_step; rewrite ?app_nil_r; cbn [app]; auto; try arith.

Ltac side :=
  unfold window; stream_simpl; cbn [deref];
  first [ assumption | reflexivity | solve [auto]
        | solve [rewrite ?len_take, ?len_drop by arith; arith] ].

Ltac exists_stream bl eofd :=
  eexists; exists bl, eofd; split; [reflexivity|].

(** One call of the compressor, with the blocks that it adds. *)
Lemma compress_call_blocks X s rest fin bl eofd flush w m :
  compress_inv L bs X s rest fin bl eofd ->
  next_in s = Some w -> avail_in s < 2 ^ 32 ->
  next_out s = Some m -> avail_out s = len m -> len m < 2 ^ 32 ->
  flush = (if fin then Z_FINISH else Z_NO_FLUSH) ->
  exists r s' bl' eofd',
    fastlzlibCompress s flush = Some (r, s')
    /\ compress_inv L bs X s' rest fin bl' eofd'
    /\ (r = Z_OK \/ r = Z_STREAM_END /\ concat bl' = X /\ pending s' = [])
    /\ blocks_step bs bl eofd bl' eofd'.
Proof.
  intros [HL Hbs Hwin Hstr Hout Hlog Hdata Hblocks Heof Hfin _] Hni Hai Hno Hao Hm Hflush.
  assert (Hflush' : flush = Z_FINISH \/ flush = Z_NO_FLUSH) by (destruct fin; auto).
  destruct (ZFAST_HAS_BUFFERED_OUTPUT s) eqn:Hbuf.
  - (* drain *)
    destruct Hstr as [Hstr|(_ & _ & _ & Hno_buf)]; [|congruence].
    fields_of s. inv_simpl. rewrite Hbuf in *.
    subst lv bsz ni no ai ao ss.
    cbn [deref] in *.
    apply Z.ltb_lt in Hbuf. destruct Hout as (Hoffs & Hdec & Hpend).
    rewrite len_take, len_drop in Hpend by arith.
    exists Z_OK.
    set (size := Z.min (ds - obo) (len m)).
    assert (Hsize : size = Z.min (ds - obo) (len m)) by reflexivity.
    clearbody size.
    exec_head.
    replace (if len m <? ds - obo then len m else ds - obo)
      with size by (rewrite Hsize; zbool).
    assert (Hp1 : len (take size (drop obo ob)) = size)
      by (rewrite len_take, len_drop by arith; arith).
    destruct (Z.ltb_spec 0 size) as [Hpos|Hzero].
    + rewrite (pending_split ob obo ds size) in Hlog by arith.
      repeat exec_step. exists_stream bl eofd.
      rewrite (take_memcpy_at_0' size) by exact Hp1. split.
      * split_inv; auto; try arith.
        -- destruct (Z.ltb_spec (obo + size) ds);
             rewrite ?len_take, ?len_drop by arith; arith.
        -- rewrite <- app_assoc. exact Hlog.
      * split; [left; reflexivity|left; split; reflexivity].
    + repeat exec_step. exists_stream bl eofd. split.
      * split_inv; auto; repeat exec_step; auto; try arith.
        rewrite len_take, len_drop by arith. arith.
      * split; [left; reflexivity|left; split; reflexivity].
  - (* no buffered output *)
    assert (Hpending : pending s = []) by (unfold pending; rewrite Hbuf; reflexivity).
    rewrite Hpending, app_nil_r in Hlog.
    destruct Hstr as [Hstr|(Hstr & Hk & Hstaged & _)].
    + (* no block in progress *)
      assert (Hst : staged s = []) by (unfold staged; rewrite Hstr; reflexivity).
      rewrite Hst in Hdata. cbn [app] in Hdata.
      fields_of s. inv_simpl.
      subst lv bsz ni no ai ao ss.
      cbn [deref] in *. apply Z.ltb_ge in Hbuf. destruct Hout as (Hoffs & Hdec & _).
      rewrite take_exact in Hdata.
      destruct (Z.le_gt_cases bs (len w)) as [Hbig|Hsmall].
      * (* a whole block in the window *)
        assert (Heofd : eofd = false).
        { destruct eofd; [|reflexivity]. destruct (Heof eq_refl) as (_ & _ & ?). arith. }
        subst eofd. rewrite app_nil_r in Hlog.
        assert (Hb : take (len (take bs w)) w = take bs w)
          by (rewrite len_take by arith; rewrite Z.min_l by arith; reflexivity).
        assert (Hd : concat bl ++ take bs w ++ take (len w - bs) (drop bs w) ++ rest = X)
          by (rewrite (take_all (len w - bs)) by (rewrite len_drop by arith; arith);
              rewrite (app_assoc (take bs w)), take_drop; exact Hdata).
        assert (Hlb : len (take bs w) = bs) by (rewrite len_take by arith; arith).
        destruct Hflush' as [Hf|Hf]; rewrite Hf; exec_head; rewrite <- Hf.
        all: match goal with
             | |- context [transform ?S ?i ?f] =>
                 pose proof (compress_block_call L bs L_range bs_range compress_bound X S i (take bs w) rest fin f bl m)
                   as Hcb
             end.
        all: repeat (forward Hcb side); cbv zeta in Hcb; stream_simpl.
        all: destruct Hcb as (r & s' & Hcall & Hinv & Hai' & Hpcap & Hres).
        all: exists r, s'; do 2 eexists; split; [exact Hcall|]; split; [exact Hinv|].
        all: split;
          [destruct Hres as [->|(-> & Hres)];
           [left; reflexivity|right; split; [reflexivity|exact Hres]]|].
        all: right; split; [reflexivity|]; exists (take bs w); split; [reflexivity|].
        all: split; [arith|left; exact Hlb].
      * destruct fin; subst flush.
        -- (* Z_FINISH *)
           specialize (Hfin eq_refl). subst rest.
           destruct (Z.eq_dec (len w) 0) as [Hw|Hw].
           ++ exec_head. exists Z_STREAM_END. exists_stream bl eofd.
              apply len_zero_nil in Hw. subst w.
              rewrite !app_nil_r in Hdata. split.
              ** inv_auto.
              ** split; [right; inv_simpl; repeat exec_step; auto|left; split; reflexivity].
           ++ (* the last block, shorter than the block size *)
              assert (Heofd : eofd = false).
              { destruct eofd; [|reflexivity]. destruct (Heof eq_refl) as (_ & _ & ?).
                arith. }
              subst eofd. rewrite app_nil_r in Hlog.
              assert (Hb : take (len w) w = w) by apply take_exact.
              assert (Hd : concat bl ++ w ++ take (len w - len w) (drop (len w) w) ++ []
                           = X)
                by (rewrite take_nonpos by lia; exact Hdata).
              exec_head.
              match goal with
              | |- context [transform ?S ?i ?f] =>
                  pose proof (compress_block_call L bs L_range bs_range compress_bound X S i w [] true f bl m) as Hcb
              end.
              repeat (forward Hcb side). cbv zeta in Hcb. stream_simpl.
              destruct Hcb as (r & s' & Hcall & Hinv & Hai' & Hpcap & Hres).
              exists r, s'. do 2 eexists. split; [exact Hcall|]. split; [exact Hinv|].
              split;
                [destruct Hres as [->|(-> & Hres)];
                 [left; reflexivity|right; split; [reflexivity|exact Hres]]|].
              right. split; [reflexivity|]. exists w. split; [reflexivity|].
              split; [arith|right; repeat exec_step; reflexivity].
        -- (* Z_NO_FLUSH: the input goes to the input buffer *)
           assert (Heofd : eofd = false).
           { destruct eofd; [|reflexivity]. destruct (Heof eq_refl) as (? & _).
             discriminate. }
           subst eofd. rewrite app_nil_r in Hlog.
           destruct (Z.eq_dec (len w) 0) as [Hw|Hw].
           ++ exec_head. unfold finish. stream_simpl. repeat exec_step.
              exists Z_OK. exists_stream bl false.
              apply len_zero_nil in Hw. subst w. split.
              ** inv_auto. right. repeat exec_step. rewrite take_nonpos by lia.
                 repeat split; auto; arith.
              ** split; [left; reflexivity|left; split; reflexivity].
           ++ exec_head. unfold finish. stream_simpl. repeat exec_step.
              exists Z_OK. exists_stream bl false. split.
              ** inv_auto.
                 --- rewrite len_drop by arith. arith.
                 --- right. repeat exec_step. rewrite take_exact.
                     rewrite (take_memcpy_at_0' (len w)) by reflexivity.
                     repeat split; auto; arith.
                 --- rewrite take_exact, (take_memcpy_at_0' (len w)) by reflexivity.
                     rewrite drop_exact, take_nonpos by lia. exact Hdata.
              ** split; [left; reflexivity|left; split; reflexivity].
    + (* a block in progress in the input buffer *)
      assert (Heofd : eofd = false).
      { destruct eofd; [|reflexivity]. destruct (Heof eq_refl) as (_ & ? & _). arith. }
      subst eofd. rewrite app_nil_r in Hlog.
      assert (Hst : staged s = take (inBuffOffs (state s)) (inBuff (state s))).
      { unfold staged. rewrite Hstr.
        replace (bs =? 0) with false by (symmetry; apply Z.eqb_neq; arith). reflexivity. }
      rewrite Hst in Hdata, Hstaged.
      fields_of s. inv_simpl.
      subst lv bsz ni no ai ao ss.
      cbn [deref] in *. apply Z.ltb_ge in Hbuf. destruct Hout as (Hoffs & Hdec & _).
      rewrite take_exact in Hdata.
      destruct (Z.le_gt_cases (bs - ibo) (len w)) as [Hfull|Hpart].
      * (* the window completes the block *)
        set (b := take ibo ib ++ take (bs - ibo) w).
        assert (Hlb : len b = bs).
        { unfold b. rewrite len_app, Hstaged, len_take by arith. arith. }
        assert (Hb : take (len b) (memcpy_at ib ibo (take (bs - ibo) w))
                     = b).
        { rewrite Hlb.
          replace bs with (ibo + len (take (bs - ibo) w)) at 1
            by (rewrite len_take by arith; arith).
          apply take_memcpy_at. exact Hstaged. }
        assert (Hd : concat bl ++ b
                     ++ take (len w - (bs - ibo)) (drop (bs - ibo) w)
                     ++ rest = X).
        { rewrite (take_all (len w - (bs - ibo)))
            by (rewrite len_drop by arith; arith).
          unfold b. rewrite <- (app_assoc (take ibo ib)).
          rewrite (app_assoc (take (bs - ibo) w)), take_drop. exact Hdata. }
        clearbody b.
        destruct Hflush' as [Hf|Hf]; rewrite Hf; exec_head; rewrite <- Hf.
        all: match goal with
             | |- context [transform ?S ?i ?f] =>
                 pose proof (compress_block_call L bs L_range bs_range compress_bound X S i b rest fin f bl m) as Hcb
             end.
        all: repeat (forward Hcb side); cbv zeta in Hcb; stream_simpl.
        all: destruct Hcb as (r & s' & Hcall & Hinv & Hai' & Hpcap & Hres).
        all: exists r, s'; do 2 eexists; split; [exact Hcall|]; split; [exact Hinv|].
        all: split;
          [destruct Hres as [->|(-> & Hres)];
           [left; reflexivity|right; split; [reflexivity|exact Hres]]|].
        all: right; split; [reflexivity|]; exists b; split; [reflexivity|].
        all: split; [arith|left; exact Hlb].
      * destruct fin; subst flush.
        -- (* Z_FINISH: the block is cut short *)
           specialize (Hfin eq_refl). subst rest. rewrite app_nil_r in Hdata.
           set (b := take ibo ib ++ w).
           assert (Hlb : len b = ibo + len w).
           { unfold b. rewrite len_app, Hstaged. reflexivity. }
           assert (Hd : concat bl ++ b ++ take (len w - len w) (drop (len w) w) ++ [] = X).
           { rewrite take_nonpos by lia. unfold b. rewrite !app_nil_r. exact Hdata. }
           assert (Hd0 : len w = 0 -> concat bl ++ b ++ take (len w) w ++ [] = X).
           { intros E. rewrite take_nonpos by lia. unfold b. rewrite !app_nil_r.
             exact Hdata. }
           destruct (Z.eq_dec (len w) 0) as [Hw|Hw].
           ++ assert (Hb : take (len b) ib = b).
              { rewrite Hlb, Hw, Z.add_0_r. unfold b.
                apply len_zero_nil in Hw. rewrite Hw, app_nil_r. reflexivity. }
              specialize (Hd0 Hw). clear Hd. clearbody b.
              exec_head.
              match goal with
              | |- context [transform ?S ?i ?f] =>
                  pose proof (compress_block_call L bs L_range bs_range compress_bound X S i b [] true f bl m) as Hcb
              end.
              repeat (forward Hcb side). cbv zeta in Hcb. stream_simpl.
              destruct Hcb as (r & s' & Hcall & Hinv & Hai' & Hpcap & Hres).
              exists r, s'. do 2 eexists. split; [exact Hcall|]. split; [exact Hinv|].
              split;
                [destruct Hres as [->|(-> & Hres)];
                 [left; reflexivity|right; split; [reflexivity|exact Hres]]|].
              right. split; [reflexivity|]. exists b. split; [reflexivity|].
              split; [arith|right; repeat exec_step; reflexivity].
           ++ assert (Hb : take (len b) (memcpy_at ib ibo (take (len w) w))
                           = b).
              { rewrite Hlb. rewrite take_exact. apply take_memcpy_at. exact Hstaged. }
              clear Hd0. clearbody b.
              exec_head.
              match goal with
              | |- context [transform ?S ?i ?f] =>
                  pose proof (compress_block_call L bs L_range bs_range compress_bound X S i b [] true f bl m) as Hcb
              end.
              repeat (forward Hcb side). cbv zeta in Hcb. stream_simpl.
              destruct Hcb as (r & s' & Hcall & Hinv & Hai' & Hpcap & Hres).
              exists r, s'. do 2 eexists. split; [exact Hcall|]. split; [exact Hinv|].
              split;
                [destruct Hres as [->|(-> & Hres)];
                 [left; reflexivity|right; split; [reflexivity|exact Hres]]|].
              right. split; [reflexivity|]. exists b. split; [reflexivity|].
              split; [arith|right; repeat exec_step; reflexivity].
        -- (* Z_NO_FLUSH: more input goes to the input buffer *)
           destruct (Z.eq_dec (len w) 0) as [Hw|Hw].
           ++ exec_head. unfold finish. stream_simpl. repeat exec_step.
              exists Z_OK. exists_stream bl false. split.
              ** inv_auto. rewrite take_exact. exact Hdata.
              ** split; [left; reflexivity|left; split; reflexivity].
           ++ exec_head. unfold finish. stream_simpl. repeat exec_step.
              exists Z_OK. exists_stream bl false.
              assert (Hin : take (ibo + len w)
                                 (memcpy_at ib ibo (take (len w) w))
                            = take ibo ib ++ w).
              { rewrite take_exact. apply take_memcpy_at. exact Hstaged. }
              split.
              ** inv_auto.
                 --- rewrite len_drop by arith. arith.
                 --- right. repeat exec_step. rewrite Hin, len_app, Hstaged.
                     repeat split; auto; arith.
                 --- rewrite Hin, drop_exact.
                     rewrite (take_nonpos (len w - len w)) by lia.
                     rewrite <- app_assoc. exact Hdata.
              ** split; [left; reflexivity|left; split; reflexivity].
Qed.


(** A run of the compressor emits whole blocks, then at most one shorter
    block followed by the end of stream marker. *)
Lemma compress_run_blocks X calls :
  forall s rest fin bl eofd,
    compress_inv L bs X s rest fin bl eofd -> blocks_ok bs bl eofd ->
    exists r s' rest' n fin' bl' eofd',
      compress_run s rest fin calls = Some (r, s', rest', n)
      /\ compress_inv L bs X s' rest' fin' bl' eofd'
      /\ blocks_ok bs bl' eofd'
      /\ (r = Z_OK \/ r = Z_STREAM_END /\ concat bl' = X /\ pending s' = []).
Proof.
  induction calls as [|c calls IH]; intros s rest fin bl eofd Hinv Hok.
  - exists Z_OK, s, rest, O, fin, bl, eofd.
    split; [reflexivity|]. split; [exact Hinv|]. split; [exact Hok|left; reflexivity].
  - cbn [compress_run].
    destruct (present_compress_inv L bs X s rest fin bl eofd c Hinv)
      as (Hinv1 & _ & w & m & Hni & Hno & Hao & Hm).
    destruct (present s rest c) as [s1 rest1] eqn:Hp. cbn [fst snd] in *.
    set (fin1 := (fin || last c) && is_nil rest1) in *.
    set (flush := if fin1 then Z_FINISH else Z_NO_FLUSH).
    destruct (compress_call_blocks X s1 rest1 fin1 bl eofd
                flush w m Hinv1 Hni (ci_avail _ _ _ _ _ _ _ _ Hinv1) Hno Hao Hm eq_refl)
      as (r & s2 & bl2 & eofd2 & Hcall & Hinv2 & Hres & Hstep).
    assert (Hok2 : blocks_ok bs bl2 eofd2)
      by (apply (blocks_step_ok bs bl eofd); [lia|exact Hok|exact Hstep]).
    rewrite Hcall. cbn [bind].
    destruct Hres as [->|(-> & Hx & Hpe)].
    + change (Z_OK =? Z_OK) with true. cbv iota.
      destruct (IH s2 rest1 fin1 bl2 eofd2 Hinv2 Hok2)
        as (r' & s' & rest' & n & fin' & bl' & eofd' & Hrun & Hinv' & Hok' & Hres').
      rewrite Hrun. cbn [bind].
      exists r', s', rest', ((if productive s1 flush then 1 else 0) + n)%nat,
        fin', bl', eofd'.
      split; [reflexivity|]. split; [exact Hinv'|]. split; [exact Hok'|exact Hres'].
    + change (Z_STREAM_END =? Z_OK) with false. cbv iota.
      exists Z_STREAM_END, s2, rest1, (if productive s1 flush then 1 else 0)%nat,
        fin1, bl2, eofd2.
      split; [reflexivity|]. split; [exact Hinv2|]. split; [exact Hok2|].
      right. split; [reflexivity|]. split; assumption.
Qed.

End Blocks.

(** The compressed form of a source does not depend on how the caller cuts
    the input and the output: when a run of a fresh compressor ends with
    [Z_STREAM_END], the whole source was consumed and the caller has received
    the frames of the source cut in blocks of the block size, followed or not
    by the end of stream marker. *)
Theorem compress_wire_form {lz : FastLZ} level bs X calls sc rc n :
  0 <= level <= 9 -> 64 <= bs <= 2 ^ 20 ->
  (forall lvl b,
      lvl = 1 \/ lvl = 2 -> MIN_BLOCK_SIZE < len b <= bs ->
      len (fastlz_compress_level lvl b) <= len b + len b / EXPANSION_RATIO) ->
  compress_run (compress_stream level bs) X false calls = Some (Z_STREAM_END, sc, rc, n) ->
  rc = []
  /\ (out_log sc = frames level bs (blocks_of bs X)
      \/ out_log sc = frames level bs (blocks_of bs X) ++ eof_marker bs).
Proof.
  intros HL Hbs Hbound Hrun.
  destruct (compress_inv_init level bs X HL Hbs) as [Hinit _].
  assert (Hok : blocks_ok bs [] false) by (split; [exact I|intros _; constructor]).
  destruct (compress_run_blocks level bs HL Hbs Hbound X calls _ _ _ _ _ Hinit Hok)
    as (r & s' & rest' & n' & fin' & bl' & eofd' & Hrun' & Hinv & [Hc _] & Hres).
  rewrite Hrun in Hrun'. injection Hrun' as <- <- <- <-.
  destruct Hres as [E|(_ & Hx & Hpe)]; [discriminate E|].
  pose proof (ci_log _ _ _ _ _ _ _ _ Hinv) as Hlog.
  pose proof (ci_data _ _ _ _ _ _ _ _ Hinv) as Hdata.
  rewrite Hpe, app_nil_r in Hlog.
  rewrite <- Hx, blocks_of_concat by (lia || exact Hc).
  split.
  - rewrite Hx in Hdata. rewrite <- (app_nil_r X) in Hdata at 2.
    apply app_inv_head in Hdata.
    apply app_eq_nil in Hdata. destruct Hdata as [_ Hdata].
    apply app_eq_nil in Hdata. apply Hdata.
  - rewrite Hlog. destruct eofd'; [right; reflexivity|left; apply app_nil_r].
Qed.

Lemma compress_wire_form_witness :
  exists sc rc n,
    @compress_run stored_lz (compress_stream 1 64) hello false
                  [mkCall 3 (repeat x00 30) false; mkCall 5 (repeat x00 64) true;
                   mkCall 0 (repeat x00 64) true; mkCall 0 (repeat x00 64) true]
    = Some (Z_STREAM_END, sc, rc, n)
    /\ rc = []
    /\ (out_log sc = @frames stored_lz 1 64 (blocks_of 64 hello)
        \/ out_log sc = @frames stored_lz 1 64 (blocks_of 64 hello) ++ eof_marker 64).
Proof.
  eexists. eexists. eexists. split; [vm_compute; reflexivity|].
  eapply (@compress_wire_form stored_lz 1 64 hello
            [mkCall 3 (repeat x00 30) false; mkCall 5 (repeat x00 64) true;
             mkCall 0 (repeat x00 64) true; mkCall 0 (repeat x00 64) true]).
  - lia.
  - change (2 ^ 20) with 1048576. lia.
  - intros lvl b _ _. cbn [fastlz_compress_level stored_lz].
    pose proof (Z.div_pos (len b) EXPANSION_RATIO (len_nonneg b) eq_refl). lia.
  - vm_compute. reflexivity.
Defined.

(** ** The size of a compressed stream *)

Lemma len_frames_bound {lz : FastLZ} L bs bl :
  (forall lvl b,
      lvl = 1 \/ lvl = 2 -> MIN_BLOCK_SIZE < len b <= bs ->
      len (fastlz_compress_level lvl b) <= len b + len b / EXPANSION_RATIO) ->
  Forall (fun b => 0 < len b <= bs) bl ->
  len (frames L bs bl)
  <= len (concat bl) + len (concat bl) / EXPANSION_RATIO
     + HEADER_SIZE * Z.of_nat (length bl).
Proof.
  intros Hbound H. induction H as [|b bl Hb H IH].
  - change (frames L bs []) with (@nil byte). cbn [concat length].
    rewrite len_nil. reflexivity.
  - change (frames L bs (b :: bl)) with (frame L bs b ++ frames L bs bl).
    cbn [concat length]. rewrite !len_app, len_frame.
    pose proof (len_payload_bound L bs Hbound b (proj2 Hb)).
    pose proof (len_nonneg b). pose proof (len_nonneg (concat bl)).
    unfold EXPANSION_RATIO, HEADER_SIZE in *. lia.
Qed.

(** Blocks in canonical form: all but the last one have [n] bytes. *)
Lemma canonical_count n bl :
  0 < n -> canonical n bl -> Z.of_nat (length bl) * n < len (concat bl) + n.
Proof.
  intros Hn. induction bl as [|b bl IH]; intros Hc.
  - cbn [length concat]. rewrite len_nil. lia.
  - cbn [canonical] in Hc. destruct bl as [|b' bl].
    + cbn [concat length]. rewrite app_nil_r. lia.
    + destruct Hc as [Hb Hc]. specialize (IH Hc).
      change (concat (b :: b' :: bl)) with (b ++ concat (b' :: bl)).
      rewrite len_app. change (length (b :: b' :: bl)) with (S (length (b' :: bl))).
      lia.
Qed.

(** At every point of a run of a fresh compressor over a source of [len X]
    bytes the caller has received at most [len X + len X / 10] bytes, 20 bytes
    for each block of the source and 20 bytes for the end of stream marker. *)
Theorem compress_size_bound {lz : FastLZ} level bs X calls r sc rc n :
  0 <= level <= 9 -> 64 <= bs <= 2 ^ 20 ->
  (forall lvl b,
      lvl = 1 \/ lvl = 2 -> MIN_BLOCK_SIZE < len b <= bs ->
      len (fastlz_compress_level lvl b) <= len b + len b / EXPANSION_RATIO) ->
  compress_run (compress_stream level bs) X false calls = Some (r, sc, rc, n) ->
  len (out_log sc)
  <= len X + len X / EXPANSION_RATIO + HEADER_SIZE * (len X / bs + 2).
Proof.
  intros HL Hbs Hbound Hrun.
  destruct (compress_inv_init level bs X HL Hbs) as [Hinit _].
  assert (Hok : blocks_ok bs [] false) by (split; [exact I|intros _; constructor]).
  destruct (compress_run_blocks level bs HL Hbs Hbound X calls _ _ _ _ _ Hinit Hok)
    as (r' & s' & rest' & n' & fin' & bl' & eofd' & Hrun' & Hinv & [Hc _] & _).
  rewrite Hrun in Hrun'. injection Hrun' as <- <- <- <-.
  pose proof (f_equal len (ci_log _ _ _ _ _ _ _ _ Hinv)) as Hlog.
  pose proof (f_equal len (ci_data _ _ _ _ _ _ _ _ Hinv)) as Hdata.
  pose proof (len_frames_bound level bs bl' Hbound (ci_blocks _ _ _ _ _ _ _ _ Hinv))
    as Hfr.
  pose proof (canonical_count bs bl' ltac:(destruct Hbs; lia) Hc) as Hcount.
  rewrite !len_app in Hlog. repeat rewrite len_app in Hdata.
  assert (Hm : len (if eofd' then eof_marker bs else []) <= HEADER_SIZE)
    by (destruct eofd'; [rewrite len_eof_marker; lia|rewrite len_nil; unfold HEADER_SIZE; lia]).
  pose proof (len_nonneg (pending sc)). pose proof (len_nonneg (staged sc)).
  pose proof (len_nonneg (window sc)). pose proof (len_nonneg rc).
  pose proof (len_nonneg (concat bl')).
  assert (Hpos : 0 < bs) by (destruct Hbs; lia).
  assert (Hk : Z.of_nat (length bl') - 1 <= len X / bs).
  { apply Z.div_le_lower_bound; [exact Hpos|]. clear Hfr Hm Hlog. nia. }
  assert (Hd : len (concat bl') / EXPANSION_RATIO <= len X / EXPANSION_RATIO)
    by (apply Z.div_le_mono; [reflexivity|lia]).
  unfold HEADER_SIZE in *.
  set (q := len X / bs) in *. set (d := len X / EXPANSION_RATIO) in *.
  set (d' := len (concat bl') / EXPANSION_RATIO) in *.
  clearbody q d d'. lia.
Qed.

Lemma compress_size_bound_witness :
  exists r sc rc n,
    @compress_run stored_lz (compress_stream 1 64) hello false
                  [mkCall 3 (repeat x00 30) false; mkCall 5 (repeat x00 64) true;
                   mkCall 0 (repeat x00 64) true]
    = Some (r, sc, rc, n)
    /\ len (out_log sc)
       <= len hello + len hello / EXPANSION_RATIO + HEADER_SIZE * (len hello / 64 + 2).
Proof.
  eexists. eexists. eexists. eexists. split; [vm_compute; reflexivity|].
  eapply (@compress_size_bound stored_lz 1 64 hello
            [mkCall 3 (repeat x00 30) false; mkCall 5 (repeat x00 64) true;
             mkCall 0 (repeat x00 64) true]).
  - lia.
  - change (2 ^ 20) with 1048576. lia.
  - intros lvl b _ _. cbn [fastlz_compress_level stored_lz].
    pose proof (Z.div_pos (len b) EXPANSION_RATIO (len_nonneg b) eq_refl). lia.
  - vm_compute. reflexivity.
Defined.

(** ** The end of a compressed stream *)

Section StreamTail.
Context {lz : FastLZ}.
Variables (L bs : Z).
Hypothesis L_range : 0 <= L <= 9.
Hypothesis bs_range : 64 <= bs <= 2 ^ 20.
Hypothesis compress_bound :
  forall lvl b,
    lvl = 1 \/ lvl = 2 -> MIN_BLOCK_SIZE < len b <= bs ->
    len (fastlz_compress_level lvl b) <= len b + len b / EXPANSION_RATIO.
Hypothesis lossless :
  forall lvl b,
    lvl = 1 \/ lvl = 2 -> MIN_BLOCK_SIZE < len b <= bs ->
    fastlz_decompress (fastlz_compress_level lvl b) (len b) = b.

Ltac inv_simpl :=
  unfold staged, pending, window, productive in *; stream_simpl.

Ltac split_inv := constructor; inv_simpl.

Ltac inv_auto :=
  split_inv; repeat exec_step; rewrite ?app_nil_r; cbn [app]; auto; try arith.

Ltac side :=
  unfold window; stream_simpl; cbn [deref];
  first [ assumption | reflexivity | solve [auto] | solve [congruence]
        | solve [rewrite ?len_take, ?len_drop by arith; arith] ].

Ltac destruct_fields s :=
  destruct s as [ni ai ti no ao to ol mg [lv ih iho bsz bt ss ds ib ob ibo obo]];
  stream_simpl.

Ltac exists_stream pre post tail :=
  eexists; exists pre, post, tail; split; [reflexivity|].

(** One call of the decompressor, with what it does to the tail of the
    stream: it returns [Z_STREAM_END] only when it consumes the end of stream
    marker, which the last bytes of the wire must be. *)
Lemma decompress_call_tail X s rest pre post tail w m :
  decompress_inv L bs X s rest pre post tail ->
  next_in s = Some w ->
  next_out s = Some m -> avail_out s = len m -> len m < 2 ^ 32 ->
  exists r s' pre' post' tail',
    fastlzlibDecompress s = Some (r, s')
    /\ decompress_inv L bs X s' rest pre' post' tail'
    /\ (r = Z_OK /\ tail' = tail
        \/ r = Z_STREAM_END /\ tail = eof_marker bs /\ rest = [] /\ avail_in s' = 0
           /\ post' = [] /\ pending s' = []).
Proof.
  intros [HL Hbs Hwin Hhdr Hout Hlog Hdata Hblocks Htail Hat Hai] Hni Hno Hao Hm.
  destruct (ZFAST_HAS_BUFFERED_OUTPUT s) eqn:Hbuf.
  - (* drain *)
    destruct Hat as [Hstr Hiho Htodo|b post' Hpost Hstr Hiho Hbt Hdec Hoffs' Hibo Hin Hib Htodo].
    2:{ unfold ZFAST_HAS_BUFFERED_OUTPUT in Hbuf. apply Z.ltb_lt in Hbuf. lia. }
    destruct_fields s. inv_simpl. rewrite Hbuf in *.
    subst lv bsz ni no ai ao ss.
    cbn [deref] in *.
    apply Z.ltb_lt in Hbuf. destruct Hout as (Hoffs & Hdec & Hpend).
    rewrite len_take, len_drop in Hpend by arith.
    exists Z_OK.
    set (size := Z.min (ds - obo) (len m)).
    assert (Hsize : size = Z.min (ds - obo) (len m)) by reflexivity.
    clearbody size.
    exec_head.
    replace (if len m <? ds - obo then len m else ds - obo)
      with size by (rewrite Hsize; zbool).
    assert (Hp1 : len (take size (drop obo ob)) = size)
      by (rewrite len_take, len_drop by arith; arith).
    destruct (Z.ltb_spec 0 size) as [Hpos|Hzero].
    + rewrite (pending_split ob obo ds size) in Hlog by arith.
      repeat exec_step. exists_stream pre post tail.
      rewrite (take_memcpy_at_0' size) by exact Hp1. split.
      * split_inv; auto; try arith.
        -- destruct (Z.ltb_spec (obo + size) ds);
             rewrite ?len_take, ?len_drop by arith; arith.
        -- rewrite <- app_assoc. exact Hlog.
        -- apply at_header; stream_simpl; auto.
      * left. split; reflexivity.
    + repeat exec_step. exists_stream pre post tail. split.
      * split_inv; auto; repeat exec_step; auto; try arith.
        -- rewrite len_take, len_drop by arith. arith.
        -- apply at_header; stream_simpl; auto.
      * left. split; reflexivity.
  - (* no buffered output *)
    assert (Hpending : pending s = []) by (unfold pending; rewrite Hbuf; reflexivity).
    rewrite Hpending, app_nil_r in Hlog.
    destruct Hat as [Hstr Hiho Htodo|b post' Hpost Hstr Hiho Hbt Hdec Hoffs' Hibo Hin Hib Htodo].
    + (* in a header *)
      destruct_fields s. inv_simpl.
      subst lv bsz ni no ai ao ss.
      cbn [deref] in *. apply Z.ltb_ge in Hbuf. destruct Hout as (Hoffs & Hdec & _).
      rewrite take_exact in Htodo.
      assert (Hth : len (take iho ih) = iho)
        by (rewrite len_take by arith; arith).
      destruct (Z.lt_ge_cases (iho + len w) HEADER_SIZE) as [Hpart|Hfull].
      * (* the header is not complete *)
        exec_head.
        rewrite decompress_header_partial by arith. cbn [bind].
        exists Z_OK. exists_stream pre post tail.
        split.
        -- inv_auto.
           ++ rewrite len_memcpy_at by arith. assumption.
           ++ apply at_header; stream_simpl; [reflexivity|arith|].
              rewrite (take_nonpos 0) by lia. cbn [app].
              rewrite take_memcpy_at by exact Hth. rewrite <- app_assoc. exact Htodo.
        -- left. split; reflexivity.
      * (* the header is complete *)
        destruct post as [|b post'].
        -- (* no block is left *)
           unfold frames in Htodo. cbn [map concat app] in Htodo.
           destruct Htail as [Ht|Ht]; subst tail.
           2:{ apply (f_equal len) in Htodo. rewrite !len_app, Hth, len_nil in Htodo.
               arith. }
           (* the end of stream marker *)
           rewrite app_assoc in Htodo.
           rewrite <- (app_nil_r (eof_marker bs)) in Htodo.
           assert (Hlh : len (eof_marker bs) = HEADER_SIZE) by reflexivity.
           destruct (app_split_prefix _ _ _ _ Htodo) as [Hsplit Hrest];
             [rewrite len_app, Hth, Hlh; arith|].
           rewrite Hlh in *.
           set (w' := drop HEADER_SIZE (take iho ih ++ w)) in *.
           assert (Hw' : w' = [] /\ rest = []) by (apply app_eq_nil; exact Hrest).
           destruct Hw' as [Hw' Hr]. rewrite Hw' in *. clear w' Hw'. subst rest.
           destruct (decompress_header_complete
                       w ti (Some m) (len m) to ol mg ZFAST_LEVEL_DECOMPRESS ih iho bs bt 0
                       ds ib ob ibo obo (eof_marker bs) [] BLOCK_TYPE_COMPRESSED 0 0 0
                       Hai Hiho Hhdr Hsplit Hlh (read_eof_marker bs))
             as (ih' & Hih' & Hlw' & Hhd).
           exec_head. rewrite Hhd. cbn [bind]. clear Hhd. stream_simpl.
           repeat exec_step.
           exists Z_STREAM_END. exists_stream pre (@nil (list byte)) (@nil byte).
           cbn [concat] in Hdata. rewrite app_nil_r in Hdata.
           split.
           ++ inv_auto. apply at_header; stream_simpl; [reflexivity|arith|].
              reflexivity.
           ++ right. inv_simpl. repeat split; auto.
        -- (* the header of the block [b] *)
           inversion Hblocks as [|b0 p0 Hb Hpost]. subst b0 p0.
           pose proof (len_payload_bound L bs compress_bound b (proj2 Hb)) as Hpl.
           rewrite frames_cons in Htodo. unfold frame in Htodo.
           set (pl := block_payload L b) in *.
           set (hdr := fastlz_write_header (block_kind b) bs (len pl) (len b)) in *.
           assert (Hlh : len hdr = HEADER_SIZE) by apply len_write_header.
           rewrite <- !app_assoc in Htodo. rewrite (app_assoc (take iho ih)) in Htodo.
           destruct (app_split_prefix _ _ _ _ Htodo) as [Hsplit Hrest];
             [rewrite len_app, Hth, Hlh; arith|].
           rewrite Hlh in *.
           set (w' := drop HEADER_SIZE (take iho ih ++ w)) in *.
           assert (Hread : forall r, fastlz_read_header (hdr ++ r)
                                     = (block_kind b, len b, len pl, len b)).
           { intros r. unfold hdr. rewrite read_write_header.
             rewrite !uInt_small by arith.
             destruct (block_kind_cases b) as [E|E]; rewrite E; reflexivity. }
           destruct (decompress_header_complete
                       w ti (Some m) (len m) to ol mg ZFAST_LEVEL_DECOMPRESS ih iho bs bt 0
                       ds ib ob ibo obo hdr w' (block_kind b) (len b) (len pl) (len b)
                       Hai Hiho Hhdr Hsplit Hlh Hread)
             as (ih' & Hih' & Hlw' & Hhd).
           clearbody w' hdr.
           exec_head. rewrite Hhd. cbn [bind]. clear Hhd. stream_simpl.
           destruct (Z.le_gt_cases (len pl) (len w')) as [Hdirect|Hbuffer].
           ++ (* the payload is in the window *)
              destruct (app_split_prefix w' rest pl _ Hrest Hdirect) as [Hw's Hrest'].
              assert (Hin' : take (len pl) w' = pl)
                by (rewrite Hw's; apply take_app_exact; reflexivity).
              assert (Hd : take (len w' - len pl) (drop (len pl) w') ++ rest
                           = frames L bs post' ++ tail)
                by (rewrite take_all by (rewrite len_drop by arith; arith); exact Hrest').
              destruct (block_kind_cases b) as [Hk|Hk]; rewrite Hk.
              all: repeat first [exec_step | rewrite andb_false_r].
              all: match goal with
                   | |- context [transform ?S ?i _] =>
                       pose proof (decompress_block_call L bs bs_range lossless X S i b rest pre post' tail m)
                         as Hcb
                   end.
              all: repeat (forward Hcb side).
              all: destruct Hcb as (s' & Hcall & Hinv & Hai' & Hpcap).
              all: exists Z_OK, s', (pre ++ [b]), post', tail.
              all: split; [exact Hcall|]; split; [exact Hinv|].
              all: left; split; reflexivity.
           ++ (* the payload goes to the input buffer *)
              destruct (app_split_prefix pl _ w' rest (eq_sym Hrest)) as [Hpls Hrest'];
                [arith|].
              assert (Hin' : take (len w') pl = w')
                by (rewrite Hpls at 1; apply take_app_exact; reflexivity).
              destruct (block_kind_cases b) as [Hk|Hk]; rewrite Hk.
              all: destruct (Z.eq_dec (len w') 0) as [Hz|Hnz].
              all: repeat first [exec_step | rewrite andb_false_r].
              all: unfold finish; stream_simpl; repeat exec_step.
              all: exists Z_OK; exists_stream pre (b :: post') tail.
              all: (split; [|left; split; reflexivity]).
              all: inv_auto.
              all: try (rewrite len_drop by arith; arith).
              all: eapply at_payload;
                [reflexivity|reflexivity|reflexivity|stream_simpl; congruence
                |reflexivity|reflexivity|stream_simpl; arith|stream_simpl|stream_simpl
                |inv_simpl].
              all: rewrite ?take_exact, ?drop_exact.
              all: rewrite ?(take_nonpos 0), ?(take_nonpos (len w' - len w')) by lia.
              all: rewrite ?(take_memcpy_at_0' (len w')) by reflexivity.
              all: cbn [app]; auto.
              all: try (symmetry; exact Hin').
              all: try arith.
              all: try (pose proof (len_memcpy_at_ge ib 0 w'
                                      (f_equal len (take_nonpos 0 ib (Z.le_refl 0))));
                        arith).
              all: try (rewrite Hz; rewrite drop_nonpos by lia; rewrite Hz in Hrest';
                        rewrite drop_nonpos in Hrest' by lia; symmetry; exact Hrest').
    + (* in the payload of the block [b] *)
      subst post.
      inversion Hblocks as [|b0 p0 Hb Hpost]. subst b0 p0.
      pose proof (len_payload_bound L bs compress_bound b (proj2 Hb)) as Hpl.
      destruct_fields s. inv_simpl.
      subst lv bsz ni no ai ao ss iho bt ds.
      set (pl := block_payload L b) in *.
      cbn [deref] in *. apply Z.ltb_ge in Hbuf. destruct Hout as (Hoffs & Hdec & _).
      rewrite take_exact in Htodo.
      assert (Hti : len (take ibo ib) = ibo) by (rewrite len_take by arith; arith).
      assert (Hld : len (drop ibo pl) = len pl - ibo) by (rewrite len_drop by arith; arith).
      destruct (Z.le_gt_cases (len pl - ibo) (len w)) as [Hfull|Hpart].
      * (* the window completes the payload *)
        destruct (app_split_prefix w rest (drop ibo pl) _ Htodo) as [Hws Hrest'];
          [arith|].
        rewrite Hld in *.
        assert (Hsrc : take (len pl - ibo) w = drop ibo pl)
          by (rewrite Hws at 1; apply take_app_exact; exact Hld).
        assert (Hin' : take (len pl) (memcpy_at ib ibo (take (len pl - ibo) w)) = pl).
        { replace (len pl) with (ibo + len (take (len pl - ibo) w)) at 1
            by (rewrite Hsrc, Hld; lia).
          rewrite take_memcpy_at by exact Hti.
          rewrite Hin, Hsrc. apply take_drop. }
        assert (Hd : take (len w - (len pl - ibo)) (drop (len pl - ibo) w) ++ rest
                     = frames L bs post' ++ tail)
          by (rewrite take_all by (rewrite len_drop by arith; arith); exact Hrest').
        exec_head.
        match goal with
        | |- context [transform ?S ?i _] =>
            pose proof (decompress_block_call L bs bs_range lossless X S i b rest pre post' tail m) as Hcb
        end.
        repeat (forward Hcb side).
        destruct Hcb as (s' & Hcall & Hinv & Hai' & Hpcap).
        exists Z_OK, s', (pre ++ [b]), post', tail.
        split; [exact Hcall|]. split; [exact Hinv|].
        left. split; reflexivity.
      * (* the payload is not complete *)
        destruct (app_split_prefix (drop ibo pl) _ w rest (eq_sym Htodo)) as [Hpls Hrest'];
          [arith|].
        assert (Hsrc : take (len w) (drop ibo pl) = w)
          by (rewrite Hpls at 1; apply take_app_exact; reflexivity).
        assert (Hin' : take (ibo + len w) (memcpy_at ib ibo w) = take (ibo + len w) pl).
        { rewrite take_memcpy_at by exact Hti.
          rewrite take_add by arith. rewrite Hin, Hsrc. reflexivity. }
        rewrite drop_drop in Hrest' by arith.
        destruct (Z.eq_dec (len w) 0) as [Hz|Hnz].
        -- exec_head. unfold finish. stream_simpl. repeat exec_step.
           exists Z_OK. exists_stream pre (b :: post') tail.
           split; [|left; split; reflexivity].
           inv_auto.
           eapply at_payload; try reflexivity; stream_simpl; auto; try arith.
           inv_simpl. rewrite take_exact. exact Htodo.
        -- exec_head. unfold finish. stream_simpl. repeat exec_step.
           exists Z_OK. exists_stream pre (b :: post') tail.
           split; [|left; split; reflexivity].
           inv_auto.
           ++ rewrite len_drop by arith. arith.
           ++ eapply at_payload; try reflexivity; stream_simpl; auto; try arith.
              ** rewrite take_exact. exact Hin'.
              ** rewrite take_exact.
                 pose proof (len_memcpy_at_ge ib ibo w Hti). arith.
              ** inv_simpl. rewrite drop_exact, (take_nonpos (len w - len w)) by lia.
                 cbn [app]. symmetry. exact Hrest'.
Qed.

(** A run of the decompressor ends with [Z_STREAM_END] only at the end of
    stream marker. *)
Lemma decompress_run_tail X calls :
  forall s rest pre post tail,
    decompress_inv L bs X s rest pre post tail ->
    exists r s' rest' n pre' post' tail',
      decompress_run s rest calls = Some (r, s', rest', n)
      /\ decompress_inv L bs X s' rest' pre' post' tail'
      /\ (r = Z_OK /\ tail' = tail
          \/ r = Z_STREAM_END /\ tail = eof_marker bs /\ rest' = [] /\ avail_in s' = 0
             /\ post' = [] /\ pending s' = []).
Proof.
  induction calls as [|c calls IH]; intros s rest pre post tail Hinv.
  - exists Z_OK, s, rest, O, pre, post, tail. split; [reflexivity|].
    split; [exact Hinv|]. left. split; reflexivity.
  - cbn [decompress_run].
    destruct (present_decompress_inv L bs X s rest pre post tail c Hinv)
      as (Hinv1 & _ & w & m & Hni & Hno & Hao & Hm).
    destruct (present s rest c) as [s1 rest1] eqn:Hp. cbn [fst snd] in *.
    destruct (decompress_call_tail X s1 rest1 pre post tail w m Hinv1 Hni Hno Hao Hm)
      as (r & s2 & pre2 & post2 & tail2 & Hcall & Hinv2 & Hres).
    rewrite Hcall. cbn [bind].
    destruct Hres as [(-> & ->)|(-> & Hend)].
    + change (Z_OK =? Z_OK) with true. cbv iota.
      destruct (IH s2 rest1 pre2 post2 tail Hinv2)
        as (r' & s' & rest' & n & pre' & post' & tail' & Hrun & Hinv' & Hres').
      rewrite Hrun. cbn [bind].
      exists r', s', rest', ((if productive s1 Z_NO_FLUSH then 1 else 0) + n)%nat,
        pre', post', tail'.
      split; [reflexivity|]. split; [exact Hinv'|exact Hres'].
    + change (Z_STREAM_END =? Z_OK) with false. cbv iota.
      exists Z_STREAM_END, s2, rest1, (if productive s1 Z_NO_FLUSH then 1 else 0)%nat,
        pre2, post2, tail2.
      split; [reflexivity|]. split; [exact Hinv2|]. right. split; [reflexivity|exact Hend].
Qed.

End StreamTail.

(** The decompressor reports the end of a stream only at the end of stream
    marker: over the frames of the blocks [bl], followed or not by the
    marker, a run returns [Z_OK] or [Z_STREAM_END]; it returns [Z_STREAM_END]
    only when the marker is there, and then every byte of the stream was
    consumed and the caller has received the whole source.  Without the
    marker every call returns [Z_OK]. *)
Theorem decompress_stream_end {lz : FastLZ} L bs bl tail dcalls :
  0 <= L <= 9 -> 64 <= bs <= 2 ^ 20 ->
  (forall lvl b,
      lvl = 1 \/ lvl = 2 -> MIN_BLOCK_SIZE < len b <= bs ->
      len (fastlz_compress_level lvl b) <= len b + len b / EXPANSION_RATIO) ->
  (forall lvl b,
      lvl = 1 \/ lvl = 2 -> MIN_BLOCK_SIZE < len b <= bs ->
      fastlz_decompress (fastlz_compress_level lvl b) (len b) = b) ->
  Forall (fun b => 0 < len b <= bs) bl ->
  tail = eof_marker bs \/ tail = [] ->
  exists r sd rd n,
    decompress_run (decompress_stream bs) (frames L bs bl ++ tail) dcalls
    = Some (r, sd, rd, n)
    /\ (r = Z_OK \/ r = Z_STREAM_END)
    /\ (r = Z_STREAM_END ->
        tail = eof_marker bs /\ rd = [] /\ avail_in sd = 0 /\ out_log sd = concat bl).
Proof.
  intros HL Hbs Hbound Hloss Hbl Htail.
  destruct (decompress_inv_init L bs (concat bl) bl tail Hbs eq_refl Hbl Htail)
    as [Hinit _].
  destruct (decompress_run_tail L bs Hbs Hbound Hloss (concat bl) dcalls _ _ _ _ _ Hinit)
    as (r & sd & rd & n & pre' & post' & tail' & Hrun & Hinv & Hres).
  exists r, sd, rd, n. split; [exact Hrun|]. split.
  - destruct Hres as [(-> & _)|(-> & _)]; auto.
  - intros ->. destruct Hres as [(E & _)|(_ & Ht & Hr & Ha & Hp & Hq)]; [discriminate E|].
    pose proof (di_log _ _ _ _ _ _ _ _ Hinv) as Hlog.
    pose proof (di_data _ _ _ _ _ _ _ _ Hinv) as Hdata.
    rewrite Hp in Hdata. rewrite Hq in Hlog.
    cbn [concat] in Hdata. rewrite app_nil_r in Hdata, Hlog.
    repeat split; try assumption. congruence.
Qed.

Lemma decompress_stream_end_witness :
  exists r sd rd n,
    @decompress_run stored_lz (decompress_stream 64)
                    (@frames stored_lz 1 64 [hello] ++ eof_marker 64)
                    [mkCall 45 (repeat x00 64) false; mkCall 0 (repeat x00 64) false]
    = Some (r, sd, rd, n)
    /\ (r = Z_OK \/ r = Z_STREAM_END)
    /\ (r = Z_STREAM_END ->
        eof_marker 64 = eof_marker 64 /\ rd = [] /\ avail_in sd = 0
        /\ out_log sd = concat [hello]).
Proof.
  apply (@decompress_stream_end stored_lz 1 64 [hello] (eof_marker 64)
           [mkCall 45 (repeat x00 64) false; mkCall 0 (repeat x00 64) false]).
  - lia.
  - change (2 ^ 20) with 1048576. lia.
  - intros lvl b _ _. cbn [fastlz_compress_level stored_lz].
    pose proof (Z.div_pos (len b) EXPANSION_RATIO (len_nonneg b) eq_refl). lia.
  - intros lvl b _ _. cbn [fastlz_compress_level fastlz_decompress stored_lz].
    rewrite Z.leb_refl. reflexivity.
  - constructor; [|constructor]. vm_compute. split; [reflexivity|discriminate].
  - left. reflexivity.
Defined.

(** ** Truncated streams *)

(** The caller that has only the first [j] bytes of the wire feeds at each
    call what a caller with the whole wire would feed, as far as its bytes
    go. *)
Lemma present_truncated s rest (j : nat) c :
  exists c' (j' : nat),
    fst (present s (firstn j rest) c) = fst (present s rest c')
    /\ snd (present s (firstn j rest) c) = firstn j' (snd (present s rest c')).
Proof.
  exists (mkCall (Z.min (feed c) (Z.of_nat j)) (room c) (last c)).
  unfold present. cbn [fst snd feed room].
  set (cap := 2 ^ 32 - 1 - len (window s)).
  set (n := Z.min (feed c) cap).
  replace (Z.min (Z.min (feed c) (Z.of_nat j)) cap) with (Z.min n (Z.of_nat j))
    by (unfold n; lia).
  exists (j - Z.to_nat n)%nat.
  unfold take, drop.
  rewrite firstn_firstn, skipn_firstn_comm.
  destruct (Z.le_gt_cases n (Z.of_nat j)) as [Hle|Hgt].
  - rewrite (Z.min_l n) by exact Hle.
    replace (Init.Nat.min (Z.to_nat n) j) with (Z.to_nat n) by lia.
    split; reflexivity.
  - rewrite (Z.min_r n) by lia. rewrite Nat2Z.id.
    replace (Init.Nat.min (Z.to_nat n) j) with j by lia.
    replace (j - Z.to_nat n)%nat with O by lia.
    split; reflexivity.
Qed.

(** A run over the first [j] bytes of the wire is a run over the whole wire
    under calls that feed no more than these bytes. *)
Lemma decompress_run_truncated {lz : FastLZ} calls :
  forall s rest (j : nat),
  exists calls',
    match decompress_run s (firstn j rest) calls with
    | Some (r, s', rest', n) =>
        exists rest'', decompress_run s rest calls' = Some (r, s', rest'', n)
    | None => decompress_run s rest calls' = None
    end.
Proof.
  induction calls as [|c calls IH]; intros s rest j.
  - exists []. cbn [decompress_run]. exists rest. reflexivity.
  - destruct (present_truncated s rest j c) as (c' & j' & Hs & Hr).
    cbn [decompress_run].
    destruct (present s (firstn j rest) c) as [s1 rest1].
    destruct (present s rest c') as [s1' rest1'] eqn:Hp.
    cbn [fst snd] in Hs, Hr. subst s1' rest1.
    destruct (fastlzlibDecompress s1) as [[r s2]|] eqn:Hcall; cbn [bind].
    + destruct (r =? Z_OK) eqn:Hok.
      * destruct (IH s2 rest1' j') as (calls' & Hrun).
        exists (c' :: calls'). cbn [decompress_run]. rewrite Hp, Hcall. cbn [bind].
        rewrite Hok.
        destruct (decompress_run s2 (firstn j' rest1') calls)
          as [[[[r' s'] rest'] n]|] eqn:Htr.
        -- cbn [bind]. destruct Hrun as (rest'' & Hrun). rewrite Hrun. cbn [bind].
           exists rest''. reflexivity.
        -- cbn [bind]. rewrite Hrun. reflexivity.
      * exists [c']. cbn [decompress_run]. rewrite Hp, Hcall. cbn [bind]. rewrite Hok.
        exists rest1'. reflexivity.
    + exists [c']. cbn [decompress_run]. rewrite Hp, Hcall. reflexivity.
Qed.

(** A decompressor that is given only the beginning [W'] of a compressed
    stream, under any calls, reports no error and delivers no wrong byte:
    every call returns [Z_OK] or [Z_STREAM_END], and what the caller has
    received is the beginning of the source. *)
Theorem decompress_truncated {lz : FastLZ} L bs bl tail W' dcalls :
  0 <= L <= 9 -> 64 <= bs <= 2 ^ 20 ->
  (forall lvl b,
      lvl = 1 \/ lvl = 2 -> MIN_BLOCK_SIZE < len b <= bs ->
      len (fastlz_compress_level lvl b) <= len b + len b / EXPANSION_RATIO) ->
  (forall lvl b,
      lvl = 1 \/ lvl = 2 -> MIN_BLOCK_SIZE < len b <= bs ->
      fastlz_decompress (fastlz_compress_level lvl b) (len b) = b) ->
  Forall (fun b => 0 < len b <= bs) bl ->
  tail = eof_marker bs \/ tail = [] ->
  is_prefix W' (frames L bs bl ++ tail) ->
  exists r sd rd n,
    decompress_run (decompress_stream bs) W' dcalls = Some (r, sd, rd, n)
    /\ (r = Z_OK \/ r = Z_STREAM_END)
    /\ is_prefix (out_log sd) (concat bl).
Proof.
  intros HL Hbs Hbound Hloss Hbl Htail [q Hq].
  assert (HW : W' = firstn (length W') (frames L bs bl ++ tail))
    by (rewrite Hq, firstn_app, Nat.sub_diag, firstn_all, firstn_O, app_nil_r;
        reflexivity).
  destruct (decompress_run_truncated dcalls (decompress_stream bs)
              (frames L bs bl ++ tail) (length W')) as (calls' & Hsim).
  rewrite <- HW in Hsim.
  destruct (decompress_inv_init L bs (concat bl) bl tail Hbs eq_refl Hbl Htail)
    as [Hinit _].
  destruct (decompress_run_inv L bs Hbs Hbound Hloss (concat bl) calls' _ _ _ _ _ Hinit)
    as (r & sd & rd & n & pre' & post' & tail' & Hrun & Hinv & Hres).
  destruct (decompress_run (decompress_stream bs) W' dcalls)
    as [[[[r2 s2] rest2] n2]|].
  - destruct Hsim as (rest'' & Hsim). rewrite Hrun in Hsim.
    injection Hsim as <- <- <- <-.
    exists r, sd, rest2, n. split; [reflexivity|]. split.
    + destruct Hres as [(-> & _)|(-> & _)]; auto.
    + exists (pending sd ++ concat post').
      rewrite app_assoc, (di_log _ _ _ _ _ _ _ _ Hinv). symmetry.
      exact (di_data _ _ _ _ _ _ _ _ Hinv).
  - rewrite Hrun in Hsim. discriminate Hsim.
Qed.

Lemma decompress_truncated_witness :
  exists r sd rd n,
    @decompress_run stored_lz (decompress_stream 64)
                    (take 23 (@frames stored_lz 1 64 [hello] ++ eof_marker 64))
                    [mkCall 45 (repeat x00 64) false; mkCall 10 (repeat x00 64) false]
    = Some (r, sd, rd, n)
    /\ (r = Z_OK \/ r = Z_STREAM_END)
    /\ is_prefix (out_log sd) (concat [hello]).
Proof.
  apply (@decompress_truncated stored_lz 1 64 [hello] (eof_marker 64)
           (take 23 (@frames stored_lz 1 64 [hello] ++ eof_marker 64))
           [mkCall 45 (repeat x00 64) false; mkCall 10 (repeat x00 64) false]).
  - lia.
  - change (2 ^ 20) with 1048576. lia.
  - intros lvl b _ _. cbn [fastlz_compress_level stored_lz].
    pose proof (Z.div_pos (len b) EXPANSION_RATIO (len_nonneg b) eq_refl). lia.
  - intros lvl b _ _. cbn [fastlz_compress_level fastlz_decompress stored_lz].
    rewrite Z.leb_refl. reflexivity.
  - constructor; [|constructor]. vm_compute. split; [reflexivity|discriminate].
  - left. reflexivity.
  - exists (drop 23 (@frames stored_lz 1 64 [hello] ++ eof_marker 64)).
    symmetry. apply take_drop.
Defined.
